(* ===== verification/_CoqProject ===== *)
-Q . S2P
Prelude.v
Decimal.v
Schema.v
Session.v
Fixtures.v
Cart.v
Pricing.v
Checkout.v
Orders.v
Listing.v
Catalog.v
ProductPage.v
Wishlist.v
Reviews.v
Auth.v
Profile.v
Upload.v
Validation.v
Seed.v
Workflow.v
