(* ===== verification/Prelude.v ===== *)
(** * Verification of the FastAPI online store backend (sandy-andryanto/fast-api-online-store)

    ** The program

    [src/backend/main.py] mounts five FastAPI routers on one MySQL store
    accessed through SQLAlchemy ([src/backend/src/model.py]).  Every
    endpoint is a handler [def view_...(..., db: Session = Depends(get_db))]
    that queries and writes the store through its session and commits.
    This development models the handlers of [view_order.py] (cart,
    checkout, order pages, wishlist, reviews), of [view_auth.py] (sign-up,
    confirmation, sign-in, password reset), of [view_profile.py]
    (activity log, profile update, password change), of [view_shop.py]
    (shop filters and list) and of [view_home.py] (home component and
    page, newsletter, ping) over a shallow embedding of the store, and
    proves what they do, on every branch.  At start-up [main.py] creates
    the tables and runs [Seed().run()] ([seed.py]), which fills an empty
    store with fixtures in eight sessions; that is modelled too.

    ** Files, in dependency order

    - [Prelude] (this file): the notation scope [store_scope], the hint
      databases [store] and [store_rw], and the SQL building blocks shared
      by all components: [select_first]/[select_last] ([.first()] in
      primary-key order, or with [order_by(desc(...))]), [sum_where] and
      [sql_sum] ([func.sum], NULL on no row), [update_where]
      ([query(...).update(...)], rejected when a matched row cannot be
      written) and [count_where] ([.count()]).
    - [Decimal]: Python's [decimal.Decimal] as exact [Q]; [Numeric(18,4)]
      columns as [Z] ten-thousandths with MySQL's half-away rounding on
      write ([units_of_dec]); [parse_decimal], CPython's [Decimal(str)]
      grammar, for the settings table; and the default 28-digit context
      ([dec_round], ROUND_HALF_EVEN; [dec_div], [dec_mul], [dec_add]) for
      the review and catalog pages, with the relative error of
      [dec_round] and the termination of the digit count [ndigits].
    - [Schema]: one [Record] per mapped class of [model.py] ([user],
      [product], [inventory], [payment], [setting], [order],
      [order_detail], [order_billing], [activity], [authentication],
      [review], [brand], [category], [newsletter], [colour],
      [product_size], [image]), the store [db] (a [gmap Z _] per table, [gset]s for the
      association tables, AUTO_INCREMENT counters), the row writes
      ([insert_order], [insert_user], ...), and [db_ok], what InnoDB in
      strict mode accepts at commit: column ranges, NOT NULL columns,
      foreign keys and the UNIQUE e-mail and phone of users under the
      default case-insensitive, trailing-space-insensitive collation
      ([collate_eq]).  [db_wf] is its [Prop] form.
    - [Session]: the request's session as a state monad [M] over a
      [session] (committed state, working state), with [query], [modify],
      [add_row], [exec_update], [commit] (checks [db_ok], else
      [IntegrityError] and rollback), [raise] (rollback) and [run] (one
      request), [map_each] ([list(map(f, rows))]) and [for_each] (a
      [for] loop of statements).  [hstep] evaluates a handler
      symbolically; [keeps_ok] and [preserves] are the two invariant
      disciplines with their compositional lemmas and tactics; [triple] is
      a Hoare triple of total correctness (every precondition state
      returns), with rules for each primitive, for loops with an invariant
      and for the commit at the end of a request.  [get_db] ([src/database.py]) is
      not among the sources: its behaviour is taken from SQLAlchemy's.
    - [Fixtures]: a concrete store (two users, two published products of
      one brand in two categories, settings, wishlists, a confirmed
      sign-up row) for the witnesses.
    - [Cart] ([view_order_create_cart]), [Pricing] (settings lookup, quote,
      [view_order_initial]), [Checkout] ([view_order_checkout_submit] and
      its pure twin [checkout_effect]), [Orders] ([view_order_detail],
      [view_order_cancel]), [Listing] ([view_order_list], MySQL LIKE),
      [Wishlist] ([view_order_wishlist], [view_order_session]), [Reviews]
      ([view_order_review], [view_order_create_review]): one [Module] per
      component, each handler a definition of [M] following the source
      line by line.
    - [Catalog]: [view_shop_filter], [view_shop_list], [view_home_component],
      [view_home_page], [view_newsletter] and [ping], with the product
      cards ([price_old], the rating index), the category join of the
      shop list and the legacy [Query]'s one-entity-per-key iteration
      ([dedup_rows]).
    - [ProductPage]: [view_order_list_cart], the product page of
      [view_order.py], with the two readings of its [id] ([py_int] and
      MySQL's [mysql_num]) and the colours query's cross join with sizes.
    - [Auth]: the five handlers of [view_auth.py], the request bodies of
      [schema.py], the policy of the [password_strength] package, the name
      split, and the bcrypt hasher as the type class [PasswordHasher]
      (handlers are proved for every instance).
    - [Profile]: [view_profile_me], [view_profile_activity],
      [view_profile_update] and [view_profile_password].
    - [Upload]: [view_profile_upload], with the server's files as a
      [gmap] from path to contents beside the store: the file is written
      and the old image unlinked outside the database transaction, then
      the [image] column is updated and committed.
    - [Validation]: the pydantic models of [schema.py] as lists of field
      checks ([min_length]; [EmailStr] is a parameter) and [endpoint],
      FastAPI's validation of a body before its handler runs (422 with the
      failing fields); [api_checkout], [api_password], ... are the
      endpoints with their bodies.
    - [Seed]: [Seed.run] ([seed_run]) and its eight methods
      ([seed_user], [seed_setting], [seed_category], [seed_brand],
      [seed_size], [seed_colour], [seed_payment], [seed_product]), each a
      [when_empty] guard on a count, a loop of [add_new] and one commit;
      [startup] is [main.py]'s [create_all] on an empty database followed
      by [Seed.run].  The Faker, bcrypt and [random] draws are the records
      [user_draw], [product_draw] and [seed_draws].
    - [Workflow]: the endpoints as a [request] type, [serve] (one request
      on the committed store) and the step relation [step]; invariants of
      all reachable stores by induction on [rtc step], each handler shown
      to keep them with the [preserves] discipline.

    ** What is proved

    Each claim is stated with the values the handler returns and writes
    spelled out (the order's columns, the quote's formula, the lists of
    a page as the rows that satisfy the query's conditions), so that a
    change to the handler breaks it.

    - Cart (C1-C3, C5): the first add to cart creates a draft whose
      totals count the first line twice; merging into a line and inserting
      one, with the order's [total_item], [subtotal] and [total_paid]
      written out; a missing inventory still creates a priced draft.
    - ProductPage (C4): the product page shows the product; its images,
      the active sizes and the inventories of MySQL's reading of the id
      (which differs from [int(id)] when it has an underscore) as exactly
      the rows the filters select; at most three distinct published best
      sellers other than the product, none left out selling more than
      one shown; every colour, active or not, when some size is active.
    - Checkout (C6-C10, C14, C16): the handler refines the pure
      [checkout_effect] (all or nothing); the placed order with its
      payment, status 1, [SUM(qty)] and the quote's formula in its
      columns; stock and wishlist effects; rollback on insufficient stock;
      the rounding gap of [total_paid]; no double checkout.  Missing
      drafts, unknown payments and zero subtotals are lemmas of [Checkout]
      and [Orders].
    - Seed (C12, C13, C22): from a store without users and products, with
      distinct Faker users and in-range draws, [Seed.run] commits every
      method, the store is accepted by the database and each seeded user
      signs in with [Qwerty123!]; two colliding Faker users abort the
      start-up with nothing written; after a first start-up a second one
      changes nothing.  The proofs are triples over the loops, with the
      invariants [seeded_users], [seed_frame] and [seed_keeps].
    - Pricing (C17): the order page shows [discount = subtotal * d / 100],
      [taxes = subtotal * t / 100] and [total_paid = subtotal + taxes +
      shipment - discount] from the three settings.
    - Orders (C19, C29), Listing (C23), Wishlist (C27-C28), Reviews (C31,
      C33): any caller cancels any order, without restocking, and its
      detail page then answers 400; a page of the order list holds only
      the caller's orders; adding to one's wishlist empties the product's
      other wishers; a negative rating is refused at commit, and a zero
      rating breaks the review page.
    - Catalog (C21, C24): the shop list's [total_filtered] counts join
      rows while each product is listed once; the shop filter fails on a
      catalogue without a published product.
    - Profile (C15, C20, C26): the activity log lists every user's
      activities; the profile update's counts match the UNIQUE indexes, so
      it never fails at commit; after a password change the user signs in
      with the new password.
    - Validation (C11, C32): a checkout body that passes [CheckoutSchema]
      without an optional address field still fails at commit on the NOT
      NULL billing column; the password change accepts any eight-character
      password, those the sign-up policy refuses included.
    - Upload (C25, C30): a successful upload answers with
      [uploads/<uuid>.<ext>], writes that file, deletes the session's old
      image and sets the caller's [image] column; whatever the client's
      file name, an upload creates only a file directly inside [uploads]
      whose extension is the end of the file name after its last dot, and
      deletes only the file the session's image names.
    - Workflow (C34, C38, C39): a user without a confirmed
      [email-confirm] row never gets one whatever requests are served, so
      no user who signs up can ever sign in; no user ever has two draft
      orders ([drafts_unique], preserved by every handler though no
      database constraint enforces it), so on every reachable store an
      order is charged once.
    - Auth (C18, C35-C37): the forgot-password request hands the reset
      token to whoever asks; sign-up, confirmation and reset on their
      success paths (the reset never stores the new password).

    ** Modelling choices and bounds

    - Money inside Python is exact ([Q]); rounding happens where MySQL
      stores a [Numeric(18,4)] value, and in the Decimal operations of the
      review and catalog pages (28 significant digits; [digits] uses the
      binary size of its argument as fuel, which bounds its number of
      decimal digits: [ndigits_fuel_enough]).  [Decimal(0.05)] is the
      exact value of the double nearest 0.05.
    - [.first()] without [ORDER BY] returns the row of smallest id
      (InnoDB's clustered-index order), and rows that tie on an [ORDER BY]
      key, [GROUP BY] groups and lazy-loaded relationships come in
      primary-key order; the raw [ORDER BY] text of the order, activity
      and shop lists is a parameter (any reordering, or a rejection), as
      is MySQL's conversion of the shop's price bounds; [func.now()] is an
      argument.
    - MySQL runs in strict mode: an out-of-range or NULL write fails the
      statement or the commit.
    - The path parameter [id] of the cart, review, detail and cancel
      endpoints is a string that the handlers only compare in SQL
      ([Product.id == id], [Order.id == id]), where MySQL converts it to a
      number ([ProductPage.mysql_num]); these handlers take that number.
      The product page, which also applies Python's [int(id)], takes the
      string and both conversions.
    - Random values (Faker's [uuid4], bcrypt's salt, [datetime.now()]
      ticks) are arguments of the handlers; timestamps are not modelled.
      The seeder's draws are arguments of [seed_run]; its theorems assume
      what the code's ranges give ([randint(100, 999)] and so on, and
      [order_by(func.rand())] as a permutation of the rows:
      [product_draw_ok]), and name the assumption on Faker's users
      ([user_draws_distinct]) that C13 shows is needed.
    - Requests are served one at a time; the store is shared between
      them, not between concurrent sessions.

    ** Not modelled

    - The random [newest] and [discount] flags of the product cards.
    - Column lengths ([String(n)]) and the UNIQUE [sku] of products are
      not checked; descriptions, image URLs of categories and brands and
      [expired_at] are not stored in the model.
    - The length limits of [String(n)] columns, so the failure of an
      upload whose path overflows [image], are not modelled.
    - The JWT module ([signJWT], token verification) and [database.py]
      are not among the sources; the caller's id is a handler argument.
    - [EmailStr]'s check (the [email-validator] package) is a parameter
      of [Validation]; the JSON parsing of bodies is not modelled.
    - [jsonable_encoder]: a Decimal in a response is sent as a JSON float
      (the nearest double), so [price_old] as modelled is the value before
      encoding, not the number the client reads.
    - The operating system's resolution of [..] and of symbolic links
      when a file is unlinked: the files are keyed by the path pathlib
      builds ([norm_path]), [..] parts included.
    - CORS, static files and the uploads directory in [main.py]. *)

From stdpp Require Import gmap strings pretty.
From Stdlib Require Import ZArith QArith Lia.

Declare Scope store_scope.
Delimit Scope store_scope with store.

Create HintDb store.
Create Rewrite HintDb store_rw.

(** ** Selecting rows of a table

    A table is a [gmap Z V] from primary keys to rows.  SQLAlchemy's
    [query(...).filter(P).first()] returns the row of smallest primary key
    that satisfies [P] (the clustered-index order of InnoDB); with
    [order_by(desc(id))] it returns the row of largest key.  Both are the
    same scan [pick] over the rows with a different preference. *)

Section Pick.
Context {V : Type}.
Variable better : Z -> Z -> bool.
Hypothesis better_irrefl : forall a, better a a = false.
Hypothesis better_trans :
  forall a b c, better a b = true -> better b c = true -> better a c = true.

Fixpoint pick (P : V -> bool) (l : list (Z * V)) : option (Z * V) :=
  match l with
  | [] => None
  | (k, v) :: l' =>
      match pick P l' with
      | Some (k', v') => if P v && better k k' then Some (k, v) else Some (k', v')
      | None => if P v then Some (k, v) else None
      end
  end.

Lemma pick_Some P l k v :
  pick P l = Some (k, v) ->
  In (k, v) l /\ P v = true /\
  forall k' v', In (k', v') l -> P v' = true -> better k' k = false.
Proof.
  revert k v; induction l as [|[k0 v0] l IH]; intros k v; simpl; [discriminate|].
  destruct (pick P l) as [[k1 v1]|] eqn:Hp.
  - destruct (IH _ _ eq_refl) as (Hin & HP & Hbest).
    destruct (P v0) eqn:HP0; simpl.
    + destruct (better k0 k1) eqn:Hb; intros [= <- <-].
      * split; [by left|split; [done|]].
        intros k' v' [[= -> ->]|Hin'] HP'; [apply better_irrefl|].
        destruct (better k' k0) eqn:Hc; [|done].
        pose proof (better_trans _ _ _ Hc Hb) as Hct.
        rewrite (Hbest k' v' Hin' HP') in Hct; discriminate.
      * split; [by right|split; [done|]].
        intros k' v' [[= -> ->]|Hin'] HP'; [done|]. eauto.
    + intros [= <- <-]. split; [by right|split; [done|]].
      intros k' v' [[= -> ->]|Hin'] HP'; [congruence|]. eauto.
  - assert (Hnone : forall k' v', In (k', v') l -> P v' = false).
    { clear IH. induction l as [|[k2 v2] l IH2]; simpl in *; [done|].
      destruct (pick P l) as [[]|]; [destruct (_ && _); discriminate|].
      destruct (P v2) eqn:HP2; [discriminate|].
      intros k' v' [[= -> ->]|]; eauto. }
    destruct (P v0) eqn:HP0; [|discriminate]. intros [= <- <-].
    split; [by left|split; [done|]].
    intros k' v' [[= -> ->]|Hin'] HP'; [apply better_irrefl|].
    rewrite (Hnone _ _ Hin') in HP'; discriminate.
Qed.

Lemma pick_None P l :
  pick P l = None <-> forall k v, In (k, v) l -> P v = false.
Proof.
  induction l as [|[k0 v0] l IH]; simpl; [split; done|].
  destruct (pick P l) as [[k1 v1]|] eqn:Hp.
  - split; [destruct (_ && _); discriminate|].
    intros Hall. destruct (pick_Some P l k1 v1 Hp) as (Hin & HP & _).
    rewrite (Hall k1 v1 (or_intror Hin)) in HP; discriminate.
  - destruct IH as [IH1 _]. split.
    + destruct (P v0) eqn:HP0; [discriminate|].
      intros _ k v [[= -> ->]|Hin]; eauto.
    + intros Hall. by rewrite (Hall k0 v0 (or_introl eq_refl)).
Qed.
End Pick.

(** [SELECT ... WHERE P ORDER BY id LIMIT 1] *)
(** Primary-key order of rows. *)
Definition key_le {A} (a b : Z * A) : Prop := (a.1 <= b.1)%Z.

#[export] Instance key_le_dec {A} : RelDecision (@key_le A).
Proof. intros a b. unfold key_le. apply _. Defined.

Definition select_first {V} (P : V -> bool) (m : gmap Z V) : option (Z * V) :=
  pick Z.ltb P (map_to_list m).

(** [SELECT ... WHERE P ORDER BY id DESC LIMIT 1] *)
Definition select_last {V} (P : V -> bool) (m : gmap Z V) : option (Z * V) :=
  pick Z.gtb P (map_to_list m).

Lemma ltb_irrefl' a : (a <? a)%Z = false.
Proof. apply Z.ltb_irrefl. Qed.
Lemma ltb_trans' a b c : (a <? b)%Z = true -> (b <? c)%Z = true -> (a <? c)%Z = true.
Proof. rewrite !Z.ltb_lt; lia. Qed.
Lemma gtb_irrefl' a : (a >? a)%Z = false.
Proof. rewrite Z.gtb_ltb; apply Z.ltb_irrefl. Qed.
Lemma gtb_trans' a b c : (a >? b)%Z = true -> (b >? c)%Z = true -> (a >? c)%Z = true.
Proof. rewrite !Z.gtb_ltb, !Z.ltb_lt; lia. Qed.

(** [SELECT SUM(f) FROM ... WHERE P]: the sum over the matching rows,
    [None] (SQL NULL) when no row matches. *)
Definition sum_where {V} (f : V -> Z) (P : V -> bool) (m : gmap Z V) : Z :=
  map_fold (fun _ v acc => if P v then (f v + acc)%Z else acc) 0%Z m.

Definition sql_sum {V} (f : V -> Z) (P : V -> bool) (m : gmap Z V) : option Z :=
  match select_first P m with
  | Some _ => Some (sum_where f P m)
  | None => None
  end.

Section Select.
Context {V : Type}.
Implicit Types (m : gmap Z V) (P : V -> bool).

Lemma select_first_Some P m k v :
  select_first P m = Some (k, v) ->
  m !! k = Some v /\ P v = true /\
  forall k' v', m !! k' = Some v' -> P v' = true -> (k <= k')%Z.
Proof.
  intros H. apply pick_Some in H as (Hin & HP & Hbest);
    [|exact ltb_irrefl'|exact ltb_trans'].
  split; [by apply elem_of_map_to_list, list_elem_of_In|split; [done|]].
  intros k' v' Hk' HP'. apply Z.ltb_ge, (Hbest k' v'); [|done].
  by apply list_elem_of_In, elem_of_map_to_list.
Qed.

Lemma select_last_Some P m k v :
  select_last P m = Some (k, v) ->
  m !! k = Some v /\ P v = true /\
  forall k' v', m !! k' = Some v' -> P v' = true -> (k' <= k)%Z.
Proof.
  intros H. apply pick_Some in H as (Hin & HP & Hbest);
    [|exact gtb_irrefl'|exact gtb_trans'].
  split; [by apply elem_of_map_to_list, list_elem_of_In|split; [done|]].
  intros k' v' Hk' HP'. specialize (Hbest k' v').
  rewrite Z.gtb_ltb, Z.ltb_ge in Hbest.
  by apply Hbest; [apply list_elem_of_In, elem_of_map_to_list|].
Qed.

Lemma select_first_None P m :
  select_first P m = None <-> forall k v, m !! k = Some v -> P v = false.
Proof.
  unfold select_first. rewrite pick_None by (exact ltb_irrefl' || exact ltb_trans').
  setoid_rewrite <-list_elem_of_In. setoid_rewrite elem_of_map_to_list. done.
Qed.

Lemma select_last_None P m :
  select_last P m = None <-> forall k v, m !! k = Some v -> P v = false.
Proof.
  unfold select_last. rewrite pick_None by (exact gtb_irrefl' || exact gtb_trans').
  setoid_rewrite <-list_elem_of_In. setoid_rewrite elem_of_map_to_list. done.
Qed.

(** When a single row satisfies [P], both scans return it. *)
Lemma select_first_unique P m k v :
  m !! k = Some v -> P v = true ->
  (forall k' v', m !! k' = Some v' -> P v' = true -> k' = k) ->
  select_first P m = Some (k, v).
Proof.
  intros Hk HP Huniq. destruct (select_first P m) as [[k' v']|] eqn:Hs.
  - apply select_first_Some in Hs as (Hk' & HP' & _).
    pose proof (Huniq _ _ Hk' HP') as ->. congruence.
  - apply select_first_None with (k := k) (v := v) in Hs; congruence.
Qed.

Lemma select_last_unique P m k v :
  m !! k = Some v -> P v = true ->
  (forall k' v', m !! k' = Some v' -> P v' = true -> k' = k) ->
  select_last P m = Some (k, v).
Proof.
  intros Hk HP Huniq. destruct (select_last P m) as [[k' v']|] eqn:Hs.
  - apply select_last_Some in Hs as (Hk' & HP' & _).
    pose proof (Huniq _ _ Hk' HP') as ->. congruence.
  - apply select_last_None with (k := k) (v := v) in Hs; congruence.
Qed.
End Select.

#[export] Hint Resolve select_first_unique select_last_unique : store.

Section Sum.
Context {V : Type}.
Implicit Types (m : gmap Z V) (P : V -> bool) (f : V -> Z).

Lemma sum_where_empty f P : sum_where f P (∅ : gmap Z V) = 0%Z.
Proof. apply map_fold_empty. Qed.

Lemma sum_where_insert_new f P m k v :
  m !! k = None ->
  sum_where f P (<[k := v]> m) = ((if P v then f v else 0) + sum_where f P m)%Z.
Proof.
  intros Hk. unfold sum_where. rewrite map_fold_insert_L; [|intros; repeat case_match; lia|done].
  destruct (P v); lia.
Qed.

Lemma sum_where_delete f P m k v :
  m !! k = Some v ->
  sum_where f P m = ((if P v then f v else 0) + sum_where f P (delete k m))%Z.
Proof.
  intros Hk. rewrite <-(insert_delete_id m k v Hk) at 1.
  apply sum_where_insert_new, lookup_delete_eq.
Qed.

(** Replacing a row changes the sum by the difference of its terms. *)
Lemma sum_where_insert_replace f P m k v0 v :
  m !! k = Some v0 ->
  sum_where f P (<[k := v]> m) =
    ((if P v then f v else 0) - (if P v0 then f v0 else 0) + sum_where f P m)%Z.
Proof.
  intros Hk. rewrite (sum_where_delete f P m k v0 Hk), <-insert_delete_eq.
  rewrite sum_where_insert_new by apply lookup_delete_eq. lia.
Qed.

End Sum.

(** [UPDATE ... SET ... WHERE P]: each row that satisfies [P] is replaced
    by [f] of it; the statement is rejected ([None]) when [f] rejects one
    of the rows it matches. *)
Definition update_where {V} (P : Z -> V -> bool) (f : V -> option V) (m : gmap Z V)
    : option (gmap Z V) :=
  if bool_decide (map_Forall (fun k v => P k v = true -> is_Some (f v)) m)
  then Some (map_imap (fun k v => Some (if P k v then default v (f v) else v)) m)
  else None.

(** [query(...).filter(P).count()]: the number of rows satisfying [P]. *)
Definition count_where {V} (P : V -> bool) (m : gmap Z V) : nat :=
  length (filter (fun kv : Z * V => P kv.2 = true) (map_to_list m)).

Section Update.
Context {V : Type}.
Implicit Types (m : gmap Z V) (P : Z -> V -> bool) (f : V -> option V).

Lemma update_where_lookup P f m m' k :
  update_where P f m = Some m' ->
  m' !! k = (fun v => if P k v then default v (f v) else v) <$> m !! k.
Proof.
  unfold update_where. case_bool_decide; [intros [= <-]|done].
  rewrite map_lookup_imap. by destruct (m !! k).
Qed.

Lemma update_where_keys P f m m' k :
  update_where P f m = Some m' -> is_Some (m !! k) <-> is_Some (m' !! k).
Proof. intros H. rewrite (update_where_lookup _ _ _ _ k H). by rewrite fmap_is_Some. Qed.

Lemma update_where_Some_inv P f m m' k v' :
  update_where P f m = Some m' -> m' !! k = Some v' ->
  exists v, m !! k = Some v /\ v' = if P k v then default v (f v) else v.
Proof.
  intros H Hk. rewrite (update_where_lookup _ _ _ _ k H) in Hk.
  apply fmap_Some in Hk as (v & ? & ->). eauto.
Qed.

(** [UPDATE ... WHERE id = k] of an existing row. *)
Lemma update_where_key f m k v v' :
  m !! k = Some v -> f v = Some v' ->
  update_where (fun j _ => bool_decide (j = k)) f m = Some (<[k := v']> m).
Proof.
  intros Hk Hf. unfold update_where. rewrite bool_decide_true.
  - f_equal. apply map_eq. intros j. rewrite map_lookup_imap.
    destruct (decide (j = k)) as [->|Hne].
    + rewrite Hk, lookup_insert_eq. simpl. by rewrite bool_decide_true, Hf.
    + rewrite lookup_insert_ne by congruence. destruct (m !! j); simpl; [|done].
      by rewrite bool_decide_false.
  - intros j w Hj Hb. apply bool_decide_eq_true in Hb as ->. rewrite Hk in Hj.
    injection Hj as <-. by rewrite Hf.
Qed.

(** An UPDATE whose WHERE clause matches no row changes nothing. *)
Lemma update_where_no_match P f m :
  (forall k v, m !! k = Some v -> P k v = false) -> update_where P f m = Some m.
Proof.
  intros Hno. unfold update_where. rewrite bool_decide_true.
  - f_equal. apply map_eq. intros k. rewrite map_lookup_imap.
    destruct (m !! k) eqn:Hk; [|done]. simpl. by rewrite Hno.
  - intros k v Hk HP. by rewrite Hno in HP.
Qed.

(** An UPDATE whose new values are always accepted succeeds. *)
Lemma update_where_total P f m :
  (forall v, is_Some (f v)) -> is_Some (update_where P f m).
Proof. intros Hf. unfold update_where. rewrite bool_decide_true; [done|]. intros ????. apply Hf. Qed.

(** An UPDATE that matches a row it cannot write is rejected. *)
Lemma update_where_reject P f m k v :
  m !! k = Some v -> P k v = true -> f v = None -> update_where P f m = None.
Proof.
  intros Hk HP Hf. unfold update_where. rewrite bool_decide_false; [done|].
  intros Hall. destruct (Hall k v Hk HP) as [? Hs]. congruence.
Qed.

Lemma filter_nil_Forall {A} (Q : A -> Prop) `{!forall x, Decision (Q x)} (l : list A) :
  filter Q l = [] <-> Forall (fun x => ~ Q x) l.
Proof.
  induction l as [|x l IH]; [split; auto|]. rewrite filter_cons, Forall_cons.
  case_decide; [naive_solver|]. rewrite IH. naive_solver.
Qed.

Lemma count_where_zero (P : V -> bool) m :
  count_where P m = 0%nat <-> map_Forall (fun _ v => P v = false) m.
Proof.
  unfold count_where. rewrite length_zero_iff_nil, filter_nil_Forall, Forall_forall.
  split.
  - intros Hall k v Hk. apply not_true_is_false, (Hall (k, v)). by apply elem_of_map_to_list.
  - intros Hall [k v] Hkv. apply elem_of_map_to_list in Hkv. simpl. by rewrite (Hall k v Hkv).
Qed.

End Update.
