(* ===== verification/Decimal.v ===== *)
(** * Decimal: monetary values of the store

    Python-side money is [decimal.Decimal]; every monetary column of
    [src/backend/src/model.py] is [Numeric(18, 4)] (MySQL [DECIMAL(18,4)]).
    We model a Decimal as an exact rational [Q] and a stored column value
    as a [Z] count of ten-thousandths.  Reading a column is [dec_of_units];
    writing a Decimal into a column is [units_of_dec], which rounds to four
    decimals half away from zero (MySQL's rounding for DECIMAL), and the
    column accepts at most 18 digits ([numeric_18_4_ok]).  Integer columns
    ([INTEGER(unsigned=True)], [TINYINT(unsigned=True)],
    [BIGINT(unsigned=True)]) are [Z] with their unsigned ranges.  The
    default context's operations round to 28 significant digits
    ([dec_round], half to even); [dec_round_error] bounds their relative
    error and [ndigits_fuel_enough] shows the digit count terminates. *)

From stdpp Require Import base strings.
From Stdlib Require Import ZArith QArith Qround Qabs Qpower Lia Lqa Ascii String.
From S2P Require Import Prelude.

Open Scope Z_scope.

(** ** Column domains (model.py) *)

(** [Numeric(18, 4)]: 18 digits, 4 of them after the point. *)
Definition numeric_18_4_ok (u : Z) : bool := (Z.abs u <? 10 ^ 18).

(** [INTEGER(unsigned=True)]: 32-bit unsigned. *)
Definition uint32_ok (n : Z) : bool := (0 <=? n) && (n <? 2 ^ 32).

(** [TINYINT(unsigned=True)]: 8-bit unsigned. *)
Definition uint8_ok (n : Z) : bool := (0 <=? n) && (n <? 2 ^ 8).

(** [BIGINT(unsigned=True)]: 64-bit unsigned. *)
Definition uint64_ok (n : Z) : bool := (0 <=? n) && (n <? 2 ^ 64).

(** ** Reading and writing [Numeric(18, 4)] columns *)

Definition dec_of_units (u : Z) : Q := (u # 10000)%Q.

(** MySQL stores a Decimal with more than four fractional digits rounded
    half away from zero. *)
Definition units_of_dec (q : Q) : Z :=
  let x := (q * inject_Z 10000)%Q in
  if Qle_bool 0 x then Qfloor (x + (1 # 2)) else - Qfloor (- x + (1 # 2)).

(** [Decimal(0)], the default of a missing setting. *)
Definition dec_zero : Q := 0%Q.

(** ** [decimal.Decimal(str)]

    The settings are strings ([Setting.key_value] is LONGTEXT) that the
    handlers convert with [Decimal(...)].  CPython's constructor strips
    surrounding whitespace, accepts a sign, digits with single underscores
    between digits, an optional fraction and exponent, and the non-finite
    literals [Infinity]/[Inf]/[NaN]/[sNaN] in any case; anything else
    raises [InvalidOperation] ([None] below). *)

Inductive decimal_lit := Finite (q : Q) | NonFinite.

(** [str.isspace] on ASCII: tab, line feed, vertical tab, form feed,
    carriage return, the separators 0x1c-0x1f, and space. *)
Definition is_space (c : ascii) : bool :=
  let n := nat_of_ascii c in ((9 <=? n) && (n <=? 13) || (28 <=? n) && (n <=? 32))%nat.

Definition digit_of (c : ascii) : option Z :=
  let n := nat_of_ascii c in
  if ((48 <=? n) && (n <=? 57))%nat then Some (Z.of_nat n - 48) else None.

Definition is_digit (c : ascii) : bool := match digit_of c with Some _ => true | None => false end.

(** Reads a run of digits (a single [_] may separate two digits) into
    [acc]; returns the value, the number of digits and the rest. *)
Fixpoint scan_digits (acc : Z) (n : nat) (s : string) : Z * nat * string :=
  match s with
  | String c rest =>
      match digit_of c with
      | Some v =>
          match rest with
          | String u (String c2 _ as rest2) =>
              if Ascii.eqb u "_" && is_digit c2 then scan_digits (acc * 10 + v) (S n) rest2
              else scan_digits (acc * 10 + v) (S n) rest
          | _ => scan_digits (acc * 10 + v) (S n) rest
          end
      | None => (acc, n, s)
      end
  | EmptyString => (acc, n, EmptyString)
  end.

Fixpoint strip_leading (s : string) : string :=
  match s with
  | String c rest => if is_space c then strip_leading rest else s
  | EmptyString => EmptyString
  end.

Fixpoint string_rev (s : string) : string :=
  match s with
  | String c rest => (string_rev rest ++ String c EmptyString)%string
  | EmptyString => EmptyString
  end.

(** [str.strip()] *)
Definition strip (s : string) : string :=
  string_rev (strip_leading (string_rev (strip_leading s))).

Definition lower_ascii (c : ascii) : ascii :=
  let n := nat_of_ascii c in
  if ((65 <=? n) && (n <=? 90))%nat then ascii_of_nat (n + 32) else c.

Fixpoint lower (s : string) : string :=
  match s with
  | String c rest => String (lower_ascii c) (lower rest)
  | EmptyString => EmptyString
  end.

Fixpoint all_digits (s : string) : bool :=
  match s with
  | String c rest => is_digit c && all_digits rest
  | EmptyString => true
  end.

Definition split_sign (s : string) : bool * string :=
  match s with
  | String c rest =>
      if Ascii.eqb c "-" then (true, rest)
      else if Ascii.eqb c "+" then (false, rest) else (false, s)
  | EmptyString => (false, s)
  end.

Definition drop (n : nat) (s : string) : string := substring n (String.length s - n) s.

Definition is_non_finite (t : string) : bool :=
  let t := lower t in
  String.eqb t "inf" || String.eqb t "infinity"
  || (String.prefix "nan" t && all_digits (drop 3 t))
  || (String.prefix "snan" t && all_digits (drop 4 t)).

(** The exponent part: empty, or [e]/[E], a sign and at least one digit. *)
Definition parse_exponent (s : string) : option (Z * string) :=
  match s with
  | EmptyString => Some (0, EmptyString)
  | String c rest =>
      if Ascii.eqb c "e" || Ascii.eqb c "E" then
        let '(neg, r) := split_sign rest in
        let '(v, n, r') := scan_digits 0 0 r in
        if (n =? 0)%nat then None else Some (if neg then - v else v, r')
      else None
  end.

(** [m * 10 ^ k] as a rational. *)
Definition scale (m k : Z) : Q :=
  if 0 <=? k then inject_Z (m * 10 ^ k) else (m # Z.to_pos (10 ^ (- k)))%Q.

Definition parse_decimal (s : string) : option decimal_lit :=
  let '(neg, t) := split_sign (strip s) in
  if is_non_finite t then Some NonFinite else
  let '(ip, ni, r1) := scan_digits 0 0 t in
  let '(m, nf, r2) :=
    match r1 with
    | String c r => if Ascii.eqb c "." then scan_digits ip 0 r else (ip, 0%nat, r1)
    | EmptyString => (ip, 0%nat, r1)
    end in
  if (ni + nf =? 0)%nat then None else
  match parse_exponent r2 with
  | Some (e, EmptyString) =>
      let q := scale m (e - Z.of_nat nf) in
      Some (Finite (if neg then (- q)%Q else q))
  | _ => None
  end.

(** ** Decimal arithmetic in the default context

    Python's [decimal] module divides and multiplies in a context of 28
    significant digits, rounding half to even.  [dec_round p x] is the
    value of [x] rounded to [p] significant digits: the exponent is chosen
    so that the coefficient has [p] digits, [floor(log10 |x|) - (p - 1)].
    The result is in lowest terms, so that equal values are equal terms. *)

Definition pow10 (k : Z) : Q :=
  if 0 <=? k then inject_Z (10 ^ k) else (1 / inject_Z (10 ^ (- k)))%Q.

Fixpoint ndigits (fuel : nat) (n : Z) : Z :=
  match fuel with
  | O => 1
  | S f => if n <? 10 then 1 else 1 + ndigits f (n / 10)
  end.

(** The number of decimal digits of a positive integer; each step divides
    by ten, so the binary size of [n] is enough fuel. *)
Definition digits (n : Z) : Z := ndigits (Pos.to_nat (Pos.size (Z.to_pos n))) n.

(** ROUND_HALF_EVEN to an integer. *)
Definition round_half_even (x : Q) : Z :=
  let f := Qfloor x in
  let r := (x - inject_Z f)%Q in
  if Qlt_le_dec r (1#2) then f
  else if Qeq_dec r (1#2) then (if Z.even f then f else f + 1)
  else f + 1.

Definition dec_round (p : Z) (x : Q) : Q :=
  let x := Qred x in
  if Qnum x =? 0 then 0%Q
  else
    let k := digits (Z.abs (Qnum x)) - digits (Z.pos (Qden x)) in
    let adj := if Qle_bool (pow10 k) (Qabs x) then k else k - 1 in
    let e := adj - (p - 1) in
    let c := round_half_even (Qabs x / pow10 e) in
    Qred ((if Qnum x <? 0 then -1 else 1) * inject_Z c * pow10 e)%Q.

(** [a / b] on Decimals in the default context: a zero divisor raises
    ([DivisionByZero], or [InvalidOperation] for [0 / 0]). *)
Definition dec_div (a b : Q) : option Q :=
  if Qeq_bool b 0 then None else Some (dec_round 28 (a / b)).

(** [a * b] on Decimals in the default context. *)
Definition dec_mul (a b : Q) : Q := dec_round 28 (a * b).

(** [a + b] on Decimals in the default context. *)
Definition dec_add (a b : Q) : Q := dec_round 28 (a + b).

(** ** Lemmas *)

Lemma Qfloor_unique (z : Z) (x : Q) :
  (inject_Z z <= x)%Q -> (x < inject_Z z + 1)%Q -> Qfloor x = z.
Proof.
  intros Hle Hlt.
  assert (z <= Qfloor x) by (rewrite <-(Qfloor_Z z); apply Qfloor_resp_le; assumption).
  assert (Qfloor x < z + 1).
  { rewrite Zlt_Qlt, inject_Z_plus.
    eapply Qle_lt_trans; [apply Qfloor_le|exact Hlt]. }
  lia.
Qed.

#[export] Instance units_of_dec_proper : Proper (Qeq ==> eq) units_of_dec.
Proof.
  intros q1 q2 Hq. unfold units_of_dec.
  assert (Hx : (q1 * inject_Z 10000 == q2 * inject_Z 10000)%Q) by (rewrite Hq; reflexivity).
  assert (Hb : Qle_bool 0 (q1 * inject_Z 10000) = Qle_bool 0 (q2 * inject_Z 10000)).
  { apply Bool.eq_true_iff_eq. rewrite !Qle_bool_iff, Hx. reflexivity. }
  rewrite Hb. destruct (Qle_bool 0 (q2 * inject_Z 10000)); [|f_equal]; apply Qfloor_comp; rewrite Hx; reflexivity.
Qed.

(** A value with at most four fractional digits is stored exactly. *)
Lemma units_of_dec_of_units (u : Z) : units_of_dec (dec_of_units u) = u.
Proof.
  unfold units_of_dec, dec_of_units, Qfloor, Qle_bool; simpl.
  change (Z.pos (10000 * 1)) with 10000; change (Z.pos (10000 * 1 * 2)) with 20000.
  rewrite Z.mul_0_l. destruct (Z.leb_spec 0 (u * 10000 * 1)).
  - symmetry. apply Z.div_unique_pos with (r := 10000); lia.
  - enough (- u = (- (u * 10000) * 2 + 1 * 10000) / 20000) by lia.
    apply Z.div_unique_pos with (r := 10000); lia.
Qed.

Lemma dec_of_units_plus (a b : Z) :
  (dec_of_units (a + b) == dec_of_units a + dec_of_units b)%Q.
Proof. unfold dec_of_units, Qeq, Qplus; simpl. lia. Qed.

Lemma dec_of_units_mult_int (n u : Z) :
  (inject_Z n * dec_of_units u == dec_of_units (n * u))%Q.
Proof. unfold dec_of_units, Qeq, Qmult, inject_Z; simpl. lia. Qed.

(** Python's [qty * price] (an [int] times a Decimal with four decimals) is
    stored without rounding. *)
Lemma units_of_int_times_price (n u : Z) :
  units_of_dec (inject_Z n * dec_of_units u) = n * u.
Proof. rewrite dec_of_units_mult_int. apply units_of_dec_of_units. Qed.

(** Rounding half away from zero moves a value by at most half a unit. *)
Lemma units_of_dec_near (q : Q) :
  (-(1#2) <= inject_Z (units_of_dec q) - q * 10000 <= 1#2)%Q.
Proof.
  unfold units_of_dec. destruct (Qle_bool 0 (q * inject_Z 10000)).
  - pose proof (Qfloor_le (q * inject_Z 10000 + (1#2))%Q).
    pose proof (Qlt_floor (q * inject_Z 10000 + (1#2))%Q).
    rewrite inject_Z_plus in *. change (inject_Z 10000) with 10000%Q in *. change (inject_Z 1) with 1%Q in *. lra.
  - pose proof (Qfloor_le (- (q * inject_Z 10000) + (1#2))%Q).
    pose proof (Qlt_floor (- (q * inject_Z 10000) + (1#2))%Q).
    rewrite inject_Z_opp. rewrite inject_Z_plus in *.
    change (inject_Z 10000) with 10000%Q in *. change (inject_Z 1) with 1%Q in *. lra.
Qed.

#[export] Hint Rewrite units_of_dec_of_units units_of_int_times_price : store_rw.

(** ** Decimal digits and the rounding of the default context *)

Lemma pow10_Qpower k : (pow10 k == inject_Z 10 ^ k)%Q.
Proof.
  unfold pow10. destruct (0 <=? k) eqn:E.
  - apply Z.leb_le in E. rewrite Zpower_Qpower by lia. reflexivity.
  - apply Z.leb_gt in E. rewrite Zpower_Qpower by lia.
    rewrite Qpower_opp. unfold Qdiv. rewrite Qmult_1_l. apply Qinv_involutive.
Qed.

Lemma pow10_pos k : (0 < pow10 k)%Q.
Proof. rewrite pow10_Qpower. apply Qpower_0_lt. reflexivity. Qed.

Lemma pow10_add a b : (pow10 (a + b) == pow10 a * pow10 b)%Q.
Proof. rewrite !pow10_Qpower. apply Qpower_plus. discriminate. Qed.

Lemma round_half_even_near x : (Qabs (inject_Z (round_half_even x) - x) <= 1 # 2)%Q.
Proof.
  unfold round_half_even.
  pose proof (Qfloor_le x) as Hle. pose proof (Qlt_floor x) as Hlt.
  generalize dependent (Qfloor x). intros f Hle Hlt.
  rewrite inject_Z_plus in *. change (inject_Z 1) with 1%Q in *.
  destruct (Qlt_le_dec (x - inject_Z f) (1 # 2)) as [Hr|Hr].
  - generalize dependent (inject_Z f). intros q Hle Hlt Hr.
    apply Qabs_Qle_condition; split; lra.
  - destruct (Qeq_dec (x - inject_Z f) (1 # 2)) as [Hq|Hq].
    + destruct (Z.even f); rewrite ?inject_Z_plus; change (inject_Z 1) with 1%Q;
        generalize dependent (inject_Z f); intros q Hle Hlt Hr Hq;
        apply Qabs_Qle_condition; split; lra.
    + rewrite inject_Z_plus. change (inject_Z 1) with 1%Q.
      assert (1 # 2 < x - inject_Z f)%Q.
      { apply Qle_lteq in Hr as [Hr|Hr]; [exact Hr|]. exfalso. apply Hq. symmetry. exact Hr. }
      generalize dependent (inject_Z f). intros q Hle Hlt Hr Hq Hgt.
      apply Qabs_Qle_condition; split; lra.
Qed.

Lemma ndigits_spec f n :
  0 < n -> n < 10 ^ Z.of_nat f ->
  10 ^ (ndigits f n - 1) <= n < 10 ^ ndigits f n.
Proof.
  revert n. induction f as [|f IH]; intros n Hn Hf; simpl in *; [lia|].
  destruct (n <? 10) eqn:E; [apply Z.ltb_lt in E; simpl; lia|apply Z.ltb_ge in E].
  rewrite Nat2Z.inj_succ, Z.pow_succ_r in Hf by lia.
  destruct (IH (n / 10)) as [Hlo Hhi]; [apply Z.div_str_pos; lia|apply Z.div_lt_upper_bound; lia|].
  set (k := ndigits f (n / 10)) in *.
  assert (Hk : 1 <= k).
  { destruct (Z.le_gt_cases 1 k) as [|Hlt]; [lia|].
    assert (10 ^ k <= 1).
    { destruct (Z.le_gt_cases 0 k).
      - replace k with 0 by lia. reflexivity.
      - rewrite Z.pow_neg_r by lia. lia. }
    assert (1 <= n / 10) by (apply Z.div_le_lower_bound; lia). lia. }
  replace (1 + k - 1) with (Z.succ (k - 1)) by lia.
  replace (1 + k) with (Z.succ k) by lia.
  rewrite !Z.pow_succ_r by lia.
  replace k with (Z.succ (k - 1)) in Hhi at 1 by lia. rewrite Z.pow_succ_r in Hhi by lia.
  pose proof (Z.mul_div_le n 10). pose proof (Z.mul_succ_div_gt n 10). split; [lia|].
  replace k with (Z.succ (k - 1)) by lia. rewrite Z.pow_succ_r by lia. lia.
Qed.

Lemma pow2_le_pow10 e : 0 <= e -> 2 ^ e <= 10 ^ e.
Proof. intros He. apply Z.pow_le_mono_l; lia. Qed.

Lemma digit_count_unique n a b :
  10 ^ (a - 1) <= n < 10 ^ a -> 10 ^ (b - 1) <= n < 10 ^ b -> 0 < n -> a = b.
Proof.
  intros [Ha1 Ha2] [Hb1 Hb2] Hn.
  assert (forall x y, 10 ^ (x - 1) <= n -> n < 10 ^ y -> x <= y) as Hle.
  { intros x y Hx Hy. destruct (Z.le_gt_cases x y) as [|Hlt]; [assumption|].
    destruct (Z.le_gt_cases 0 y) as [Hy0|Hy0].
    - assert (10 ^ y <= 10 ^ (x - 1)) by (apply Z.pow_le_mono_r; lia). lia.
    - rewrite Z.pow_neg_r in Hy by lia. lia. }
  pose proof (Hle a b Ha1 Hb2). pose proof (Hle b a Hb1 Ha2). lia.
Qed.

Lemma pos_size_fuel p : Z.pos p < 2 ^ Z.of_nat (Pos.to_nat (Pos.size p)).
Proof.
  rewrite positive_nat_Z. pose proof (Pos.size_gt p) as H.
  apply Pos2Z.pos_lt_pos in H. rewrite Pos2Z.inj_pow in H. exact H.
Qed.

Lemma ndigits_fuel_enough n f :
  0 < n -> n < 2 ^ Z.of_nat f ->
  ndigits f n = digits n /\ 10 ^ (digits n - 1) <= n < 10 ^ digits n.
Proof.
  intros Hn Hf.
  assert (Hd : 10 ^ (digits n - 1) <= n < 10 ^ digits n).
  { unfold digits. destruct n as [|p|p]; try lia. simpl Z.to_pos.
    apply ndigits_spec; [lia|]. pose proof (pos_size_fuel p).
    pose proof (pow2_le_pow10 (Z.of_nat (Pos.to_nat (Pos.size p)))). lia. }
  split; [|exact Hd].
  apply (digit_count_unique n); [|exact Hd|exact Hn].
  apply ndigits_spec; [exact Hn|]. pose proof (pow2_le_pow10 (Z.of_nat f)). lia.
Qed.

Lemma Qdiv_cross (a b c d : Z) :
  0 < b -> 0 < d -> a * d <= c * b -> (inject_Z a / inject_Z b <= inject_Z c / inject_Z d)%Q.
Proof.
  intros Hb Hd H. destruct b as [|b|b]; try lia. destruct d as [|d|d]; try lia.
  rewrite <- !Qmake_Qdiv. unfold Qle. simpl. lia.
Qed.

Lemma digits_pos n : 0 < n -> 1 <= digits n.
Proof.
  intros Hn. destruct (ndigits_fuel_enough n (Pos.to_nat (Pos.size (Z.to_pos n)))) as [_ [H1 H2]]; [lia| |].
  - destruct n; try lia. apply pos_size_fuel.
  - destruct (Z.le_gt_cases 1 (digits n)) as [|Hlt]; [assumption|].
    destruct (Z.le_gt_cases 0 (digits n)).
    + replace (digits n) with 0 in H2 by lia. simpl in H2. lia.
    + rewrite Z.pow_neg_r in H2 by lia. lia.
Qed.

Lemma digits_bounds n : 0 < n -> 10 ^ (digits n - 1) <= n < 10 ^ digits n.
Proof.
  intros Hn. apply (ndigits_fuel_enough n (Pos.to_nat (Pos.size (Z.to_pos n)))); [exact Hn|].
  destruct n; try lia. apply pos_size_fuel.
Qed.

(** The exponent [dec_round] picks is at most the magnitude of [x]. *)
Lemma dec_exponent_le (y : Q) :
  Qnum y <> 0 ->
  let k := digits (Z.abs (Qnum y)) - digits (Z.pos (Qden y)) in
  (pow10 (if Qle_bool (pow10 k) (Qabs y) then k else k - 1) <= Qabs y)%Q.
Proof.
  intros Hn k. destruct (Qle_bool _ _) eqn:E; [apply Qle_bool_iff; exact E|].
  destruct y as [n d]. simpl in *. unfold k.
  pose proof (digits_bounds (Z.abs n)) as [HN1 HN2]; [lia|].
  pose proof (digits_bounds (Z.pos d)) as [HD1 HD2]; [lia|].
  assert (HdN := digits_pos (Z.abs n) ltac:(lia)).
  assert (HdD := digits_pos (Z.pos d) ltac:(lia)).
  set (dN := digits (Z.abs n)) in *. set (dD := digits (Z.pos d)) in *.
  replace (dN - dD - 1) with ((dN - 1) + - dD) by lia. rewrite pow10_add.
  unfold pow10. rewrite (proj2 (Z.leb_le 0 (dN - 1))) by lia.
  rewrite (proj2 (Z.leb_gt 0 (- dD))) by lia. rewrite Z.opp_involutive.
  change (Qabs (n # d)) with (Z.abs n # d). rewrite (Qmake_Qdiv (Z.abs n) d).
  assert (Hq : (inject_Z (10 ^ (dN - 1)) * (1 / inject_Z (10 ^ dD))
               == inject_Z (10 ^ (dN - 1)) / inject_Z (10 ^ dD))%Q) by (unfold Qdiv; ring).
  rewrite Hq.
  apply Qdiv_cross; [lia|lia|]. nia.
Qed.

Lemma Q_sign_abs (y : Q) : (y == (if Qnum y <? 0 then -1 else 1) * Qabs y)%Q.
Proof. destruct y as [[|n|n] d]; unfold Qeq; simpl; lia. Qed.

(** [dec_round p x] is within half a unit of the [p]-th significant digit
    of [x]: its relative error is at most [10^(1-p) / 2]. *)
Theorem dec_round_error p x :
  1 <= p -> (Qabs (dec_round p x - x) <= Qabs x * pow10 (1 - p) * (1 # 2))%Q.
Proof.
  intros Hp. unfold dec_round. pose proof (Qred_correct x) as Hy.
  set (y := Qred x) in *. rewrite <- Hy.
  destruct (Qnum y =? 0) eqn:Hz.
  - apply Z.eqb_eq in Hz. assert (Hy0 : (y == 0)%Q) by (unfold Qeq; simpl; rewrite Hz; reflexivity).
    rewrite Hy0. simpl. unfold Qle. simpl. lia.
  - apply Z.eqb_neq in Hz. pose proof (dec_exponent_le y Hz) as Hadj. cbv zeta in Hadj.
    set (adj := if Qle_bool _ _ then _ else _) in *.
    set (a := Qabs y) in *. set (e := adj - (p - 1)).
    set (c := round_half_even (a / pow10 e)).
    set (s := (if Qnum y <? 0 then -1 else 1)%Q).
    assert (Hs : (Qabs s == 1)%Q) by (unfold s; destruct (_ <? _); reflexivity).
    assert (HE : (0 < pow10 e)%Q) by apply pow10_pos.
    assert (Hea : (pow10 e == pow10 adj * pow10 (1 - p))%Q).
    { unfold e. rewrite <- pow10_add. replace (adj + (1 - p)) with (adj - (p - 1)) by lia. reflexivity. }
    rewrite Qred_correct. rewrite (Q_sign_abs y). fold s a.
    assert (Hd : (s * inject_Z c * pow10 e - s * a == s * (pow10 e * (inject_Z c - a / pow10 e)))%Q).
    { field. apply Qnot_eq_sym, Qlt_not_eq, HE. }
    rewrite Hd, Qabs_Qmult, Hs, Qmult_1_l, Qabs_Qmult, (Qabs_pos (pow10 e)) by apply Qlt_le_weak, HE.
    apply Qle_trans with (pow10 e * (1 # 2))%Q.
    + apply Qmult_le_l; [exact HE|]. apply round_half_even_near.
    + rewrite Hea. apply Qmult_le_r; [reflexivity|].
      apply Qmult_le_compat_r; [exact Hadj|]. apply Qlt_le_weak, pow10_pos.
Qed.

