(* ===== verification/Schema.v ===== *)
(** * Schema: the relational store of [src/backend/src/model.py]

    One [Record] per mapped class (the columns the handlers read or write;
    timestamps and display-only columns such as images are left out), one
    [gmap Z _] per table keyed by the [BIGINT] primary key, a [gset] per
    association table, and the auto-increment counters.  [db_ok] is what
    MySQL (InnoDB, strict SQL mode) checks of a state before it accepts a
    write: the range of every integer and [Numeric(18,4)] column, the
    [nullable=False] columns, every [ForeignKey], and the UNIQUE indexes
    of [users].  The catalog tables ([brands], [categories],
    [products_categories], [newsLetters], [colours], [sizes],
    [products_images]) are read by the shop and home pages and filled by
    the seeder, which writes them with [insert_product],
    [insert_inventory], ...; [db_wf_insert_*] show which writes keep the
    store acceptable. *)

From stdpp Require Import gmap strings.
From Stdlib Require Import Ascii String ZArith Lia.
From S2P Require Import Prelude Decimal.

Open Scope Z_scope.

(** ** Rows *)

(** [class User] *)
Record user := mk_user {
  user_email : string;
  user_phone : option string;
  user_password : string;
  user_first_name : option string;
  user_last_name : option string;
  user_gender : option string;
  user_city : option string;
  user_zip_code : option string;
  user_country : option string;
  user_address : option string;
  user_status : Z;
  user_image : option string
}.

(** [class Product] *)
Record product := mk_product {
  product_brand_id : option Z;
  product_image : option string;
  product_sku : string;
  product_name : string;
  product_price : Z;           (** Numeric(18, 4), in ten-thousandths *)
  product_total_order : Z;     (** INTEGER(unsigned=True) *)
  product_total_rating : Z;    (** INTEGER(unsigned=True) *)
  product_published_date : option Z;   (** DateTime, as a timestamp *)
  product_details : string;
  product_description : string;
  product_status : Z
}.

(** [class ProductInventory] *)
Record inventory := mk_inventory {
  inv_product_id : Z;
  inv_size_id : Z;
  inv_colour_id : Z;
  inv_stock : Z;               (** INTEGER(unsigned=True) *)
  inv_status : Z
}.

(** [class Payment] *)
Record payment := mk_payment { payment_name : string; payment_status : Z }.

(** [class Setting]: key/value pairs, [key_name] is not unique. *)
Record setting := mk_setting { key_name : string; key_value : string }.

(** [class Order] *)
Record order := mk_order {
  order_user_id : Z;
  order_payment_id : option Z;
  invoice_number : string;
  total_item : option Z;       (** INTEGER(unsigned=True), nullable *)
  subtotal : Z;
  total_discount : Z;
  total_taxes : Z;
  total_shipment : Z;
  total_paid : Z;
  order_status : Z             (** 0: draft (cart), 1: placed *)
}.

(** [class OrderDetail]: one cart line. *)
Record order_detail := mk_detail {
  detail_order_id : Z;
  detail_inventory_id : Z;
  detail_price : Z;
  detail_qty : Z;
  detail_total : Z
}.

(** [class OrderBilling]: one billing field of a placed order;
    [description] is [nullable=False]. *)
Record order_billing := mk_billing {
  billing_order_id : Z;
  billing_name : string;
  billing_description : option string
}.

(** [class Activity]: the audit log. *)
Record activity := mk_activity {
  activity_user_id : option Z;
  activity_subject : string;
  activity_event : string;
  activity_description : string
}.

(** [class Authentication]: an e-mail confirmation or password reset
    token; [expired_at] is written but never read by any handler. *)
Record authentication := mk_auth {
  auth_user_id : option Z;
  auth_type : string;
  auth_credential : string;
  auth_token : string;
  auth_status : Z
}.

(** [class Brand] (its image and description are display columns). *)
Record brand := mk_brand {
  brand_name : string;
  brand_status : Z
}.

(** [class Category] *)
Record category := mk_category {
  category_name : string;
  category_displayed : Z;      (** TINYINT(unsigned=True), default 0 *)
  category_status : Z
}.

(** [class NewsLetter] *)
Record newsletter := mk_newsletter {
  newsletter_ip_address : string;
  newsletter_email : string;
  newsletter_status : Z
}.

(** [class Colour] *)
Record colour := mk_colour {
  colour_code : string;
  colour_name : string;
  colour_status : Z
}.

(** [class Size] *)
Record product_size := mk_size {
  size_name : string;
  size_status : Z
}.

(** [class ProductImage]: [product_id] is a nullable foreign key. *)
Record image := mk_image {
  image_product_id : option Z;
  image_path : string;
  image_sort : Z;              (** INTEGER(unsigned=True), default 0 *)
  image_status : Z
}.

(** [class ProductReview]: [rating] is an unsigned INTEGER, [review] is
    NOT NULL. *)
Record review := mk_review {
  review_product_id : Z;
  review_user_id : Z;
  review_rating : Z;
  review_text : string
}.

(** ** The database *)

Record db := mk_db {
  users : gmap Z user;
  products : gmap Z product;
  inventories : gmap Z inventory;
  payments : gmap Z payment;
  settings : gmap Z setting;
  orders : gmap Z order;
  details : gmap Z order_detail;
  billings : gmap Z order_billing;
  activities : gmap Z activity;
  wishlists : gset (Z * Z);    (** products_wishlists (product_id, user_id) *)
  orders_carts : gset (Z * Z); (** orders_carts (order_id, product_id) *)
  next_order_id : Z;           (** AUTO_INCREMENT counters *)
  next_detail_id : Z;
  next_billing_id : Z;
  next_activity_id : Z;
  reviews : gmap Z review;     (** products_reviews, with its counter *)
  next_review_id : Z;
  authentications : gmap Z authentication;
  next_user_id : Z;
  next_auth_id : Z;
  brands : gmap Z brand;
  categories : gmap Z category;
  products_categories : gset (Z * Z); (** products_categories (product_id, category_id) *)
  newsletters : gmap Z newsletter;
  next_newsletter_id : Z;
  colours : gmap Z colour;
  sizes : gmap Z product_size;
  products_images : gmap Z image;
  next_product_id : Z;         (** the counters of the tables the seeder fills *)
  next_inventory_id : Z;
  next_payment_id : Z;
  next_setting_id : Z;
  next_brand_id : Z;
  next_category_id : Z;
  next_colour_id : Z;
  next_size_id : Z;
  next_image_id : Z
}.

(** Functional updates of one table. *)
Definition set_products (f : gmap Z product -> gmap Z product) (d : db) : db :=
  mk_db (users d) (f (products d)) (inventories d) (payments d) (settings d)
    (orders d) (details d) (billings d) (activities d) (wishlists d) (orders_carts d)
    (next_order_id d) (next_detail_id d) (next_billing_id d) (next_activity_id d) (reviews d) (next_review_id d)
    (authentications d) (next_user_id d) (next_auth_id d) (brands d) (categories d)
    (products_categories d) (newsletters d) (next_newsletter_id d)
    (colours d) (sizes d) (products_images d)
    (next_product_id d) (next_inventory_id d) (next_payment_id d) (next_setting_id d) (next_brand_id d)
    (next_category_id d) (next_colour_id d) (next_size_id d) (next_image_id d).

Definition set_inventories (f : gmap Z inventory -> gmap Z inventory) (d : db) : db :=
  mk_db (users d) (products d) (f (inventories d)) (payments d) (settings d)
    (orders d) (details d) (billings d) (activities d) (wishlists d) (orders_carts d)
    (next_order_id d) (next_detail_id d) (next_billing_id d) (next_activity_id d) (reviews d) (next_review_id d)
    (authentications d) (next_user_id d) (next_auth_id d) (brands d) (categories d)
    (products_categories d) (newsletters d) (next_newsletter_id d)
    (colours d) (sizes d) (products_images d)
    (next_product_id d) (next_inventory_id d) (next_payment_id d) (next_setting_id d) (next_brand_id d)
    (next_category_id d) (next_colour_id d) (next_size_id d) (next_image_id d).

Definition set_orders (f : gmap Z order -> gmap Z order) (d : db) : db :=
  mk_db (users d) (products d) (inventories d) (payments d) (settings d)
    (f (orders d)) (details d) (billings d) (activities d) (wishlists d) (orders_carts d)
    (next_order_id d) (next_detail_id d) (next_billing_id d) (next_activity_id d) (reviews d) (next_review_id d)
    (authentications d) (next_user_id d) (next_auth_id d) (brands d) (categories d)
    (products_categories d) (newsletters d) (next_newsletter_id d)
    (colours d) (sizes d) (products_images d)
    (next_product_id d) (next_inventory_id d) (next_payment_id d) (next_setting_id d) (next_brand_id d)
    (next_category_id d) (next_colour_id d) (next_size_id d) (next_image_id d).

Definition set_details (f : gmap Z order_detail -> gmap Z order_detail) (d : db) : db :=
  mk_db (users d) (products d) (inventories d) (payments d) (settings d)
    (orders d) (f (details d)) (billings d) (activities d) (wishlists d) (orders_carts d)
    (next_order_id d) (next_detail_id d) (next_billing_id d) (next_activity_id d) (reviews d) (next_review_id d)
    (authentications d) (next_user_id d) (next_auth_id d) (brands d) (categories d)
    (products_categories d) (newsletters d) (next_newsletter_id d)
    (colours d) (sizes d) (products_images d)
    (next_product_id d) (next_inventory_id d) (next_payment_id d) (next_setting_id d) (next_brand_id d)
    (next_category_id d) (next_colour_id d) (next_size_id d) (next_image_id d).

Definition set_billings (f : gmap Z order_billing -> gmap Z order_billing) (d : db) : db :=
  mk_db (users d) (products d) (inventories d) (payments d) (settings d)
    (orders d) (details d) (f (billings d)) (activities d) (wishlists d) (orders_carts d)
    (next_order_id d) (next_detail_id d) (next_billing_id d) (next_activity_id d) (reviews d) (next_review_id d)
    (authentications d) (next_user_id d) (next_auth_id d) (brands d) (categories d)
    (products_categories d) (newsletters d) (next_newsletter_id d)
    (colours d) (sizes d) (products_images d)
    (next_product_id d) (next_inventory_id d) (next_payment_id d) (next_setting_id d) (next_brand_id d)
    (next_category_id d) (next_colour_id d) (next_size_id d) (next_image_id d).

Definition set_wishlists (f : gset (Z * Z) -> gset (Z * Z)) (d : db) : db :=
  mk_db (users d) (products d) (inventories d) (payments d) (settings d)
    (orders d) (details d) (billings d) (activities d) (f (wishlists d)) (orders_carts d)
    (next_order_id d) (next_detail_id d) (next_billing_id d) (next_activity_id d) (reviews d) (next_review_id d)
    (authentications d) (next_user_id d) (next_auth_id d) (brands d) (categories d)
    (products_categories d) (newsletters d) (next_newsletter_id d)
    (colours d) (sizes d) (products_images d)
    (next_product_id d) (next_inventory_id d) (next_payment_id d) (next_setting_id d) (next_brand_id d)
    (next_category_id d) (next_colour_id d) (next_size_id d) (next_image_id d).

Definition set_orders_carts (f : gset (Z * Z) -> gset (Z * Z)) (d : db) : db :=
  mk_db (users d) (products d) (inventories d) (payments d) (settings d)
    (orders d) (details d) (billings d) (activities d) (wishlists d) (f (orders_carts d))
    (next_order_id d) (next_detail_id d) (next_billing_id d) (next_activity_id d) (reviews d) (next_review_id d)
    (authentications d) (next_user_id d) (next_auth_id d) (brands d) (categories d)
    (products_categories d) (newsletters d) (next_newsletter_id d)
    (colours d) (sizes d) (products_images d)
    (next_product_id d) (next_inventory_id d) (next_payment_id d) (next_setting_id d) (next_brand_id d)
    (next_category_id d) (next_colour_id d) (next_size_id d) (next_image_id d).

Definition set_users (f : gmap Z user -> gmap Z user) (d : db) : db :=
  mk_db (f (users d)) (products d) (inventories d) (payments d) (settings d)
    (orders d) (details d) (billings d) (activities d) (wishlists d) (orders_carts d)
    (next_order_id d) (next_detail_id d) (next_billing_id d) (next_activity_id d)
    (reviews d) (next_review_id d) (authentications d) (next_user_id d) (next_auth_id d) (brands d) (categories d)
    (products_categories d) (newsletters d) (next_newsletter_id d)
    (colours d) (sizes d) (products_images d)
    (next_product_id d) (next_inventory_id d) (next_payment_id d) (next_setting_id d) (next_brand_id d)
    (next_category_id d) (next_colour_id d) (next_size_id d) (next_image_id d).

Definition set_authentications (f : gmap Z authentication -> gmap Z authentication) (d : db) : db :=
  mk_db (users d) (products d) (inventories d) (payments d) (settings d)
    (orders d) (details d) (billings d) (activities d) (wishlists d) (orders_carts d)
    (next_order_id d) (next_detail_id d) (next_billing_id d) (next_activity_id d)
    (reviews d) (next_review_id d) (f (authentications d)) (next_user_id d) (next_auth_id d) (brands d) (categories d)
    (products_categories d) (newsletters d) (next_newsletter_id d)
    (colours d) (sizes d) (products_images d)
    (next_product_id d) (next_inventory_id d) (next_payment_id d) (next_setting_id d) (next_brand_id d)
    (next_category_id d) (next_colour_id d) (next_size_id d) (next_image_id d).

(** [db.add(row)] of a new row: the row takes the next AUTO_INCREMENT id. *)
Definition insert_order (o : order) (d : db) : Z * db :=
  let k := next_order_id d in
  (k, mk_db (users d) (products d) (inventories d) (payments d) (settings d)
        (<[k := o]> (orders d)) (details d) (billings d) (activities d)
        (wishlists d) (orders_carts d)
        (k + 1) (next_detail_id d) (next_billing_id d) (next_activity_id d) (reviews d) (next_review_id d)
    (authentications d) (next_user_id d) (next_auth_id d) (brands d) (categories d)
    (products_categories d) (newsletters d) (next_newsletter_id d)
    (colours d) (sizes d) (products_images d)
    (next_product_id d) (next_inventory_id d) (next_payment_id d) (next_setting_id d) (next_brand_id d)
    (next_category_id d) (next_colour_id d) (next_size_id d) (next_image_id d)).

Definition insert_detail (r : order_detail) (d : db) : Z * db :=
  let k := next_detail_id d in
  (k, mk_db (users d) (products d) (inventories d) (payments d) (settings d)
        (orders d) (<[k := r]> (details d)) (billings d) (activities d)
        (wishlists d) (orders_carts d)
        (next_order_id d) (k + 1) (next_billing_id d) (next_activity_id d) (reviews d) (next_review_id d)
    (authentications d) (next_user_id d) (next_auth_id d) (brands d) (categories d)
    (products_categories d) (newsletters d) (next_newsletter_id d)
    (colours d) (sizes d) (products_images d)
    (next_product_id d) (next_inventory_id d) (next_payment_id d) (next_setting_id d) (next_brand_id d)
    (next_category_id d) (next_colour_id d) (next_size_id d) (next_image_id d)).

Definition insert_billing (r : order_billing) (d : db) : db :=
  let k := next_billing_id d in
  mk_db (users d) (products d) (inventories d) (payments d) (settings d)
    (orders d) (details d) (<[k := r]> (billings d)) (activities d)
    (wishlists d) (orders_carts d)
    (next_order_id d) (next_detail_id d) (k + 1) (next_activity_id d) (reviews d) (next_review_id d)
    (authentications d) (next_user_id d) (next_auth_id d) (brands d) (categories d)
    (products_categories d) (newsletters d) (next_newsletter_id d)
    (colours d) (sizes d) (products_images d)
    (next_product_id d) (next_inventory_id d) (next_payment_id d) (next_setting_id d) (next_brand_id d)
    (next_category_id d) (next_colour_id d) (next_size_id d) (next_image_id d).

Definition insert_activity (r : activity) (d : db) : db :=
  let k := next_activity_id d in
  mk_db (users d) (products d) (inventories d) (payments d) (settings d)
    (orders d) (details d) (billings d) (<[k := r]> (activities d))
    (wishlists d) (orders_carts d)
    (next_order_id d) (next_detail_id d) (next_billing_id d) (k + 1) (reviews d) (next_review_id d)
    (authentications d) (next_user_id d) (next_auth_id d) (brands d) (categories d)
    (products_categories d) (newsletters d) (next_newsletter_id d)
    (colours d) (sizes d) (products_images d)
    (next_product_id d) (next_inventory_id d) (next_payment_id d) (next_setting_id d) (next_brand_id d)
    (next_category_id d) (next_colour_id d) (next_size_id d) (next_image_id d).

Definition insert_review (r : review) (d : db) : Z * db :=
  let k := next_review_id d in
  (k, mk_db (users d) (products d) (inventories d) (payments d) (settings d)
        (orders d) (details d) (billings d) (activities d) (wishlists d) (orders_carts d)
        (next_order_id d) (next_detail_id d) (next_billing_id d) (next_activity_id d)
        (<[k := r]> (reviews d)) (k + 1) (authentications d) (next_user_id d) (next_auth_id d) (brands d) (categories d)
    (products_categories d) (newsletters d) (next_newsletter_id d)
    (colours d) (sizes d) (products_images d)
    (next_product_id d) (next_inventory_id d) (next_payment_id d) (next_setting_id d) (next_brand_id d)
    (next_category_id d) (next_colour_id d) (next_size_id d) (next_image_id d)).

Lemma insert_order_key o d : (insert_order o d).1 = next_order_id d.
Proof. reflexivity. Qed.

Definition insert_user (u : user) (d : db) : Z * db :=
  let k := next_user_id d in
  (k, mk_db (<[k := u]> (users d)) (products d) (inventories d) (payments d) (settings d)
        (orders d) (details d) (billings d) (activities d) (wishlists d) (orders_carts d)
        (next_order_id d) (next_detail_id d) (next_billing_id d) (next_activity_id d)
        (reviews d) (next_review_id d) (authentications d) (k + 1) (next_auth_id d) (brands d) (categories d)
    (products_categories d) (newsletters d) (next_newsletter_id d)
    (colours d) (sizes d) (products_images d)
    (next_product_id d) (next_inventory_id d) (next_payment_id d) (next_setting_id d) (next_brand_id d)
    (next_category_id d) (next_colour_id d) (next_size_id d) (next_image_id d)).

Definition insert_auth (a : authentication) (d : db) : Z * db :=
  let k := next_auth_id d in
  (k, mk_db (users d) (products d) (inventories d) (payments d) (settings d)
        (orders d) (details d) (billings d) (activities d) (wishlists d) (orders_carts d)
        (next_order_id d) (next_detail_id d) (next_billing_id d) (next_activity_id d)
        (reviews d) (next_review_id d) (<[k := a]> (authentications d)) (next_user_id d) (k + 1) (brands d) (categories d)
    (products_categories d) (newsletters d) (next_newsletter_id d)
    (colours d) (sizes d) (products_images d)
    (next_product_id d) (next_inventory_id d) (next_payment_id d) (next_setting_id d) (next_brand_id d)
    (next_category_id d) (next_colour_id d) (next_size_id d) (next_image_id d)).

Definition insert_newsletter (n : newsletter) (d : db) : Z * db :=
  let k := next_newsletter_id d in
  (k, mk_db (users d) (products d) (inventories d) (payments d) (settings d)
        (orders d) (details d) (billings d) (activities d) (wishlists d) (orders_carts d)
        (next_order_id d) (next_detail_id d) (next_billing_id d) (next_activity_id d)
        (reviews d) (next_review_id d) (authentications d) (next_user_id d) (next_auth_id d)
        (brands d) (categories d) (products_categories d) (<[k := n]> (newsletters d)) (k + 1)
    (colours d) (sizes d) (products_images d)
    (next_product_id d) (next_inventory_id d) (next_payment_id d) (next_setting_id d) (next_brand_id d)
    (next_category_id d) (next_colour_id d) (next_size_id d) (next_image_id d)).

(** The inserts of the seeder ([Seed]): each row takes its table's next
    AUTO_INCREMENT id. *)

Definition insert_product (p : product) (d : db) : Z * db :=
  let k := next_product_id d in
  (k, mk_db (users d) (<[k := p]> (products d)) (inventories d) (payments d) (settings d)
         (orders d) (details d) (billings d) (activities d) (wishlists d) (orders_carts d)
         (next_order_id d) (next_detail_id d) (next_billing_id d) (next_activity_id d)
         (reviews d) (next_review_id d) (authentications d) (next_user_id d) (next_auth_id d)
         (brands d) (categories d) (products_categories d) (newsletters d)
         (next_newsletter_id d) (colours d) (sizes d) (products_images d) (k + 1)
         (next_inventory_id d) (next_payment_id d) (next_setting_id d) (next_brand_id d)
         (next_category_id d) (next_colour_id d) (next_size_id d) (next_image_id d)).

Definition insert_inventory (i : inventory) (d : db) : Z * db :=
  let k := next_inventory_id d in
  (k, mk_db (users d) (products d) (<[k := i]> (inventories d)) (payments d) (settings d)
         (orders d) (details d) (billings d) (activities d) (wishlists d) (orders_carts d)
         (next_order_id d) (next_detail_id d) (next_billing_id d) (next_activity_id d)
         (reviews d) (next_review_id d) (authentications d) (next_user_id d) (next_auth_id d)
         (brands d) (categories d) (products_categories d) (newsletters d)
         (next_newsletter_id d) (colours d) (sizes d) (products_images d) (next_product_id d)
         (k + 1) (next_payment_id d) (next_setting_id d) (next_brand_id d) (next_category_id d)
         (next_colour_id d) (next_size_id d) (next_image_id d)).

Definition insert_payment (p : payment) (d : db) : Z * db :=
  let k := next_payment_id d in
  (k, mk_db (users d) (products d) (inventories d) (<[k := p]> (payments d)) (settings d)
         (orders d) (details d) (billings d) (activities d) (wishlists d) (orders_carts d)
         (next_order_id d) (next_detail_id d) (next_billing_id d) (next_activity_id d)
         (reviews d) (next_review_id d) (authentications d) (next_user_id d) (next_auth_id d)
         (brands d) (categories d) (products_categories d) (newsletters d)
         (next_newsletter_id d) (colours d) (sizes d) (products_images d) (next_product_id d)
         (next_inventory_id d) (k + 1) (next_setting_id d) (next_brand_id d)
         (next_category_id d) (next_colour_id d) (next_size_id d) (next_image_id d)).

Definition insert_setting (st : setting) (d : db) : Z * db :=
  let k := next_setting_id d in
  (k, mk_db (users d) (products d) (inventories d) (payments d) (<[k := st]> (settings d))
         (orders d) (details d) (billings d) (activities d) (wishlists d) (orders_carts d)
         (next_order_id d) (next_detail_id d) (next_billing_id d) (next_activity_id d)
         (reviews d) (next_review_id d) (authentications d) (next_user_id d) (next_auth_id d)
         (brands d) (categories d) (products_categories d) (newsletters d)
         (next_newsletter_id d) (colours d) (sizes d) (products_images d) (next_product_id d)
         (next_inventory_id d) (next_payment_id d) (k + 1) (next_brand_id d)
         (next_category_id d) (next_colour_id d) (next_size_id d) (next_image_id d)).

Definition insert_brand (b : brand) (d : db) : Z * db :=
  let k := next_brand_id d in
  (k, mk_db (users d) (products d) (inventories d) (payments d) (settings d) (orders d)
         (details d) (billings d) (activities d) (wishlists d) (orders_carts d)
         (next_order_id d) (next_detail_id d) (next_billing_id d) (next_activity_id d)
         (reviews d) (next_review_id d) (authentications d) (next_user_id d) (next_auth_id d)
         (<[k := b]> (brands d)) (categories d) (products_categories d) (newsletters d)
         (next_newsletter_id d) (colours d) (sizes d) (products_images d) (next_product_id d)
         (next_inventory_id d) (next_payment_id d) (next_setting_id d) (k + 1)
         (next_category_id d) (next_colour_id d) (next_size_id d) (next_image_id d)).

Definition insert_category (c : category) (d : db) : Z * db :=
  let k := next_category_id d in
  (k, mk_db (users d) (products d) (inventories d) (payments d) (settings d) (orders d)
         (details d) (billings d) (activities d) (wishlists d) (orders_carts d)
         (next_order_id d) (next_detail_id d) (next_billing_id d) (next_activity_id d)
         (reviews d) (next_review_id d) (authentications d) (next_user_id d) (next_auth_id d)
         (brands d) (<[k := c]> (categories d)) (products_categories d) (newsletters d)
         (next_newsletter_id d) (colours d) (sizes d) (products_images d) (next_product_id d)
         (next_inventory_id d) (next_payment_id d) (next_setting_id d) (next_brand_id d) (k + 1)
         (next_colour_id d) (next_size_id d) (next_image_id d)).

Definition insert_colour (c : colour) (d : db) : Z * db :=
  let k := next_colour_id d in
  (k, mk_db (users d) (products d) (inventories d) (payments d) (settings d) (orders d)
         (details d) (billings d) (activities d) (wishlists d) (orders_carts d)
         (next_order_id d) (next_detail_id d) (next_billing_id d) (next_activity_id d)
         (reviews d) (next_review_id d) (authentications d) (next_user_id d) (next_auth_id d)
         (brands d) (categories d) (products_categories d) (newsletters d)
         (next_newsletter_id d) (<[k := c]> (colours d)) (sizes d) (products_images d)
         (next_product_id d) (next_inventory_id d) (next_payment_id d) (next_setting_id d)
         (next_brand_id d) (next_category_id d) (k + 1) (next_size_id d) (next_image_id d)).

Definition insert_size (z : product_size) (d : db) : Z * db :=
  let k := next_size_id d in
  (k, mk_db (users d) (products d) (inventories d) (payments d) (settings d) (orders d)
         (details d) (billings d) (activities d) (wishlists d) (orders_carts d)
         (next_order_id d) (next_detail_id d) (next_billing_id d) (next_activity_id d)
         (reviews d) (next_review_id d) (authentications d) (next_user_id d) (next_auth_id d)
         (brands d) (categories d) (products_categories d) (newsletters d)
         (next_newsletter_id d) (colours d) (<[k := z]> (sizes d)) (products_images d)
         (next_product_id d) (next_inventory_id d) (next_payment_id d) (next_setting_id d)
         (next_brand_id d) (next_category_id d) (next_colour_id d) (k + 1) (next_image_id d)).

Definition insert_image (i : image) (d : db) : Z * db :=
  let k := next_image_id d in
  (k, mk_db (users d) (products d) (inventories d) (payments d) (settings d) (orders d)
         (details d) (billings d) (activities d) (wishlists d) (orders_carts d)
         (next_order_id d) (next_detail_id d) (next_billing_id d) (next_activity_id d)
         (reviews d) (next_review_id d) (authentications d) (next_user_id d) (next_auth_id d)
         (brands d) (categories d) (products_categories d) (newsletters d)
         (next_newsletter_id d) (colours d) (sizes d) (<[k := i]> (products_images d))
         (next_product_id d) (next_inventory_id d) (next_payment_id d) (next_setting_id d)
         (next_brand_id d) (next_category_id d) (next_colour_id d) (next_size_id d) (k + 1)).

Definition set_products_categories (f : gset (Z * Z) -> gset (Z * Z)) (d : db) : db :=
  mk_db (users d) (products d) (inventories d) (payments d) (settings d) (orders d)
         (details d) (billings d) (activities d) (wishlists d) (orders_carts d)
         (next_order_id d) (next_detail_id d) (next_billing_id d) (next_activity_id d)
         (reviews d) (next_review_id d) (authentications d) (next_user_id d) (next_auth_id d)
         (brands d) (categories d) (f (products_categories d)) (newsletters d)
         (next_newsletter_id d) (colours d) (sizes d) (products_images d) (next_product_id d)
         (next_inventory_id d) (next_payment_id d) (next_setting_id d) (next_brand_id d)
         (next_category_id d) (next_colour_id d) (next_size_id d) (next_image_id d).

Lemma insert_product_key p d : (insert_product p d).1 = next_product_id d.
Proof. reflexivity. Qed.

Lemma insert_inventory_key i d : (insert_inventory i d).1 = next_inventory_id d.
Proof. reflexivity. Qed.

Lemma insert_payment_key p d : (insert_payment p d).1 = next_payment_id d.
Proof. reflexivity. Qed.

Lemma insert_setting_key st d : (insert_setting st d).1 = next_setting_id d.
Proof. reflexivity. Qed.

Lemma insert_brand_key b d : (insert_brand b d).1 = next_brand_id d.
Proof. reflexivity. Qed.

Lemma insert_category_key c d : (insert_category c d).1 = next_category_id d.
Proof. reflexivity. Qed.

Lemma insert_colour_key c d : (insert_colour c d).1 = next_colour_id d.
Proof. reflexivity. Qed.

Lemma insert_size_key z d : (insert_size z d).1 = next_size_id d.
Proof. reflexivity. Qed.

Lemma insert_image_key i d : (insert_image i d).1 = next_image_id d.
Proof. reflexivity. Qed.

Lemma insert_user_key u d : (insert_user u d).1 = next_user_id d.
Proof. reflexivity. Qed.

Lemma insert_auth_key a d : (insert_auth a d).1 = next_auth_id d.
Proof. reflexivity. Qed.

Lemma insert_review_key r d : (insert_review r d).1 = next_review_id d.
Proof. reflexivity. Qed.

Lemma insert_detail_key r d : (insert_detail r d).1 = next_detail_id d.
Proof. reflexivity. Qed.

(** ** What the database accepts *)

(** Every row of a table satisfies [P]. *)
Definition table_ok {V} (P : Z -> V -> bool) (m : gmap Z V) : bool :=
  forallb (fun kv => P kv.1 kv.2) (map_to_list m).

Definition fk {V} (m : gmap Z V) (k : Z) : bool := bool_decide (is_Some (m !! k)).

Definition fk_opt {V} (m : gmap Z V) (k : option Z) : bool :=
  match k with Some k => fk m k | None => true end.

Definition product_brand_ok (d : db) (p : product) : bool := fk_opt (brands d) (product_brand_id p).

Definition brand_ok (b : brand) : bool := uint8_ok (brand_status b).

Definition category_ok (c : category) : bool :=
  uint8_ok (category_displayed c) && uint8_ok (category_status c).

Definition newsletter_ok (n : newsletter) : bool := uint8_ok (newsletter_status n).

Definition colour_ok (c : colour) : bool := uint8_ok (colour_status c).

Definition size_ok (z : product_size) : bool := uint8_ok (size_status z).

Definition image_ok (d : db) (i : image) : bool :=
  fk_opt (products d) (image_product_id i) && uint32_ok (image_sort i) && uint8_ok (image_status i).

Definition product_ok (p : product) : bool :=
  numeric_18_4_ok (product_price p) && uint32_ok (product_total_order p)
  && uint32_ok (product_total_rating p) && uint8_ok (product_status p).

Definition inventory_ok (d : db) (i : inventory) : bool :=
  fk (products d) (inv_product_id i) && fk (sizes d) (inv_size_id i) && fk (colours d) (inv_colour_id i)
  && uint32_ok (inv_stock i) && uint8_ok (inv_status i).

Definition order_ok (d : db) (o : order) : bool :=
  fk (users d) (order_user_id o) && fk_opt (payments d) (order_payment_id o)
  && match total_item o with Some n => uint32_ok n | None => true end
  && numeric_18_4_ok (subtotal o) && numeric_18_4_ok (total_discount o)
  && numeric_18_4_ok (total_taxes o) && numeric_18_4_ok (total_shipment o)
  && numeric_18_4_ok (total_paid o) && uint8_ok (order_status o).

Definition detail_ok (d : db) (r : order_detail) : bool :=
  fk (orders d) (detail_order_id r) && fk (inventories d) (detail_inventory_id r)
  && numeric_18_4_ok (detail_price r) && uint32_ok (detail_qty r)
  && numeric_18_4_ok (detail_total r).

Definition billing_ok (d : db) (r : order_billing) : bool :=
  fk (orders d) (billing_order_id r)
  && match billing_description r with Some _ => true | None => false end.

Definition activity_ok (d : db) (a : activity) : bool := fk_opt (users d) (activity_user_id a).

Definition auth_ok (d : db) (a : authentication) : bool :=
  fk_opt (users d) (auth_user_id a) && uint8_ok (auth_status a).

Fixpoint drop_spaces (s : string) : string :=
  match s with
  | String c rest => if Ascii.eqb c " " then drop_spaces rest else s
  | EmptyString => EmptyString
  end.

(** String equality under the tables' default collation (case-insensitive,
    trailing spaces ignored): how MySQL compares [Column == value] on a
    string column and how it checks a UNIQUE string index. *)
Definition collate_eq (a b : string) : bool :=
  String.eqb (lower (string_rev (drop_spaces (string_rev a))))
             (lower (string_rev (drop_spaces (string_rev b)))).

(** Two users that the UNIQUE indexes on [users.email] and [users.phone]
    do not allow side by side. *)
Definition users_clash (u1 u2 : user) : bool :=
  collate_eq (user_email u1) (user_email u2)
  || match user_phone u1, user_phone u2 with
     | Some p1, Some p2 => collate_eq p1 p2
     | _, _ => false
     end.

Definition review_ok (d : db) (r : review) : bool :=
  fk (products d) (review_product_id r) && fk (users d) (review_user_id r)
  && uint32_ok (review_rating r).

Definition db_ok (d : db) : bool :=
  table_ok (fun _ => product_ok) (products d)
  && table_ok (fun _ => inventory_ok d) (inventories d)
  && table_ok (fun _ => order_ok d) (orders d)
  && table_ok (fun _ => detail_ok d) (details d)
  && table_ok (fun _ => billing_ok d) (billings d)
  && table_ok (fun _ => activity_ok d) (activities d)
  && bool_decide (set_Forall (fun pu => is_Some (products d !! pu.1) /\ is_Some (users d !! pu.2))
                    (wishlists d))
  && bool_decide (set_Forall (fun op => is_Some (orders d !! op.1) /\ is_Some (products d !! op.2))
                    (orders_carts d))
  && table_ok (fun _ => review_ok d) (reviews d)
  && table_ok (fun _ => auth_ok d) (authentications d)
  && bool_decide (map_Forall (fun k1 u1 => map_Forall (fun k2 u2 =>
                   users_clash u1 u2 = true -> k1 = k2) (users d)) (users d))
  && table_ok (fun _ => product_brand_ok d) (products d)
  && table_ok (fun _ => brand_ok) (brands d)
  && table_ok (fun _ => category_ok) (categories d)
  && bool_decide (set_Forall (fun pc => is_Some (products d !! pc.1) /\ is_Some (categories d !! pc.2))
                    (products_categories d))
  && table_ok (fun _ => newsletter_ok) (newsletters d)
  && table_ok (fun _ => colour_ok) (colours d)
  && table_ok (fun _ => size_ok) (sizes d)
  && table_ok (fun _ => image_ok d) (products_images d).

(** ** Lemmas *)

Lemma table_ok_spec {V} (P : Z -> V -> bool) (m : gmap Z V) :
  table_ok P m = true <-> forall k v, m !! k = Some v -> P k v = true.
Proof.
  unfold table_ok. rewrite forallb_forall. split.
  - intros H k v Hk. apply (H (k, v)), list_elem_of_In, elem_of_map_to_list, Hk.
  - intros H [k v] Hin. apply H, elem_of_map_to_list, list_elem_of_In, Hin.
Qed.

Lemma fk_spec {V} (m : gmap Z V) k : fk m k = true <-> is_Some (m !! k).
Proof. unfold fk. apply bool_decide_eq_true. Qed.

Lemma fk_insert {V} (m : gmap Z V) k v j : fk m j = true -> fk (<[k := v]> m) j = true.
Proof.
  rewrite !fk_spec. intros [x Hx]. destruct (decide (k = j)) as [->|Hne].
  - rewrite lookup_insert_eq. eauto.
  - rewrite lookup_insert_ne by done. eauto.
Qed.

Lemma fk_insert_self {V} (m : gmap Z V) k v : fk (<[k := v]> m) k = true.
Proof. apply fk_spec. rewrite lookup_insert_eq. eauto. Qed.

Lemma fk_opt_insert {V} (m : gmap Z V) k v j :
  fk_opt m j = true -> fk_opt (<[k := v]> m) j = true.
Proof. destruct j; simpl; [apply fk_insert|done]. Qed.

Lemma fk_of_lookup {V} (m : gmap Z V) k v : m !! k = Some v -> fk m k = true.
Proof. rewrite fk_spec. eauto. Qed.

#[export] Hint Resolve fk_insert fk_insert_self fk_opt_insert fk_of_lookup : store.

(** Splits a conjunction of boolean checks in the goal, and in a hypothesis. *)
Ltac split_andb :=
  repeat match goal with
         | |- (_ && _) = true => apply andb_true_iff; split
         end.

Ltac destruct_andb H :=
  repeat match type of H with
         | (_ && _) = true => apply andb_true_iff in H as [H ?]
         end.

(** Closes a conjunction of column checks: foreign keys from the
    hypotheses, ranges by [lia]. *)
Ltac columns_ok :=
  unfold numeric_18_4_ok, uint32_ok, uint8_ok, uint64_ok, fk_opt in *;
  repeat match goal with
         | |- (_ && _) = true => apply andb_true_iff; split
         end;
  first [ reflexivity | solve [eauto with store]
        | rewrite ?Z.leb_le, ?Z.ltb_lt; lia ].

(** The Prop form of [db_ok]. *)
Record db_wf (d : db) : Prop := {
  wf_products : forall k p, products d !! k = Some p -> product_ok p = true;
  wf_inventories : forall k i, inventories d !! k = Some i -> inventory_ok d i = true;
  wf_orders : forall k o, orders d !! k = Some o -> order_ok d o = true;
  wf_details : forall k r, details d !! k = Some r -> detail_ok d r = true;
  wf_billings : forall k r, billings d !! k = Some r -> billing_ok d r = true;
  wf_activities : forall k a, activities d !! k = Some a -> activity_ok d a = true;
  wf_wishlists : set_Forall (fun pu => is_Some (products d !! pu.1) /\ is_Some (users d !! pu.2))
                   (wishlists d);
  wf_orders_carts : set_Forall (fun op => is_Some (orders d !! op.1) /\ is_Some (products d !! op.2))
                      (orders_carts d);
  wf_reviews : forall k r, reviews d !! k = Some r -> review_ok d r = true;
  wf_auths : forall k a, authentications d !! k = Some a -> auth_ok d a = true;
  wf_users_unique : forall k1 u1 k2 u2, users d !! k1 = Some u1 -> users d !! k2 = Some u2 ->
                      users_clash u1 u2 = true -> k1 = k2;
  wf_product_brands : forall k p, products d !! k = Some p -> product_brand_ok d p = true;
  wf_brands : forall k b, brands d !! k = Some b -> brand_ok b = true;
  wf_categories : forall k c, categories d !! k = Some c -> category_ok c = true;
  wf_products_categories :
    set_Forall (fun pc => is_Some (products d !! pc.1) /\ is_Some (categories d !! pc.2))
      (products_categories d);
  wf_newsletters : forall k n, newsletters d !! k = Some n -> newsletter_ok n = true;
  wf_colours : forall k c, colours d !! k = Some c -> colour_ok c = true;
  wf_sizes : forall k z, sizes d !! k = Some z -> size_ok z = true;
  wf_images : forall k i, products_images d !! k = Some i -> image_ok d i = true
}.

Lemma db_ok_wf d : db_ok d = true <-> db_wf d.
Proof.
  unfold db_ok. rewrite !andb_true_iff, !table_ok_spec, !bool_decide_eq_true.
  unfold map_Forall. split.
  - intros [[[[[[[[[[[[[[[[[[? ?] ?] ?] ?] ?] ?] ?] ?] ?] ?] ?] ?] ?] ?] ?] ?] ?] ?]. constructor; eauto.
  - intros []. naive_solver.
Qed.

Lemma is_Some_insert {V} (m : gmap Z V) k v j : is_Some (m !! j) -> is_Some (<[k := v]> m !! j).
Proof. rewrite <-!fk_spec. apply fk_insert. Qed.

#[export] Hint Resolve is_Some_insert : store.

(** Unfolds the row predicates into conjunctions of column checks. *)
Ltac row_ok_crush :=
  unfold inventory_ok, order_ok, detail_ok, billing_ok, activity_ok in *; simpl in *;
  repeat match goal with
         | H : (_ && _) = true |- _ => apply andb_true_iff in H as [? ?]
         | |- (_ && _) = true => apply andb_true_iff; split
         end;
  eauto with store.

(** The common proof of the lemmas below: the new row is acceptable, the
    other rows are unchanged, and every foreign key still resolves. *)
Ltac wf_update Hnew :=
  let j := fresh "j" in let x := fresh "x" in let Hx := fresh "Hx" in
  intros [] Hnew; constructor; simpl; eauto;
  try (intros j x; rewrite lookup_insert; case_decide; [intros [= <-]; exact Hnew|eauto]);
  try (intros j x Hx;
       match goal with
       | H : forall k r, details _ !! k = Some r -> _ |- detail_ok _ _ = true =>
           specialize (H j x Hx); row_ok_crush
       | H : forall k r, billings _ !! k = Some r -> _ |- billing_ok _ _ = true =>
           specialize (H j x Hx); row_ok_crush
       end);
  try (intros x Hx;
       match goal with
       | H : set_Forall _ (orders_carts _) |- _ => destruct (H x Hx); split; eauto with store
       end).

(** Inserting or replacing a row of [orders] keeps the store acceptable. *)
Lemma db_wf_set_order d k o :
  db_wf d -> order_ok d o = true -> db_wf (set_orders (<[k := o]>) d).
Proof. wf_update Ho. Qed.

Lemma db_wf_insert_order d o :
  db_wf d -> order_ok d o = true -> db_wf (insert_order o d).2.
Proof. wf_update Ho. Qed.

(** Inserting or replacing a row of [details]. *)
Lemma db_wf_set_detail d k r :
  db_wf d -> detail_ok d r = true -> db_wf (set_details (<[k := r]>) d).
Proof. wf_update Hr. Qed.

Lemma db_wf_insert_detail d r :
  db_wf d -> detail_ok d r = true -> db_wf (insert_detail r d).2.
Proof. wf_update Hr. Qed.

Lemma db_wf_insert_activity d a :
  db_wf d -> activity_ok d a = true -> db_wf (insert_activity a d).
Proof. wf_update Ha. Qed.

Lemma db_wf_insert_review d r :
  db_wf d -> review_ok d r = true -> db_wf (insert_review r d).2.
Proof. wf_update Hr. Qed.

Lemma collate_eq_sym a b : collate_eq a b = collate_eq b a.
Proof. unfold collate_eq. apply String.eqb_sym. Qed.

Lemma collate_eq_refl a : collate_eq a a = true.
Proof. apply String.eqb_refl. Qed.

Lemma users_clash_sym u1 u2 : users_clash u1 u2 = users_clash u2 u1.
Proof.
  unfold users_clash. f_equal; [apply collate_eq_sym|].
  destruct (user_phone u1), (user_phone u2); [apply collate_eq_sym|done..].
Qed.

Lemma fk_opt_mono {V W} (m : gmap Z V) (m' : gmap Z W) j :
  (forall k, fk m k = true -> fk m' k = true) -> fk_opt m j = true -> fk_opt m' j = true.
Proof. destruct j; simpl; auto. Qed.

(** A new table of users that keeps every key of the old one and no two
    clashing users keeps the store acceptable: only the foreign keys into
    [users] and the UNIQUE indexes read it. *)
Lemma db_wf_users d (f : gmap Z user -> gmap Z user) :
  db_wf d ->
  (forall k, fk (users d) k = true -> fk (f (users d)) k = true) ->
  (forall k1 u1 k2 u2, f (users d) !! k1 = Some u1 -> f (users d) !! k2 = Some u2 ->
     users_clash u1 u2 = true -> k1 = k2) ->
  db_wf (set_users f d).
Proof.
  intros [Hp Hi Ho Hd Hb Ha Hw Hc Hr Hau Hu] Hmono Huniq.
  assert (Hmono' : forall j, fk_opt (users d) j = true -> fk_opt (f (users d)) j = true)
    by (intros j; by apply fk_opt_mono).
  constructor; simpl; auto;
    unfold inventory_ok, order_ok, detail_ok, billing_ok, activity_ok, review_ok, auth_ok in *;
    simpl in *.
  - intros k o Hk. specialize (Ho k o Hk). destruct_andb Ho. split_andb; auto.
  - intros k a Hk. apply Hmono', (Ha k a Hk).
  - intros x Hx. destruct (Hw x Hx) as [? Hx']. split; [done|]. by apply fk_spec, Hmono, fk_spec.
  - intros k r Hk. specialize (Hr k r Hk). destruct_andb Hr. split_andb; auto.
  - intros k a Hk. specialize (Hau k a Hk). destruct_andb Hau. split_andb; auto.
Qed.

Lemma db_wf_insert_user d u :
  db_wf d -> users d !! next_user_id d = None ->
  (forall k v, users d !! k = Some v -> users_clash u v = false) ->
  db_wf (insert_user u d).2.
Proof.
  intros Hwf Hfresh Hnc. change (insert_user u d).2 with
    (mk_db (<[next_user_id d := u]> (users d)) (products d) (inventories d) (payments d)
       (settings d) (orders d) (details d) (billings d) (activities d) (wishlists d)
       (orders_carts d) (next_order_id d) (next_detail_id d) (next_billing_id d)
       (next_activity_id d) (reviews d) (next_review_id d) (authentications d)
       (next_user_id d + 1) (next_auth_id d) (brands d) (categories d)
    (products_categories d) (newsletters d) (next_newsletter_id d)
    (colours d) (sizes d) (products_images d)
    (next_product_id d) (next_inventory_id d) (next_payment_id d) (next_setting_id d) (next_brand_id d)
    (next_category_id d) (next_colour_id d) (next_size_id d) (next_image_id d)).
  pose proof (db_wf_users d (<[next_user_id d := u]>) Hwf) as H.
  destruct H as [Hp Hi Ho Hd Hb Ha Hw Hc Hr Hau Hu]; [eauto with store| |constructor; auto].
  intros k1 u1 k2 u2 Hk1 Hk2 Hcl.
  apply lookup_insert_Some in Hk1 as [[<- <-]|[Hne1 Hk1]];
    apply lookup_insert_Some in Hk2 as [[<- <-]|[Hne2 Hk2]]; auto.
  - by rewrite (Hnc _ _ Hk2) in Hcl.
  - by rewrite users_clash_sym, (Hnc _ _ Hk1) in Hcl.
  - exact (wf_users_unique _ Hwf _ _ _ _ Hk1 Hk2 Hcl).
Qed.

(** Replacing an existing user by one that clashes with no other user. *)
Lemma db_wf_set_user d k u :
  db_wf d -> is_Some (users d !! k) ->
  (forall j v, users d !! j = Some v -> j <> k -> users_clash u v = false) ->
  db_wf (set_users (<[k := u]>) d).
Proof.
  intros Hwf Hk Hnc. apply db_wf_users; [done|eauto with store|].
  intros k1 u1 k2 u2 Hk1 Hk2 Hcl.
  apply lookup_insert_Some in Hk1 as [[<- <-]|[Hne1 Hk1]];
    apply lookup_insert_Some in Hk2 as [[<- <-]|[Hne2 Hk2]]; auto.
  - by rewrite (Hnc _ _ Hk2) in Hcl.
  - by rewrite users_clash_sym, (Hnc _ _ Hk1) in Hcl.
  - exact (wf_users_unique _ Hwf _ _ _ _ Hk1 Hk2 Hcl).
Qed.

Lemma db_wf_insert_auth d a :
  db_wf d -> auth_ok d a = true -> db_wf (insert_auth a d).2.
Proof. wf_update Ha. Qed.

Lemma db_wf_set_authentications d (f : gmap Z authentication -> gmap Z authentication) :
  db_wf d -> (forall k a, f (authentications d) !! k = Some a -> auth_ok d a = true) ->
  db_wf (set_authentications f d).
Proof. intros [] Hf. constructor; auto. Qed.

(** A stored product price fits its column. *)
Lemma wf_product_price d pid p :
  db_wf d -> products d !! pid = Some p -> Z.abs (product_price p) < 10 ^ 18.
Proof.
  intros Hwf Hp. pose proof (wf_products _ Hwf _ _ Hp) as Hok.
  unfold product_ok, numeric_18_4_ok in Hok.
  repeat apply andb_true_iff in Hok as [Hok _]. by apply Z.ltb_lt.
Qed.

(** A row of [details] refers to an existing order. *)
Lemma wf_detail_order d k r :
  db_wf d -> details d !! k = Some r -> is_Some (orders d !! detail_order_id r).
Proof.
  intros Hwf Hr. pose proof (wf_details _ Hwf _ _ Hr) as Hok. unfold detail_ok in Hok.
  repeat apply andb_true_iff in Hok as [Hok _]. by apply fk_spec.
Qed.

(** Lifts the rows of the other tables to a store with more rows: their
    foreign keys still resolve. *)
Ltac wf_lift :=
  match goal with
  | H : forall k r, ?t ?d0 !! k = Some r -> ?P r = true |- forall k r, ?t ?d0 !! k = Some r -> _ =>
      let j := fresh "j" in let x := fresh "x" in let Hx := fresh "Hx" in
      intros j x Hx; specialize (H j x Hx);
      unfold inventory_ok, order_ok, detail_ok, billing_ok, activity_ok, review_ok, auth_ok,
        product_brand_ok, image_ok in *; simpl in *;
      repeat match goal with
             | H' : (_ && _) = true |- _ => apply andb_true_iff in H' as [? ?]
             | |- (_ && _) = true => apply andb_true_iff; split
             end; eauto with store
  | H : set_Forall _ ?S |- set_Forall _ ?S =>
      let x := fresh "x" in let Hx := fresh "Hx" in
      intros x Hx; destruct (H x Hx); split; eauto with store
  end.

(** A new row of one table: it is acceptable, the other rows are lifted.
    Used for the tables the seeder fills. *)
Ltac wf_insert :=
  let j := fresh "j" in let x := fresh "x" in
  intros []; intros; constructor; simpl;
  try (intros j x; rewrite lookup_insert; case_decide; [intros [= <-]; assumption|eauto]);
  try assumption; try wf_lift.

Lemma db_wf_insert_size d z : db_wf d -> size_ok z = true -> db_wf (insert_size z d).2.
Proof. wf_insert. Qed.
Lemma db_wf_insert_colour d c : db_wf d -> colour_ok c = true -> db_wf (insert_colour c d).2.
Proof. wf_insert. Qed.
Lemma db_wf_insert_brand d b : db_wf d -> brand_ok b = true -> db_wf (insert_brand b d).2.
Proof. wf_insert. Qed.
Lemma db_wf_insert_category d c : db_wf d -> category_ok c = true -> db_wf (insert_category c d).2.
Proof. wf_insert. Qed.
Lemma db_wf_insert_payment d p : db_wf d -> db_wf (insert_payment p d).2.
Proof. wf_insert. Qed.
Lemma db_wf_insert_setting d st : db_wf d -> db_wf (insert_setting st d).2.
Proof. wf_insert. Qed.
Lemma db_wf_insert_image d i : db_wf d -> image_ok d i = true -> db_wf (insert_image i d).2.
Proof. wf_insert. Qed.
Lemma db_wf_insert_inventory d i : db_wf d -> inventory_ok d i = true -> db_wf (insert_inventory i d).2.
Proof. wf_insert. Qed.
Lemma db_wf_insert_product d p :
  db_wf d -> product_ok p = true -> product_brand_ok d p = true -> db_wf (insert_product p d).2.
Proof. intros Hwf Hp. revert Hwf. wf_insert. Qed.

Lemma db_wf_add_products_categories (d : db) (S : gset (Z * Z)) :
  db_wf d ->
  set_Forall (fun pc => is_Some (products d !! pc.1) /\ is_Some (categories d !! pc.2)) S ->
  db_wf (set_products_categories (fun pc => pc ∪ S) d).
Proof.
  intros [] HS. constructor; simpl; try assumption.
  intros x [Hx|Hx]%elem_of_union; [apply wf_products_categories0|apply HS]; exact Hx.
Qed.
