(* ===== verification/Session.v ===== *)
(** * Session: one request's SQLAlchemy session over the MySQL store

    Every handler of [src/backend/src/view_*.py] receives [db: Session =
    Depends(get_db)].  Its queries see the writes of the same session
    (autoflush), its writes become durable at [db.commit()], which fails
    with an [IntegrityError] when the written state violates a column
    type, a [nullable=False] column, a [ForeignKey] or a UNIQUE index
    ([Schema.db_ok]),
    and an exception aborts the request (HTTP 500) and rolls the
    uncommitted writes back.  The handler monad [M] threads a [session]
    holding the committed state and the session's working state.
    [map_each] and [for_each] are Python's [list(map(...))] and [for]
    loop; the Hoare triple [triple] (total correctness: the program
    returns from every state of the precondition) with its rules and loop
    invariants proves the seeder's loops. *)

From stdpp Require Import gmap strings.
From Stdlib Require Import ZArith Lia.
From S2P Require Import Prelude Decimal Schema.

(** Exceptions a handler can raise. *)
Inductive exn :=
  | AttributeError    (** attribute access on [None]: a [.first()] found no row *)
  | TypeError         (** arithmetic on a [None] column value *)
  | DecimalError      (** [decimal.InvalidOperation] / [DivisionByZero] *)
  | IndexError        (** [list[0]] of an empty list *)
  | ValueError        (** [int(x)] of a string that is not an integer *)
  | IntegrityError    (** the database refused the write *)
  | DatabaseError     (** the database refused the statement (syntax, negative LIMIT/OFFSET) *)
  | OSError.          (** a file could not be opened ([FileNotFoundError], [IsADirectoryError]) *)

Inductive outcome (A : Type) := Return (a : A) | Raise (e : exn).
Arguments Return {A} a.
Arguments Raise {A} e.

(** HTTP responses the handlers build explicitly. *)
Inductive response (A : Type) := Ok200 (a : A) | Bad400 (msg : string) | Bad401 (msg : string).
Arguments Ok200 {A} a.
Arguments Bad400 {A} msg.
Arguments Bad401 {A} msg.

Record session := mk_session { committed : db; pending : db }.

Definition M (A : Type) : Type := session -> outcome A * session.

Definition ret {A} (a : A) : M A := fun s => (Return a, s).

Definition bind {A B} (m : M A) (k : A -> M B) : M B := fun s =>
  match m s with
  | (Return a, s') => k a s'
  | (Raise e, s') => (Raise e, s')
  end.

Notation "x <- c ;; k" := (bind c (fun x => k))
  (at level 100, c at next level, right associativity) : store_scope.
Notation "c ;; k" := (bind c (fun _ => k))
  (at level 100, right associativity) : store_scope.
Open Scope store_scope.

(** An exception ends the request; the session's uncommitted writes are
    rolled back. *)
Definition raise {A} (e : exn) : M A :=
  fun s => (Raise e, mk_session (committed s) (committed s)).

(** A query: reads the session's working state. *)
Definition query {A} (f : db -> A) : M A := fun s => (Return (f (pending s)), s).

(** A write ([db.add], an attribute assignment, [query(...).update()],
    [query(...).delete()]): changes the working state. *)
Definition modify (f : db -> db) : M unit :=
  fun s => (Return tt, mk_session (committed s) (f (pending s))).

(** [db.add(row)] of a row with an AUTO_INCREMENT key: returns the key. *)
Definition add_row (f : db -> Z * db) : M Z :=
  fun s => (Return (f (pending s)).1, mk_session (committed s) (f (pending s)).2).

(** [query(...).update(values)]: [f] gives the new working state, or
    [None] when the database rejects the statement (a NULL written to a NOT
    NULL column); the error ends the request. *)
Definition exec_update (f : db -> option db) : M unit := fun s =>
  match f (pending s) with
  | Some d' => (Return tt, mk_session (committed s) d')
  | None => (Raise IntegrityError, mk_session (committed s) (committed s))
  end.

(** [db.commit()]. *)
Definition commit : M unit := fun s =>
  if db_ok (pending s) then (Return tt, mk_session (pending s) (pending s))
  else raise IntegrityError s.

(** Reading an attribute of a [.first()] result. *)
Definition get_some {A} (o : option A) : M A :=
  match o with Some a => ret a | None => raise AttributeError end.

(** A request: the session starts on the committed state [d]; what the
    client observes afterwards is the committed state. *)
Definition run {A} (h : M A) (d : db) : outcome A * db :=
  let '(r, s) := h (mk_session d d) in (r, committed s).

(** [list(map(f, rows))]: [f] applied to the rows in order; the first
    exception ends the loop. *)
Fixpoint map_each {A B} (f : A -> M B) (l : list A) : M (list B) :=
  match l with
  | [] => ret []
  | x :: l' => y <- f x;; ys <- map_each f l';; ret (y :: ys)
  end.

(** [for x in xs: body(x)] *)
Fixpoint for_each {A} (xs : list A) (f : A -> M unit) : M unit :=
  match xs with
  | [] => ret tt
  | x :: xs' => f x;; for_each xs' f
  end.

(** ** Monad laws and evaluation lemmas *)

Lemma bind_ret_l {A B} (a : A) (k : A -> M B) : bind (ret a) k = k a.
Proof. reflexivity. Qed.

Lemma bind_assoc {A B C} (m : M A) (k : A -> M B) (h : B -> M C) s :
  bind (bind m k) h s = bind m (fun a => bind (k a) h) s.
Proof. unfold bind. destruct (m s) as [[a|e] s']; reflexivity. Qed.

(** One evaluation step of each operation, used to run handlers
    symbolically. *)
Lemma bind_query {A B} (f : db -> A) (k : A -> M B) s :
  bind (query f) k s = k (f (pending s)) s.
Proof. reflexivity. Qed.

Lemma bind_ret {A B} (a : A) (k : A -> M B) s : bind (ret a) k s = k a s.
Proof. reflexivity. Qed.

Lemma bind_modify {B} (f : db -> db) (k : unit -> M B) s :
  bind (modify f) k s = k tt (mk_session (committed s) (f (pending s))).
Proof. reflexivity. Qed.

Lemma bind_add_row {B} (f : db -> Z * db) (k : Z -> M B) s :
  bind (add_row f) k s = k (f (pending s)).1 (mk_session (committed s) (f (pending s)).2).
Proof. reflexivity. Qed.

Lemma bind_get_some {A B} (a : A) (k : A -> M B) s : bind (get_some (Some a)) k s = k a s.
Proof. reflexivity. Qed.

Lemma bind_get_none {A B} (k : A -> M B) s :
  bind (get_some None) k s = (Raise AttributeError, mk_session (committed s) (committed s)).
Proof. reflexivity. Qed.

Lemma bind_raise {A B} e (k : A -> M B) s :
  bind (raise e) k s = (Raise e, mk_session (committed s) (committed s)).
Proof. reflexivity. Qed.

Lemma bind_exec_update {B} (f : db -> option db) (k : unit -> M B) s :
  bind (exec_update f) k s =
    match f (pending s) with
    | Some d' => k tt (mk_session (committed s) d')
    | None => (Raise IntegrityError, mk_session (committed s) (committed s))
    end.
Proof. unfold bind, exec_update. by destruct (f (pending s)). Qed.

Lemma bind_commit_ok {B} (k : unit -> M B) s :
  db_ok (pending s) = true ->
  bind commit k s = k tt (mk_session (pending s) (pending s)).
Proof. unfold bind, commit. intros ->. reflexivity. Qed.

Lemma bind_commit_fail {B} (k : unit -> M B) s :
  db_ok (pending s) = false ->
  bind commit k s = (Raise IntegrityError, mk_session (committed s) (committed s)).
Proof. unfold bind, commit. intros ->. reflexivity. Qed.

Lemma commit_ok s :
  db_ok (pending s) = true -> commit s = (Return tt, mk_session (pending s) (pending s)).
Proof. unfold commit. intros ->. reflexivity. Qed.

Lemma ret_eval {A} (a : A) s : ret a s = (Return a, s).
Proof. reflexivity. Qed.

Lemma run_eval {A} (h : M A) d : run h d = let '(r, s) := h (mk_session d d) in (r, committed s).
Proof. reflexivity. Qed.

(** The symbolic-execution step: normalise binds, evaluate the operation
    at the head, and simplify projections of the session. *)
Ltac hstep :=
  repeat (rewrite ?bind_assoc, ?bind_query, ?bind_ret, ?bind_modify, ?bind_add_row,
                  ?bind_get_some, ?bind_get_none, ?bind_exec_update, ?bind_raise, ?ret_eval,
                  ?insert_order_key, ?insert_detail_key, ?insert_review_key, ?insert_user_key,
                  ?insert_auth_key;
          cbv beta iota; cbn [pending committed fst snd]).

(** Queries on a state [d1] obtained from [d] by writes to other tables
    read [d]. *)
Ltac reframe d1 d :=
  repeat match goal with
         | |- context [?f d1] => progress change (f d1) with (f d)
         end.

(** ** Handlers keep the committed state acceptable

    The only operation that changes the committed state is [commit], and it
    does so only with a state that passes [db_ok].  [keeps_ok m] says that
    [m] started on a session whose committed state is acceptable ends with
    an acceptable committed state, whatever it returns or raises. *)

Definition keeps_ok {A} (m : M A) : Prop :=
  forall s, db_ok (committed s) = true -> db_ok (committed (m s).2) = true.

Lemma keeps_ok_ret {A} (a : A) : keeps_ok (ret a).
Proof. intros s Hs. exact Hs. Qed.

Lemma keeps_ok_query {A} (f : db -> A) : keeps_ok (query f).
Proof. intros s Hs. exact Hs. Qed.

Lemma keeps_ok_modify f : keeps_ok (modify f).
Proof. intros s Hs. exact Hs. Qed.

Lemma keeps_ok_add_row f : keeps_ok (add_row f).
Proof. intros s Hs. exact Hs. Qed.

Lemma keeps_ok_exec_update f : keeps_ok (exec_update f).
Proof. intros s Hs. unfold exec_update. by destruct (f (pending s)). Qed.

Lemma keeps_ok_raise {A} e : keeps_ok (@raise A e).
Proof. intros s Hs. exact Hs. Qed.

Lemma keeps_ok_get_some {A} (o : option A) : keeps_ok (get_some o).
Proof. destruct o; intros s Hs; exact Hs. Qed.

Lemma keeps_ok_commit : keeps_ok commit.
Proof. intros s Hs. unfold commit. by destruct (db_ok (pending s)) eqn:Hp. Qed.

Lemma keeps_ok_bind {A B} (m : M A) (k : A -> M B) :
  keeps_ok m -> (forall a, keeps_ok (k a)) -> keeps_ok (bind m k).
Proof.
  intros Hm Hk s Hs. unfold bind. specialize (Hm s Hs).
  destruct (m s) as [[a|e] s']; [by apply Hk|exact Hm].
Qed.

Lemma keeps_ok_map_each {A B} (f : A -> M B) l :
  (forall x, keeps_ok (f x)) -> keeps_ok (map_each f l).
Proof.
  intros Hf. induction l as [|x l IH]; simpl; [apply keeps_ok_ret|].
  apply keeps_ok_bind; [apply Hf|intros; apply keeps_ok_bind; [exact IH|intros; apply keeps_ok_ret]].
Qed.

Lemma keeps_ok_for_each {A} (f : A -> M unit) xs :
  (forall x, keeps_ok (f x)) -> keeps_ok (for_each xs f).
Proof.
  intros Hf. induction xs as [|x xs IH]; simpl; [apply keeps_ok_ret|].
  apply keeps_ok_bind; [apply Hf|intros; exact IH].
Qed.

(** Proves [keeps_ok] of a handler by following its structure. *)
Create HintDb keeps discriminated.
#[export] Hint Constants Opaque : keeps.
#[export] Hint Resolve keeps_ok_ret keeps_ok_query keeps_ok_modify keeps_ok_add_row
  keeps_ok_raise keeps_ok_get_some keeps_ok_commit keeps_ok_exec_update : keeps.

#[export] Hint Extern 2 (keeps_ok (map_each _ _)) => apply keeps_ok_map_each; intros : keeps.
#[export] Hint Extern 2 (keeps_ok (for_each _ _)) => apply keeps_ok_for_each; intros : keeps.

Ltac keeps_ok_tac :=
  repeat first
    [ simple apply keeps_ok_bind; intros
    | solve [eauto 2 with keeps nocore]
    | match goal with
      | |- keeps_ok (match ?x with _ => _ end) => destruct x
      | |- keeps_ok (if ?b then _ else _) => destruct b
      end
    | progress cbv beta iota zeta ].

(** The committed state after a request of a handler that keeps it
    acceptable is acceptable. *)
Lemma run_keeps_ok {A} (m : M A) d :
  keeps_ok m -> db_ok d = true -> db_ok (run m d).2 = true.
Proof.
  intros Hm Hd. unfold run. specialize (Hm (mk_session d d) Hd).
  destruct (m (mk_session d d)) as [r s]. exact Hm.
Qed.

(** ** Handlers that preserve a property of the store

    [preserves I m]: when both the committed and the working state satisfy
    [I], they still do after [m].  A write must preserve [I]; [commit] and
    the rollback of an exception only copy one state onto the other. *)

Definition preserves {A} (I : db -> Prop) (m : M A) : Prop :=
  forall s, I (committed s) -> I (pending s) -> I (committed (m s).2) /\ I (pending (m s).2).

Section Preserves.
Variable I : db -> Prop.

Lemma preserves_ret {A} (a : A) : preserves I (ret a).
Proof. intros s Hc Hp. by split. Qed.

Lemma preserves_query {A} (f : db -> A) : preserves I (query f).
Proof. intros s Hc Hp. by split. Qed.

Lemma preserves_raise {A} e : preserves I (@raise A e).
Proof. intros s Hc Hp. by split. Qed.

Lemma preserves_get_some {A} (o : option A) : preserves I (get_some o).
Proof. destruct o; intros s Hc Hp; by split. Qed.

Lemma preserves_commit : preserves I commit.
Proof. intros s Hc Hp. unfold commit. by destruct (db_ok (pending s)). Qed.

Lemma preserves_modify f : (forall d, I d -> I (f d)) -> preserves I (modify f).
Proof. intros Hf s Hc Hp. simpl. auto. Qed.

Lemma preserves_add_row f : (forall d, I d -> I (f d).2) -> preserves I (add_row f).
Proof. intros Hf s Hc Hp. simpl. auto. Qed.

Lemma preserves_exec_update f :
  (forall d d', I d -> f d = Some d' -> I d') -> preserves I (exec_update f).
Proof. intros Hf s Hc Hp. unfold exec_update. destruct (f (pending s)) eqn:E; simpl; eauto. Qed.

Lemma preserves_bind {A B} (m : M A) (k : A -> M B) :
  preserves I m -> (forall a, preserves I (k a)) -> preserves I (bind m k).
Proof.
  intros Hm Hk s Hc Hp. unfold bind. destruct (Hm s Hc Hp) as [Hc' Hp'].
  destruct (m s) as [[a|e] s']; [by apply Hk|by split].
Qed.

Lemma preserves_map_each {A B} (f : A -> M B) l :
  (forall x, preserves I (f x)) -> preserves I (map_each f l).
Proof.
  intros Hf. induction l as [|x l IH]; simpl; [apply preserves_ret|].
  apply preserves_bind; [apply Hf|intros; apply preserves_bind; [exact IH|intros; apply preserves_ret]].
Qed.

Lemma preserves_for_each {A} (f : A -> M unit) xs :
  (forall x, preserves I (f x)) -> preserves I (for_each xs f).
Proof.
  intros Hf. induction xs as [|x xs IH]; simpl; [apply preserves_ret|].
  apply preserves_bind; [apply Hf|intros; exact IH].
Qed.

Lemma run_preserves {A} (m : M A) d : preserves I m -> I d -> I (run m d).2.
Proof.
  intros Hm Hd. unfold run. destruct (Hm (mk_session d d) Hd Hd) as [H _].
  destruct (m (mk_session d d)). exact H.
Qed.

End Preserves.

Create HintDb preserves discriminated.
#[export] Hint Constants Opaque : preserves.
#[export] Hint Resolve preserves_ret preserves_query preserves_raise preserves_get_some
  preserves_commit : preserves.

#[export] Hint Extern 2 (preserves _ (map_each _ _)) => apply preserves_map_each; intros : preserves.
#[export] Hint Extern 2 (preserves _ (for_each _ _)) => apply preserves_for_each; intros : preserves.

(** Follows the structure of a handler; the writes are left to [tac]. *)
Ltac preserves_tac tac :=
  repeat first
    [ simple apply preserves_bind; intros
    | solve [eauto 2 with preserves nocore]
    | simple apply preserves_modify; intros; tac
    | simple apply preserves_add_row; intros; tac
    | match goal with
      | |- preserves _ (match ?x with _ => _ end) => destruct x
      | |- preserves _ (if ?b then _ else _) => destruct b
      end
    | progress cbv beta iota zeta ].

(** ** Total correctness

    [triple P m Q]: started on a working state that satisfies [P], [m]
    returns -- it raises no exception -- a value [a] and a working state
    that satisfies [Q a], and leaves the committed state alone.  The
    rules follow the operations; [triple_for_each] is the loop rule, with
    an invariant indexed by the iterations still to run. *)

Definition triple {A} (P : db -> Prop) (m : M A) (Q : A -> db -> Prop) : Prop :=
  forall s, P (pending s) -> exists a d', m s = (Return a, mk_session (committed s) d') /\ Q a d'.

Section Triple.

Lemma triple_ret {A} (Q : A -> db -> Prop) a : triple (Q a) (ret a) Q.
Proof. intros [c p] H. exists a, p. by split. Qed.

Lemma triple_query {A} (Q : A -> db -> Prop) (f : db -> A) : triple (fun d => Q (f d) d) (query f) Q.
Proof. intros [c p] H. exists (f p), p. by split. Qed.

Lemma triple_modify (Q : unit -> db -> Prop) f : triple (fun d => Q tt (f d)) (modify f) Q.
Proof. intros [c p] H. exists tt, (f p). by split. Qed.

Lemma triple_add_row (Q : Z -> db -> Prop) f : triple (fun d => Q (f d).1 (f d).2) (add_row f) Q.
Proof. intros [c p] H. exists (f p).1, (f p).2. by split. Qed.

Lemma triple_bind {A B} P (m : M A) Q (k : A -> M B) R :
  triple P m Q -> (forall a, triple (Q a) (k a) R) -> triple P (bind m k) R.
Proof.
  intros Hm Hk s Hs. destruct (Hm s Hs) as (a & d' & Hms & HQ).
  destruct (Hk a (mk_session (committed s) d') HQ) as (b & d'' & Hks & HR).
  exists b, d''. unfold bind. rewrite Hms, Hks. by split.
Qed.

Lemma triple_conseq {A} (P P' : db -> Prop) (m : M A) (Q Q' : A -> db -> Prop) :
  triple P m Q -> (forall d, P' d -> P d) -> (forall a d, Q a d -> Q' a d) -> triple P' m Q'.
Proof.
  intros Hm HP HQ s Hs. destruct (Hm s (HP _ Hs)) as (a & d' & Hms & Hq). eauto.
Qed.

Lemma triple_for_each {A} (I : list A -> db -> Prop) (f : A -> M unit) xs :
  (forall x xs', triple (I (x :: xs')) (f x) (fun _ => I xs')) ->
  triple (I xs) (for_each xs f) (fun _ => I []).
Proof.
  intros Hf. induction xs as [|x xs IH]; simpl; [apply (triple_ret (fun _ => I []) tt)|].
  eapply triple_bind; [apply Hf|intros; exact IH].
Qed.

(** A request that runs [m] and commits: it returns when the working state
    [m] leaves is acceptable, and fails with the store unchanged when it is
    not. *)
Lemma run_triple_commit P (m : M unit) Q d :
  triple P m Q -> P d ->
  (forall d', Q tt d' -> db_ok d' = true) ->
  exists d', run (m;; commit) d = (Return tt, d') /\ Q tt d'.
Proof.
  intros Hm Hd Hok. destruct (Hm (mk_session d d) Hd) as ([] & d' & Hms & HQ).
  exists d'. unfold run, bind. rewrite Hms. simpl. rewrite commit_ok by (apply Hok, HQ).
  by split.
Qed.

Lemma run_triple_commit_fail P (m : M unit) Q d :
  triple P m Q -> P d ->
  (forall d', Q tt d' -> db_ok d' = false) ->
  run (m;; commit) d = (Raise IntegrityError, d).
Proof.
  intros Hm Hd Hko. destruct (Hm (mk_session d d) Hd) as ([] & d' & Hms & HQ).
  unfold run, bind. rewrite Hms. simpl. unfold commit. simpl. by rewrite (Hko _ HQ).
Qed.

(** [for i in range(a, a + n)] with an invariant indexed by [i]. *)
Lemma triple_for_seq (J : nat -> db -> Prop) (f : nat -> M unit) a n :
  (forall i, (a <= i < a + n)%nat -> triple (J i) (f i) (fun _ => J (S i))) ->
  triple (J a) (for_each (seq a n) f) (fun _ => J (a + n)%nat).
Proof.
  revert a. induction n as [|n IH]; intros a Hf; simpl.
  - rewrite Nat.add_0_r. apply (triple_ret (fun _ => J a) tt).
  - eapply triple_bind; [apply Hf; lia|]. intros [].
    change (triple (J (S a)) (for_each (seq (S a) n) f) (fun _ => J (a + S n)%nat)).
    replace (a + S n)%nat with (S a + n)%nat by lia. apply IH. intros i Hi. apply Hf. lia.
Qed.

(** A loop whose body keeps [P] for every element satisfying [V]. *)
Lemma triple_for_each_in {A} (P : db -> Prop) (V : A -> Prop) (f : A -> M unit) xs :
  Forall V xs -> (forall x, V x -> triple P (f x) (fun _ => P)) ->
  triple P (for_each xs f) (fun _ => P).
Proof.
  intros Hxs Hf. induction Hxs as [|x xs Hx _ IH]; simpl; [apply (triple_ret (fun _ => P) tt)|].
  eapply triple_bind; [apply Hf, Hx|intros; exact IH].
Qed.

Lemma triple_query_keep {A} (P : db -> Prop) (f : db -> A) :
  triple P (query f) (fun a d => P d /\ a = f d).
Proof.
  eapply triple_conseq; [apply (triple_query (fun a d => P d /\ a = f d))|intros d Hd; cbv beta|done].
  by split.
Qed.

Lemma triple_and {A} P (m : M A) Q1 Q2 :
  triple P m Q1 -> triple P m Q2 -> triple P m (fun a d => Q1 a d /\ Q2 a d).
Proof.
  intros H1 H2 s Hs. destruct (H1 s Hs) as (a & d & E1 & Hq1), (H2 s Hs) as (b & e & E2 & Hq2).
  rewrite E1 in E2. injection E2 as <- <-. eauto.
Qed.

End Triple.
