(* ===== verification/Fixtures.v ===== *)
(** * Fixtures: a small concrete store

    The states on which the witnesses of the theorems run the handlers:
    two users, two published products of one brand (product 2 in both
    categories) with inventories, one payment method, the
    three pricing settings as seeded by [Seed.seed_setting], wishlist
    entries of both users, one colour, two sizes, an image of the laptop,
    and Alice's confirmed [email-confirm] row (as
    the seeder writes it, with the column default status 1). *)

From stdpp Require Import gmap strings.
From Stdlib Require Import ZArith.
From S2P Require Import Prelude Decimal Schema.

Open Scope Z_scope.

Definition alice : user :=
  mk_user "alice@example.com" (Some "0811111111") "hash" (Some "Alice") (Some "Doe")
    (Some "F") (Some "Bandung") (Some "40111") (Some "Indonesia") (Some "Jl. Merdeka 1") 1 None.

Definition bob : user :=
  mk_user "bob@example.com" None "hash" (Some "Bob") None None None None None None 1 None.

(** Product 1 costs 100.0000, product 2 costs 25.5000. *)
Definition laptop : product :=
  mk_product (Some 1) None "P001" "Product 1" 1000000 0 100 (Some 0) "" "" 1.
Definition camera : product :=
  mk_product (Some 1) None "P002" "Product 2" 255000 3 40 (Some 0) "" "" 1.

Definition demo_db : db :=
  mk_db
    {[1 := alice; 2 := bob]}
    {[1 := laptop; 2 := camera]}
    {[1 := mk_inventory 1 1 1 10 1; 2 := mk_inventory 1 2 1 1 1; 3 := mk_inventory 2 1 1 5 1]}
    {[1 := mk_payment "Bank Transfer" 1]}
    {[1 := mk_setting "discount_value" "5"; 2 := mk_setting "taxes_value" "10";
      3 := mk_setting "total_shipment" "50"]}
    ∅ ∅ ∅ ∅
    {[(1, 1); (1, 2); (2, 2)]}
    ∅
    1 1 1 1
    ∅ 1
    {[1 := mk_auth (Some 1) "email-confirm" "alice@example.com" "5f0c1d2e" 1]} 3 2
    {[1 := mk_brand "Brand 1" 1]}
    {[1 := mk_category "Category 1" 1 1; 2 := mk_category "Category 2" 1 1]}
    {[(1, 1); (2, 1); (2, 2)]}
    ∅ 1
    {[1 := mk_colour "#FF0000" "Red" 1]}
    {[1 := mk_size "13 to 14 Inches" 1; 2 := mk_size "15 to 16 Inches" 1]}
    {[1 := mk_image (Some 1) "product01.png" 1 1]}
    3 4 2 4 2 3 2 3 2.

(** [demo_db] after Alice's first add-to-cart of two laptops: her draft
    order 1 (with the doubled aggregates the handler writes) and its line. *)
Definition demo_cart_db : db :=
  mk_db
    (users demo_db) (products demo_db) (inventories demo_db) (payments demo_db)
    (settings demo_db)
    {[1 := mk_order 1 None "638000000000000000" (Some 4) 4000000 0 0 0 4000000 0]}
    {[1 := mk_detail 1 1 1000000 2 2000000]}
    ∅
    {[1 := mk_activity (Some 1) "Add Cart" "Add Product To Cart" "Your has been added product to cart."]}
    (wishlists demo_db) ∅
    2 2 1 2
    (reviews demo_db) (next_review_id demo_db)
    (authentications demo_db) (next_user_id demo_db) (next_auth_id demo_db) (brands demo_db) (categories demo_db)
    (products_categories demo_db) (newsletters demo_db) (next_newsletter_id demo_db)
    (colours demo_db) (sizes demo_db) (products_images demo_db)
    (next_product_id demo_db) (next_inventory_id demo_db) (next_payment_id demo_db) (next_setting_id demo_db) (next_brand_id demo_db)
    (next_category_id demo_db) (next_colour_id demo_db) (next_size_id demo_db) (next_image_id demo_db).
