(* ===== verification/Cart.v ===== *)
(** * Cart: the add-to-cart handler (Cart Ledger)

    [view_order_create_cart] of [src/backend/src/view_order.py] (lines
    150-228), [POST /api/order/cart/{id}].  It finds the caller's draft
    order (status 0, the largest id), creating and committing one when
    there is none, finds the inventory row of the requested size and
    colour, merges the quantity into the cart line of that inventory or
    inserts and commits a new line, adds the quantity and the line total
    to the order's aggregates, logs an activity and commits. *)

From stdpp Require Import gmap strings pretty.
From Stdlib Require Import ZArith Lia.
From S2P Require Import Prelude Decimal Schema Session Fixtures.

Open Scope Z_scope.
Open Scope store_scope.

Module Cart.

(** [class CreateCartSchema] (schema.py): no bound on [qty]. *)
Record cart_form := mk_cart_form {
  form_size_id : Z;
  form_colour_id : Z;
  form_qty : Z
}.

(** [and_(Order.status == 0, Order.user_id == auth['id'])] *)
Definition is_draft_of (uid : Z) (o : order) : bool :=
  (order_status o =? 0) && (order_user_id o =? uid).

(** [db.query(Order).filter(...).order_by(desc(Order.id)).first()] *)
Definition find_draft (uid : Z) (d : db) : option (Z * order) :=
  select_last (is_draft_of uid) (orders d).

(** The workflow's invariant: a user has at most one draft order. *)
Definition single_draft (uid : Z) (d : db) : bool :=
  bool_decide (map_Forall (fun k1 o1 => map_Forall (fun k2 o2 =>
                 is_draft_of uid o1 = true -> is_draft_of uid o2 = true -> k1 = k2) (orders d))
                 (orders d)).

Definition inventory_matches (pid sid cid : Z) (i : inventory) : bool :=
  (inv_product_id i =? pid) && (inv_size_id i =? sid) && (inv_colour_id i =? cid).

Definition find_inventory (pid sid cid : Z) (d : db) : option (Z * inventory) :=
  select_first (inventory_matches pid sid cid) (inventories d).

Definition line_matches (iid oid : Z) (r : order_detail) : bool :=
  (detail_inventory_id r =? iid) && (detail_order_id r =? oid).

Definition find_cart_line (iid oid : Z) (d : db) : option (Z * order_detail) :=
  select_first (line_matches iid oid) (details d).

(** [Order(user_id=..., invoice_number=str(ticks), total_item=form.qty,
    subtotal=total, total_paid=total, status=0)]; the other columns take
    their defaults. *)
Definition new_draft (uid ticks qty total : Z) : order :=
  mk_order uid None (pretty ticks) (Some qty) total 0 0 0 total 0.

(** [update_cart]: [price], [qty + form.qty], [total + total]. *)
Definition merged_line (c : order_detail) (price qty total : Z) : order_detail :=
  mk_detail (detail_order_id c) (detail_inventory_id c) price
    (detail_qty c + qty) (detail_total c + total).

(** [update_order]: [total_item], [subtotal + total], [total_paid + total]. *)
Definition order_add (o : order) (item total : Z) : order :=
  mk_order (order_user_id o) (order_payment_id o) (invoice_number o) (Some item)
    (subtotal o + total) (total_discount o) (total_taxes o) (total_shipment o)
    (total_paid o + total) (order_status o).

Definition cart_activity (u : option Z) : activity :=
  mk_activity u "Add Cart" "Add Product To Cart" "Your has been added product to cart.".

(** [order.total_item + form.qty] on a NULL [total_item] raises. *)
Definition get_total_item (o : order) : M Z :=
  match total_item o with Some n => ret n | None => raise TypeError end.

Definition view_order_create_cart (uid ticks pid : Z) (form : cart_form)
    : M (response order) :=
  user <- query (fun d => users d !! uid);;
  product <- query (fun d => products d !! pid);;
  draft <- query (find_draft uid);;
  p <- get_some product;;
  let total := form_qty form * product_price p in
  oid <- (match draft with
          | Some (k, _) => ret k
          | None =>
              k <- add_row (insert_order (new_draft uid ticks (form_qty form) total));;
              commit;;
              ret k
          end);;
  inv <- query (find_inventory pid (form_size_id form) (form_colour_id form));;
  (match inv with
   | Some (ik, _) =>
       cart <- query (find_cart_line ik oid);;
       (match cart with
        | Some (ck, c) =>
            modify (set_details (<[ck := merged_line c (product_price p) (form_qty form) total]>))
        | None =>
            _ <- add_row (insert_detail
                   (mk_detail oid ik (product_price p) (form_qty form) total));;
            commit
        end);;
       o <- query (fun d => orders d !! oid);;
       o <- get_some o;;
       n <- get_total_item o;;
       modify (set_orders (<[oid := order_add o (n + form_qty form) total]>))
   | None => ret tt
   end);;
  modify (insert_activity (cart_activity (option_map (fun _ => uid) user)));;
  commit;;
  o <- query (fun d => orders d !! oid);;
  o <- get_some o;;
  ret (Ok200 o).

(** ** Lemmas *)

(** An order id that is not yet used has no cart line. *)
Lemma find_cart_line_fresh d ik oid :
  db_wf d -> orders d !! oid = None -> find_cart_line ik oid d = None.
Proof.
  intros Hwf Hfresh. apply select_first_None. intros k r Hr. unfold line_matches.
  destruct (Z.eqb_spec (detail_order_id r) oid) as [<-|]; [|apply andb_false_r].
  destruct (wf_detail_order _ _ _ Hwf Hr) as [x Hx]. congruence.
Qed.

(** The rows the handler writes pass MySQL's checks when the values fit
    their columns. *)
Lemma order_add_ok d o n t :
  order_ok d o = true -> uint32_ok n = true ->
  numeric_18_4_ok (subtotal o + t) = true -> numeric_18_4_ok (total_paid o + t) = true ->
  order_ok d (order_add o n t) = true.
Proof.
  unfold order_ok, order_add; simpl. intros Ho Hn Hs Hp.
  destruct_andb Ho. split_andb; assumption.
Qed.

Lemma merged_line_ok d c price qty t :
  detail_ok d c = true -> numeric_18_4_ok price = true ->
  uint32_ok (detail_qty c + qty) = true -> numeric_18_4_ok (detail_total c + t) = true ->
  detail_ok d (merged_line c price qty t) = true.
Proof.
  unfold detail_ok, merged_line; simpl. intros Hc Hp Hq Ht.
  destruct_andb Hc. split_andb; assumption.
Qed.

Lemma single_draft_spec uid d :
  single_draft uid d = true <->
  forall k1 o1 k2 o2, orders d !! k1 = Some o1 -> orders d !! k2 = Some o2 ->
    is_draft_of uid o1 = true -> is_draft_of uid o2 = true -> k1 = k2.
Proof. unfold single_draft. rewrite bool_decide_eq_true. unfold map_Forall. naive_solver. Qed.

(** The draft order found by the handler is a stored order. *)
Lemma find_draft_lookup d uid oid o :
  find_draft uid d = Some (oid, o) -> orders d !! oid = Some o.
Proof. unfold find_draft. intros H. by apply select_last_Some in H as (? & _ & _). Qed.

Lemma find_draft_is_draft d uid oid o :
  find_draft uid d = Some (oid, o) -> order_user_id o = uid /\ order_status o = 0.
Proof.
  unfold find_draft. intros H. apply select_last_Some in H as (_ & H & _).
  unfold is_draft_of in H. apply andb_prop in H as [?%Z.eqb_eq ?%Z.eqb_eq]. done.
Qed.

Lemma find_cart_line_lookup d ik oid ck c :
  find_cart_line ik oid d = Some (ck, c) -> details d !! ck = Some c.
Proof. unfold find_cart_line. intros H. by apply select_first_Some in H as (? & _ & _). Qed.

Lemma find_inventory_lookup d pid sid cid ik i :
  find_inventory pid sid cid d = Some (ik, i) -> inventories d !! ik = Some i.
Proof. unfold find_inventory. intros H. by apply select_first_Some in H as (? & _ & _). Qed.

(** ** The first add-to-cart of a user

    With no draft order, the handler commits a new order whose aggregates
    already count the requested line ([Order(total_item=form.qty,
    subtotal=total, total_paid=total)], lines 163-176) and then adds the
    same quantity and total again ([update_order], lines 208-213). *)

(** C1: the first successful add-to-cart of a user (no draft order, the
    product and its size/colour inventory exist, the values fit their
    columns) commits exactly one cart line of [qty] items totalling
    [qty * price], and returns a new draft order whose [total_item] is
    [2 * qty] and whose [subtotal] and [total_paid] are [2 * qty * price]:
    the first line is counted twice in the order's aggregates. *)
Theorem first_add_doubles_order_totals d uid ticks pid form u p ik i :
  db_ok d = true ->
  orders d !! next_order_id d = None ->
  users d !! uid = Some u ->
  products d !! pid = Some p ->
  find_draft uid d = None ->
  find_inventory pid (form_size_id form) (form_colour_id form) d = Some (ik, i) ->
  0 <= form_qty form -> 2 * form_qty form < 2 ^ 32 ->
  2 * Z.abs (form_qty form * product_price p) < 10 ^ 18 ->
  let total := form_qty form * product_price p in
  exists d',
    run (view_order_create_cart uid ticks pid form) d =
      (Return (Ok200 (mk_order uid None (pretty ticks) (Some (form_qty form + form_qty form))
                        (total + total) 0 0 0 (total + total) 0)), d') /\
    details d' = <[next_detail_id d := mk_detail (next_order_id d) ik (product_price p)
                                         (form_qty form) total]> (details d).
Proof.
  intros Hok Hfresh Hu Hp Hdraft Hinv Hq0 Hq1 Ht total.
  apply db_ok_wf in Hok as Hwf.
  pose proof (wf_product_price _ _ _ Hwf Hp) as Hpr.
  assert (Hik : is_Some (inventories d !! ik)).
  { unfold find_inventory in Hinv. apply select_first_Some in Hinv as (? & _ & _). eauto. }
  unfold run, view_order_create_cart. hstep. rewrite Hu, Hp, Hdraft. hstep. fold total.
  set (o1 := new_draft uid ticks (form_qty form) total).
  set (d1 := (insert_order o1 d).2).
  assert (Hwf1 : db_wf d1).
  { apply db_wf_insert_order; [done|]. unfold order_ok, o1, new_draft; simpl. columns_ok. }
  rewrite bind_commit_ok by (apply db_ok_wf; exact Hwf1).
  hstep. reframe d1 d. rewrite Hinv. hstep.
  reframe d1 d. rewrite find_cart_line_fresh by done. hstep.
  set (r1 := mk_detail (next_order_id d) ik (product_price p) (form_qty form) total).
  set (d2 := (insert_detail r1 d1).2).
  assert (Hwf2 : db_wf d2).
  { apply db_wf_insert_detail; [done|]. unfold detail_ok, r1; simpl.
    apply fk_spec in Hik. columns_ok. }
  rewrite bind_commit_ok by (apply db_ok_wf; exact Hwf2).
  hstep.
  replace (orders d2 !! next_order_id d) with (Some o1) by (symmetry; apply lookup_insert_eq).
  hstep. unfold get_total_item. cbn [o1 new_draft total_item]. hstep.
  set (d3 := set_orders _ d2). set (d4 := insert_activity _ d3).
  assert (Hwf4 : db_wf d4).
  { apply db_wf_insert_activity; [apply db_wf_set_order; [done|]|].
    - unfold order_ok, order_add, o1, new_draft; simpl. columns_ok.
    - unfold activity_ok; simpl. columns_ok. }
  rewrite bind_commit_ok by (apply db_ok_wf; exact Hwf4).
  hstep.
  replace (orders d4 !! next_order_id d)
    with (Some (order_add o1 (form_qty form + form_qty form) total))
    by (symmetry; apply lookup_insert_eq).
  hstep. by exists d4.
Qed.

(** C2: adding to a draft order that already has a line for the requested
    size and colour merges into that line: its quantity and total grow by
    [qty] and [qty * price] and its price becomes the current price, no
    line is added, and the order's [total_item], [subtotal] and
    [total_paid] grow by the same amounts.  [qty] is not checked: a
    negative [qty] takes items out of the line as long as the results fit
    their unsigned columns. *)
Theorem add_merges_existing_line d uid ticks pid form u p oid o n ik i ck c :
  db_ok d = true ->
  users d !! uid = Some u ->
  products d !! pid = Some p ->
  find_draft uid d = Some (oid, o) ->
  total_item o = Some n ->
  find_inventory pid (form_size_id form) (form_colour_id form) d = Some (ik, i) ->
  find_cart_line ik oid d = Some (ck, c) ->
  let total := form_qty form * product_price p in
  uint32_ok (detail_qty c + form_qty form) = true ->
  numeric_18_4_ok (detail_total c + total) = true ->
  uint32_ok (n + form_qty form) = true ->
  numeric_18_4_ok (subtotal o + total) = true ->
  numeric_18_4_ok (total_paid o + total) = true ->
  exists d',
    run (view_order_create_cart uid ticks pid form) d =
      (Return (Ok200 (mk_order (order_user_id o) (order_payment_id o) (invoice_number o) (Some (n + form_qty form))
                          (subtotal o + total) (total_discount o) (total_taxes o) (total_shipment o)
                          (total_paid o + total) (order_status o))), d') /\
    details d' = <[ck := mk_detail (detail_order_id c) (detail_inventory_id c) (product_price p)
                           (detail_qty c + form_qty form) (detail_total c + total)]> (details d) /\
    orders d' = <[oid := mk_order (order_user_id o) (order_payment_id o) (invoice_number o) (Some (n + form_qty form))
                          (subtotal o + total) (total_discount o) (total_taxes o) (total_shipment o)
                          (total_paid o + total) (order_status o)]> (orders d).
Proof.
  intros Hok Hu Hp Hdraft Hn Hinv Hline total Hq Ht Hn' Hs Hpaid.
  change (mk_order (order_user_id o) _ _ _ _ _ _ _ _ _) with (order_add o (n + form_qty form) total).
  apply db_ok_wf in Hok as Hwf.
  pose proof (find_draft_lookup _ _ _ _ Hdraft) as Ho.
  pose proof (find_cart_line_lookup _ _ _ _ _ Hline) as Hc.
  unfold run, view_order_create_cart. hstep. rewrite Hu, Hp, Hdraft. hstep. fold total.
  rewrite Hinv. hstep. rewrite Hline. hstep.
  set (d1 := set_details _ d). reframe d1 d. rewrite Ho. hstep.
  unfold get_total_item. rewrite Hn. hstep.
  set (d2 := set_orders _ d1). set (d3 := insert_activity _ d2).
  assert (Hwf3 : db_wf d3).
  { apply db_wf_insert_activity; [apply db_wf_set_order; [apply db_wf_set_detail|]|].
    - done.
    - apply merged_line_ok; [exact (wf_details _ Hwf _ _ Hc)| |done|done].
      pose proof (wf_product_price _ _ _ Hwf Hp). columns_ok.
    - apply order_add_ok; [exact (wf_orders _ Hwf _ _ Ho)|done|done|done].
    - unfold activity_ok; simpl. columns_ok. }
  rewrite bind_commit_ok by (apply db_ok_wf; exact Hwf3).
  hstep.
  replace (orders d3 !! oid) with (Some (order_add o (n + form_qty form) total))
    by (symmetry; apply lookup_insert_eq).
  hstep. by exists d3.
Qed.

(** C3: adding a size/colour that is not yet in the draft order's cart
    inserts (and commits) one new line of [qty] items at the current price,
    and grows the order's [total_item], [subtotal] and [total_paid] by
    [qty] and [qty * price]. *)
Theorem add_new_line_to_draft d uid ticks pid form u p oid o n ik i :
  db_ok d = true ->
  users d !! uid = Some u ->
  products d !! pid = Some p ->
  find_draft uid d = Some (oid, o) ->
  total_item o = Some n ->
  find_inventory pid (form_size_id form) (form_colour_id form) d = Some (ik, i) ->
  find_cart_line ik oid d = None ->
  let total := form_qty form * product_price p in
  uint32_ok (form_qty form) = true ->
  numeric_18_4_ok total = true ->
  uint32_ok (n + form_qty form) = true ->
  numeric_18_4_ok (subtotal o + total) = true ->
  numeric_18_4_ok (total_paid o + total) = true ->
  exists d',
    run (view_order_create_cart uid ticks pid form) d =
      (Return (Ok200 (mk_order (order_user_id o) (order_payment_id o) (invoice_number o) (Some (n + form_qty form))
                          (subtotal o + total) (total_discount o) (total_taxes o) (total_shipment o)
                          (total_paid o + total) (order_status o))), d') /\
    details d' = <[next_detail_id d := mk_detail oid ik (product_price p) (form_qty form) total]>
                   (details d) /\
    orders d' = <[oid := mk_order (order_user_id o) (order_payment_id o) (invoice_number o) (Some (n + form_qty form))
                          (subtotal o + total) (total_discount o) (total_taxes o) (total_shipment o)
                          (total_paid o + total) (order_status o)]> (orders d).
Proof.
  intros Hok Hu Hp Hdraft Hn Hinv Hline total Hq Ht Hn' Hs Hpaid.
  change (mk_order (order_user_id o) _ _ _ _ _ _ _ _ _) with (order_add o (n + form_qty form) total).
  apply db_ok_wf in Hok as Hwf.
  pose proof (find_draft_lookup _ _ _ _ Hdraft) as Ho.
  pose proof (find_inventory_lookup _ _ _ _ _ _ Hinv) as Hi.
  unfold run, view_order_create_cart. hstep. rewrite Hu, Hp, Hdraft. hstep. fold total.
  rewrite Hinv. hstep. rewrite Hline. hstep.
  set (d1 := (insert_detail _ d).2).
  assert (Hwf1 : db_wf d1).
  { apply db_wf_insert_detail; [done|]. unfold detail_ok; simpl.
    pose proof (wf_product_price _ _ _ Hwf Hp). split_andb; eauto with store; columns_ok. }
  rewrite bind_commit_ok by (apply db_ok_wf; exact Hwf1).
  hstep. reframe d1 d. rewrite Ho. hstep.
  unfold get_total_item. rewrite Hn. hstep.
  set (d2 := set_orders _ d1). set (d3 := insert_activity _ d2).
  assert (Hwf3 : db_wf d3).
  { apply db_wf_insert_activity; [apply db_wf_set_order; [done|]|].
    - apply order_add_ok; [|done|done|done].
      exact (wf_orders _ Hwf _ _ Ho).
    - unfold activity_ok; simpl. columns_ok. }
  rewrite bind_commit_ok by (apply db_ok_wf; exact Hwf3).
  hstep.
  replace (orders d3 !! oid) with (Some (order_add o (n + form_qty form) total))
    by (symmetry; apply lookup_insert_eq).
  hstep. by exists d3.
Qed.

(** When the product does not exist, [total = form.qty * product.price]
    raises before anything is written: the request fails (HTTP 500) and
    the store is unchanged. *)
Theorem add_missing_product_fails d uid ticks pid form :
  products d !! pid = None ->
  run (view_order_create_cart uid ticks pid form) d = (Raise AttributeError, d).
Proof.
  intros Hp. unfold run, view_order_create_cart. hstep. rewrite Hp. hstep. reflexivity.
Qed.

(** C5: when the product has no inventory row for the requested size and
    colour and the user has no draft order, the handler still commits a
    new draft order priced at [qty * price] with [total_item = qty], but
    no cart line: the order's aggregates count items that are not in the
    cart. *)
Theorem add_without_inventory_creates_priced_empty_order d uid ticks pid form u p :
  db_ok d = true ->
  users d !! uid = Some u ->
  products d !! pid = Some p ->
  find_draft uid d = None ->
  find_inventory pid (form_size_id form) (form_colour_id form) d = None ->
  let total := form_qty form * product_price p in
  uint32_ok (form_qty form) = true ->
  numeric_18_4_ok total = true ->
  exists d',
    run (view_order_create_cart uid ticks pid form) d =
      (Return (Ok200 (mk_order uid None (pretty ticks) (Some (form_qty form)) total 0 0 0 total 0)), d') /\
    orders d' = <[next_order_id d := mk_order uid None (pretty ticks) (Some (form_qty form))
                                       total 0 0 0 total 0]> (orders d) /\
    details d' = details d.
Proof.
  intros Hok Hu Hp Hdraft Hinv total Hq Ht.
  apply db_ok_wf in Hok as Hwf.
  unfold run, view_order_create_cart. hstep. rewrite Hu, Hp, Hdraft. hstep. fold total.
  set (o1 := new_draft uid ticks (form_qty form) total).
  set (d1 := (insert_order o1 d).2).
  assert (Hwf1 : db_wf d1).
  { apply db_wf_insert_order; [done|]. unfold order_ok, o1, new_draft; simpl.
    split_andb; eauto with store; columns_ok. }
  rewrite bind_commit_ok by (apply db_ok_wf; exact Hwf1).
  hstep. reframe d1 d. rewrite Hinv. hstep.
  set (d2 := insert_activity _ d1).
  assert (Hwf2 : db_wf d2).
  { apply db_wf_insert_activity; [done|]. unfold activity_ok; simpl. columns_ok. }
  rewrite bind_commit_ok by (apply db_ok_wf; exact Hwf2).
  hstep.
  replace (orders d2 !! next_order_id d) with (Some o1) by (symmetry; apply lookup_insert_eq).
  hstep. by exists d2.
Qed.

(** ** Witnesses *)

(** Alice adds two laptops (100.0000 each) to an empty cart: one line of
    200.0000, an order of 400.0000 and four items. *)
Lemma first_add_doubles_order_totals_witness :
  exists d',
    run (view_order_create_cart 1 638000000000000000 1 (mk_cart_form 1 1 2)) demo_db =
      (Return (Ok200 (mk_order 1 None (pretty 638000000000000000%Z) (Some (2 + 2))
                        (2000000 + 2000000) 0 0 0 (2000000 + 2000000) 0)), d') /\
    details d' = <[1 := mk_detail 1 1 1000000 2 2000000]> (details demo_db).
Proof.
  refine (first_add_doubles_order_totals demo_db 1 638000000000000000 1 (mk_cart_form 1 1 2)
            alice laptop 1 (mk_inventory 1 1 1 10 1) _ _ _ _ _ _ _ _ _);
    first [vm_compute; reflexivity | simpl; lia].
Defined.

(** Alice removes one laptop from her cart by adding [-1]: the line goes
    from 2 to 1 item, the order's aggregates from 4 to 3 items. *)
Lemma add_merges_existing_line_witness :
  exists d',
    run (view_order_create_cart 1 638000000000000001 1 (mk_cart_form 1 1 (-1))) demo_cart_db =
      (Return (Ok200 (mk_order 1 None "638000000000000000" (Some (4 + -1)) (4000000 + -1 * 1000000) 0 0 0 (4000000 + -1 * 1000000) 0)), d') /\
    details d' = <[1 := mk_detail 1 1 1000000 (2 + -1) (2000000 + -1 * 1000000)]> (details demo_cart_db) /\
    orders d' = <[1 := mk_order 1 None "638000000000000000" (Some (4 + -1)) (4000000 + -1 * 1000000) 0 0 0 (4000000 + -1 * 1000000) 0]> (orders demo_cart_db).
Proof.
  refine (add_merges_existing_line demo_cart_db 1 638000000000000001 1 (mk_cart_form 1 1 (-1))
            alice laptop 1 (mk_order 1 None "638000000000000000" (Some 4) 4000000 0 0 0 4000000 0)
            4 1 (mk_inventory 1 1 1 10 1) 1 (mk_detail 1 1 1000000 2 2000000)
            _ _ _ _ _ _ _ _ _ _ _ _); vm_compute; reflexivity.
Defined.

(** Alice adds a camera (25.5000) to her existing draft order: a second
    line is inserted. *)
Lemma add_new_line_to_draft_witness :
  exists d',
    run (view_order_create_cart 1 638000000000000002 2 (mk_cart_form 1 1 1)) demo_cart_db =
      (Return (Ok200 (mk_order 1 None "638000000000000000" (Some (4 + 1)) (4000000 + 1 * 255000) 0 0 0 (4000000 + 1 * 255000) 0)), d') /\
    details d' = <[2 := mk_detail 1 3 255000 1 (1 * 255000)]> (details demo_cart_db) /\
    orders d' = <[1 := mk_order 1 None "638000000000000000" (Some (4 + 1)) (4000000 + 1 * 255000) 0 0 0 (4000000 + 1 * 255000) 0]> (orders demo_cart_db).
Proof.
  refine (add_new_line_to_draft demo_cart_db 1 638000000000000002 2 (mk_cart_form 1 1 1)
            alice camera 1 (mk_order 1 None "638000000000000000" (Some 4) 4000000 0 0 0 4000000 0)
            4 3 (mk_inventory 2 1 1 5 1) _ _ _ _ _ _ _ _ _ _ _ _); vm_compute; reflexivity.
Defined.

(** Product 7 does not exist. *)
Lemma add_missing_product_fails_witness :
  run (view_order_create_cart 1 638000000000000000 7 (mk_cart_form 1 1 1)) demo_db =
    (Raise AttributeError, demo_db).
Proof. apply add_missing_product_fails. reflexivity. Defined.

(** The camera has no size-2 inventory: Bob's new draft costs 51.0000 and
    has no line. *)
Lemma add_without_inventory_creates_priced_empty_order_witness :
  exists d',
    run (view_order_create_cart 2 638000000000000003 2 (mk_cart_form 2 1 2)) demo_db =
      (Return (Ok200 (mk_order 2 None (pretty 638000000000000003%Z) (Some 2) (2 * 255000) 0 0 0
                        (2 * 255000) 0)), d') /\
    orders d' = <[1 := mk_order 2 None (pretty 638000000000000003%Z) (Some 2) (2 * 255000) 0 0 0
                         (2 * 255000) 0]> (orders demo_db) /\
    details d' = details demo_db.
Proof.
  refine (add_without_inventory_creates_priced_empty_order demo_db 2 638000000000000003 2
            (mk_cart_form 2 1 2) bob camera _ _ _ _ _ _ _); vm_compute; reflexivity.
Defined.

End Cart.
