(* ===== verification/Pricing.v ===== *)
(** * Pricing: settings, the quote, and [GET /api/order/initial]

    The Pricing Calculator is not a function of its own in the source: the
    same lines appear in [view_order_initial] (view_order.py 289-294 and
    336-339) and in [view_order_checkout_submit] (373-378 and 394-398).
    Each reads the settings [discount_value], [taxes_value] and
    [total_shipment] with [.first()] (missing rows count as [Decimal(0)]),
    converts them with [Decimal(...)], and computes
    [discount = subtotal * (d / 100)], [taxes = subtotal * (t / 100)] and
    [total_paid = (subtotal + taxes + shipment) - discount].  Here the
    reading is [read_pricing], the arithmetic [compute_quote], and
    [view_order_initial] is the handler that shows the quote. *)

From stdpp Require Import gmap strings.
From Stdlib Require Import ZArith QArith Lia Ascii String.
From S2P Require Import Prelude Decimal Schema Session Fixtures Cart.

Open Scope Z_scope.
Open Scope store_scope.

Module Pricing.
Import Cart.

(** ** Settings *)

Fixpoint drop_spaces (s : string) : string :=
  match s with
  | String c rest => if Ascii.eqb c " " then drop_spaces rest else s
  | EmptyString => EmptyString
  end.

(** MySQL compares [Setting.key_name == 'discount_value'] under the
    table's default collation: case-insensitive, trailing spaces ignored
    (PAD SPACE). *)
Definition key_matches (stored wanted : string) : bool :=
  String.eqb (lower (string_rev (drop_spaces (string_rev stored))))
             (lower (string_rev (drop_spaces (string_rev wanted)))).

(** [db.query(Setting).filter(Setting.key_name == key).first()] *)
Definition find_setting (key : string) (d : db) : option (Z * setting) :=
  select_first (fun st => key_matches (key_name st) key) (settings d).

(** [Decimal(get.key_value) if get != None else Decimal(0)] as a value:
    [None] when the conversion fails.  A non-finite literal ([NaN],
    [Infinity]) is also a failure: the code does not raise at the
    conversion, but the request fails later, when the value is encoded
    into the JSON response or written into a DECIMAL column. *)
Definition setting_value (key : string) (d : db) : option Q :=
  match find_setting key d with
  | None => Some 0%Q
  | Some (_, st) =>
      match parse_decimal (key_value st) with
      | Some (Finite q) => Some q
      | _ => None
      end
  end.

Definition setting_decimal (key : string) : M Q :=
  v <- query (setting_value key);;
  match v with Some q => ret q | None => raise DecimalError end.

Record pricing_settings := mk_pricing {
  ps_discount : Q;   (** iDiscount: percent *)
  ps_taxes : Q;      (** iTaxes: percent *)
  ps_shipment : Q    (** iShipment: flat amount *)
}.

Definition read_pricing : M pricing_settings :=
  iDiscount <- setting_decimal "discount_value";;
  iTaxes <- setting_decimal "taxes_value";;
  iShipment <- setting_decimal "total_shipment";;
  ret (mk_pricing iDiscount iTaxes iShipment).

(** The three settings of a state, when they all convert. *)
Definition pricing_of (d : db) : option pricing_settings :=
  match setting_value "discount_value" d, setting_value "taxes_value" d,
        setting_value "total_shipment" d with
  | Some a, Some b, Some c => Some (mk_pricing a b c)
  | _, _, _ => None
  end.

(** ** The quote *)

Record quote := mk_quote {
  quote_discount : Q;
  quote_taxes : Q;
  quote_shipment : Q;
  quote_total_paid : Q
}.

Definition compute_quote (sub : Q) (ps : pricing_settings) : quote :=
  let discount := (sub * (ps_discount ps / 100))%Q in
  let taxes := (sub * (ps_taxes ps / 100))%Q in
  mk_quote discount taxes (ps_shipment ps) ((sub + taxes + ps_shipment ps) - discount)%Q.

(** ** [GET /api/order/initial] *)

(** One entry of [carts]: product name, price, quantity and line total
    of a cart line (the inner join with [ProductInventory] and [Product]).
    The query has no ORDER BY: the order of the list is not specified. *)
Definition cart_row : Type := (string * Z * Z * Z)%type.

Definition cart_rows (oid : Z) (d : db) : list cart_row :=
  omap (fun kr : Z * order_detail =>
          let r := kr.2 in
          if detail_order_id r =? oid then
            match inventories d !! detail_inventory_id r with
            | Some i =>
                match products d !! inv_product_id i with
                | Some p => Some (product_name p, detail_price r, detail_qty r, detail_total r)
                | None => None
                end
            | None => None
            end
          else None)
    (map_to_list (details d)).

(** [db.query(func.sum(OrderDetail.qty)).filter(OrderDetail.order_id == id).scalar()] *)
Definition order_qty_sum (oid : Z) (d : db) : option Z :=
  sql_sum detail_qty (fun r => detail_order_id r =? oid) (details d).

Record initial_order := mk_initial_order {
  init_id : Z;
  init_invoice_number : string;
  init_total_item : option Z;
  init_subtotal : Q;
  init_quote : quote
}.

(** The payload; the list of active payment methods ordered by name and
    the [user_result] dictionary (the user's own columns) are left out. *)
Record initial_payload := mk_initial {
  initial_order_of : initial_order;
  initial_carts : list cart_row;
  initial_settings : pricing_settings
}.

Definition view_order_initial (uid : Z) : M (response initial_payload) :=
  order <- query (find_draft uid);;
  user <- query (fun d => users d !! uid);;
  ps <- read_pricing;;
  carts <- (match order with
            | Some (oid, _) => query (cart_rows oid)
            | None => ret []
            end);;
  _ <- get_some user;;
  r <- get_some order;;
  let '(oid, o) := r in
  let sub := dec_of_units (subtotal o) in
  total_item <- query (order_qty_sum oid);;
  ret (Ok200 (mk_initial (mk_initial_order oid (invoice_number o) total_item sub
                            (compute_quote sub ps)) carts ps)).

(** ** Lemmas *)

(** Reading the three settings either yields [pricing_of] of the working
    state or raises [DecimalError]. *)
Lemma read_pricing_eval {B} (k : pricing_settings -> M B) s :
  bind read_pricing k s =
    match pricing_of (pending s) with
    | Some ps => k ps s
    | None => (Raise DecimalError, mk_session (committed s) (committed s))
    end.
Proof.
  unfold read_pricing, setting_decimal, pricing_of. hstep.
  destruct (setting_value "discount_value" (pending s)); hstep; [|reflexivity].
  destruct (setting_value "taxes_value" (pending s)); hstep; [|reflexivity].
  destruct (setting_value "total_shipment" (pending s)); hstep; reflexivity.
Qed.

(** The pricing depends on the [setting] table only. *)
Lemma pricing_of_settings d1 d2 : settings d1 = settings d2 -> pricing_of d1 = pricing_of d2.
Proof. intros Hs. unfold pricing_of, setting_value, find_setting. by rewrite Hs. Qed.

(** A page that answers 200 is the quote of an existing caller's draft. *)
Lemma initial_run_success uid d p d1 :
  run (view_order_initial uid) d = (Return (Ok200 p), d1) ->
  exists u oid o ps,
    users d !! uid = Some u /\ find_draft uid d = Some (oid, o) /\ pricing_of d = Some ps /\
    p = mk_initial (mk_initial_order oid (invoice_number o) (order_qty_sum oid d) (dec_of_units (subtotal o))
                      (compute_quote (dec_of_units (subtotal o)) ps)) (cart_rows oid d) ps.
Proof.
  unfold run, view_order_initial. hstep. rewrite read_pricing_eval. cbn [pending committed].
  destruct (pricing_of d) as [ps|] eqn:Hps; [|done].
  destruct (find_draft uid d) as [[oid o]|] eqn:Hd; destruct (users d !! uid) as [u|] eqn:Hu;
    hstep; try done.
  intros [= <- _]. eauto 10.
Qed.

(** C17: [GET /api/order/initial] is read-only and shows the caller's
    draft with [total_item = SUM(qty)] of its lines, its cart lines, the
    three settings [d], [t] and [s] as read, and the quote of its stored
    subtotal (lines 336-339): [discount = subtotal * d / 100],
    [taxes = subtotal * t / 100], the shipment [s] and
    [total_paid = subtotal + taxes + s - discount]. *)
Theorem initial_reports_quote uid d u oid o dv tv sv :
  users d !! uid = Some u -> find_draft uid d = Some (oid, o) ->
  setting_value "discount_value" d = Some dv -> setting_value "taxes_value" d = Some tv ->
  setting_value "total_shipment" d = Some sv ->
  let sub := dec_of_units (subtotal o) in
  run (view_order_initial uid) d =
    (Return (Ok200 (mk_initial
       (mk_initial_order oid (invoice_number o) (order_qty_sum oid d) sub
          (mk_quote (sub * (dv / 100)) (sub * (tv / 100)) sv ((sub + sub * (tv / 100) + sv) - sub * (dv / 100))))
       (cart_rows oid d) (mk_pricing dv tv sv))), d).
Proof.
  intros Hu Hd Hdv Htv Hsv sub. unfold run, view_order_initial. hstep.
  rewrite Hd, Hu, read_pricing_eval. cbn [pending committed].
  unfold pricing_of. rewrite Hdv, Htv, Hsv. hstep. reflexivity.
Qed.

(** Without a draft order the page fails ([order.id] on [None] in
    the handler; a bad setting fails first) and changes nothing. *)
Theorem initial_without_draft_fails uid d :
  find_draft uid d = None ->
  run (view_order_initial uid) d =
    (Raise (if pricing_of d is Some _ then AttributeError else DecimalError), d).
Proof.
  intros Hd. unfold run, view_order_initial. hstep.
  rewrite Hd, read_pricing_eval. cbn [pending committed].
  destruct (pricing_of d); [|reflexivity].
  hstep. destruct (users d !! uid); hstep; reflexivity.
Qed.

(** ** Witnesses *)

(** Alice's draft of 400.0000 with 5% discount, 10% taxes and 50.0000
    shipping: 20.0000 off, 40.0000 of taxes, 470.0000 to pay. *)
Lemma initial_reports_quote_witness :
  setting_value "discount_value" demo_cart_db = Some 5%Q /\
  setting_value "taxes_value" demo_cart_db = Some 10%Q /\
  setting_value "total_shipment" demo_cart_db = Some 50%Q /\
  run (view_order_initial 1) demo_cart_db =
    (Return (Ok200 (mk_initial
       (mk_initial_order 1 "638000000000000000" (order_qty_sum 1 demo_cart_db) (dec_of_units 4000000)
          (mk_quote (dec_of_units 4000000 * (5 / 100)) (dec_of_units 4000000 * (10 / 100)) 50
             ((dec_of_units 4000000 + dec_of_units 4000000 * (10 / 100) + 50) - dec_of_units 4000000 * (5 / 100))))
       (cart_rows 1 demo_cart_db) (mk_pricing 5 10 50))), demo_cart_db).
Proof.
  assert (Hd : setting_value "discount_value" demo_cart_db = Some 5%Q) by (vm_compute; reflexivity).
  assert (Ht : setting_value "taxes_value" demo_cart_db = Some 10%Q) by (vm_compute; reflexivity).
  assert (Hs : setting_value "total_shipment" demo_cart_db = Some 50%Q) by (vm_compute; reflexivity).
  split; [exact Hd|]. split; [exact Ht|]. split; [exact Hs|].
  exact (initial_reports_quote 1 demo_cart_db alice 1
           (mk_order 1 None "638000000000000000" (Some 4) 4000000 0 0 0 4000000 0) 5 10 50
           eq_refl eq_refl Hd Ht Hs).
Defined.

(** Bob has no draft order. *)
Lemma initial_without_draft_fails_witness :
  run (view_order_initial 2) demo_cart_db =
    (Raise (if pricing_of demo_cart_db is Some _ then AttributeError else DecimalError), demo_cart_db).
Proof. apply initial_without_draft_fails. vm_compute. reflexivity. Defined.

End Pricing.
