(* ===== verification/Checkout.v ===== *)
(** * Checkout: [POST /api/order/checkout] (Checkout Finalizer)

    [view_order_checkout_submit] of view_order.py (lines 365-430): it finds
    the caller's draft order and the pricing settings, then for every cart
    line decrements the inventory's stock, increments the product's
    [total_order] and empties the caller's whole wishlist, freezes the
    quote into the order, counts [total_item] with [SUM(qty)], records the
    payment, places the order (status 1), inserts ten billing rows and an
    activity, and commits once.  [checkout_effect] is the same computation
    as a pure function of the store: the handler either commits exactly
    that state or fails and commits nothing (theorem
    [checkout_all_or_nothing]). *)

From stdpp Require Import gmap strings.
From Stdlib Require Import ZArith QArith Lia Lqa Ascii String.
From S2P Require Import Prelude Decimal Schema Session Fixtures Cart Pricing.

Open Scope Z_scope.
Open Scope store_scope.

Module Checkout.
Import Cart Pricing.

(** [class CheckoutSchema] (schema.py) *)
Record checkout_form := mk_checkout_form {
  form_payment_id : Z;
  form_email : string;
  form_phone : string;
  form_first_name : string;
  form_last_name : string;
  form_gender : string;
  form_address : option string;
  form_country : option string;
  form_city : option string;
  form_zip_code : option string;
  form_notes : option string
}.

(** [inventory.stock = ...] *)
Definition with_stock (i : inventory) (n : Z) : inventory :=
  mk_inventory (inv_product_id i) (inv_size_id i) (inv_colour_id i) n (inv_status i).

(** [product.total_order = ...] *)
Definition with_total_order (p : product) (n : Z) : product :=
  mk_product (product_brand_id p) (product_image p) (product_sku p) (product_name p)
    (product_price p) n (product_total_rating p) (product_published_date p)
    (product_details p) (product_description p) (product_status p).

(** [user.products = []]: deletes every [products_wishlists] row of the
    user. *)
Definition clear_wishlist (uid : Z) (d : db) : db :=
  set_wishlists (filter (fun pu : Z * Z => pu.2 <> uid)) d.

(** [db.query(OrderDetail).filter(OrderDetail.order_id == order.id).all()] *)
Definition order_details (oid : Z) (d : db) : list (Z * order_detail) :=
  filter (fun kr : Z * order_detail => detail_order_id kr.2 = oid) (map_to_list (details d)).

(** The loop of lines 383-391. *)
Fixpoint checkout_lines (uid : Z) (user_found : bool) (dets : list (Z * order_detail))
    : M unit :=
  match dets with
  | [] => ret tt
  | (_, r) :: rest =>
      inv <- query (fun d => inventories d !! detail_inventory_id r);;
      i <- get_some inv;;
      modify (set_inventories
                (<[detail_inventory_id r := with_stock i (inv_stock i - detail_qty r)]>));;
      prod <- query (fun d => products d !! inv_product_id i);;
      p <- get_some prod;;
      modify (set_products
                (<[inv_product_id i := with_total_order p (product_total_order p + detail_qty r)]>));;
      (if user_found then modify (clear_wishlist uid) else raise AttributeError);;
      checkout_lines uid user_found rest
  end.

(** Lines 394-401: the frozen totals, [total_item = SUM(qty)], the payment
    and [status = 1].  The Decimal values are computed exactly and rounded
    to four decimals when MySQL stores them. *)
Definition placed_order (o : order) (q : quote) (item : option Z) (pid : Z) : order :=
  mk_order (order_user_id o) (Some pid) (invoice_number o) item
    (units_of_dec (dec_of_units (subtotal o)))
    (units_of_dec (quote_discount q)) (units_of_dec (quote_taxes q))
    (units_of_dec (quote_shipment q)) (units_of_dec (quote_total_paid q)) 1.

(** Lines 404-413: one [OrderBilling] per field, optional fields included. *)
Definition billing_rows (oid : Z) (f : checkout_form) : list order_billing :=
  [mk_billing oid "first_name" (Some (form_first_name f));
   mk_billing oid "last_name" (Some (form_last_name f));
   mk_billing oid "gender" (Some (form_gender f));
   mk_billing oid "email" (Some (form_email f));
   mk_billing oid "phone" (Some (form_phone f));
   mk_billing oid "address" (form_address f);
   mk_billing oid "country" (form_country f);
   mk_billing oid "city" (form_city f);
   mk_billing oid "zip_code" (form_zip_code f);
   mk_billing oid "notes" (form_notes f)].

Fixpoint add_billings (rs : list order_billing) : M unit :=
  match rs with
  | [] => ret tt
  | r :: rest => modify (insert_billing r);; add_billings rest
  end.

Definition checkout_activity (u : option Z) : activity :=
  mk_activity u "Checkout Order" "Completed Checkout Current Order" "Your order has been finished.".

Definition view_order_checkout_submit (uid : Z) (form : checkout_form) : M (response order) :=
  user <- query (fun d => users d !! uid);;
  order <- query (find_draft uid);;
  ps <- read_pricing;;
  r <- get_some order;;
  let '(oid, o) := r in
  dets <- query (order_details oid);;
  checkout_lines uid (if user is Some _ then true else false) dets;;
  let q := compute_quote (dec_of_units (subtotal o)) ps in
  item <- query (order_qty_sum oid);;
  modify (set_orders (<[oid := placed_order o q item (form_payment_id form)]>));;
  add_billings (billing_rows oid form);;
  modify (insert_activity (checkout_activity (option_map (fun _ => uid) user)));;
  commit;;
  o' <- query (fun d => orders d !! oid);;
  o' <- get_some o';;
  ret (Ok200 o').

(** ** The same computation as a function of the store *)

Fixpoint lines_effect (uid : Z) (user_found : bool) (dets : list (Z * order_detail)) (d : db)
    : option db :=
  match dets with
  | [] => Some d
  | (_, r) :: rest =>
      match inventories d !! detail_inventory_id r with
      | None => None
      | Some i =>
          let d1 := set_inventories
                      (<[detail_inventory_id r := with_stock i (inv_stock i - detail_qty r)]>) d in
          match products d1 !! inv_product_id i with
          | None => None
          | Some p =>
              let d2 := set_products (<[inv_product_id i :=
                          with_total_order p (product_total_order p + detail_qty r)]>) d1 in
              if user_found then lines_effect uid user_found rest (clear_wishlist uid d2) else None
          end
      end
  end.

Fixpoint billings_effect (rs : list order_billing) (d : db) : db :=
  match rs with
  | [] => d
  | r :: rest => billings_effect rest (insert_billing r d)
  end.

(** The exception the handler raises, or the placed order with its id and
    the state the handler commits. *)
Definition checkout_effect (uid : Z) (form : checkout_form) (d : db)
    : exn + (Z * order * db) :=
  match pricing_of d with
  | None => inl DecimalError
  | Some ps =>
      match find_draft uid d with
      | None => inl AttributeError
      | Some (oid, o) =>
          let uf := if users d !! uid is Some _ then true else false in
          match lines_effect uid uf (order_details oid d) d with
          | None => inl AttributeError
          | Some d1 =>
              let q := compute_quote (dec_of_units (subtotal o)) ps in
              let o' := placed_order o q (order_qty_sum oid d1) (form_payment_id form) in
              let d2 := billings_effect (billing_rows oid form) (set_orders (<[oid := o']>) d1) in
              inr (oid, o', insert_activity
                              (checkout_activity (option_map (fun _ => uid) (users d !! uid))) d2)
          end
      end
  end.

(** ** Example inputs *)

(** Alice's billing form, every field filled in. *)
Definition demo_form : checkout_form :=
  mk_checkout_form 1 "alice@example.com" "0812345678" "Alice" "Anders" "Female"
    (Some "Jl. Merdeka 1") (Some "Indonesia") (Some "Jakarta") (Some "10110") (Some "Ring twice").

(** The same form without notes. *)
Definition demo_form_no_notes : checkout_form :=
  mk_checkout_form 1 "alice@example.com" "0812345678" "Alice" "Anders" "Female"
    (Some "Jl. Merdeka 1") (Some "Indonesia") (Some "Jakarta") (Some "10110") None.

(** The same form paying with a method that does not exist. *)
Definition demo_form_bad_payment : checkout_form :=
  mk_checkout_form 9 "alice@example.com" "0812345678" "Alice" "Anders" "Female"
    (Some "Jl. Merdeka 1") (Some "Indonesia") (Some "Jakarta") (Some "10110") (Some "Ring twice").

(** The cart of [demo_cart_db] (two laptops) with one laptop left in stock. *)
Definition low_stock_db : db :=
  set_inventories (<[1 := mk_inventory 1 1 1 1 1]>) demo_cart_db.

(** Total quantity of the cart lines [dets] on inventory [ik]. *)
Definition qty_on (ik : Z) (dets : list (Z * order_detail)) : Z :=
  fold_right (fun kr acc => if detail_inventory_id kr.2 =? ik then detail_qty kr.2 + acc else acc)
    0 dets.

(** ** Evaluation lemmas *)

Lemma checkout_lines_eval {B} uid uf dets (k : unit -> M B) s :
  bind (checkout_lines uid uf dets) k s =
    match lines_effect uid uf dets (pending s) with
    | Some p => k tt (mk_session (committed s) p)
    | None => (Raise AttributeError, mk_session (committed s) (committed s))
    end.
Proof.
  revert s. induction dets as [|[j r] dets IH]; intros s; simpl; [hstep; by destruct s|].
  hstep. destruct (inventories (pending s) !! detail_inventory_id r) as [i|]; hstep; [|reflexivity].
  destruct (products _ !! inv_product_id i) as [p|]; hstep; [|reflexivity].
  destruct uf; hstep; [rewrite IH; reflexivity|reflexivity].
Qed.

Lemma add_billings_eval {B} rs (k : unit -> M B) s :
  bind (add_billings rs) k s = k tt (mk_session (committed s) (billings_effect rs (pending s))).
Proof. revert s. induction rs as [|r rs IH]; intros s; simpl; hstep; [by destruct s|apply IH]. Qed.

(** ** Frame lemmas: what each stage leaves alone *)

Lemma billings_effect_frame rs d :
  exists bs n, billings_effect rs d =
    mk_db (users d) (products d) (inventories d) (payments d) (settings d) (orders d)
      (details d) bs (activities d) (wishlists d) (orders_carts d)
      (next_order_id d) (next_detail_id d) n (next_activity_id d) (reviews d) (next_review_id d)
      (authentications d) (next_user_id d) (next_auth_id d) (brands d) (categories d)
    (products_categories d) (newsletters d) (next_newsletter_id d)
    (colours d) (sizes d) (products_images d)
    (next_product_id d) (next_inventory_id d) (next_payment_id d) (next_setting_id d) (next_brand_id d)
    (next_category_id d) (next_colour_id d) (next_size_id d) (next_image_id d).
Proof.
  revert d. induction rs as [|r rs IH]; intros d; simpl.
  - destruct d; eauto.
  - destruct (IH (insert_billing r d)) as (bs & n & ->). eauto.
Qed.

(** Rows written earlier keep their keys. *)
Lemma billings_effect_old rs d k :
  k < next_billing_id d -> billings (billings_effect rs d) !! k = billings d !! k.
Proof.
  revert d. induction rs as [|r rs IH]; intros d Hk; simpl; [done|].
  rewrite IH by (simpl; lia). simpl. rewrite lookup_insert_ne by lia. done.
Qed.

(** Every row of [rs] is in the table afterwards. *)
Lemma billings_effect_in rs d r :
  In r rs -> exists k, billings (billings_effect rs d) !! k = Some r.
Proof.
  revert d. induction rs as [|r' rs IH]; intros d Hin; simpl in *; [done|].
  destruct Hin as [<-|Hin]; [|by apply IH].
  exists (next_billing_id d). rewrite billings_effect_old by (simpl; lia).
  simpl. apply lookup_insert_eq.
Qed.

Lemma lines_effect_frame uid uf dets d d1 :
  lines_effect uid uf dets d = Some d1 ->
  exists prods invs wl, d1 =
    mk_db (users d) prods invs (payments d) (settings d) (orders d)
      (details d) (billings d) (activities d) wl (orders_carts d)
      (next_order_id d) (next_detail_id d) (next_billing_id d) (next_activity_id d)
      (reviews d) (next_review_id d)
      (authentications d) (next_user_id d) (next_auth_id d) (brands d) (categories d)
    (products_categories d) (newsletters d) (next_newsletter_id d)
    (colours d) (sizes d) (products_images d)
    (next_product_id d) (next_inventory_id d) (next_payment_id d) (next_setting_id d) (next_brand_id d)
    (next_category_id d) (next_colour_id d) (next_size_id d) (next_image_id d).
Proof.
  revert d. induction dets as [|[j r] dets IH]; intros d Hd; simpl in Hd.
  - injection Hd as <-. destruct d; eauto.
  - destruct (inventories d !! _) as [i|]; [|done].
    destruct (products _ !! _) as [p|]; [|done].
    destruct uf; [|done]. destruct (IH _ Hd) as (prods & invs & wl & ->). eauto.
Qed.

(** The stock of each inventory decreases by the quantity of the lines on
    it; its product does not change. *)
Lemma lines_effect_stock uid uf dets d d1 ik i :
  lines_effect uid uf dets d = Some d1 -> inventories d !! ik = Some i ->
  exists i', inventories d1 !! ik = Some i' /\
             inv_stock i' = inv_stock i - qty_on ik dets /\ inv_product_id i' = inv_product_id i.
Proof.
  revert d i. induction dets as [|[j r] dets IH]; intros d i Hd Hi; simpl in Hd |- *.
  - injection Hd as <-. exists i. split_and!; [done|lia|done].
  - destruct (inventories d !! _) as [i0|] eqn:Hi0; [|done].
    destruct (products _ !! _) as [p|]; [|done].
    destruct uf; [|done].
    destruct (Z.eqb_spec (detail_inventory_id r) ik) as [<-|Hne].
    + rewrite Hi in Hi0. injection Hi0 as <-.
      destruct (IH _ _ Hd (lookup_insert_eq _ _ _)) as (i' & -> & Hs & Hp).
      exists i'. simpl in Hs, Hp. split_and!; [done|lia|done].
    + destruct (IH _ i Hd) as (i' & -> & Hs & Hp); [simpl; by rewrite lookup_insert_ne|].
      eauto.
Qed.

(** The wishlist is emptied for the caller when there is at least one
    line, and left alone otherwise. *)
Lemma lines_effect_wishlists uid uf dets d d1 :
  lines_effect uid uf dets d = Some d1 ->
  wishlists d1 = match dets with
                 | [] => wishlists d
                 | _ => filter (fun pu : Z * Z => pu.2 <> uid) (wishlists d)
                 end.
Proof.
  revert d. induction dets as [|[j r] dets IH]; intros d Hd; simpl in Hd.
  - by injection Hd as <-.
  - destruct (inventories d !! _) as [i|]; [|done].
    destruct (products _ !! _) as [p|]; [|done].
    destruct uf; [|done]. rewrite (IH _ Hd).
    destruct dets; simpl; [done|]. apply leibniz_equiv, set_equiv. intros x. rewrite !elem_of_filter. tauto.
Qed.

(** The decomposition of a successful [checkout_effect]: what the
    committed state holds, table by table. *)
Lemma checkout_effect_inr uid form d oid o' d' :
  checkout_effect uid form d = inr (oid, o', d') ->
  exists ps o d1,
    pricing_of d = Some ps /\ find_draft uid d = Some (oid, o) /\
    lines_effect uid (if users d !! uid is Some _ then true else false)
      (order_details oid d) d = Some d1 /\
    o' = placed_order o (compute_quote (dec_of_units (subtotal o)) ps)
           (order_qty_sum oid d) (form_payment_id form) /\
    inventories d' = inventories d1 /\ products d' = products d1 /\
    wishlists d' = wishlists d1 /\ payments d' = payments d /\
    orders d' = <[oid := o']> (orders d) /\
    (forall r, In r (billing_rows oid form) -> exists k, billings d' !! k = Some r) /\
    settings d' = settings d /\ users d' = users d.
Proof.
  unfold checkout_effect.
  destruct (pricing_of d) as [ps|]; [|done].
  destruct (find_draft uid d) as [[oid0 o]|]; [|done].
  destruct (lines_effect _ _ _ d) as [d1|] eqn:Hl; [|done].
  match goal with |- context [billings_effect ?rs ?d2] =>
    pose proof (billings_effect_in rs d2) as Hin;
    destruct (billings_effect_frame rs d2) as (bs & n & Hb); rewrite Hb end.
  intros [= <- <- <-]. exists ps, o, d1.
  pose proof (lines_effect_frame _ _ _ _ _ Hl) as (prods & invs & wl & Hd1).
  split_and!; try done; rewrite ?Hb; rewrite Hd1 in *; try done.
  intros r Hr. destruct (Hin r Hr) as [k Hk]. rewrite Hb in Hk. eauto.
Qed.

(** Once the only draft is placed, the user has no draft left. *)
Lemma find_draft_after_placing uid d d' oid o o' :
  single_draft uid d = true -> find_draft uid d = Some (oid, o) ->
  is_draft_of uid o' = false -> orders d' = <[oid := o']> (orders d) ->
  find_draft uid d' = None.
Proof.
  intros Hsingle Hdraft Ho' Hord. unfold find_draft. rewrite Hord.
  apply select_last_None. intros k v Hk.
  destruct (decide (k = oid)) as [->|Hne].
  - rewrite lookup_insert_eq in Hk. by injection Hk as <-.
  - rewrite lookup_insert_ne in Hk by congruence.
    destruct (is_draft_of uid v) eqn:Hv; [|done]. exfalso.
    apply select_last_Some in Hdraft as (Hoid & Hd & _).
    apply Hne. by apply (proj1 (single_draft_spec uid d) Hsingle k v oid o).
Qed.

(** The handler, evaluated: [checkout_effect] committed when the database
    accepts it, nothing otherwise. *)
Lemma checkout_submit_eval uid form d :
  run (view_order_checkout_submit uid form) d =
    match checkout_effect uid form d with
    | inl e => (Raise e, d)
    | inr (oid, o', d') =>
        if db_ok d' then (Return (Ok200 o'), d') else (Raise IntegrityError, d)
    end.
Proof.
  unfold run, view_order_checkout_submit, checkout_effect. hstep.
  rewrite read_pricing_eval. cbn [pending committed].
  destruct (pricing_of d) as [ps|]; [|reflexivity].
  destruct (find_draft uid d) as [[oid o]|]; hstep; [|reflexivity].
  rewrite checkout_lines_eval. cbn [pending committed].
  destruct (lines_effect _ _ _ d) as [d1|]; [|reflexivity].
  hstep. rewrite add_billings_eval. hstep.
  destruct (db_ok _) eqn:Hok.
  - rewrite bind_commit_ok by exact Hok. hstep.
    simpl (orders (insert_activity _ _)). rewrite lookup_insert_eq. hstep. reflexivity.
  - rewrite bind_commit_fail by exact Hok. reflexivity.
Qed.

Lemma checkout_run_success uid form d o' d' :
  run (view_order_checkout_submit uid form) d = (Return (Ok200 o'), d') ->
  exists oid, checkout_effect uid form d = inr (oid, o', d') /\ db_wf d'.
Proof.
  rewrite checkout_submit_eval.
  destruct (checkout_effect uid form d) as [e|[[oid o''] d'']]; [done|].
  destruct (db_ok d'') eqn:Hok; [|done]. intros [= <- <-].
  apply db_ok_wf in Hok. eauto.
Qed.

(** A checkout whose every possible outcome the database refuses leaves
    the store as it was. *)
Lemma checkout_run_rollback uid form d :
  (forall oid o' d', checkout_effect uid form d = inr (oid, o', d') -> ~ db_wf d') ->
  exists e, run (view_order_checkout_submit uid form) d = (Raise e, d).
Proof.
  intros Hno. rewrite checkout_submit_eval.
  destruct (checkout_effect uid form d) as [e|[[oid o'] d']] eqn:He; [eauto|].
  destruct (db_ok d') eqn:Hok; [|eauto].
  exfalso. apply (Hno _ _ _ eq_refl). by apply db_ok_wf.
Qed.


(** Column facts of an accepted store. *)
Lemma wf_inventory_stock d k i : db_wf d -> inventories d !! k = Some i -> 0 <= inv_stock i.
Proof.
  intros Hwf Hi. pose proof (wf_inventories _ Hwf _ _ Hi) as Hok.
  unfold inventory_ok, uint32_ok in Hok. rewrite !andb_true_iff, Z.leb_le in Hok. tauto.
Qed.

Lemma wf_order_payment d k o pid :
  db_wf d -> orders d !! k = Some o -> order_payment_id o = Some pid -> is_Some (payments d !! pid).
Proof.
  intros Hwf Ho Hp. pose proof (wf_orders _ Hwf _ _ Ho) as Hok.
  unfold order_ok in Hok. rewrite Hp in Hok. destruct_andb Hok. by apply fk_spec.
Qed.

Lemma wf_billing_description d k r :
  db_wf d -> billings d !! k = Some r -> is_Some (billing_description r).
Proof.
  intros Hwf Hr. pose proof (wf_billings _ Hwf _ _ Hr) as Hok.
  unfold billing_ok in Hok. apply andb_true_iff in Hok as [_ Hok].
  destruct (billing_description r); [eauto|done].
Qed.


(** The frozen total is the exact sum of the exact parts. *)
Lemma quote_total_paid_eq sub ps :
  (quote_total_paid (compute_quote sub ps) ==
     sub + quote_taxes (compute_quote sub ps) + quote_shipment (compute_quote sub ps)
     - quote_discount (compute_quote sub ps))%Q.
Proof. reflexivity. Qed.

(** Four roundings of at most half a unit each. *)
Lemma rounded_sum_gap (s : Z) (t sh dc : Q) :
  Z.abs (units_of_dec (dec_of_units s + t + sh - dc)%Q
         - (s + units_of_dec t + units_of_dec sh - units_of_dec dc)) <= 2.
Proof.
  pose proof (units_of_dec_near (dec_of_units s + t + sh - dc)%Q) as H1.
  pose proof (units_of_dec_near t) as H2.
  pose proof (units_of_dec_near sh) as H3.
  pose proof (units_of_dec_near dc) as H4.
  assert (dec_of_units s * 10000 == inject_Z s)%Q as Hs.
  { unfold dec_of_units, Qeq, Qmult, inject_Z; simpl. lia. }
  apply Z.abs_le. rewrite !Zle_Qle. unfold Z.sub.
  repeat rewrite ?inject_Z_plus, ?inject_Z_opp. change (inject_Z 2) with 2%Q.
  clear - H1 H2 H3 H4 Hs. generalize dependent (dec_of_units s). intros ds H1 Hs.
  split; lra.
Qed.

(** C6: the checkout handler is all-or-nothing.  It commits exactly the
    state computed by [checkout_effect] and returns the placed order when
    that state passes the database's checks; on every failure (a bad
    setting, no draft, a dangling line, a refused write) it raises and
    the store is left exactly as it was. *)
Theorem checkout_all_or_nothing uid form d :
  run (view_order_checkout_submit uid form) d =
    match checkout_effect uid form d with
    | inl e => (Raise e, d)
    | inr (oid, o', d') =>
        if db_ok d' then (Return (Ok200 o'), d') else (Raise IntegrityError, d)
    end.
Proof. apply checkout_submit_eval. Qed.

(** C7: a successful checkout places the caller's draft order: the
    committed order keeps the draft's user, invoice number and subtotal,
    takes the chosen payment, [total_item = SUM(qty)] of its lines and
    status 1, and freezes the quote of lines 394-398 into its columns,
    each rounded to four places: [discount = subtotal * d / 100],
    [taxes = subtotal * t / 100], the shipment [s], and
    [total_paid = subtotal + taxes + s - discount], with [d], [t] and [s]
    the three settings.  No other order changes. *)
Theorem checkout_places_order uid form d o' d' :
  run (view_order_checkout_submit uid form) d = (Return (Ok200 o'), d') ->
  exists oid o dv tv sv,
    find_draft uid d = Some (oid, o) /\
    setting_value "discount_value" d = Some dv /\ setting_value "taxes_value" d = Some tv /\
    setting_value "total_shipment" d = Some sv /\
    let sub := dec_of_units (subtotal o) in
    o' = mk_order uid (Some (form_payment_id form)) (invoice_number o) (order_qty_sum oid d)
           (subtotal o) (units_of_dec (sub * (dv / 100))) (units_of_dec (sub * (tv / 100)))
           (units_of_dec sv) (units_of_dec ((sub + sub * (tv / 100) + sv) - sub * (dv / 100))) 1 /\
    orders d' = <[oid := o']> (orders d).
Proof.
  intros (oid & He & _)%checkout_run_success.
  destruct (checkout_effect_inr _ _ _ _ _ _ He) as (ps & o & d1 & Hps & Hd & _ & -> & _ & _ & _ & _ & Hord & _).
  destruct (find_draft_is_draft _ _ _ _ Hd) as [Hu _].
  unfold pricing_of in Hps.
  destruct (setting_value "discount_value" d) as [dv|] eqn:?; [|done].
  destruct (setting_value "taxes_value" d) as [tv|] eqn:?; [|done].
  destruct (setting_value "total_shipment" d) as [sv|] eqn:?; [|done].
  injection Hps as <-. exists oid, o, dv, tv, sv. do 4 (split; [done|]). cbv zeta.
  split; [|done]. unfold placed_order. by rewrite Hu, units_of_dec_of_units.
Qed.

(** C8: a successful checkout decrements the stock of every inventory by
    the quantity of the order's lines on it (lines 385-386), and the
    committed stock is not negative. *)
Theorem checkout_decrements_stock uid form d o' d' oid o ik i :
  run (view_order_checkout_submit uid form) d = (Return (Ok200 o'), d') ->
  find_draft uid d = Some (oid, o) -> inventories d !! ik = Some i ->
  exists i', inventories d' !! ik = Some i' /\
             inv_stock i' = inv_stock i - qty_on ik (order_details oid d) /\
             inv_product_id i' = inv_product_id i /\ 0 <= inv_stock i'.
Proof.
  intros (oid' & He & Hwf)%checkout_run_success Hdraft Hi.
  destruct (checkout_effect_inr _ _ _ _ _ _ He) as (ps & o0 & d1 & _ & Hd & Hl & _ & Hinv & _).
  rewrite Hdraft in Hd. simplify_eq.
  destruct (lines_effect_stock _ _ _ _ _ _ _ Hl Hi) as (i' & Hi' & ? & ?).
  rewrite <-Hinv in Hi'. exists i'. split_and!; eauto using wf_inventory_stock.
Qed.

(** C9: a successful checkout deletes every wishlist entry of the caller
    ([user.products = []], line 389) when the order has at least one line,
    and leaves the wishlists alone when it has none; other users' entries
    are kept. *)
Theorem checkout_clears_wishlist uid form d o' d' oid o :
  run (view_order_checkout_submit uid form) d = (Return (Ok200 o'), d') ->
  find_draft uid d = Some (oid, o) ->
  wishlists d' = match order_details oid d with
                 | [] => wishlists d
                 | _ => filter (fun pu : Z * Z => pu.2 <> uid) (wishlists d)
                 end.
Proof.
  intros (oid' & He & _)%checkout_run_success Hdraft.
  destruct (checkout_effect_inr _ _ _ _ _ _ He)
    as (ps & o0 & d1 & _ & Hd & Hl & _ & _ & _ & Hw & _).
  rewrite Hdraft in Hd. simplify_eq. rewrite Hw. exact (lines_effect_wishlists _ _ _ _ _ Hl).
Qed.

(** C10: the stock column is unsigned: when the order's lines ask for
    more than an inventory holds, the decremented stock is refused at
    commit and the whole checkout is rolled back. *)
Theorem checkout_insufficient_stock_rolls_back uid form d oid o ik i :
  find_draft uid d = Some (oid, o) -> inventories d !! ik = Some i ->
  inv_stock i < qty_on ik (order_details oid d) ->
  exists e, run (view_order_checkout_submit uid form) d = (Raise e, d).
Proof.
  intros Hdraft Hi Hlt. apply checkout_run_rollback. intros oid' o' d' He Hwf.
  destruct (checkout_effect_inr _ _ _ _ _ _ He) as (ps & o0 & d1 & _ & Hd & Hl & _ & Hinv & _).
  rewrite Hdraft in Hd. simplify_eq.
  destruct (lines_effect_stock _ _ _ _ _ _ _ Hl Hi) as (i' & Hi' & Hs & _).
  rewrite <-Hinv in Hi'. pose proof (wf_inventory_stock _ _ _ Hwf Hi'). lia.
Qed.

(** Every billing field is written, the optional ones included, into
    a NOT NULL column: a checkout with an address, country, city, zip code
    or notes left out fails and commits nothing. *)
Theorem checkout_null_billing_rolls_back uid form d :
  form_address form = None \/ form_country form = None \/ form_city form = None \/
  form_zip_code form = None \/ form_notes form = None ->
  exists e, run (view_order_checkout_submit uid form) d = (Raise e, d).
Proof.
  intros Hnone. apply checkout_run_rollback. intros oid o' d' He Hwf.
  destruct (checkout_effect_inr _ _ _ _ _ _ He) as (_ & _ & _ & _ & _ & _ & _ & _ & _ & _ & _ & _ & Hb & _).
  assert (exists name, In (mk_billing oid name None) (billing_rows oid form)) as [name Hin].
  { unfold billing_rows. simpl.
    destruct Hnone as [->|[->|[->|[->| ->]]]]; eexists; tauto. }
  destruct (Hb _ Hin) as [k Hk].
  destruct (wf_billing_description _ _ _ Hwf Hk) as [? [=]].
Qed.

(** Without a draft order the handler fails ([order.id] on [None],
    or a bad setting read before it) and commits nothing. *)
Theorem checkout_without_draft_fails uid form d :
  find_draft uid d = None ->
  run (view_order_checkout_submit uid form) d =
    (Raise (if pricing_of d is Some _ then AttributeError else DecimalError), d).
Proof.
  intros Hnone. rewrite checkout_submit_eval. unfold checkout_effect.
  rewrite Hnone. by destruct (pricing_of d).
Qed.

(** The payment id is not validated by the handler; a payment that
    does not exist is refused by the foreign key and the checkout rolls
    back. *)
Theorem checkout_unknown_payment_rolls_back uid form d :
  payments d !! form_payment_id form = None ->
  exists e, run (view_order_checkout_submit uid form) d = (Raise e, d).
Proof.
  intros Hpay. apply checkout_run_rollback. intros oid o' d' He Hwf.
  destruct (checkout_effect_inr _ _ _ _ _ _ He)
    as (ps & o & d1 & _ & _ & _ & Ho & _ & _ & _ & Hp & Hord & _).
  destruct (wf_order_payment d' oid o' (form_payment_id form)) as [? Hx]; auto.
  - rewrite Hord. apply lookup_insert_eq.
  - rewrite Ho. reflexivity.
  - rewrite Hp, Hpay in Hx. done.
Qed.

(** C14: the stored total is rounded once from the exact total while the
    stored discount, taxes and shipment are rounded separately: the stored
    [total_paid] differs from [subtotal + total_taxes + total_shipment -
    total_discount] of the same row by at most two ten-thousandths. *)
Theorem placed_total_paid_gap o ps item pid :
  let o' := placed_order o (compute_quote (dec_of_units (subtotal o)) ps) item pid in
  Z.abs (total_paid o' - (subtotal o' + total_taxes o' + total_shipment o' - total_discount o')) <= 2.
Proof.
  cbn zeta. unfold placed_order. cbn [total_paid subtotal total_taxes total_shipment total_discount].
  rewrite units_of_dec_of_units, quote_total_paid_eq. apply rounded_sum_gap.
Qed.

(** The gap happens with the shop's own settings (5% discount, 10%
    taxes): a subtotal of 12.3405 stores taxes 1.2341 (1.23405 rounded
    up) and discount 0.6170 (0.617025 rounded down) but a total of
    12.9575 (12.957525), one ten-thousandth below the sum of the stored
    parts. *)
Example placed_total_paid_gap_example :
  let o' := placed_order (mk_order 1 None "1" (Some 1) 123405 0 0 0 123405 0)
              (compute_quote (dec_of_units 123405) (mk_pricing 5 10 0)) (Some 1) 1 in
  total_paid o' - (subtotal o' + total_taxes o' + total_shipment o' - total_discount o') = -1.
Proof. vm_compute. reflexivity. Qed.

(** After a successful checkout of the user's only draft, the user has
    no draft, so a second checkout fails at once and changes nothing. *)
Lemma checkout_again_fails uid form form2 d o' d' :
  single_draft uid d = true ->
  run (view_order_checkout_submit uid form) d = (Return (Ok200 o'), d') ->
  run (view_order_checkout_submit uid form2) d' = (Raise AttributeError, d').
Proof.
  intros Hsingle (oid & He & _)%checkout_run_success.
  destruct (checkout_effect_inr _ _ _ _ _ _ He)
    as (ps & o & d1 & Hps & Hd & _ & Ho & _ & _ & _ & _ & Hord & _ & Hset & _).
  assert (find_draft uid d' = None) as Hnone.
  { apply (find_draft_after_placing uid d d' oid o o'); auto. by rewrite Ho. }
  rewrite checkout_submit_eval. unfold checkout_effect.
  rewrite (pricing_of_settings d' d Hset), Hps, Hnone. reflexivity.
Qed.

(** C16: the checkout cannot charge twice.  When the user had a single
    draft, a second checkout after a successful one finds no draft, fails
    and changes nothing. *)
Theorem checkout_twice_fails uid form form2 d o' d' :
  single_draft uid d = true ->
  run (view_order_checkout_submit uid form) d = (Return (Ok200 o'), d') ->
  run (view_order_checkout_submit uid form2) d' = (Raise AttributeError, d').
Proof. apply checkout_again_fails. Qed.

(** ** Witnesses *)

(** Alice checks out her two laptops (subtotal stored as 400.0000 by the
    doubled first add): 5% discount, 10% taxes and 50.0000 shipping give
    470.0000. *)
Lemma checkout_places_order_witness :
  exists oid o dv tv sv,
    find_draft 1 demo_cart_db = Some (oid, o) /\
    setting_value "discount_value" demo_cart_db = Some dv /\
    setting_value "taxes_value" demo_cart_db = Some tv /\
    setting_value "total_shipment" demo_cart_db = Some sv /\
    let sub := dec_of_units (subtotal o) in
    mk_order 1 (Some 1) "638000000000000000" (Some 2) 4000000 200000 400000 500000 4700000 1 =
      mk_order 1 (Some (form_payment_id demo_form)) (invoice_number o) (order_qty_sum oid demo_cart_db)
        (subtotal o) (units_of_dec (sub * (dv / 100))) (units_of_dec (sub * (tv / 100)))
        (units_of_dec sv) (units_of_dec ((sub + sub * (tv / 100) + sv) - sub * (dv / 100))) 1 /\
    orders (snd (run (view_order_checkout_submit 1 demo_form) demo_cart_db)) =
      <[oid := mk_order 1 (Some 1) "638000000000000000" (Some 2) 4000000 200000 400000 500000
                 4700000 1]> (orders demo_cart_db).
Proof.
  apply (checkout_places_order 1 demo_form demo_cart_db
           (mk_order 1 (Some 1) "638000000000000000" (Some 2) 4000000 200000 400000 500000 4700000 1)
           (snd (run (view_order_checkout_submit 1 demo_form) demo_cart_db))).
  vm_compute. reflexivity.
Defined.

(** The laptop inventory goes from 10 to 8. *)
Lemma checkout_decrements_stock_witness :
  exists i', inventories (snd (run (view_order_checkout_submit 1 demo_form) demo_cart_db)) !! 1 = Some i' /\
    inv_stock i' = inv_stock (mk_inventory 1 1 1 10 1) - qty_on 1 (order_details 1 demo_cart_db) /\
    inv_product_id i' = inv_product_id (mk_inventory 1 1 1 10 1) /\ 0 <= inv_stock i'.
Proof.
  apply (checkout_decrements_stock 1 demo_form demo_cart_db
           (mk_order 1 (Some 1) "638000000000000000" (Some 2) 4000000 200000 400000 500000 4700000 1)
           _ 1 (mk_order 1 None "638000000000000000" (Some 4) 4000000 0 0 0 4000000 0));
    vm_compute; reflexivity.
Defined.

(** Alice's wishlist entry (product 1) goes, Bob's (product 2) stays. *)
Lemma checkout_clears_wishlist_witness :
  wishlists (snd (run (view_order_checkout_submit 1 demo_form) demo_cart_db)) =
    match order_details 1 demo_cart_db with
    | [] => wishlists demo_cart_db
    | _ => filter (fun pu : Z * Z => pu.2 <> 1) (wishlists demo_cart_db)
    end.
Proof.
  apply (checkout_clears_wishlist 1 demo_form demo_cart_db
           (mk_order 1 (Some 1) "638000000000000000" (Some 2) 4000000 200000 400000 500000 4700000 1)
           _ 1 (mk_order 1 None "638000000000000000" (Some 4) 4000000 0 0 0 4000000 0));
    vm_compute; reflexivity.
Defined.

(** Two laptops ordered, one in stock. *)
Lemma checkout_insufficient_stock_rolls_back_witness :
  exists e, run (view_order_checkout_submit 1 demo_form) low_stock_db = (Raise e, low_stock_db).
Proof.
  apply (checkout_insufficient_stock_rolls_back 1 demo_form low_stock_db 1
           (mk_order 1 None "638000000000000000" (Some 4) 4000000 0 0 0 4000000 0)
           1 (mk_inventory 1 1 1 1 1)); vm_compute; reflexivity.
Defined.

Lemma checkout_null_billing_rolls_back_witness :
  exists e, run (view_order_checkout_submit 1 demo_form_no_notes) demo_cart_db = (Raise e, demo_cart_db).
Proof. apply checkout_null_billing_rolls_back. do 4 right. reflexivity. Defined.

(** Bob has no draft order. *)
Lemma checkout_without_draft_fails_witness :
  run (view_order_checkout_submit 2 demo_form) demo_cart_db =
    (Raise (if pricing_of demo_cart_db is Some _ then AttributeError else DecimalError), demo_cart_db).
Proof. apply checkout_without_draft_fails. vm_compute. reflexivity. Defined.

Lemma checkout_unknown_payment_rolls_back_witness :
  exists e, run (view_order_checkout_submit 1 demo_form_bad_payment) demo_cart_db =
    (Raise e, demo_cart_db).
Proof. apply checkout_unknown_payment_rolls_back. vm_compute. reflexivity. Defined.

(** Alice checks out, then checks out again. *)
Lemma checkout_twice_fails_witness :
  run (view_order_checkout_submit 1 demo_form)
      (snd (run (view_order_checkout_submit 1 demo_form) demo_cart_db)) =
    (Raise AttributeError, snd (run (view_order_checkout_submit 1 demo_form) demo_cart_db)).
Proof.
  apply (checkout_twice_fails 1 demo_form demo_form demo_cart_db
           (mk_order 1 (Some 1) "638000000000000000" (Some 2) 4000000 200000 400000 500000 4700000 1));
    vm_compute; reflexivity.
Defined.

End Checkout.
