(* ===== verification/Orders.v ===== *)
(** * Orders: order detail and cancellation (Order Query Surface)

    [view_order_detail] (view_order.py 465-518, [GET /api/order/detail/{id}])
    and [view_order_cancel] (520-549, [GET /api/order/cancel/{id}]).  Both
    look the order up by id alone: neither compares the order's owner with
    the caller.  The detail page shows the order's discount and taxes as
    percentages of its subtotal, its cart lines, its payment and its
    billing fields; cancelling deletes the order's lines, billing rows and
    [orders_carts] rows and the order itself, and logs an activity. *)

From stdpp Require Import gmap strings sorting.
From Stdlib Require Import ZArith QArith Lia Ascii String.
From S2P Require Import Prelude Decimal Schema Session Fixtures Cart Pricing.

Open Scope Z_scope.
Open Scope store_scope.

Module Orders.
Import Cart Pricing.

(** The 400 response of both handlers. *)
Definition invalid_id_msg : string := "We can't find a record with id is invalid".

(** ** [GET /api/order/detail/{id}] *)

Record detail_payload := mk_detail_payload {
  detail_discount : Q;          (** [(total_discount / subtotal) * 100] *)
  detail_taxes : Q;             (** [(total_taxes / subtotal) * 100] *)
  detail_shipment : Z;
  detail_carts : list cart_row;
  detail_order : order;
  detail_payment : option payment;
  detail_billing : gmap string (option string)
}.

(** [(Decimal(part) / Decimal(whole)) * 100]: a zero divisor raises
    ([DivisionByZero], or [InvalidOperation] for [0/0]).  The quotient is
    kept exact; the Decimal context would round it to 28 significant
    digits. *)
Definition percent_of (part whole : Z) : M Q :=
  if whole =? 0 then raise DecimalError
  else ret (dec_of_units part / dec_of_units whole * 100)%Q.

(** [db.query(OrderBilling).filter(OrderBilling.order_id == id).all()], in
    primary-key order. *)
Definition billing_rows_of (oid : Z) (d : db) : list (Z * order_billing) :=
  merge_sort key_le
    (filter (fun kr : Z * order_billing => billing_order_id kr.2 = oid) (map_to_list (billings d))).

(** [billing[model.name] = model.description] for each row: a later row
    with the same name wins. *)
Definition billing_dict (rows : list (Z * order_billing)) : gmap string (option string) :=
  foldl (fun m kr => <[billing_name kr.2 := billing_description kr.2]> m) ∅ rows.

(** [db.query(Payment).filter(Payment.id == order.payment_id).first()]:
    [Payment.id == None] is [IS NULL], which no row satisfies. *)
Definition order_payment (o : order) (d : db) : option payment :=
  match order_payment_id o with Some p => payments d !! p | None => None end.

Definition view_order_detail (oid : Z) : M (response detail_payload) :=
  order <- query (fun d => orders d !! oid);;
  match order with
  | None => ret (Bad400 invalid_id_msg)
  | Some o =>
      carts <- query (cart_rows oid);;
      discount <- percent_of (total_discount o) (subtotal o);;
      taxes <- percent_of (total_taxes o) (subtotal o);;
      payment <- query (order_payment o);;
      rows <- query (billing_rows_of oid);;
      ret (Ok200 (mk_detail_payload discount taxes (total_shipment o) carts o payment
                    (billing_dict rows)))
  end.

(** ** [GET /api/order/cancel/{id}] *)

Definition cancel_activity (u : option Z) : activity :=
  mk_activity u "Cancel Order" "Canceling Current Order" "Your has been canceling current order.".

(** Lines 532-535: [query(OrderDetail).delete()], [query(OrderBilling).delete()],
    [order.products = []] and [query(Order).delete()]. *)
Definition cancel_rows (oid : Z) (d : db) : db :=
  set_orders (delete oid)
    (set_orders_carts (filter (fun op : Z * Z => op.1 <> oid))
       (set_billings (filter (fun kr : Z * order_billing => billing_order_id kr.2 <> oid))
          (set_details (filter (fun kr : Z * order_detail => detail_order_id kr.2 <> oid)) d))).

Definition view_order_cancel (uid oid : Z) : M (response bool) :=
  order <- query (fun d => orders d !! oid);;
  user <- query (fun d => users d !! uid);;
  match order with
  | None => ret (Bad400 invalid_id_msg)
  | Some _ =>
      modify (cancel_rows oid);;
      modify (insert_activity (cancel_activity (option_map (fun _ => uid) user)));;
      commit;;
      ret (Ok200 true)
  end.

(** ** Lemmas *)

Lemma fk_delete_ne {V} (m : gmap Z V) k j : j <> k -> fk (delete k m) j = fk m j.
Proof. intros Hne. unfold fk. by rewrite lookup_delete_ne by congruence. Qed.

(** Deleting an order together with every row that refers to it keeps the
    store acceptable. *)
Lemma db_wf_cancel_rows d oid : db_wf d -> db_wf (cancel_rows oid d).
Proof.
  intros [Hp Hi Ho Hd Hb Ha Hw Hc Hr].
  constructor; unfold inventory_ok, order_ok, detail_ok, billing_ok, activity_ok in *; simpl; auto.
  - intros k o Hk. apply lookup_delete_Some in Hk as [_ Hk]. exact (Ho _ _ Hk).
  - intros k r Hk. apply map_lookup_filter_Some in Hk as [Hk Hne]. simpl in Hne.
    rewrite fk_delete_ne by done. exact (Hd _ _ Hk).
  - intros k r Hk. apply map_lookup_filter_Some in Hk as [Hk Hne]. simpl in Hne.
    rewrite fk_delete_ne by done. exact (Hb _ _ Hk).
  - intros x Hx. apply elem_of_filter in Hx as [Hne Hx].
    destruct (Hc x Hx). rewrite lookup_delete_ne by congruence. auto.
Qed.

Lemma cancel_eval uid oid d o :
  orders d !! oid = Some o ->
  run (view_order_cancel uid oid) d =
    let d' := insert_activity (cancel_activity (option_map (fun _ => uid) (users d !! uid)))
                (cancel_rows oid d) in
    if db_ok d' then (Return (Ok200 true), d') else (Raise IntegrityError, d).
Proof.
  intros Ho. unfold run, view_order_cancel. hstep. rewrite Ho. hstep.
  cbv zeta. destruct (db_ok _) eqn:Hok.
  - rewrite bind_commit_ok by exact Hok. hstep. reflexivity.
  - rewrite bind_commit_fail by exact Hok. reflexivity.
Qed.

(** C19: any caller can cancel any order: whoever [uid] is, cancelling an
    existing order of an acceptable store succeeds, deletes the order, its
    cart lines, its billing rows and its [orders_carts] rows, and leaves
    the inventories and products as they were (a placed order's stock is
    not given back). *)
Theorem cancel_deletes_order uid oid d o :
  db_ok d = true -> orders d !! oid = Some o ->
  exists d',
    run (view_order_cancel uid oid) d = (Return (Ok200 true), d') /\
    orders d' = delete oid (orders d) /\
    details d' = filter (fun kr : Z * order_detail => detail_order_id kr.2 <> oid) (details d) /\
    billings d' = filter (fun kr : Z * order_billing => billing_order_id kr.2 <> oid) (billings d) /\
    orders_carts d' = filter (fun op : Z * Z => op.1 <> oid) (orders_carts d) /\
    inventories d' = inventories d /\ products d' = products d.
Proof.
  intros Hok Ho. rewrite (cancel_eval uid oid d o Ho). cbv zeta.
  rewrite (proj2 (db_ok_wf _)).
  - eexists. split; [reflexivity|]. simpl. split_and!; reflexivity.
  - apply db_wf_insert_activity; [apply db_wf_cancel_rows, db_ok_wf, Hok|].
    unfold activity_ok. destruct (users d !! uid) eqn:Hu; simpl; [|done].
    by eapply fk_of_lookup.
Qed.

(** Cancelling an id that is no order answers 400 and writes
    nothing. *)
Theorem cancel_missing_order uid oid d :
  orders d !! oid = None ->
  run (view_order_cancel uid oid) d = (Return (Bad400 invalid_id_msg), d).
Proof. intros Ho. unfold run, view_order_cancel. hstep. rewrite Ho. hstep. reflexivity. Qed.

(** C29: After a successful cancellation the detail page of the order
    answers 400 (the spec's "subsequent detail returns NotFound"). *)
Theorem detail_after_cancel uid oid d d' :
  run (view_order_cancel uid oid) d = (Return (Ok200 true), d') ->
  run (view_order_detail oid) d' = (Return (Bad400 invalid_id_msg), d').
Proof.
  destruct (orders d !! oid) as [o|] eqn:Ho.
  - rewrite (cancel_eval uid oid d o Ho). cbv zeta.
    destruct (db_ok _); [intros [= <-]|done].
    unfold run, view_order_detail. hstep. simpl. rewrite lookup_delete_eq. hstep. reflexivity.
  - unfold run, view_order_cancel. hstep. rewrite Ho. hstep. done.
Qed.

(** The detail page of an order with a zero subtotal (a draft whose
    lines were added with quantity 0, or emptied by negative quantities)
    divides by zero and fails. *)
Theorem detail_zero_subtotal_fails oid d o :
  orders d !! oid = Some o -> subtotal o = 0 ->
  run (view_order_detail oid) d = (Raise DecimalError, d).
Proof.
  intros Ho Hs. unfold run, view_order_detail, percent_of. hstep. rewrite Ho. hstep.
  rewrite Hs. hstep. reflexivity.
Qed.

(** ** Witnesses *)

(** Bob cancels Alice's draft order. *)
Lemma cancel_deletes_order_witness :
  exists d',
    run (view_order_cancel 2 1) demo_cart_db = (Return (Ok200 true), d') /\
    orders d' = delete 1 (orders demo_cart_db) /\
    details d' = filter (fun kr : Z * order_detail => detail_order_id kr.2 <> 1) (details demo_cart_db) /\
    billings d' = filter (fun kr : Z * order_billing => billing_order_id kr.2 <> 1) (billings demo_cart_db) /\
    orders_carts d' = filter (fun op : Z * Z => op.1 <> 1) (orders_carts demo_cart_db) /\
    inventories d' = inventories demo_cart_db /\ products d' = products demo_cart_db.
Proof.
  apply (cancel_deletes_order 2 1 demo_cart_db
           (mk_order 1 None "638000000000000000" (Some 4) 4000000 0 0 0 4000000 0));
    vm_compute; reflexivity.
Defined.

Lemma cancel_missing_order_witness :
  run (view_order_cancel 1 5) demo_cart_db = (Return (Bad400 invalid_id_msg), demo_cart_db).
Proof. apply cancel_missing_order. vm_compute. reflexivity. Defined.

Lemma detail_after_cancel_witness :
  run (view_order_detail 1) (snd (run (view_order_cancel 1 1) demo_cart_db)) =
    (Return (Bad400 invalid_id_msg), snd (run (view_order_cancel 1 1) demo_cart_db)).
Proof. apply (detail_after_cancel 1 1 demo_cart_db). vm_compute. reflexivity. Defined.

(** An order whose only line was added with quantity 0. *)
Lemma detail_zero_subtotal_fails_witness :
  run (view_order_detail 1) (set_orders (<[1 := mk_order 1 None "1" (Some 0) 0 0 0 0 0 0]>) demo_cart_db) =
    (Raise DecimalError, set_orders (<[1 := mk_order 1 None "1" (Some 0) 0 0 0 0 0 0]>) demo_cart_db).
Proof.
  apply (detail_zero_subtotal_fails 1 _ (mk_order 1 None "1" (Some 0) 0 0 0 0 0 0));
    vm_compute; reflexivity.
Defined.

End Orders.
