(* ===== verification/Listing.v ===== *)
(** * Listing: [GET /api/order/list] and MySQL's LIKE

    [view_order_list] (view_order.py 432-463) counts the caller's orders,
    filters them with [Order.invoice_number.ilike(f'%{search}%')] when a
    search is given, counts again, sorts them with the raw SQL clause
    [text(f"{order} {dir}")] and returns one page ([LIMIT limit OFFSET
    (page-1)*limit]).  The ORDER BY clause is interpreted by MySQL, so the
    handler is modelled over a parameter [order_by] that maps the two
    strings to a reordering of the rows, or to [None] when MySQL rejects
    the clause; the theorems hold for every interpretation that only
    reorders rows.  [like] is MySQL's LIKE ([%], [_], backslash escape)
    on lower-cased strings, which is how [ilike] is compiled for MySQL. *)

From stdpp Require Import gmap strings sorting.
From Stdlib Require Import ZArith Lia Ascii String.
From S2P Require Import Prelude Decimal Schema Session Fixtures Cart.

Open Scope Z_scope.
Open Scope store_scope.

Module Listing.

(** ** MySQL's LIKE *)

(** [like p s]: [%] matches any run of characters, [_] one character, a
    backslash makes the next character literal. *)
Fixpoint like (p s : string) {struct p} : bool :=
  match p with
  | EmptyString => if s is EmptyString then true else false
  | String c p' =>
      if Ascii.eqb c "%" then
        (fix go (t : string) : bool :=
           like p' t || match t with String _ t' => go t' | EmptyString => false end) s
      else if Ascii.eqb c "_" then
        match s with String _ s' => like p' s' | EmptyString => false end
      else if Ascii.eqb c "\" then
        match p', s with
        | String e p'', String c' s' => Ascii.eqb e c' && like p'' s'
        | EmptyString, String c' s' => Ascii.eqb c c' && like p' s'
        | _, EmptyString => false
        end
      else
        match s with String c' s' => Ascii.eqb c c' && like p' s' | EmptyString => false end
  end.

(** [lower(invoice_number) LIKE lower('%' || search || '%')] *)
Definition ilike_contains (search text : string) : bool :=
  like (lower ("%" ++ search ++ "%")) (lower text).

(** The reference: [needle] occurs in [hay]. *)
Fixpoint is_prefix (needle hay : string) : bool :=
  match needle, hay with
  | EmptyString, _ => true
  | String c n, String c' h => Ascii.eqb c c' && is_prefix n h
  | String _ _, EmptyString => false
  end.

Fixpoint contains (needle hay : string) : bool :=
  is_prefix needle hay || match hay with String _ h => contains needle h | EmptyString => false end.

(** ** The handler *)

Record list_payload := mk_list_payload {
  list_rows : list (Z * order);
  list_total_all : nat;
  list_total_filtered : nat;
  list_limit : Z
}.

(** [db.query(Order).filter(Order.user_id == user_id)] *)
Definition user_orders (uid : Z) (d : db) : list (Z * order) :=
  filter (fun kr : Z * order => order_user_id kr.2 = uid) (map_to_list (orders d)).

Definition search_filter (search : option string) (rows : list (Z * order)) : list (Z * order) :=
  match search with
  | None => rows
  | Some s => filter (fun kr : Z * order => ilike_contains s (invoice_number kr.2) = true) rows
  end.

Definition view_order_list
    (order_by : string -> string -> list (Z * order) -> option (list (Z * order)))
    (uid page limit : Z) (col dir : string) (search : option string)
    : M (response list_payload) :=
  let offset := (page - 1) * limit in
  total <- query (fun d => List.length (user_orders uid d));;
  rows <- query (fun d => search_filter search (user_orders uid d));;
  match order_by col dir rows with
  | None => raise DatabaseError
  | Some sorted =>
      if (offset <? 0) || (limit <? 0) then raise DatabaseError
      else ret (Ok200 (mk_list_payload
                         (List.firstn (Z.to_nat limit) (List.skipn (Z.to_nat offset) sorted))
                         total (List.length rows) limit))
  end.

(** The clause the frontend sends by default, [orders.id desc], and its
    ascending twin; any other clause is rejected in this instance. *)
Definition order_by_id (col dir : string) (rows : list (Z * order)) : option (list (Z * order)) :=
  if String.eqb col "orders.id" then
    let asc := merge_sort key_le rows in
    if String.eqb (lower dir) "desc" then Some (reverse asc)
    else if String.eqb (lower dir) "asc" then Some asc else None
  else None.

(** ** The listing *)

Lemma in_firstn_skipn {A} (x : A) n m l : In x (List.firstn n (List.skipn m l)) -> In x l.
Proof.
  intros Hx. assert (In x (List.skipn m l)) as Hx'.
  { rewrite <-(List.firstn_skipn n (List.skipn m l)). apply in_or_app. by left. }
  rewrite <-(List.firstn_skipn m l). apply in_or_app. by right.
Qed.

Lemma search_filter_incl search rows x : In x (search_filter search rows) -> In x rows.
Proof.
  destruct search; simpl; [|done].
  rewrite <-!list_elem_of_In, list_elem_of_filter. tauto.
Qed.

Lemma user_orders_spec uid d k o :
  In (k, o) (user_orders uid d) -> orders d !! k = Some o /\ order_user_id o = uid.
Proof.
  unfold user_orders. rewrite <-list_elem_of_In, list_elem_of_filter, elem_of_map_to_list.
  simpl. tauto.
Qed.

Lemma order_by_id_perm col dir rows sorted :
  order_by_id col dir rows = Some sorted -> Permutation sorted rows.
Proof.
  unfold order_by_id.
  destruct (String.eqb col "orders.id"); [|done].
  destruct (String.eqb (lower dir) "desc"); [intros [= <-]|].
  - rewrite reverse_Permutation. apply merge_sort_Permutation.
  - destruct (String.eqb (lower dir) "asc"); [intros [= <-]|done].
    apply merge_sort_Permutation.
Qed.

(** Every interpretation of the ORDER BY clause that only reorders rows. *)
Section Listing.
Variable order_by : string -> string -> list (Z * order) -> option (list (Z * order)).
Hypothesis order_by_perm :
  forall col dir rows sorted, order_by col dir rows = Some sorted -> Permutation sorted rows.

(** C23: a page of the order list (page 1 or later, a limit of at least
    0, a clause MySQL accepts) is a read-only answer that holds at most
    [limit] orders, all of them the caller's own stored orders, and its
    filtered count is at most its total count. *)
Theorem list_page_owned uid page limit col dir search d sorted :
  1 <= page -> 0 <= limit ->
  order_by col dir (search_filter search (user_orders uid d)) = Some sorted ->
  exists p,
    run (view_order_list order_by uid page limit col dir search) d = (Return (Ok200 p), d) /\
    Z.of_nat (List.length (list_rows p)) <= limit /\
    (list_total_filtered p <= list_total_all p)%nat /\
    (forall k o, In (k, o) (list_rows p) -> orders d !! k = Some o /\ order_user_id o = uid).
Proof.
  intros Hpage Hlimit Hsort. unfold run, view_order_list. hstep. rewrite Hsort.
  replace ((page - 1) * limit <? 0) with false by (symmetry; apply Z.ltb_ge; nia).
  replace (limit <? 0) with false by (symmetry; apply Z.ltb_ge; lia). hstep.
  eexists. split; [reflexivity|]. simpl. split_and!.
  - rewrite List.length_firstn. lia.
  - destruct search; simpl; [apply length_filter|done].
  - intros k o Hin. apply user_orders_spec, (search_filter_incl search).
    apply (Permutation_in _ (order_by_perm _ _ _ _ Hsort)).
    exact (in_firstn_skipn _ _ _ _ Hin).
Qed.

End Listing.

(** Page 0 (or any page below 1) with a positive limit gives a
    negative OFFSET, which MySQL rejects: the list request fails. *)
Theorem list_page_zero_fails order_by uid page limit col dir search d :
  page <= 0 -> 0 < limit ->
  is_Some (order_by col dir (search_filter search (user_orders uid d))) ->
  run (view_order_list order_by uid page limit col dir search) d = (Raise DatabaseError, d).
Proof.
  intros Hpage Hlimit [sorted Hsort]. unfold run, view_order_list. hstep. rewrite Hsort.
  replace ((page - 1) * limit <? 0) with true by (symmetry; apply Z.ltb_lt; nia).
  hstep. reflexivity.
Qed.

(** The search string is a LIKE pattern, not a substring: searching
    for [_] lists Alice's order although its invoice number contains no
    [_]. *)
Example list_search_underscore_matches_any :
  contains "_" (invoice_number (mk_order 1 None "638000000000000000" (Some 4) 4000000 0 0 0 4000000 0))
    = false /\
  run (view_order_list order_by_id 1 1 10 "orders.id" "desc" (Some "_")) demo_cart_db =
    (Return (Ok200 (mk_list_payload
       [(1, mk_order 1 None "638000000000000000" (Some 4) 4000000 0 0 0 4000000 0)] 1 1 10)),
     demo_cart_db).
Proof. split; vm_compute; reflexivity. Qed.

(** ** Witnesses *)

Lemma list_page_owned_witness :
  exists p,
    run (view_order_list order_by_id 1 1 10 "orders.id" "desc" None) demo_cart_db =
      (Return (Ok200 p), demo_cart_db) /\
    Z.of_nat (List.length (list_rows p)) <= 10 /\
    (list_total_filtered p <= list_total_all p)%nat /\
    (forall k o, In (k, o) (list_rows p) -> orders demo_cart_db !! k = Some o /\ order_user_id o = 1).
Proof.
  apply (list_page_owned order_by_id order_by_id_perm 1 1 10 "orders.id" "desc" None demo_cart_db
           [(1, mk_order 1 None "638000000000000000" (Some 4) 4000000 0 0 0 4000000 0)]);
    [lia | lia | vm_compute; reflexivity].
Defined.

Lemma list_page_zero_fails_witness :
  run (view_order_list order_by_id 1 0 10 "orders.id" "desc" None) demo_cart_db =
    (Raise DatabaseError, demo_cart_db).
Proof.
  apply list_page_zero_fails; [lia | lia | vm_compute; eexists; reflexivity].
Defined.

End Listing.
