(* ===== verification/Catalog.v ===== *)
(** * Catalog: the shop and home pages and the newsletter form

    [view_shop.py] serves [GET /api/shop/filter] ([view_shop_filter]) and
    [GET /api/shop/list] ([view_shop_list]); [view_home.py] serves
    [GET /api/home/component], [GET /api/home/page] and
    [POST /api/newsletter/send].  All but the last only read the store.

    A product is {e published} when [status == 1] and [published_date <=
    func.now()] (the database clock, an argument [now] here; a NULL date
    compares as NULL and drops the row).  Each page turns products into
    cards whose [price_old] is [Decimal(price) + Decimal(price) *
    Decimal(0.05)] -- [Decimal(0.05)] is the binary double nearest 0.05,
    converted exactly -- and whose [total_rating] is
    [ceil(rating / top * 100 / 20)] in the default decimal context, with
    [top] the best rating of a published product.  The two random flags
    [newest] and [discount] are not modelled, nor is [jsonable_encoder],
    which sends [price_old] to the client as the nearest double.

    Row order: SQL leaves the order of rows with equal sort keys (and of
    [GROUP BY] groups, and of a lazy-loaded relationship) unspecified; the
    model takes them in primary-key order, as an InnoDB scan returns them. *)

From stdpp Require Import gmap strings sorting.
From Stdlib Require Import ZArith QArith Qround Qabs Lia Lqa Ascii String.
From S2P Require Import Prelude Decimal Schema Session Fixtures Listing.

Open Scope Z_scope.
Open Scope store_scope.

Module Catalog.

(** ** Orderings *)

(** [ORDER BY f DESC] and [ORDER BY f] over rows in primary-key order
    ([merge_sort] is stable). *)
Definition rank_ge {A} (f : A -> Z) (a b : Z * A) : Prop := f b.2 <= f a.2.
Definition rank_le {A} (f : A -> Z) (a b : Z * A) : Prop := f a.2 <= f b.2.

#[export] Instance rank_ge_dec {A} (f : A -> Z) : RelDecision (rank_ge f).
Proof. intros a b. unfold rank_ge. apply _. Defined.
#[export] Instance rank_le_dec {A} (f : A -> Z) : RelDecision (rank_le f).
Proof. intros a b. unfold rank_le. apply _. Defined.

Definition by_key {A} (m : gmap Z A) : list (Z * A) := merge_sort key_le (map_to_list m).

Definition order_desc {A} (f : A -> Z) (rows : list (Z * A)) : list (Z * A) :=
  merge_sort (rank_ge f) (merge_sort key_le rows).

Definition order_asc {A} (f : A -> Z) (rows : list (Z * A)) : list (Z * A) :=
  merge_sort (rank_le f) (merge_sort key_le rows).

(** [ORDER BY id DESC] *)
Definition order_id_desc {A} (rows : list (Z * A)) : list (Z * A) :=
  reverse (merge_sort key_le rows).

(** ** Products and their cards *)

(** [and_(Product.status == 1, Product.published_date <= func.now())] *)
Definition published (now : Z) (p : product) : bool :=
  bool_decide (product_status p = 1)
  && match product_published_date p with Some t => bool_decide (t <= now) | None => false end.

Definition published_rows (now : Z) (d : db) : list (Z * product) :=
  filter (fun kp : Z * product => published now kp.2 = true) (by_key (products d)).

(** [topProduct]: [...order_by(desc(Product.total_rating)).first()] *)
Definition top_product (now : Z) (d : db) : option (Z * product) :=
  head (order_desc product_total_rating (published_rows now d)).

(** [row.categories]: the names of the product's categories. *)
Definition product_category_names (pid : Z) (d : db) : list string :=
  (fun kc : Z * category => category_name kc.2) <$>
    filter (fun kc : Z * category => (pid, kc.1) ∈ products_categories d) (by_key (categories d)).

(** [Decimal(0.05)]: the double nearest 0.05, converted exactly. *)
Definition float_005 : Q := 3602879701896397 # 72057594037927936.

(** ["price_old": Decimal(row.price) + (Decimal(row.price) * Decimal(0.05))] *)
Definition price_old (price : Z) : Q :=
  dec_add (dec_of_units price) (dec_mul (dec_of_units price) float_005).

(** ["total_rating": math.ceil(((Decimal(row.total_rating) /
    Decimal(topProduct.total_rating) * 100) / 20))]: [AttributeError] when
    no product is published, [DecimalError] when the best rating is 0. *)
Definition rating_index (top : option (Z * product)) (r : Z) : M Z :=
  t <- get_some top;;
  match dec_div (inject_Z r) (inject_Z (product_total_rating t.2)) with
  | None => raise DecimalError
  | Some q =>
      match dec_div (dec_mul q (inject_Z 100)) (inject_Z 20) with
      | None => raise DecimalError
      | Some x => ret (Qceiling x)
      end
  end.

Record card := mk_card {
  card_id : Z;
  card_name : string;
  card_image : option string;
  card_category : string;
  card_price : Z;
  card_price_old : Q;
  card_total_rating : Z
}.

(** The card of the home page and of the filter's tops:
    ["category": [cat.name for cat in row.categories][0]], an
    [IndexError] for a product without a category. *)
Definition card_first (top : option (Z * product)) (row : Z * product) : M card :=
  names <- query (product_category_names row.1);;
  cat <- match names with c :: _ => ret c | [] => raise IndexError end;;
  r <- rating_index top (product_total_rating row.2);;
  ret (mk_card row.1 (product_name row.2) (product_image row.2) cat
         (product_price row.2) (price_old (product_price row.2)) r).

(** The card of the shop list: ["category": ", ".join([...])]. *)
Definition card_joined (top : option (Z * product)) (row : Z * product) : M card :=
  names <- query (product_category_names row.1);;
  r <- rating_index top (product_total_rating row.2);;
  ret (mk_card row.1 (product_name row.2) (product_image row.2) (String.concat ", " names)
         (product_price row.2) (price_old (product_price row.2)) r).

(** ** [GET /api/shop/filter] *)

(** [getCategories]: the categories joined with [products_categories],
    grouped by category, with the number of association rows. *)
Definition category_totals (d : db) : list (Z * string * nat) :=
  omap (fun kc : Z * category =>
          let n := size (filter (fun pc : Z * Z => pc.2 = kc.1) (products_categories d)) in
          if (n =? 0)%nat then None else Some (kc.1, category_name kc.2, n))
       (by_key (categories d)).

(** [getBrands]: the brands joined with [products], grouped by brand. *)
Definition brand_totals (d : db) : list (Z * string * nat) :=
  omap (fun kb : Z * brand =>
          let n := count_where (fun p => bool_decide (product_brand_id p = Some kb.1)) (products d) in
          if (n =? 0)%nat then None else Some (kb.1, brand_name kb.2, n))
       (by_key (brands d)).

Record filter_payload := mk_filter_payload {
  filter_categories : list (Z * string * nat);
  filter_brands : list (Z * string * nat);
  filter_tops : list card;
  filter_max_price : Z;
  filter_min_price : Z
}.

Definition view_shop_filter (now : Z) : M (response filter_payload) :=
  tops <- query (fun d => List.firstn 3 (order_desc product_total_rating (published_rows now d)));;
  topPrice <- query (fun d => head (order_desc product_price (published_rows now d)));;
  minPrice <- query (fun d => head (order_asc product_price (published_rows now d)));;
  cats <- query category_totals;;
  brs <- query brand_totals;;
  topProduct <- query (top_product now);;
  products <- map_each (card_first topProduct) tops;;
  tp <- get_some topPrice;;
  mp <- get_some minPrice;;
  ret (Ok200 (mk_filter_payload cats brs products (product_price tp.2) (product_price mp.2))).

(** ** [GET /api/shop/list] *)

(** [s.split(sep)] *)
Fixpoint split_on (sep : ascii) (s : string) : list string :=
  match s with
  | EmptyString => [EmptyString]
  | String c rest =>
      let parts := split_on sep rest in
      if Ascii.eqb c sep then EmptyString :: parts
      else match parts with
           | p :: ps => String c p :: ps
           | [] => [String c EmptyString]
           end
  end.

(** Python's [int(x)] on a string: surrounding white space, an optional
    sign, decimal digits with single underscores between them; [None] is
    the [ValueError]. *)
Definition py_int (s : string) : option Z :=
  let '(neg, body) := split_sign (strip s) in
  let '(v, n, rest) := scan_digits 0 0 body in
  if (n =? 0)%nat then None
  else match rest with
       | EmptyString => Some (if neg then - v else v)
       | String _ _ => None
       end.

(** [[int(x) for x in s.split(",")]] *)
Definition parse_ids (s : string) : option (list Z) := mapM py_int (split_on "," s).

Definition parse_opt_ids (s : option string) : M (option (list Z)) :=
  match s with
  | None => ret None
  | Some t => match parse_ids t with Some ids => ret (Some ids) | None => raise ValueError end
  end.

(** [or_(Product.name.ilike(...), sku, description, details)] *)
Definition product_matches (search : string) (p : product) : bool :=
  Listing.ilike_contains search (product_name p) || Listing.ilike_contains search (product_sku p)
  || Listing.ilike_contains search (product_description p)
  || Listing.ilike_contains search (product_details p).

(** The rows [join(Product.categories).filter(Category.id.in_(ids))] makes
    of one product: one per selected category of the product. *)
Definition category_hits (d : db) (ids : list Z) (pid : Z) : nat :=
  List.length (filter (fun kc : Z * category => (pid, kc.1) ∈ products_categories d /\ kc.1 ∈ ids)
                 (by_key (categories d))).

(** The SQL rows of the filtered query, before ORDER BY and LIMIT.
    [to_number] is MySQL's conversion of the [priceMin]/[priceMax] strings
    compared with the DECIMAL column. *)
Definition shop_rows (to_number : string -> Q) (d : db) (search : option string)
    (cat_ids brand_ids : option (list Z)) (priceMin priceMax : option string) : list (Z * product) :=
  let base := filter (fun kp : Z * product => product_status kp.2 = 1) (by_key (products d)) in
  let s1 := match search with
            | None => base
            | Some s => filter (fun kp : Z * product => product_matches s kp.2 = true) base
            end in
  let s2 := match cat_ids with
            | None => s1
            | Some ids => s1 ≫= fun kp => replicate (category_hits d ids kp.1) kp
            end in
  let s3 := match brand_ids with
            | None => s2
            | Some ids => filter (fun kp : Z * product =>
                                    match product_brand_id kp.2 with
                                    | Some b => bool_decide (b ∈ ids) | None => false end = true) s2
            end in
  match priceMin, priceMax with
  | Some lo, Some hi =>
      filter (fun kp : Z * product => Qle_bool (to_number lo) (dec_of_units (product_price kp.2))
                                      && Qle_bool (dec_of_units (product_price kp.2)) (to_number hi) = true) s3
  | _, _ => s3
  end.

(** The legacy [Query] returns each entity once: a row whose primary key
    was already returned is dropped. *)
Fixpoint dedup_rows {A} (seen : list Z) (l : list (Z * A)) : list (Z * A) :=
  match l with
  | [] => []
  | kp :: l' => if bool_decide (kp.1 ∈ seen) then dedup_rows seen l'
                else kp :: dedup_rows (kp.1 :: seen) l'
  end.

Record shop_list_payload := mk_shop_list_payload {
  shop_total_filtered : nat;
  shop_total_all : nat;
  shop_list : list card;
  shop_limit : Z;
  shop_order : string;
  shop_sort : string
}.

Definition view_shop_list
    (order_by : string -> string -> list (Z * product) -> option (list (Z * product)))
    (to_number : string -> Q) (now : Z)
    (page limit : Z) (order dir : string)
    (search brand category priceMin priceMax : option string)
    : M (response shop_list_payload) :=
  let order := if String.eqb order "id" then "products.id"%string else order in
  let offset := (page - 1) * limit in
  topProduct <- query (top_product now);;
  total <- query (fun d => count_where (fun p => bool_decide (product_status p = 1)) (products d));;
  cat_ids <- parse_opt_ids category;;
  brand_ids <- parse_opt_ids brand;;
  rows <- query (fun d => shop_rows to_number d search cat_ids brand_ids priceMin priceMax);;
  match order_by order dir rows with
  | None => raise DatabaseError
  | Some sorted =>
      if (offset <? 0) || (limit <? 0) then raise DatabaseError
      else
        cards <- map_each (card_joined topProduct)
                   (dedup_rows [] (List.firstn (Z.to_nat limit) (List.skipn (Z.to_nat offset) sorted)));;
        ret (Ok200 (mk_shop_list_payload (List.length rows) total cards limit order dir))
  end.

(** The default clause [products.id desc] and its ascending twin. *)
Definition order_by_product_id (col dir : string) (rows : list (Z * product))
    : option (list (Z * product)) :=
  if String.eqb col "products.id" then
    if String.eqb (lower dir) "desc" then Some (order_id_desc rows)
    else if String.eqb (lower dir) "asc" then Some (merge_sort key_le rows) else None
  else None.

(** ** [GET /api/home/component] and [GET /api/home/page] *)

(** [ORDER BY Category.name] under the case-insensitive collation. *)
Definition collate_key (s : string) : string := lower (string_rev (drop_spaces (string_rev s))).

Definition name_le (a b : Z * category) : Prop :=
  String.leb (collate_key (category_name a.2)) (collate_key (category_name b.2)) = true.

#[export] Instance name_le_dec : RelDecision name_le.
Proof. intros a b. unfold name_le. apply _. Defined.

(** [filter(and_(Category.status == 1, Category.displayed == 1)).order_by(Category.name)] *)
Definition displayed_categories (d : db) : list (Z * category) :=
  merge_sort name_le
    (filter (fun kc : Z * category => category_status kc.2 = 1 /\ category_displayed kc.2 = 1)
       (by_key (categories d))).

(** [for row in enumerate(settings): setting[model.key_name] = model.key_value] *)
Definition setting_dict (rows : list (Z * setting)) : gmap string string :=
  foldl (fun m kr => <[key_name kr.2 := key_value kr.2]> m) ∅ rows.

Record home_component_payload := mk_home_component_payload {
  home_setting : gmap string string;
  home_categories : list (Z * category)
}.

Definition view_home_component : M (response home_component_payload) :=
  rows <- query (fun d => by_key (settings d));;
  cats <- query displayed_categories;;
  ret (Ok200 (mk_home_component_payload (setting_dict rows) cats)).

Record home_page_payload := mk_home_page_payload {
  page_categories : list (Z * category);
  page_products : list card;
  page_top_sellings : list card;
  page_best_sellers : list card
}.

Definition view_home_page (now : Z) : M (response home_page_payload) :=
  cats <- query (fun d => List.firstn 3 (displayed_categories d));;
  topProduct <- query (top_product now);;
  getProducts <- query (fun d => List.firstn 4 (order_id_desc (published_rows now d)));;
  getBestSellers <- query (fun d => List.firstn 3 (order_desc product_total_order (published_rows now d)));;
  getTopSellings <- query (fun d => List.firstn 6 (order_desc product_total_rating (published_rows now d)));;
  products <- map_each (card_first topProduct) getProducts;;
  topSellings <- map_each (card_first topProduct) getTopSellings;;
  bestSellers <- map_each (card_first topProduct) getBestSellers;;
  ret (Ok200 (mk_home_page_payload cats products topSellings bestSellers)).

(** [GET /api/ping] *)
Definition view_ping : M (response (bool * string)) :=
  ret (Ok200 (true, "Connected Established !!"%string)).

(** ** [POST /api/newsletter/send] *)

(** [request.client.host] is [None] when the server knows no client
    address: [AttributeError]. *)
Definition view_newsletter (client : option string) (email : string)
    : M (response (Z * newsletter)) :=
  host <- get_some client;;
  let model := mk_newsletter host email 1 in
  k <- add_row (insert_newsletter model);;
  commit;;
  ret (Ok200 (k, model)).

(** ** Lemmas *)

Lemma insert_newsletter_key n d : (insert_newsletter n d).1 = next_newsletter_id d.
Proof. reflexivity. Qed.

Lemma db_wf_insert_newsletter d n :
  db_wf d -> newsletter_ok n = true -> db_wf (insert_newsletter n d).2.
Proof. wf_update Hn. Qed.

Lemma elem_of_by_key {A} (m : gmap Z A) k v : (k, v) ∈ by_key m <-> m !! k = Some v.
Proof. unfold by_key. rewrite (merge_sort_Permutation _ _). apply elem_of_map_to_list. Qed.

Lemma published_rows_nil now d :
  map_Forall (fun _ p => published now p = false) (products d) -> published_rows now d = [].
Proof.
  intros Hall. unfold published_rows. apply filter_nil_Forall, Forall_forall.
  intros [k p] Hin%elem_of_by_key. simpl. by rewrite (Hall k p Hin).
Qed.

(** The cards only read the store. *)
Lemma keeps_ok_card_first top row : keeps_ok (card_first top row).
Proof. unfold card_first, rating_index. keeps_ok_tac. Qed.

Lemma keeps_ok_card_joined top row : keeps_ok (card_joined top row).
Proof. unfold card_joined, rating_index. keeps_ok_tac. Qed.

Lemma keeps_ok_parse_opt_ids s : keeps_ok (parse_opt_ids s).
Proof. unfold parse_opt_ids. keeps_ok_tac. Qed.

Lemma preserves_card_first I top row : preserves I (card_first top row).
Proof. unfold card_first, rating_index. preserves_tac idtac. Qed.

Lemma preserves_card_joined I top row : preserves I (card_joined top row).
Proof. unfold card_joined, rating_index. preserves_tac idtac. Qed.

Lemma preserves_parse_opt_ids I s : preserves I (parse_opt_ids s).
Proof. unfold parse_opt_ids. preserves_tac idtac. Qed.

#[export] Hint Resolve keeps_ok_card_first keeps_ok_card_joined keeps_ok_parse_opt_ids : keeps.
#[export] Hint Resolve preserves_card_first preserves_card_joined preserves_parse_opt_ids : preserves.

(** ** The price shown as the old price *)

(** ** [GET /api/shop/filter] *)

(** C24: when no product is published (none has status 1 and a
    publication date not after the database clock), the shop filter
    request fails with an [AttributeError] on [topPrice.price], and the
    store is unchanged: an empty or not yet published catalogue breaks
    the shop page's filter panel. *)
Theorem shop_filter_without_published_fails now d :
  map_Forall (fun _ p => published now p = false) (products d) ->
  run (view_shop_filter now) d = (Raise AttributeError, d).
Proof.
  intros Hall. unfold view_shop_filter, top_product. rewrite run_eval. hstep.
  rewrite (published_rows_nil now d Hall). reflexivity.
Qed.

Lemma shop_filter_without_published_fails_witness :
  map_Forall (fun _ p => published (-1) p = false) (products demo_db) /\
  run (view_shop_filter (-1)) demo_db = (Raise AttributeError, demo_db).
Proof.
  assert (H : map_Forall (fun _ p => published (-1) p = false) (products demo_db)).
  { apply (bool_decide_unpack _). vm_compute. reflexivity. }
  split; [exact H|]. apply (shop_filter_without_published_fails (-1) demo_db H).
Defined.

(** The rows of one key in a list. *)
Definition key_count {A} (j : Z) (l : list (Z * A)) : nat :=
  List.length (filter (fun r : Z * A => r.1 = j) l).

Lemma key_count_cons {A} j (r : Z * A) l :
  key_count j (r :: l) = ((if decide (r.1 = j) then 1 else 0) + key_count j l)%nat.
Proof. unfold key_count. rewrite filter_cons. by case_decide. Qed.

Lemma key_count_app {A} j (l1 l2 : list (Z * A)) : key_count j (l1 ++ l2) = (key_count j l1 + key_count j l2)%nat.
Proof. unfold key_count. by rewrite filter_app, length_app. Qed.

Lemma key_count_perm {A} j (l1 l2 : list (Z * A)) : l1 ≡ₚ l2 -> key_count j l1 = key_count j l2.
Proof. intros Hp. unfold key_count. by rewrite Hp. Qed.

Lemma dedup_rows_keys {A} seen (l : list (Z * A)) j :
  j ∈ fst <$> dedup_rows seen l <-> j ∈ fst <$> l /\ j ∉ seen.
Proof.
  revert seen. induction l as [|[k p] l IH]; intros seen; [simpl; set_solver|].
  cbn [dedup_rows fst]; case_bool_decide as Hk;
    rewrite ?fmap_cons, ?elem_of_cons, IH, ?not_elem_of_cons; cbn [fst];
    destruct (decide (j = k)) as [->|?]; naive_solver.
Qed.

Lemma dedup_rows_NoDup {A} seen (l : list (Z * A)) : NoDup (fst <$> dedup_rows seen l).
Proof.
  revert seen. induction l as [|[k p] l IH]; intros seen; simpl; [constructor|].
  case_bool_decide; [apply IH|]. simpl. constructor; [|apply IH].
  rewrite dedup_rows_keys. set_solver.
Qed.

Lemma length_filter_not_in {A} (seen : list Z) j (l : list (Z * A)) :
  j ∉ seen ->
  List.length (filter (fun r : Z * A => r.1 ∉ seen) l) =
  (key_count j l + List.length (filter (fun r : Z * A => r.1 ∉ j :: seen) l))%nat.
Proof.
  intros Hj. induction l as [|r l IH]; [reflexivity|].
  rewrite key_count_cons, !filter_cons.
  repeat case_decide; simpl; rewrite ?IH; set_solver || lia.
Qed.

(** Each row of the SQL result is counted once, under the entity the
    de-duplication keeps for its key. *)
Lemma dedup_rows_length seen l :
  List.length (filter (fun r : Z * product => r.1 ∉ seen) l) =
  sum_list ((fun x : Z * product => key_count x.1 l) <$> dedup_rows seen l).
Proof.
  revert seen. induction l as [|r l IH]; intros seen; [reflexivity|]. cbn [dedup_rows].
  assert (Hsame : forall seen', Forall (fun x : Z * product => x.1 ∉ seen') (dedup_rows seen' l) ->
            r.1 ∈ seen' ->
            sum_list ((fun x : Z * product => key_count x.1 (r :: l)) <$> dedup_rows seen' l) =
            sum_list ((fun x : Z * product => key_count x.1 l) <$> dedup_rows seen' l)).
  { intros seen' Hall Hr. induction Hall as [|x xs Hx _ IHx]; [reflexivity|].
    rewrite !fmap_cons; cbn [sum_list].
    rewrite key_count_cons, decide_False by (intros Heq; apply Hx; rewrite <-Heq; exact Hr). cbv iota. rewrite IHx. unfold id. lia. }
  assert (Hnot : forall seen', Forall (fun x : Z * product => x.1 ∉ seen') (dedup_rows seen' l)).
  { intros seen'. apply Forall_forall. intros x Hx.
    assert (Hin : x.1 ∈ fst <$> dedup_rows seen' l) by exact (list_elem_of_fmap_2 fst _ x Hx).
    apply dedup_rows_keys in Hin. tauto. }
  rewrite filter_cons. case_bool_decide as Hr; case_decide as Hs; try contradiction.
  - rewrite IH, Hsame; [reflexivity|apply Hnot|done].
  - rewrite fmap_cons; cbn [sum_list List.length]. rewrite Hsame by (apply Hnot || set_solver).
    rewrite key_count_cons, decide_True by done. rewrite <-IH.
    rewrite (length_filter_not_in seen r.1 l Hs). unfold id. lia.
Qed.

Lemma key_count_bind_replicate (h : Z -> nat) (base : list (Z * product)) j :
  NoDup (fst <$> base) ->
  key_count j (base ≫= fun kp => replicate (h kp.1) kp) =
  if bool_decide (j ∈ fst <$> base) then h j else 0%nat.
Proof.
  induction base as [|kp base IH]; intros Hnd; [reflexivity|].
  rewrite bind_cons, key_count_app. simpl in Hnd. apply NoDup_cons in Hnd as [Hkp Hnd].
  assert (Hrep : key_count j (replicate (h kp.1) kp) = if decide (kp.1 = j) then h kp.1 else 0%nat).
  { induction (h kp.1) as [|n IHn]; [by destruct (decide (kp.1 = j))|].
    rewrite replicate_S, key_count_cons, IHn. destruct (decide (kp.1 = j)); lia. }
  rewrite Hrep, IH by done. rewrite fmap_cons.
  destruct (decide (kp.1 = j)) as [<-|Hj].
  - rewrite bool_decide_false by done. rewrite bool_decide_true by (rewrite elem_of_cons; left; reflexivity). lia.
  - rewrite (bool_decide_ext (j ∈ kp.1 :: base.*1) (j ∈ base.*1)) by (rewrite elem_of_cons; naive_solver).
    destruct (bool_decide _); lia.
Qed.

Lemma elem_of_bind_replicate (h : Z -> nat) (base : list (Z * product)) j :
  j ∈ fst <$> (base ≫= fun kp => replicate (h kp.1) kp) <->
  exists p, (j, p) ∈ base /\ h j <> 0%nat.
Proof.
  rewrite list_elem_of_fmap. split.
  - intros ([k p] & -> & Hin). apply list_elem_of_bind in Hin as ([k' p'] & Hb & Hin).
    apply elem_of_replicate in Hb as [[= -> ->] Hn]. eauto.
  - intros (p & Hin & Hn). exists (j, p). split; [done|].
    apply list_elem_of_bind. exists (j, p). split; [|done]. apply elem_of_replicate. simpl. split; [done|lia].
Qed.

(** ** The shop list *)

Lemma dec_div_Some a b : ~ (b == 0)%Q -> dec_div a b = Some (dec_round 28 (a / b)).
Proof.
  intros Hb. unfold dec_div. destruct (Qeq_bool b 0) eqn:E; [|reflexivity].
  apply Qeq_bool_iff in E. contradiction.
Qed.

(** With a best rating other than 0 the rating index is computed. *)
Lemma rating_index_Some kt r s :
  product_total_rating kt.2 <> 0 -> exists z, rating_index (Some kt) r s = (Return z, s).
Proof.
  intros Ht. unfold rating_index. hstep.
  rewrite dec_div_Some by (intros E; apply Ht, inject_Z_injective, E).
  rewrite dec_div_Some by discriminate. eexists. reflexivity.
Qed.

(** A loop whose body returns without touching the session returns. *)
Lemma map_each_Return {A B} (f : A -> M B) (P : A -> B -> Prop) l s :
  (forall x, exists y, f x s = (Return y, s) /\ P x y) ->
  exists ys, map_each f l s = (Return ys, s) /\ Forall2 P l ys.
Proof.
  intros Hf. induction l as [|x l IH]; [by exists []|]. simpl.
  destruct (Hf x) as (y & Hy & HP), IH as (ys & Hys & Hall).
  exists (y :: ys). unfold bind at 1. rewrite Hy. unfold bind. rewrite Hys. auto.
Qed.

Lemma card_joined_Return kt row s :
  product_total_rating kt.2 <> 0 ->
  exists c, card_joined (Some kt) row s = (Return c, s) /\ card_id c = row.1.
Proof.
  intros Ht. unfold card_joined. hstep.
  destruct (rating_index_Some kt (product_total_rating row.2) s Ht) as [z Hz].
  unfold bind at 1. rewrite Hz. eexists. split; reflexivity.
Qed.

Lemma Forall2_fmap_eq {A B C} (f : A -> C) (g : B -> C) l k :
  Forall2 (fun x y => g y = f x) l k -> g <$> k = f <$> l.
Proof. induction 1 as [|x y l k Hxy _ IH]; [reflexivity|]. rewrite !fmap_cons, Hxy, IH. reflexivity. Qed.

(** The status-1 products in primary-key order, and the category join. *)
Lemma status_rows_spec d j p :
  (j, p) ∈ filter (fun kp : Z * product => product_status kp.2 = 1) (by_key (products d)) <->
  products d !! j = Some p /\ product_status p = 1.
Proof. rewrite list_elem_of_filter, elem_of_by_key. simpl. tauto. Qed.

Lemma status_rows_NoDup d :
  NoDup (fst <$> filter (fun kp : Z * product => product_status kp.2 = 1) (by_key (products d))).
Proof.
  apply NoDup_fmap_fst.
  - intros x y1 y2 H1%status_rows_spec H2%status_rows_spec. naive_solver.
  - apply NoDup_filter. unfold by_key. rewrite (merge_sort_Permutation _ _). apply NoDup_map_to_list.
Qed.

Lemma filter_not_in_nil (l : list (Z * product)) : filter (fun r : Z * product => r.1 ∉ []) l = l.
Proof.
  induction l as [|r l IH]; [reflexivity|].
  rewrite filter_cons_True by apply not_elem_of_nil. by rewrite IH.
Qed.

Section ShopList.
Variable order_by : string -> string -> list (Z * product) -> option (list (Z * product)).
Hypothesis order_by_perm :
  forall col dir rows sorted, order_by col dir rows = Some sorted -> sorted ≡ₚ rows.
Variable to_number : string -> Q.

(** C21: the shop list's [total_filtered] counts the SQL rows of the
    category join, not products.  On page 1 of a list filtered by
    categories (no search, brand or price filter, a clause MySQL accepts,
    a limit that holds every row, a published best product rated above 0)
    the request answers 200 without writing; it lists once each status-1
    product that is in a selected category, and reports as
    [total_filtered] the sum, over the listed products, of the number of
    selected categories each is in: more than the number of products
    listed as soon as one of them is in two selected categories. *)
Theorem shop_list_counts_category_rows now d limit ord dir cs ids kt :
  parse_ids cs = Some ids ->
  top_product now d = Some kt -> product_total_rating kt.2 <> 0 ->
  is_Some (order_by (if String.eqb ord "id" then "products.id" else ord) dir
             (shop_rows to_number d None (Some ids) None None None)) ->
  0 <= limit ->
  (List.length (shop_rows to_number d None (Some ids) None None None) <= Z.to_nat limit)%nat ->
  exists pl,
    run (view_shop_list order_by to_number now 1 limit ord dir None None (Some cs) None None) d =
      (Return (Ok200 pl), d) /\
    NoDup (card_id <$> shop_list pl) /\
    (forall j, j ∈ card_id <$> shop_list pl <->
               exists p, products d !! j = Some p /\ product_status p = 1 /\ category_hits d ids j <> 0%nat) /\
    shop_total_filtered pl = sum_list ((fun c => category_hits d ids (card_id c)) <$> shop_list pl).
Proof.
  intros Hparse Htop Ht [sorted Hs] Hlim Hlen.
  set (base := filter (fun kp : Z * product => product_status kp.2 = 1) (by_key (products d))).
  set (rows := shop_rows to_number d None (Some ids) None None None) in *.
  assert (Hrows : rows = base ≫= fun kp => replicate (category_hits d ids kp.1) kp) by reflexivity.
  pose proof (order_by_perm _ _ _ _ Hs) as Hperm.
  assert (Hpage : List.firstn (Z.to_nat limit) (List.skipn (Z.to_nat ((1 - 1) * limit)) sorted) = sorted).
  { replace ((1 - 1) * limit) with 0 by lia. apply firstn_all2. by rewrite Hperm. }
  destruct (map_each_Return (card_joined (Some kt)) (fun row c => card_id c = row.1)
              (dedup_rows [] sorted) (mk_session d d)) as (cards & Hcards & Hids).
  { intros row. apply card_joined_Return, Ht. }
  apply Forall2_fmap_eq in Hids.
  eexists. split.
  { unfold view_shop_list. rewrite run_eval. hstep. rewrite Htop.
    unfold parse_opt_ids. rewrite Hparse. hstep. fold rows. rewrite Hs.
    replace (((1 - 1) * limit <? 0) || (limit <? 0)) with false
      by (symmetry; apply orb_false_iff; split; apply Z.ltb_ge; lia).
    rewrite Hpage. unfold bind at 1. rewrite Hcards. reflexivity. }
  cbn [shop_list shop_total_filtered]. rewrite Hids. split; [apply dedup_rows_NoDup|split].
  - intros j. rewrite dedup_rows_keys, Hperm, Hrows, elem_of_bind_replicate.
    split.
    + intros [(p & Hin%status_rows_spec & Hh) _]. naive_solver.
    + intros (p & Hp & Hst & Hh). split; [|apply not_elem_of_nil].
      exists p. split; [by apply status_rows_spec|exact Hh].
  - change ((fun c => category_hits d ids (card_id c)) <$> cards)
      with ((category_hits d ids ∘ card_id) <$> cards).
    rewrite list_fmap_compose, Hids, <-list_fmap_compose.
    cbn [shop_total_filtered]. rewrite <-(Permutation_length Hperm).
    transitivity (List.length (filter (fun r : Z * product => r.1 ∉ []) sorted));
      [by rewrite filter_not_in_nil|]. rewrite dedup_rows_length.
    f_equal. apply list_fmap_ext. intros i x Hx%list_elem_of_lookup_2. simpl.
    assert (Hx1 : x.1 ∈ fst <$> rows).
    { rewrite <-Hperm. apply (list_elem_of_fmap_2 fst) in Hx. apply dedup_rows_keys in Hx. tauto. }
    rewrite (key_count_perm _ _ _ Hperm), Hrows, key_count_bind_replicate by apply status_rows_NoDup.
    rewrite Hrows, elem_of_bind_replicate in Hx1. destruct Hx1 as (p & Hin & _).
    rewrite bool_decide_true; [reflexivity|]. apply (list_elem_of_fmap_2 fst) in Hin. exact Hin.
Qed.
End ShopList.

Lemma order_by_product_id_perm col dir rows sorted :
  order_by_product_id col dir rows = Some sorted -> sorted ≡ₚ rows.
Proof.
  unfold order_by_product_id, order_id_desc.
  destruct (String.eqb col "products.id"); [|done].
  destruct (String.eqb (lower dir) "desc"); [intros [= <-]|].
  - rewrite reverse_Permutation. apply merge_sort_Permutation.
  - destruct (String.eqb (lower dir) "asc"); [intros [= <-]|done].
    apply merge_sort_Permutation.
Qed.

Lemma shop_list_counts_category_rows_witness :
  (parse_ids "1,2" = Some [1%Z; 2%Z] /\ top_product 10 demo_db = Some (1, laptop) /\
   product_total_rating laptop <> 0 /\
   is_Some (order_by_product_id "products.id" "desc"
              (shop_rows (fun _ => 0%Q) demo_db None (Some [1%Z; 2%Z]) None None None)) /\
   0 <= 10 /\
   (List.length (shop_rows (fun _ => 0%Q) demo_db None (Some [1%Z; 2%Z]) None None None) <= Z.to_nat 10)%nat) /\
  exists pl,
    run (view_shop_list order_by_product_id (fun _ => 0%Q) 10 1 10 "id" "desc" None None (Some "1,2") None None)
      demo_db = (Return (Ok200 pl), demo_db) /\
    NoDup (card_id <$> shop_list pl) /\
    (forall j, j ∈ card_id <$> shop_list pl <->
               exists p, products demo_db !! j = Some p /\ product_status p = 1 /\
                         category_hits demo_db [1%Z; 2%Z] j <> 0%nat) /\
    shop_total_filtered pl = sum_list ((fun c => category_hits demo_db [1%Z; 2%Z] (card_id c)) <$> shop_list pl).
Proof.
  assert (H1 : parse_ids "1,2" = Some [1%Z; 2%Z]) by (vm_compute; reflexivity).
  assert (H2 : top_product 10 demo_db = Some (1, laptop)) by (vm_compute; reflexivity).
  assert (H3 : product_total_rating laptop <> 0) by (vm_compute; discriminate).
  assert (H4 : is_Some (order_by_product_id "products.id" "desc"
              (shop_rows (fun _ => 0%Q) demo_db None (Some [1%Z; 2%Z]) None None None))) by (vm_compute; eauto).
  assert (H5 : (List.length (shop_rows (fun _ => 0%Q) demo_db None (Some [1%Z; 2%Z]) None None None)
                <= Z.to_nat 10)%nat) by (vm_compute; lia).
  split; [repeat split; assumption || lia|].
  exact (shop_list_counts_category_rows order_by_product_id order_by_product_id_perm (fun _ => 0%Q)
           10 demo_db 10 "id" "desc" "1,2" [1%Z; 2%Z] (1, laptop) H1 H2 H3 H4 ltac:(lia) H5).
Defined.


(** ** The home component *)

(** ** [POST /api/newsletter/send] *)

(** A newsletter subscription from a known client address on an
    acceptable store answers 200 with the stored row: the row (the
    client's address, the e-mail, status 1) is committed under the next
    key of [newsLetters], and nothing else changes; the e-mail is not
    checked against the subscriptions already stored. *)
Theorem newsletter_subscribes host email d :
  db_ok d = true ->
  run (view_newsletter (Some host) email) d =
    (Return (Ok200 (next_newsletter_id d, mk_newsletter host email 1)),
     (insert_newsletter (mk_newsletter host email 1) d).2).
Proof.
  intros Hd. unfold view_newsletter. rewrite run_eval. hstep. rewrite insert_newsletter_key.
  rewrite bind_commit_ok; [reflexivity|]. simpl.
  apply db_ok_wf, db_wf_insert_newsletter; [by apply db_ok_wf|reflexivity].
Qed.

Lemma newsletter_subscribes_witness :
  db_ok demo_db = true /\
  run (view_newsletter (Some "10.0.0.1") "carol@example.com") demo_db =
    (Return (Ok200 (next_newsletter_id demo_db, mk_newsletter "10.0.0.1" "carol@example.com" 1)),
     (insert_newsletter (mk_newsletter "10.0.0.1" "carol@example.com" 1) demo_db).2).
Proof.
  assert (H : db_ok demo_db = true) by (vm_compute; reflexivity).
  split; [exact H|]. apply (newsletter_subscribes _ _ _ H).
Defined.

End Catalog.
