(* ===== verification/ProductPage.v ===== *)
(** * ProductPage: [GET /api/order/cart/{id}] ([view_order_list_cart])

    The product page of [src/backend/src/view_order.py] (lines 101-148)
    reads the product [int(id)], its images, the top-rated published
    product, three best sellers other than it, the inventories whose
    [product_id] equals the {e string} [id], the active sizes by name and
    the colours, and answers the first product's view, its related cards
    and the lists.  It writes nothing.

    Two conversions of [id] meet here: Python's [int(id)] ([py_int], which
    accepts underscores between digits) for the product and its images,
    and MySQL's conversion of the string parameter compared with a
    [BIGINT] column ([mysql_num], the longest digit prefix) for the
    inventories.  The colours query filters on [Size.status] and orders by
    [Size.name]: it is a cross join of colours and sizes, which the legacy
    [Query] de-duplicates by colour ([Catalog.dedup_rows]). *)

From stdpp Require Import gmap strings sorting.
From Stdlib Require Import ZArith QArith Lia Ascii String.
From S2P Require Import Prelude Decimal Schema Session Fixtures Catalog.

Open Scope Z_scope.
Open Scope store_scope.

Module ProductPage.
Import Catalog.

(** ** The two conversions of [id] *)

(** The digits MySQL reads, up to the first character that is not one. *)
Fixpoint mysql_digits (acc : Z) (s : string) : Z :=
  match s with
  | String c rest => match digit_of c with Some v => mysql_digits (acc * 10 + v) rest | None => acc end
  | EmptyString => acc
  end.

(** [ProductInventory.product_id == id] with [id] a string: MySQL
    converts it to a number, skipping leading white space and reading an
    optional sign and the longest run of digits. *)
Definition mysql_num (s : string) : Z :=
  let '(neg, body) := split_sign (strip_leading s) in
  let v := mysql_digits 0 body in
  if neg then - v else v.

(** ** Queries *)

(** [row.categories]: the product's categories, in key order. *)
Definition product_categories (pid : Z) (d : db) : list (Z * category) :=
  filter (fun kc : Z * category => (pid, kc.1) ∈ products_categories d) (by_key (categories d)).

(** [db.query(Product).filter(Product.id == product_id).all()] *)
Definition product_rows (pid : Z) (d : db) : list (Z * product) :=
  match products d !! pid with Some p => [(pid, p)] | None => [] end.

(** [db.query(ProductImage).filter(ProductImage.product_id == product_id).all()] *)
Definition product_images (pid : Z) (d : db) : list (Z * image) :=
  filter (fun ki : Z * image => image_product_id ki.2 = Some pid) (by_key (products_images d)).

(** [getBestSellers]: published products other than [product_id], by
    [total_order] descending, at most three. *)
Definition best_sellers (now pid : Z) (d : db) : list (Z * product) :=
  List.firstn 3 (order_desc product_total_order
                   (filter (fun kp : Z * product => kp.1 <> pid) (published_rows now d))).

(** [db.query(ProductInventory).filter(ProductInventory.product_id == id).all()] *)
Definition product_inventories (key : Z) (d : db) : list (Z * inventory) :=
  filter (fun ki : Z * inventory => inv_product_id ki.2 = key) (by_key (inventories d)).

(** [ORDER BY Size.name] under the case-insensitive collation. *)
Definition size_le (a b : Z * product_size) : Prop :=
  String.leb (collate_key (size_name a.2)) (collate_key (size_name b.2)) = true.

#[export] Instance size_le_dec : RelDecision size_le.
Proof. intros a b. unfold size_le. apply _. Defined.

(** [db.query(Size).filter(and_(Size.status == 1)).order_by(Size.name.asc()).all()] *)
Definition active_sizes (d : db) : list (Z * product_size) :=
  merge_sort size_le (filter (fun ks : Z * product_size => size_status ks.2 = 1) (by_key (sizes d))).

(** [db.query(Colour).filter(and_(Size.status == 1)).order_by(Size.name.asc()).all()]:
    [FROM colours, sizes WHERE sizes.status = 1 ORDER BY sizes.name], one
    row per colour and active size, each colour kept once. *)
Definition colour_rows (d : db) : list (Z * colour) :=
  dedup_rows [] (active_sizes d ≫= fun _ => by_key (colours d)).

(** ** The handler *)

(** The dictionary of [product = list(map(lambda row: {...}, getProduct))]. *)
Record product_view := mk_product_view {
  pv_id : Z;
  pv_name : string;
  pv_image : option string;
  pv_categories : list (Z * category);
  pv_price : Z;
  pv_price_old : Q;
  pv_total_rating : Z;
  pv_description : string;
  pv_details : string
}.

Definition product_view_of (top : option (Z * product)) (row : Z * product) : M product_view :=
  cats <- query (product_categories row.1);;
  r <- rating_index top (product_total_rating row.2);;
  ret (mk_product_view row.1 (product_name row.2) (product_image row.2) cats (product_price row.2)
         (price_old (product_price row.2)) r (product_description row.2) (product_details row.2)).

Record cart_page := mk_cart_page {
  cp_images : list (Z * image);
  cp_product : product_view;
  cp_related : list card;
  cp_sizes : list (Z * product_size);
  cp_colours : list (Z * colour);
  cp_inventories : list (Z * inventory)
}.

(** [view_order_list_cart]: [int(id)] raises [ValueError]; [product[0]]
    of no row raises [IndexError]. *)
Definition view_order_list_cart (now : Z) (id : string) : M (response cart_page) :=
  product_id <- match py_int id with Some n => ret n | None => raise ValueError end;;
  getProduct <- query (product_rows product_id);;
  images <- query (product_images product_id);;
  topProduct <- query (top_product now);;
  getBestSellers <- query (best_sellers now product_id);;
  inventories <- query (product_inventories (mysql_num id));;
  sizes <- query active_sizes;;
  colours <- query colour_rows;;
  product <- map_each (product_view_of topProduct) getProduct;;
  productRelated <- map_each (card_first topProduct) getBestSellers;;
  p0 <- match product with p :: _ => ret p | [] => raise IndexError end;;
  ret (Ok200 (mk_cart_page images p0 productRelated sizes colours inventories)).

(** ** The colour list *)

Lemma dedup_rows_all_seen {A} seen (l : list (Z * A)) :
  (forall r, r ∈ l -> r.1 ∈ seen) -> dedup_rows seen l = [].
Proof.
  induction l as [|r l IH]; intros Hl; [reflexivity|]. simpl.
  rewrite bool_decide_true by (apply Hl; left). apply IH. intros r' Hr'. apply Hl. by right.
Qed.

(** Rows of distinct keys followed by rows whose keys were all seen: the
    de-duplication keeps the first block. *)
Lemma dedup_rows_app_covered {A} seen (l r : list (Z * A)) :
  NoDup (fst <$> l) -> (forall x, x ∈ l -> x.1 ∉ seen) ->
  (forall y, y ∈ r -> y.1 ∈ seen \/ y.1 ∈ fst <$> l) ->
  dedup_rows seen (l ++ r) = l.
Proof.
  revert seen. induction l as [|x l IH]; intros seen Hnd Hl Hr; simpl.
  - apply dedup_rows_all_seen. intros y Hy. destruct (Hr y Hy) as [?|Hin]; [done|by apply elem_of_nil in Hin].
  - rewrite fmap_cons in Hnd. apply NoDup_cons in Hnd as [Hx Hnd].
    rewrite bool_decide_false by (apply Hl; left). f_equal. apply IH; [exact Hnd| |].
    + intros y Hy. rewrite not_elem_of_cons. split; [|apply Hl; by right].
      intros Heq. apply Hx. rewrite <-Heq. by apply list_elem_of_fmap_2.
    + intros y Hy. rewrite elem_of_cons. destruct (Hr y Hy) as [?|Hin]; [auto|].
      rewrite fmap_cons, elem_of_cons in Hin. tauto.
Qed.

Lemma by_key_NoDup {A} (m : gmap Z A) : NoDup (fst <$> by_key m).
Proof. unfold by_key. rewrite (merge_sort_Permutation _ (map_to_list m)). apply NoDup_fst_map_to_list. Qed.

(** Every colour, active or not, once and in key order when some size is
    active; none at all when no size is. *)
Lemma colour_rows_spec d :
  colour_rows d = match active_sizes d with [] => [] | _ :: _ => by_key (colours d) end.
Proof.
  unfold colour_rows. destruct (active_sizes d) as [|s ss]; [reflexivity|].
  rewrite bind_cons. apply dedup_rows_app_covered; [apply by_key_NoDup|set_solver|].
  intros y (s' & Hy & _)%list_elem_of_bind. right. by apply list_elem_of_fmap_2.
Qed.

(** ** The queries' rows *)

Lemma elem_of_filter_by_key {A} (P : Z * A -> Prop) `{!forall x, Decision (P x)} (m : gmap Z A) k v :
  (k, v) ∈ filter P (by_key m) <-> m !! k = Some v /\ P (k, v).
Proof. rewrite list_elem_of_filter, elem_of_by_key. tauto. Qed.

Lemma NoDup_fst_filter {A} (P : Z * A -> Prop) `{!forall x, Decision (P x)} (l : list (Z * A)) :
  NoDup (fst <$> l) -> NoDup (fst <$> filter P l).
Proof. intros Hnd. eapply sublist_NoDup; [exact Hnd|apply fmap_sublist, sublist_filter]. Qed.

(** [ORDER BY f DESC LIMIT k]: at most [k] rows of the input, distinct
    when the input's keys are, and a row left out ranks no higher than
    any row kept, which then number [k]. *)
Section TopRows.
Context {A : Type} (f : A -> Z).

#[local] Instance rank_ge_total : Total (rank_ge f).
Proof. intros a b. unfold rank_ge. lia. Qed.

#[local] Instance rank_ge_trans : Transitive (rank_ge f).
Proof. intros a b c. unfold rank_ge. lia. Qed.

Lemma order_desc_Permutation l : order_desc f l ≡ₚ l.
Proof. unfold order_desc. by rewrite !merge_sort_Permutation. Qed.

Lemma elem_of_top_rows k l x : x ∈ take k (order_desc f l) -> x ∈ l.
Proof.
  intros Hx. rewrite <-(order_desc_Permutation l), <-(take_drop k (order_desc f l)).
  by apply elem_of_app; left.
Qed.

Lemma NoDup_top_rows k l : NoDup (fst <$> l) -> NoDup (fst <$> take k (order_desc f l)).
Proof.
  intros Hnd. apply (sublist_NoDup _ (fst <$> order_desc f l)).
  - by rewrite order_desc_Permutation.
  - apply fmap_sublist, sublist_take.
Qed.

Lemma top_rows_left_out k l x :
  x ∈ l -> x ∉ take k (order_desc f l) ->
  List.length (take k (order_desc f l)) = k /\ forall y, y ∈ take k (order_desc f l) -> f x.2 <= f y.2.
Proof.
  intros Hx Hn. rewrite <-(order_desc_Permutation l), <-(take_drop k (order_desc f l)) in Hx.
  apply elem_of_app in Hx as [?|Hd]; [done|]. split.
  - apply length_take_le. pose proof (length_drop (order_desc f l) k).
    destruct (skipn k (order_desc f l)); [by apply elem_of_nil in Hd|]. simpl in *. lia.
  - intros y Hy. apply (StronglySorted_app_1_elem_of (rank_ge f) (take k (order_desc f l)) (skipn k (order_desc f l)) y x); [|done|done].
    rewrite take_drop. unfold order_desc. apply StronglySorted_merge_sort; apply _.
Qed.

End TopRows.

(** ** The handler *)

Lemma map_each_Return_elem {A B} (f : A -> M B) (P : A -> B -> Prop) l s :
  (forall x, x ∈ l -> exists y, f x s = (Return y, s) /\ P x y) ->
  exists ys, map_each f l s = (Return ys, s) /\ Forall2 P l ys.
Proof.
  intros Hf. induction l as [|x l IH]; [by exists []|]. simpl.
  destruct (Hf x (list_elem_of_here x l)) as (y & Hy & HP).
  destruct IH as (ys & Hys & Hall); [intros x' Hx'; apply Hf; by right|].
  exists (y :: ys). unfold bind at 1. rewrite Hy. unfold bind. rewrite Hys. auto.
Qed.

Lemma card_first_Return kt row s :
  product_total_rating kt.2 <> 0 -> product_category_names row.1 (pending s) <> [] ->
  exists c, card_first (Some kt) row s = (Return c, s) /\ card_id c = row.1.
Proof.
  intros Ht Hn. unfold card_first. hstep.
  destruct (product_category_names row.1 (pending s)) as [|c cs]; [done|]. hstep.
  destruct (rating_index_Some kt (product_total_rating row.2) s Ht) as [z Hz].
  unfold bind at 1. rewrite Hz. eexists. split; reflexivity.
Qed.

Lemma product_view_of_Return kt row s :
  product_total_rating kt.2 <> 0 ->
  exists z, product_view_of (Some kt) row s =
    (Return (mk_product_view row.1 (product_name row.2) (product_image row.2) (product_categories row.1 (pending s))
               (product_price row.2) (price_old (product_price row.2)) z (product_description row.2)
               (product_details row.2)), s).
Proof.
  intros Ht. unfold product_view_of. hstep.
  destruct (rating_index_Some kt (product_total_rating row.2) s Ht) as [z Hz].
  unfold bind at 1. rewrite Hz. eexists. reflexivity.
Qed.

(** The page writes nothing. *)
Lemma preserves_product_view_of I top row : preserves I (product_view_of top row).
Proof. unfold product_view_of, rating_index. preserves_tac idtac. Qed.

#[export] Hint Resolve preserves_product_view_of : preserves.

Lemma preserves_view_order_list_cart I now id : preserves I (view_order_list_cart now id).
Proof. unfold view_order_list_cart. preserves_tac idtac. Qed.

Lemma keeps_ok_product_view_of top row : keeps_ok (product_view_of top row).
Proof. unfold product_view_of, rating_index. keeps_ok_tac. Qed.

#[export] Hint Resolve keeps_ok_product_view_of : keeps.

Lemma keeps_ok_view_order_list_cart now id : keeps_ok (view_order_list_cart now id).
Proof. unfold view_order_list_cart. keeps_ok_tac. Qed.

#[export] Hint Resolve preserves_view_order_list_cart keeps_ok_view_order_list_cart : preserves keeps.

(** A product that does not exist never gets a page: [product[0]] (or a
    related card before it) raises, and nothing is written. *)
Lemma cart_page_missing_product_fails now id d n :
  py_int id = Some n -> products d !! n = None ->
  exists e, run (view_order_list_cart now id) d = (Raise e, d).
Proof.
  intros Hid Hn.
  destruct (preserves_map_each (fun e => e = d) (card_first (top_product now d)) (best_sellers now n d)
              (fun x => preserves_card_first _ _ x) (mk_session d d) eq_refl eq_refl) as [Hc _].
  unfold run, view_order_list_cart. rewrite Hid. hstep.
  unfold product_rows at 1. rewrite Hn. simpl map_each. hstep.
  destruct (map_each (card_first (top_product now d)) (best_sellers now n d) (mk_session d d))
    as [[cs|e] s'] eqn:E; cbn [snd] in Hc; unfold bind at 1; rewrite E; hstep; eexists; by rewrite Hc.
Qed.

(** The three best sellers: distinct published products other than the
    page's, and a product left out sells no more than any shown one. *)
Lemma best_sellers_spec now n d :
  let ids := fst <$> best_sellers now n d in
  (List.length ids <= 3)%nat /\ NoDup ids /\
  (forall k, k ∈ ids -> k <> n /\ exists q, products d !! k = Some q /\ published now q = true) /\
  (forall k q, products d !! k = Some q -> published now q = true -> k <> n -> k ∉ ids ->
     List.length ids = 3%nat /\
     forall k' q', k' ∈ ids -> products d !! k' = Some q' -> product_total_order q <= product_total_order q').
Proof.
  cbv zeta. unfold best_sellers.
  set (l := filter (fun kp : Z * product => kp.1 <> n) (published_rows now d)).
  assert (Hl : forall k q, (k, q) ∈ l <-> products d !! k = Some q /\ published now q = true /\ k <> n).
  { intros k q. unfold l, published_rows. rewrite list_elem_of_filter, elem_of_filter_by_key. simpl. tauto. }
  assert (Hnd : NoDup (fst <$> l)) by (apply NoDup_fst_filter, NoDup_fst_filter, by_key_NoDup).
  split_and!.
  - rewrite length_fmap, length_take. lia.
  - by apply NoDup_top_rows.
  - intros k ([k0 q] & -> & Hx)%list_elem_of_fmap.
    apply elem_of_top_rows, Hl in Hx as (? & ? & ?). simpl. eauto.
  - intros k q Hk Hpub Hne Hnot.
    destruct (top_rows_left_out product_total_order 3 l (k, q)) as [Hlen Hle].
    + by apply Hl.
    + intros Hin. apply Hnot. by apply (list_elem_of_fmap_2 fst _ (k, q)).
    + rewrite length_fmap. split; [exact Hlen|].
      intros k' q' ([k0 q0] & -> & Hx)%list_elem_of_fmap Hk'.
      pose proof (Hle _ Hx) as Hq. apply elem_of_top_rows, Hl in Hx as (Hk0 & _). simpl in *. congruence.
Qed.

(** The page of an existing product, the lists as the queries give them. *)
Lemma cart_page_run now id d n p kt :
  py_int id = Some n -> products d !! n = Some p ->
  top_product now d = Some kt -> product_total_rating kt.2 <> 0 ->
  (forall kq, kq ∈ best_sellers now n d -> product_category_names kq.1 d <> []) ->
  exists pv related,
    run (view_order_list_cart now id) d =
      (Return (Ok200 (mk_cart_page (product_images n d) pv related (active_sizes d) (colour_rows d)
                        (product_inventories (mysql_num id) d))), d) /\
    (pv_id pv = n /\ pv_name pv = product_name p /\ pv_price pv = product_price p /\
     pv_price_old pv = price_old (product_price p) /\ pv_categories pv = product_categories n d) /\
    card_id <$> related = fst <$> best_sellers now n d.
Proof.
  intros Hid Hp Htop Ht Hcat. unfold run, view_order_list_cart. rewrite Hid. hstep.
  cbn [pending]. rewrite Htop.
  unfold product_rows at 1. rewrite Hp. simpl map_each. hstep.
  destruct (product_view_of_Return kt (n, p) (mk_session d d) Ht) as [z Hz].
  unfold bind at 1. rewrite Hz. hstep.
  destruct (map_each_Return_elem (card_first (Some kt)) (fun row c => card_id c = row.1)
              (best_sellers now n d) (mk_session d d)) as (cs & Hcs & Hall).
  { intros x Hx. apply card_first_Return; [exact Ht|exact (Hcat x Hx)]. }
  unfold bind at 1. rewrite Hcs. hstep.
  eexists _, cs. split; [reflexivity|]. split; [repeat split|].
  by apply Forall2_fmap_eq.
Qed.

(** C4: the product page of an existing product, when a published
    product with a non-zero rating exists and every published product has
    a category, answers 200 and writes nothing.  It shows the product (its
    id, name, price, [price_old] and categories); the images of that
    product; as related cards at most three distinct published products
    other than it, such that a published product left out sells no more
    than any shown one and is left out only when three are shown; the
    active sizes; every colour when some size is active and none
    otherwise; and the inventories of the product numbered by MySQL's
    reading of [id], which is not [int(id)] when [id] has an
    underscore. *)
Theorem cart_page_shows_product now id d n p kt :
  py_int id = Some n -> products d !! n = Some p ->
  top_product now d = Some kt -> product_total_rating kt.2 <> 0 ->
  (forall k q, products d !! k = Some q -> published now q = true -> product_category_names k d <> []) ->
  exists imgs pv related szs cols invs,
    run (view_order_list_cart now id) d =
      (Return (Ok200 (mk_cart_page imgs pv related szs cols invs)), d) /\
    pv_id pv = n /\ pv_name pv = product_name p /\ pv_price pv = product_price p /\
    pv_price_old pv = price_old (product_price p) /\
    (forall k c, (k, c) ∈ pv_categories pv <-> categories d !! k = Some c /\ (n, k) ∈ products_categories d) /\
    (forall k i, (k, i) ∈ imgs <-> products_images d !! k = Some i /\ image_product_id i = Some n) /\
    (forall k s, (k, s) ∈ szs <-> sizes d !! k = Some s /\ size_status s = 1) /\
    (forall k c, (k, c) ∈ cols <-> colours d !! k = Some c /\ szs <> []) /\
    (forall k i, (k, i) ∈ invs <-> inventories d !! k = Some i /\ inv_product_id i = mysql_num id) /\
    let ids := card_id <$> related in
    (List.length ids <= 3)%nat /\ NoDup ids /\
    (forall k, k ∈ ids -> k <> n /\ exists q, products d !! k = Some q /\ published now q = true) /\
    (forall k q, products d !! k = Some q -> published now q = true -> k <> n -> k ∉ ids ->
       List.length ids = 3%nat /\
       forall k' q', k' ∈ ids -> products d !! k' = Some q' -> product_total_order q <= product_total_order q').
Proof.
  intros Hid Hp Htop Ht Hcat.
  assert (Hbs : forall kq, kq ∈ best_sellers now n d -> product_category_names kq.1 d <> []).
  { intros [k q] Hkq. apply elem_of_top_rows, list_elem_of_filter in Hkq as [_ Hkq].
    apply elem_of_filter_by_key in Hkq as [? ?]. by apply (Hcat k q). }
  destruct (cart_page_run now id d n p kt Hid Hp Htop Ht Hbs) as (pv & related & Hrun & Hpv & Hrel).
  exists (product_images n d), pv, related, (active_sizes d), (colour_rows d), (product_inventories (mysql_num id) d).
  split; [exact Hrun|]. destruct Hpv as (-> & -> & -> & -> & ->).
  split_and!; try done.
  - intros k c. unfold product_categories. by rewrite elem_of_filter_by_key.
  - intros k i. unfold product_images. by rewrite elem_of_filter_by_key.
  - intros k sz. unfold active_sizes. by rewrite merge_sort_Permutation, elem_of_filter_by_key.
  - intros k c. rewrite colour_rows_spec. destruct (active_sizes d); [|rewrite elem_of_by_key]; set_solver.
  - intros k i. unfold product_inventories. by rewrite elem_of_filter_by_key.
  - cbv zeta. rewrite Hrel. apply best_sellers_spec.
Qed.

Lemma cart_page_shows_product_witness :
  (forall k q, products demo_db !! k = Some q -> published 0 q = true -> product_category_names k demo_db <> []) /\
  exists imgs pv related szs cols invs,
    run (view_order_list_cart 0 "0_1") demo_db =
      (Return (Ok200 (mk_cart_page imgs pv related szs cols invs)), demo_db) /\
    pv_id pv = 1 /\ pv_name pv = product_name laptop /\ pv_price pv = product_price laptop /\
    pv_price_old pv = price_old (product_price laptop) /\
    (forall k c, (k, c) ∈ pv_categories pv <-> categories demo_db !! k = Some c /\ (1, k) ∈ products_categories demo_db) /\
    (forall k i, (k, i) ∈ imgs <-> products_images demo_db !! k = Some i /\ image_product_id i = Some 1) /\
    (forall k s, (k, s) ∈ szs <-> sizes demo_db !! k = Some s /\ size_status s = 1) /\
    (forall k c, (k, c) ∈ cols <-> colours demo_db !! k = Some c /\ szs <> []) /\
    (forall k i, (k, i) ∈ invs <-> inventories demo_db !! k = Some i /\ inv_product_id i = mysql_num "0_1") /\
    let ids := card_id <$> related in
    (List.length ids <= 3)%nat /\ NoDup ids /\
    (forall k, k ∈ ids -> k <> 1 /\ exists q, products demo_db !! k = Some q /\ published 0 q = true) /\
    (forall k q, products demo_db !! k = Some q -> published 0 q = true -> k <> 1 -> k ∉ ids ->
       List.length ids = 3%nat /\
       forall k' q', k' ∈ ids -> products demo_db !! k' = Some q' -> product_total_order q <= product_total_order q').
Proof.
  assert (Hcat : forall k q, products demo_db !! k = Some q -> published 0 q = true ->
                   product_category_names k demo_db <> []).
  { intros k q Hk _. change (products demo_db) with (<[1 := laptop]> {[2 := camera]} : gmap Z product) in Hk.
    apply lookup_insert_Some in Hk as [[<- _]|[_ Hk]]; [vm_compute; discriminate|].
    apply lookup_singleton_Some in Hk as [<- _]. vm_compute. discriminate. }
  split; [exact Hcat|].
  apply (cart_page_shows_product 0 "0_1" demo_db 1 laptop (1, laptop));
    [reflexivity|reflexivity|vm_compute; reflexivity|discriminate|exact Hcat].
Defined.

End ProductPage.
