(* ===== verification/Wishlist.v ===== *)
(** * Wishlist: [GET /api/order/wishlist/{id}] and [GET /api/order/session]

    [view_order_wishlist] (view_order.py 32-55) assigns
    [product.users = [user]]: SQLAlchemy replaces the product's whole
    collection of wishing users, so the [products_wishlists] rows of every
    other user for that product are deleted.  [view_order_session] (57-99)
    is the read-only summary the frontend shows on every page: the
    caller's draft order with its cart lines and the caller's wishlist. *)

From stdpp Require Import gmap strings.
From Stdlib Require Import ZArith Lia Ascii String.
From S2P Require Import Prelude Decimal Schema Session Fixtures Cart Pricing Checkout.

Open Scope Z_scope.
Open Scope store_scope.

Module Wishlist.
Import Cart Pricing Checkout.

(** ** [GET /api/order/wishlist/{id}] *)

Definition wishlist_activity (u : option Z) : activity :=
  mk_activity u "Add Wishlist" "Add Product To Wishlist" "Your has been added product to your wishlist.".

(** [product.users = [user]]: the product's rows of [products_wishlists]
    become the single row [(product, user)]. *)
Definition set_product_users (pid uid : Z) (d : db) : db :=
  set_wishlists (fun w => {[(pid, uid)]} ∪ filter (fun pu : Z * Z => pu.1 <> pid) w) d.

Definition view_order_wishlist (uid pid : Z) : M (response product) :=
  user <- query (fun d => users d !! uid);;
  product <- query (fun d => products d !! pid);;
  _ <- get_some product;;   (** [product.users] on [None] *)
  _ <- get_some user;;      (** a [None] member of the new collection *)
  modify (set_product_users pid uid);;
  modify (insert_activity (wishlist_activity (Some uid)));;
  commit;;
  p <- query (fun d => products d !! pid);;
  p <- get_some p;;
  ret (Ok200 p).

(** ** [GET /api/order/session] *)

(** [user.products]: the products on the user's wishlist. *)
Definition user_wishlist (uid : Z) (d : db) : list (Z * product) :=
  omap (fun pu : Z * Z =>
          if decide (pu.2 = uid) then
            match products d !! pu.1 with Some p => Some (pu.1, p) | None => None end
          else None)
    (elements (wishlists d)).

Record session_payload := mk_session_payload {
  session_carts : list cart_row;
  session_order : option (Z * order);
  session_wishlists : list (Z * product)
}.

Definition view_order_session (uid : Z) : M (response session_payload) :=
  order <- query (find_draft uid);;
  user <- query (fun d => users d !! uid);;
  _ <- get_some user;;      (** [user.products] on [None] *)
  whislists <- query (user_wishlist uid);;
  carts <- (match order with
            | Some (oid, _) => query (cart_rows oid)
            | None => ret []
            end);;
  ret (Ok200 (mk_session_payload carts order whislists)).

(** ** Lemmas *)

Lemma db_wf_set_product_users d pid uid :
  db_wf d -> is_Some (products d !! pid) -> is_Some (users d !! uid) ->
  db_wf (set_product_users pid uid d).
Proof.
  intros [Hp Hi Ho Hd Hb Ha Hw Hc Hr] Hpid Huid.
  constructor; unfold inventory_ok, order_ok, detail_ok, billing_ok, activity_ok in *; simpl; auto.
  intros x Hx. apply elem_of_union in Hx as [Hx|Hx].
  - apply elem_of_singleton in Hx as ->. simpl. auto.
  - apply elem_of_filter in Hx as [_ Hx]. auto.
Qed.

Lemma user_wishlist_none uid d :
  (forall pu, pu ∈ wishlists d -> pu.2 <> uid) -> user_wishlist uid d = [].
Proof.
  intros Hno. unfold user_wishlist.
  assert (Forall (fun pu : Z * Z => pu.2 <> uid) (elements (wishlists d))) as Hall.
  { apply Forall_forall. intros pu Hpu. apply Hno. by rewrite elem_of_elements in Hpu. }
  induction Hall as [|pu l Hpu _ IH]; [done|]. simpl. by rewrite decide_False.
Qed.

(** A checkout that got through at least one line had a user. *)
Lemma lines_effect_user uid uf x l d d1 :
  lines_effect uid uf (x :: l) d = Some d1 -> uf = true.
Proof.
  destruct x as [j r]. simpl.
  destruct (inventories d !! _); [|done]. destruct (products _ !! _); [|done].
  by destruct uf.
Qed.

(** C27: adding a product to one's wishlist deletes every other user's
    wishlist entry for that product: afterwards the product's entries are
    exactly the caller's. *)
Theorem wishlist_replaces_other_users uid pid d u p :
  db_ok d = true -> users d !! uid = Some u -> products d !! pid = Some p ->
  exists d',
    run (view_order_wishlist uid pid) d = (Return (Ok200 p), d') /\
    wishlists d' = {[(pid, uid)]} ∪ filter (fun pu : Z * Z => pu.1 <> pid) (wishlists d) /\
    (forall u', (pid, u') ∈ wishlists d' <-> u' = uid).
Proof.
  intros Hok Hu Hp. unfold run, view_order_wishlist. hstep. rewrite Hu, Hp. hstep.
  rewrite bind_commit_ok.
  - hstep. simpl. rewrite Hp. hstep. eexists. split_and!; [reflexivity|reflexivity|].
    intros u'. simpl. rewrite elem_of_union, elem_of_singleton, elem_of_filter. naive_solver.
  - apply db_ok_wf, db_wf_insert_activity.
    + apply db_wf_set_product_users; [by apply db_ok_wf| |]; eauto.
    + unfold activity_ok. simpl. eapply fk_of_lookup, Hu.
Qed.

(** C28: after a successful checkout of a user's only draft order with at
    least one line, the session summary shows no draft, no cart line and
    an empty wishlist. *)
Theorem session_after_checkout_is_empty uid form d o' d' oid o :
  single_draft uid d = true -> find_draft uid d = Some (oid, o) -> order_details oid d <> [] ->
  run (view_order_checkout_submit uid form) d = (Return (Ok200 o'), d') ->
  run (view_order_session uid) d' = (Return (Ok200 (mk_session_payload [] None [])), d').
Proof.
  intros Hsingle Hdraft Hne (oid' & He & _)%checkout_run_success.
  destruct (checkout_effect_inr _ _ _ _ _ _ He)
    as (ps & o0 & d1 & _ & Hd & Hl & Ho & _ & _ & Hw & _ & Hord & _ & _ & Husers).
  rewrite Hdraft in Hd. injection Hd as <- <-.
  destruct (order_details oid d) as [|x l] eqn:Hdets; [done|].
  destruct (users d !! uid) as [u|] eqn:Hu; [|by apply lines_effect_user in Hl].
  assert (find_draft uid d' = None) as Hnone.
  { apply (find_draft_after_placing uid d d' oid o o'); auto. by rewrite Ho. }
  assert (user_wishlist uid d' = []) as Hwish.
  { apply user_wishlist_none. rewrite Hw, (lines_effect_wishlists _ _ _ _ _ Hl).
    intros pu Hpu. by apply elem_of_filter in Hpu as [? _]. }
  unfold run, view_order_session. hstep. rewrite Hnone, Husers, Hu. hstep.
  rewrite Hwish. hstep. reflexivity.
Qed.

(** ** Witnesses *)

(** Alice wishes for the camera: Bob's wish for it is deleted. *)
Lemma wishlist_replaces_other_users_witness :
  exists d',
    run (view_order_wishlist 1 2) demo_db = (Return (Ok200 camera), d') /\
    wishlists d' = {[(2, 1)]} ∪ filter (fun pu : Z * Z => pu.1 <> 2) (wishlists demo_db) /\
    (forall u', (2, u') ∈ wishlists d' <-> u' = 1).
Proof.
  apply (wishlist_replaces_other_users 1 2 demo_db alice camera); vm_compute; reflexivity.
Defined.

Lemma session_after_checkout_is_empty_witness :
  run (view_order_session 1) (snd (run (view_order_checkout_submit 1 demo_form) demo_cart_db)) =
    (Return (Ok200 (mk_session_payload [] None [])),
     snd (run (view_order_checkout_submit 1 demo_form) demo_cart_db)).
Proof.
  apply (session_after_checkout_is_empty 1 demo_form demo_cart_db
           (mk_order 1 (Some 1) "638000000000000000" (Some 2) 4000000 200000 400000 500000 4700000 1)
           _ 1 (mk_order 1 None "638000000000000000" (Some 4) 4000000 0 0 0 4000000 0));
    vm_compute; [reflexivity | reflexivity | discriminate | reflexivity].
Defined.

End Wishlist.
