(* ===== verification/Reviews.v ===== *)
(** * Reviews: [GET] and [POST /api/order/review/{id}]

    [view_order_review] (view_order.py 230-245) lists a product's reviews,
    newest first, each with [rating_index = (rating / top * 100) / 20] and
    [percentage = ceil(rating / top * 100)], where [top] is the rating of
    the product's best review ([order_by(desc(rating)).first()]); the
    divisions are Decimal divisions in the default 28-digit context
    ([Decimal.dec_div]).  [view_order_create_review] (247-278) adds a
    review with the submitted rating, unchecked, and an activity naming
    the product, and commits. *)

From stdpp Require Import gmap strings sorting list_monad.
From Stdlib Require Import ZArith QArith Qround Lia Ascii String.
From S2P Require Import Prelude Decimal Schema Session Fixtures.

Open Scope Z_scope.
Open Scope store_scope.

Module Reviews.

(** ** [GET /api/order/review/{id}] *)

Record review_item := mk_review_row {
  row_id : Z;
  row_review : string;
  row_rating_index : Q;
  row_percentage : Z
}.

(** [getreviews]: the product's reviews, [ORDER BY id DESC]. *)
Definition product_reviews (pid : Z) (d : db) : list (Z * review) :=
  reverse (merge_sort key_le
    (filter (fun kr : Z * review => review_product_id kr.2 = pid) (map_to_list (reviews d)))).

(** [toprating]: a review of the product with the largest rating (which
    one among equal ratings does not matter: only its rating is used). *)
Definition top_review (pid : Z) (d : db) : option (Z * review) :=
  foldr (fun kr acc =>
           match acc with
           | None => Some kr
           | Some b => if review_rating b.2 <? review_rating kr.2 then Some kr else Some b
           end) None (product_reviews pid d).

(** The lambda of lines 237-243 for one row; [None] when
    [Decimal(row.rating) / Decimal(toprating.rating)] divides by zero. *)
Definition review_row (top : review) (kr : Z * review) : option review_item :=
  match dec_div (inject_Z (review_rating kr.2)) (inject_Z (review_rating top)) with
  | None => None
  | Some q =>
      let pct := dec_mul q 100 in
      Some (mk_review_row kr.1 (review_text kr.2) (dec_round 28 (pct / 20)) (Qceiling pct))
  end.

Definition view_order_review (pid : Z) : M (response (list review_item)) :=
  rows <- query (product_reviews pid);;
  top <- query (top_review pid);;
  match rows with
  | [] => ret (Ok200 [])
  | _ :: _ =>
      match top with
      | None => raise AttributeError
      | Some (_, t) =>
          match mapM (review_row t) rows with
          | Some out => ret (Ok200 out)
          | None => raise DecimalError
          end
      end
  end.

(** ** [POST /api/order/review/{id}] *)

(** [class CreateReviewSchema]: [rating] is any integer; FastAPI rejects
    a review shorter than two characters before the handler runs. *)
Record review_form := mk_review_form { form_rating : Z; form_review : string }.

Definition review_activity (uid : Z) (name : string) : activity :=
  mk_activity (Some uid) "Create new review" ("Add review to " ++ name)
    ("Your has been added new review to " ++ name).

Definition view_order_create_review (uid pid : Z) (form : review_form) : M (response review) :=
  product <- query (fun d => products d !! pid);;
  k <- add_row (insert_review (mk_review pid uid (form_rating form) (form_review form)));;
  p <- get_some product;;   (** [product.name] on [None] *)
  modify (insert_activity (review_activity uid (product_name p)));;
  commit;;
  r <- query (fun d => reviews d !! k);;
  r <- get_some r;;
  ret (Ok200 r).

(** ** Example input *)

(** [demo_db] with three reviews: the laptop rated 4 and 5, the camera
    rated 0. *)
Definition review_db : db :=
  mk_db (users demo_db) (products demo_db) (inventories demo_db) (payments demo_db)
    (settings demo_db) (orders demo_db) (details demo_db) (billings demo_db)
    (activities demo_db) (wishlists demo_db) (orders_carts demo_db)
    (next_order_id demo_db) (next_detail_id demo_db) (next_billing_id demo_db)
    (next_activity_id demo_db)
    {[1 := mk_review 1 1 4 "Good laptop"; 2 := mk_review 1 2 5 "Excellent";
      3 := mk_review 2 2 0 "Broken on arrival"]} 4
    (authentications demo_db) (next_user_id demo_db) (next_auth_id demo_db) (brands demo_db) (categories demo_db)
    (products_categories demo_db) (newsletters demo_db) (next_newsletter_id demo_db)
    (colours demo_db) (sizes demo_db) (products_images demo_db)
    (next_product_id demo_db) (next_inventory_id demo_db) (next_payment_id demo_db) (next_setting_id demo_db) (next_brand_id demo_db)
    (next_category_id demo_db) (next_colour_id demo_db) (next_size_id demo_db) (next_image_id demo_db).

(** ** Lemmas *)

Lemma product_reviews_spec pid d k r :
  In (k, r) (product_reviews pid d) <-> reviews d !! k = Some r /\ review_product_id r = pid.
Proof.
  unfold product_reviews. rewrite <-list_elem_of_In, elem_of_reverse.
  rewrite (merge_sort_Permutation key_le), list_elem_of_filter, elem_of_map_to_list. simpl. tauto.
Qed.

Lemma top_review_max pid d k t :
  top_review pid d = Some (k, t) ->
  In (k, t) (product_reviews pid d) /\
  forall k' r', In (k', r') (product_reviews pid d) -> review_rating r' <= review_rating t.
Proof.
  unfold top_review. generalize (product_reviews pid d) as l. intros l.
  revert k t. induction l as [|[k1 r1] l IH]; intros k t; simpl; [done|].
  destruct (foldr _ None l) as [[kb rb]|] eqn:Hf; simpl.
  - destruct (IH kb rb eq_refl) as [Hin Hmax].
    destruct (Z.ltb_spec (review_rating rb) (review_rating r1)); intros [= <- <-].
    + split; [by left|]. intros k' r' [[= <- <-]|Hr]; [lia|]. specialize (Hmax _ _ Hr). lia.
    + split; [by right|]. intros k' r' [[= <- <-]|Hr]; [lia|]. eauto.
  - intros [= <- <-]. split; [by left|].
    intros k' r' [[= <- <-]|Hr]; [lia|].
    destruct l as [|x l]; [done|]. simpl in Hf. destruct (foldr _ None l); [case_match|]; discriminate.
Qed.

Lemma top_review_nonempty pid d x l :
  product_reviews pid d = x :: l -> is_Some (top_review pid d).
Proof. unfold top_review. intros ->. simpl. destruct (foldr _ None l) as [[]|]; [case_match|]; eauto. Qed.

Lemma dec_round_proper p x y : (x == y)%Q -> dec_round p x = dec_round p y.
Proof. intros Hxy. unfold dec_round. by rewrite (Qred_complete x y Hxy). Qed.

(** A review rated like the best one gets 5 stars and 100%. *)
Lemma review_row_top t kr :
  review_rating t <> 0 -> review_rating kr.2 = review_rating t ->
  review_row t kr = Some (mk_review_row kr.1 (review_text kr.2) 5 100).
Proof.
  intros Ht Hr. unfold review_row, dec_div. rewrite Hr.
  replace (Qeq_bool (inject_Z (review_rating t)) 0) with false.
  - rewrite (dec_round_proper 28 (inject_Z (review_rating t) / inject_Z (review_rating t)) 1).
    + reflexivity.
    + field. intros H. apply Ht. by apply (inject_Z_injective _ 0).
  - symmetry. apply not_true_iff_false. intros H. apply Qeq_bool_iff in H.
    apply Ht. by apply (inject_Z_injective _ 0).
Qed.

(** A product whose reviews are all rated 0. *)
Lemma review_page_zero_helper pid d k0 r0 :
  reviews d !! k0 = Some r0 -> review_product_id r0 = pid ->
  (forall k r, reviews d !! k = Some r -> review_product_id r = pid -> review_rating r = 0) ->
  run (view_order_review pid) d = (Raise DecimalError, d).
Proof.
  intros H0 Hp0 Hzero. unfold run, view_order_review. hstep.
  destruct (product_reviews pid d) as [|x l] eqn:Hrows.
  { pose proof (proj2 (product_reviews_spec pid d k0 r0) (conj H0 Hp0)) as Hin.
    by rewrite Hrows in Hin. }
  destruct (top_review_nonempty _ _ _ _ Hrows) as [[k t] Htop]. rewrite Htop.
  destruct (top_review_max _ _ _ _ Htop) as [Hin _].
  apply product_reviews_spec in Hin as [Hk Hpt].
  destruct x as [kx rx].
  assert (In (kx, rx) (product_reviews pid d)) as Hx by (rewrite Hrows; by left).
  apply product_reviews_spec in Hx as [Hkx Hpx].
  assert (review_row t (kx, rx) = None) as Hrow.
  { unfold review_row, dec_div. by rewrite (Hzero _ _ Hk Hpt). }
  assert (mapM (review_row t) ((kx, rx) :: l) = None) as Hmap.
  { simpl. by rewrite Hrow. }
  rewrite Hmap. hstep. reflexivity.
Qed.

(** ** Theorems *)

(** When every review of a product is rated 0, its review page
    divides 0 by 0 and fails. *)
Theorem review_page_all_zero_fails pid d k0 r0 :
  reviews d !! k0 = Some r0 -> review_product_id r0 = pid ->
  (forall k r, reviews d !! k = Some r -> review_product_id r = pid -> review_rating r = 0) ->
  run (view_order_review pid) d = (Raise DecimalError, d).
Proof. apply review_page_zero_helper. Qed.

(** On a successful review page, the product's best review is shown
    with a rating index of 5 and 100%. *)
Theorem review_page_top_is_full pid d out d' k t :
  run (view_order_review pid) d = (Return (Ok200 out), d') ->
  top_review pid d = Some (k, t) ->
  In (mk_review_row k (review_text t) 5 100) out.
Proof.
  intros Hrun Htop. destruct (top_review_max _ _ _ _ Htop) as [Hin _].
  revert Hrun. unfold run, view_order_review. hstep.
  destruct (product_reviews pid d) as [|x l] eqn:Hrows; [done|]. rewrite Htop.
  destruct (mapM (review_row t) (x :: l)) as [ys|] eqn:Hmap; hstep; [|done].
  intros [= <- _]. apply mapM_Some in Hmap.
  apply list_elem_of_In, list_elem_of_lookup in Hin as [i Hi].
  destruct (Forall2_lookup_l _ _ _ _ _ Hmap Hi) as (y & Hy & Hrow).
  destruct (decide (review_rating t = 0)) as [Ht|Ht].
  - unfold review_row, dec_div in Hrow. rewrite Ht in Hrow. done.
  - rewrite (review_row_top t (k, t)) in Hrow by done. injection Hrow as <-.
    apply list_elem_of_In, list_elem_of_lookup. eauto.
Qed.

(** C31: The rating is not validated: a negative rating is refused by the
    unsigned column at commit (or the product is missing) and nothing is
    written. *)
Theorem create_review_negative_rating_rolls_back uid pid form d :
  form_rating form < 0 ->
  exists e, run (view_order_create_review uid pid form) d = (Raise e, d).
Proof.
  intros Hneg. unfold run, view_order_create_review. hstep.
  destruct (products d !! pid) as [p|]; hstep; [|eauto].
  rewrite bind_commit_fail; [eauto|].
  apply not_true_iff_false. intros Hok%db_ok_wf.
  pose proof (wf_reviews _ Hok (next_review_id d) _ (lookup_insert_eq _ _ _)) as Hr.
  unfold review_ok, uint32_ok in Hr. simpl in Hr.
  apply andb_true_iff in Hr as [_ Hr]. apply andb_true_iff in Hr as [Hr _].
  apply Z.leb_le in Hr. lia.
Qed.

(** Reviewing a product that does not exist fails ([product.name]
    on [None]) and the added review is rolled back. *)
Theorem create_review_missing_product_fails uid pid form d :
  products d !! pid = None ->
  run (view_order_create_review uid pid form) d = (Raise AttributeError, d).
Proof. intros Hp. unfold run, view_order_create_review. hstep. rewrite Hp. hstep. reflexivity. Qed.

(** C33: a rating of 0 is accepted, and a first review rated 0 makes the
    product's review page fail. *)
Theorem zero_rating_review_breaks_page uid pid text d u p :
  db_ok d = true -> users d !! uid = Some u -> products d !! pid = Some p ->
  (forall k r, reviews d !! k = Some r -> review_product_id r <> pid) ->
  exists d',
    run (view_order_create_review uid pid (mk_review_form 0 text)) d =
      (Return (Ok200 (mk_review pid uid 0 text)), d') /\
    run (view_order_review pid) d' = (Raise DecimalError, d').
Proof.
  intros Hok Hu Hp Hnone. unfold run at 1, view_order_create_review. hstep. rewrite Hp. hstep.
  set (d' := insert_activity _ _).
  assert (reviews d' !! next_review_id d = Some (mk_review pid uid 0 text)) as Hk
    by apply lookup_insert_eq.
  rewrite bind_commit_ok.
  - hstep. rewrite Hk. hstep. exists d'. split; [reflexivity|].
    apply (review_page_zero_helper pid d' (next_review_id d) (mk_review pid uid 0 text)); [done|done|].
    intros k r Hkr Hpr. simpl in Hkr. rewrite lookup_insert in Hkr.
    case_decide as Heq; [by injection Hkr as <-|]. by destruct (Hnone _ _ Hkr).
  - apply db_ok_wf, db_wf_insert_activity.
    + apply db_wf_insert_review; [by apply db_ok_wf|]. unfold review_ok; simpl.
      rewrite (fk_of_lookup _ _ _ Hp), (fk_of_lookup _ _ _ Hu). reflexivity.
    + unfold activity_ok; simpl. eapply fk_of_lookup, Hu.
Qed.

(** ** Witnesses *)

(** The camera's only review is rated 0. *)
Lemma review_page_all_zero_fails_witness :
  run (view_order_review 2) review_db = (Raise DecimalError, review_db).
Proof.
  apply (review_page_all_zero_fails 2 review_db 3 (mk_review 2 2 0 "Broken on arrival"));
    [reflexivity | reflexivity |].
  intros k r Hk Hp. cbn [reviews review_db] in Hk.
  rewrite !lookup_insert_Some, lookup_singleton_Some in Hk.
  destruct Hk as [[_ <-]|[_ [[_ <-]|[_ [_ <-]]]]]; simpl in *; lia.
Defined.

(** The laptop's review rated 5 is shown as 5 stars and 100%; the one
    rated 4 as 4 stars and 80%. *)
Lemma review_page_top_is_full_witness :
  In (mk_review_row 2 "Excellent" 5 100)
    [mk_review_row 2 "Excellent" 5 100; mk_review_row 1 "Good laptop" 4 80].
Proof.
  apply (review_page_top_is_full 1 review_db _ review_db 2 (mk_review 1 2 5 "Excellent"));
    vm_compute; reflexivity.
Defined.

Lemma create_review_negative_rating_rolls_back_witness :
  exists e, run (view_order_create_review 1 1 (mk_review_form (-1) "Terrible")) demo_db =
    (Raise e, demo_db).
Proof. apply create_review_negative_rating_rolls_back. simpl. lia. Defined.

Lemma create_review_missing_product_fails_witness :
  run (view_order_create_review 1 9 (mk_review_form 5 "Nice")) demo_db =
    (Raise AttributeError, demo_db).
Proof. apply create_review_missing_product_fails. reflexivity. Defined.

(** Alice rates the camera 0 in [demo_db], where it has no review. *)
Lemma zero_rating_review_breaks_page_witness :
  exists d',
    run (view_order_create_review 1 2 (mk_review_form 0 "Bad")) demo_db =
      (Return (Ok200 (mk_review 2 1 0 "Bad")), d') /\
    run (view_order_review 2) d' = (Raise DecimalError, d').
Proof.
  apply (zero_rating_review_breaks_page 1 2 "Bad" demo_db alice camera);
    [reflexivity | reflexivity | reflexivity |].
  intros k r Hk. vm_compute in Hk. discriminate.
Defined.

End Reviews.
