(* ===== verification/Auth.v ===== *)
(** * Auth: sign-in, sign-up, e-mail confirmation and password reset

    [view_auth.py]: [view_auth_login] (31-66), [view_auth_register]
    (69-142), [view_auth_confirm] (144-178), [view_auth_email_forgot]
    (180-219) and [view_auth_email_reset] (221-267), with the request
    bodies of [schema.py] (15-31), the password policy of the
    [password_strength] package and the bcrypt hasher of passlib as an
    interface ([PasswordHasher]).

    An [authentications] row is a one-time token: registration writes an
    [email-confirm] row with status 0, [forgot] a [reset-password] row with
    status 0; [confirm] and [reset] set every row with the token to status
    2.  [login] asks for an [email-confirm] row of the user with status 1,
    which none of these handlers writes: the store keeps the property "no
    confirmed row for user [uid]" ([unconfirmed]), and a user registered
    through [view_auth_register] never signs in (see [Workflow]). *)

From stdpp Require Import gmap strings.
From Stdlib Require Import ZArith Lia Ascii String.
From S2P Require Import Prelude Decimal Schema Session Fixtures.

Open Scope Z_scope.
Open Scope store_scope.

Module Auth.

(** ** The password hasher

    [CryptContext(schemes=["bcrypt"])]: [hash] draws a salt and returns the
    bcrypt string, [verify] checks a password against a stored hash.  The
    development relies only on the law that a password verifies against
    its own hash. *)
Class PasswordHasher := {
  pwd_hash : string -> string -> string;    (** salt, password *)
  pwd_verify : string -> string -> bool;    (** password, stored hash *)
  pwd_verify_hash : forall salt pw, pwd_verify pw (pwd_hash salt pw) = true
}.

(** ** Request bodies ([schema.py] 15-31)

    The field constraints ([EmailStr], [min_length=8]) are checked by
    FastAPI before the handler runs; the handlers below take the parsed
    bodies. *)
Record login_form := mk_login_form { login_email : string; login_password : string }.
Record forgot_form := mk_forgot_form { forgot_email : string }.
Record reset_form := mk_reset_form {
  reset_email : string; reset_password : string; reset_password_confirm : string }.
Record register_form := mk_register_form {
  reg_name : string; reg_email : string; reg_password : string; reg_password_confirm : string }.

(** ** The password policy

    [PasswordPolicy.from_names(length=8, uppercase=1, numbers=1, special=1,
    nonletters=1)]; [policy.test(pw)] lists the tests the password fails.
    [password_strength] classifies characters by Unicode category: on ASCII
    the letters are [A-Z a-z], the numbers [0-9], and a special character
    is any other character. *)
Inductive policy_rule :=
  | Length (n : nat) | Uppercase (n : nat) | Numbers (n : nat)
  | Special (n : nat) | NonLetters (n : nat).

Definition is_upper (c : ascii) : bool :=
  let n := nat_of_ascii c in ((65 <=? n) && (n <=? 90))%nat.

Definition is_lower (c : ascii) : bool :=
  let n := nat_of_ascii c in ((97 <=? n) && (n <=? 122))%nat.

Definition is_letter (c : ascii) : bool := is_upper c || is_lower c.

Fixpoint count_chars (p : ascii -> bool) (s : string) : nat :=
  match s with
  | EmptyString => 0
  | String c rest => (if p c then 1 else 0) + count_chars p rest
  end%nat.

Definition rule_test (r : policy_rule) (pw : string) : bool :=
  match r with
  | Length n => n <=? String.length pw
  | Uppercase n => n <=? count_chars is_upper pw
  | Numbers n => n <=? count_chars is_digit pw
  | Special n => n <=? count_chars (fun c => negb (is_letter c || is_digit c)) pw
  | NonLetters n => n <=? count_chars (fun c => negb (is_letter c)) pw
  end%nat.

Definition from_names_policy : list policy_rule :=
  [Length 8; Uppercase 1; Numbers 1; Special 1; NonLetters 1].

Definition policy_test (rules : list policy_rule) (pw : string) : list policy_rule :=
  filter (fun r => rule_test r pw = false) rules.

(** ** [form.name.split(" ")] and [" ".join(...)] *)

Fixpoint split_space (s : string) : list string :=
  match s with
  | EmptyString => [EmptyString]
  | String c rest =>
      let parts := split_space rest in
      if Ascii.eqb c " " then EmptyString :: parts
      else match parts with
           | p :: ps => String c p :: ps
           | [] => [String c EmptyString]
           end
  end.

Fixpoint join_space (l : list string) : string :=
  match l with
  | [] => EmptyString
  | [p] => p
  | p :: ps => p ++ String " " (join_space ps)
  end.

(** Lines 92-103: the first word is the first name, the rest joined with
    spaces the last name ([None] for a one-word name). *)
Definition register_names (name : string) : option string * option string :=
  match split_space name with
  | first :: (_ :: _) as sliced => (Some first, Some (join_space sliced))
  | [first] => (Some first, None)
  | [] => (None, None)
  end.

(** ** Queries and updates *)

(** [db.query(User).filter(User.email == email).first()] *)
Definition user_by_email (email : string) (d : db) : option (Z * user) :=
  select_first (fun u => collate_eq (user_email u) email) (users d).

(** The rows [login] counts: [Authentication.user == auth_user],
    [status == 1] and [type == 'email-confirm']. *)
Definition confirmed_row (uid : Z) (a : authentication) : bool :=
  bool_decide (auth_user_id a = Some uid) && (auth_status a =? 1)
  && collate_eq (auth_type a) "email-confirm".

Definition confirmed_count (uid : Z) (d : db) : nat :=
  count_where (confirmed_row uid) (authentications d).

(** No row of [authentications] lets user [uid] sign in. *)
Definition unconfirmed (uid : Z) (d : db) : Prop :=
  map_Forall (fun _ a => confirmed_row uid a = false) (authentications d).

Definition with_user_status (u : user) (st : Z) : user :=
  mk_user (user_email u) (user_phone u) (user_password u) (user_first_name u)
    (user_last_name u) (user_gender u) (user_city u) (user_zip_code u) (user_country u)
    (user_address u) st (user_image u).

Definition with_auth_status (a : authentication) (st : Z) : authentication :=
  mk_auth (auth_user_id a) (auth_type a) (auth_credential a) (auth_token a) st.

Definition update_users (P : Z -> user -> bool) (f : user -> option user) : M unit :=
  exec_update (fun d => us ← update_where P f (users d); Some (set_users (fun _ => us) d)).

(** [query(Authentication).filter(Authentication.token == token)
    .update({'status': 2, ...})]: every row with the token, whatever its
    type or status. *)
Definition expire_token (token : string) : M unit :=
  exec_update (fun d =>
    m ← update_where (fun _ a => collate_eq (auth_token a) token)
          (fun a => Some (with_auth_status a 2)) (authentications d);
    Some (set_authentications (fun _ => m) d)).

(** ** [POST /api/auth/login] *)

Definition invalid_credential_msg : string :=
  "You have entered an invalid credential and password. Please try again.".
Definition wrong_password_msg : string :=
  "The password your entered is incorrect. Please try again.".
Definition unconfirmed_msg : string :=
  "We have sent you an email confirmation. Please confirm your email and then we will active your account.".

Definition login_activity (u : option Z) : activity :=
  mk_activity u "Sign In To Application" "Sign In" "Sign in to application".

Section Handlers.
Context `{!PasswordHasher}.

(** The 200 response is [signJWT(auth_user.email)]: a token for the
    user's e-mail, represented by the e-mail. *)
Definition view_auth_login (form : login_form) : M (response string) :=
  auth_user <- query (user_by_email (login_email form));;
  match auth_user with
  | None => ret (Bad401 invalid_credential_msg)
  | Some (uid, u) =>
      if negb (pwd_verify (login_password form) (user_password u)) then
        ret (Bad401 wrong_password_msg)
      else
        verification <- query (confirmed_count uid);;
        if (verification =? 0)%nat then ret (Bad401 unconfirmed_msg)
        else
          modify (insert_activity (login_activity (Some uid)));;
          commit;;
          ret (Ok200 (user_email u))
  end.

(** ** [POST /api/auth/register] *)

Record token_payload := mk_token_payload { payload_message : string; payload_token : string }.

Definition exists_msg (email : string) : string :=
  "User with e-mail address `" ++ email ++ "` already exists. Please try with another one.".
Definition mismatch_msg : string := "Please make sure your passwords match.".
Definition weak_msg : string :=
  "Password is weak. Recommended passwords contain at least 8 characters, one uppercase, one lowercase, one number, and one special character.".
Definition register_msg : string :=
  "Your account has been created. Please check your email for the confirmation message we just sent you".

Definition register_activity (u : option Z) : activity :=
  mk_activity u "Sign Up To Application" "Sign Up" "Register new user account".

(** [salt] is bcrypt's random salt and [token] Faker's [uuid4()]. *)
Definition view_auth_register (salt token : string) (form : register_form)
    : M (response token_payload) :=
  existing <- query (user_by_email (reg_email form));;
  match existing with
  | Some _ => ret (Bad400 (exists_msg (reg_email form)))
  | None =>
      if negb (String.eqb (reg_password form) (reg_password_confirm form)) then
        ret (Bad400 mismatch_msg)
      else
        let check_policy := policy_test from_names_policy (reg_password form) in
        let hash_password := pwd_hash salt (reg_password form) in
        if negb (List.length check_policy =? 0)%nat then ret (Bad400 weak_msg)
        else
          let '(first_name, last_name) := register_names (reg_name form) in
          uid <- add_row (insert_user (mk_user (reg_email form) None hash_password
                                         first_name last_name None None None None None 0 None));;
          _ <- add_row (insert_auth (mk_auth (Some uid) "email-confirm" (reg_email form) token 0));;
          modify (insert_activity (register_activity (Some uid)));;
          commit;;
          ret (Ok200 (mk_token_payload register_msg token))
  end.

(** ** [GET /api/auth/confirm/{token}] *)

Definition confirm_invalid_msg : string := "This e-mail confirmation token is invalid.".
Definition confirmed_msg : string := "Your e-mail is verified. You can now login.".

Definition confirm_activity (u : option Z) : activity :=
  mk_activity u "Confirmation" "E-mail Confirmation" "Your has been confirmed a registration account.".

Definition view_auth_confirm (token : string) : M (response string) :=
  confirmation <- query (fun d => select_first
                    (fun a => collate_eq (auth_token a) token && (auth_status a =? 0))
                    (authentications d));;
  match confirmation with
  | None => ret (Bad400 confirm_invalid_msg)
  | Some (_, c) =>
      (** [User.id == confirmation.user_id]: [IS NULL] when [user_id] is [None] *)
      update_users (fun k _ => bool_decide (Some k = auth_user_id c))
        (fun u => Some (with_user_status u 1));;
      expire_token token;;
      modify (insert_activity (confirm_activity (auth_user_id c)));;
      commit;;
      ret (Ok200 confirmed_msg)
  end.

(** ** [POST /api/auth/email/forgot] *)

Definition no_user_msg : string := "We can't find a user with that e-mail address.".

Definition forgot_msg (email : string) : string :=
  "An email has been sent to " ++ email ++ " with further password reset information. Thank you.".

Definition view_auth_email_forgot (token : string) (form : forgot_form)
    : M (response token_payload) :=
  auth_user <- query (user_by_email (forgot_email form));;
  match auth_user with
  | None => ret (Bad400 no_user_msg)
  | Some (uid, u) =>
      _ <- add_row (insert_auth (mk_auth (Some uid) "reset-password" (forgot_email form) token 0));;
      modify (insert_activity (confirm_activity (Some uid)));;
      commit;;
      ret (Ok200 (mk_token_payload (forgot_msg (user_email u)) token))
  end.

(** ** [POST /api/auth/email/reset/{token}] *)

Definition reset_invalid_msg : string :=
  "We can't find a user with that e-mail address or password reset token is invalid.".
Definition reset_weak_msg : string := "This password reset token is invalid.".
Definition reset_done_msg : string := "You have successfully updated your password.".

Definition reset_activity (u : option Z) : activity :=
  mk_activity u "Update Current Password" "Reset Password" "Your has been changed a current password.".

(** Lines 242-248.  The filter [User == password_reset.user] compares the
    mapped class with an instance: Python evaluates it to [False], and the
    UPDATE has [WHERE false].  Its values write [password = None] (the
    dictionary's second ['password'] key wins) into a NOT NULL column,
    which a matched row would reject. *)
Definition reset_user_where (k : Z) (u : user) : bool := false.
Definition reset_user_values (u : user) : option user := None.

Definition view_auth_email_reset (salt token : string) (form : reset_form) : M (response string) :=
  password_reset <- query (fun d => select_first
                      (fun a => collate_eq (auth_token a) token
                                && collate_eq (auth_credential a) (reset_email form)
                                && (auth_status a =? 0))
                      (authentications d));;
  match password_reset with
  | None => ret (Bad400 reset_invalid_msg)
  | Some (_, r) =>
      if negb (String.eqb (reset_password form) (reset_password_confirm form)) then
        ret (Bad400 mismatch_msg)
      else
        let check_policy := policy_test from_names_policy (reset_password form) in
        if negb (List.length check_policy =? 0)%nat then ret (Bad400 reset_weak_msg)
        else
          let hash_password := pwd_hash salt (reset_password form) in
          update_users reset_user_where reset_user_values;;
          expire_token token;;
          modify (insert_activity (reset_activity (auth_user_id r)));;
          commit;;
          ret (Ok200 reset_done_msg)
  end.

End Handlers.

(** A hasher for the examples: the "hash" is the password behind a
    prefix. *)
Definition demo_hasher : PasswordHasher.
Proof.
  refine {| pwd_hash salt pw := ("$2b$" ++ pw)%string;
            pwd_verify pw h := String.eqb h ("$2b$" ++ pw)%string |}.
  intros salt pw. apply String.eqb_refl.
Defined.

Definition carol_form : register_form :=
  mk_register_form "Carol Ann Smith" "carol@example.com" "Secret#123" "Secret#123".

Lemma unconfirmed_count uid d : unconfirmed uid d <-> confirmed_count uid d = 0%nat.
Proof. unfold unconfirmed, confirmed_count. by rewrite count_where_zero. Qed.

Lemma unconfirmed_frame uid d d' :
  authentications d' = authentications d -> unconfirmed uid d -> unconfirmed uid d'.
Proof. unfold unconfirmed. by intros ->. Qed.


Lemma unconfirmed_insert_auth uid d a :
  auth_status a <> 1 -> unconfirmed uid d -> unconfirmed uid (insert_auth a d).2.
Proof.
  intros Hs Hd. apply map_Forall_insert_2; [|done].
  unfold confirmed_row. rewrite (proj2 (Z.eqb_neq _ _) Hs). by destruct (bool_decide _).
Qed.


Lemma keeps_ok_update_users P f : keeps_ok (update_users P f).
Proof. apply keeps_ok_exec_update. Qed.

Lemma keeps_ok_expire_token token : keeps_ok (expire_token token).
Proof. apply keeps_ok_exec_update. Qed.

#[export] Hint Resolve keeps_ok_update_users keeps_ok_expire_token : keeps.

(** The writes of a handler: either they leave [authentications] alone or
    they insert a row that is not confirmed. *)
Ltac unconfirmed_write :=
  first [ eapply unconfirmed_frame; [|eassumption]; reflexivity
        | apply unconfirmed_insert_auth; [simpl; lia|assumption] ].

Lemma db_wf_confirm_writes d P token us m a :
  db_wf d ->
  update_where P (fun u => Some (with_user_status u 1)) (users d) = Some us ->
  update_where (fun _ a => collate_eq (auth_token a) token)
    (fun a => Some (with_auth_status a 2)) (authentications d) = Some m ->
  activity_ok d a = true ->
  db_wf (insert_activity a (set_authentications (fun _ => m) (set_users (fun _ => us) d))).
Proof.
  intros Hwf Hus Hm Ha.
  assert (Hmono : forall k, fk (users d) k = true -> fk us k = true).
  { intros k. rewrite !fk_spec. by apply (update_where_keys _ _ _ _ k Hus). }
  assert (Hmono' : forall j, fk_opt (users d) j = true -> fk_opt us j = true)
    by (intros j; by apply fk_opt_mono).
  apply db_wf_insert_activity; [apply db_wf_set_authentications; [apply db_wf_users; [done|done|]|]|].
  - intros k1 u1 k2 u2 H1 H2 Hcl.
    apply (update_where_Some_inv _ _ _ _ _ _ Hus) in H1 as (v1 & H1 & ->).
    apply (update_where_Some_inv _ _ _ _ _ _ Hus) in H2 as (v2 & H2 & ->).
    apply (wf_users_unique _ Hwf _ _ _ _ H1 H2). destruct (P k1 v1), (P k2 v2); exact Hcl.
  - intros k a0 Hk. apply (update_where_Some_inv _ _ _ _ _ _ Hm) in Hk as (a1 & Hk & ->).
    pose proof (wf_auths _ Hwf _ _ Hk) as Ho. unfold auth_ok in *. simpl.
    destruct_andb Ho. destruct (collate_eq _ _); simpl; rewrite (Hmono' _ Ho); done.
  - unfold activity_ok in *. simpl. by apply Hmono'.
Qed.

Section Login.
Context `{!PasswordHasher}.

(** An unconfirmed user's sign-in is refused, with either message. *)
Lemma login_unconfirmed uid u form d :
  unconfirmed uid d -> user_by_email (login_email form) d = Some (uid, u) ->
  exists msg, run (view_auth_login form) d = (Return (Bad401 msg), d).
Proof.
  intros Hun Hu. unfold run, view_auth_login. hstep. rewrite Hu.
  destruct (pwd_verify _ _); cbn [negb]; hstep; [|by eexists].
  apply unconfirmed_count in Hun. rewrite Hun. hstep. by eexists.
Qed.

(** A user with a confirmed [email-confirm] row signs in with a password
    that verifies against the stored hash: 200, and the sign-in activity
    is committed. *)
Lemma login_succeeds uid u pw d :
  db_wf d -> users d !! uid = Some u -> pwd_verify pw (user_password u) = true ->
  (0 < confirmed_count uid d)%nat ->
  exists d', run (view_auth_login (mk_login_form (user_email u) pw)) d =
               (Return (Ok200 (user_email u)), d').
Proof.
  intros Hwf Hu Hpw Hc.
  assert (Hsel : user_by_email (user_email u) d = Some (uid, u)).
  { apply select_first_unique; [exact Hu|apply collate_eq_refl|].
    intros k' v' Hk' Hce. apply (wf_users_unique _ Hwf _ _ _ _ Hk' Hu).
    unfold users_clash. cbv beta in Hce. by rewrite Hce. }
  unfold run, view_auth_login. hstep. cbn [login_password login_email]. rewrite Hsel. hstep.
  rewrite Hpw. cbn [negb]. hstep.
  destruct (confirmed_count uid d =? 0)%nat eqn:Hz; [apply Nat.eqb_eq in Hz; lia|].
  hstep. rewrite bind_commit_ok.
  - hstep. by eexists.
  - apply db_ok_wf, db_wf_insert_activity; [exact Hwf|]. exact (fk_of_lookup _ _ _ Hu).
Qed.

End Login.

(** ** Properties *)

Section Properties.
Context `{!PasswordHasher}.


(** C36: confirming a token that matches a row with status 0 answers 200,
    sets the status of the row's user to 1 and the status of every row
    with that token to 2. *)
Theorem confirm_consumes_token token d k c :
  db_ok d = true ->
  select_first (fun a => collate_eq (auth_token a) token && (auth_status a =? 0))
    (authentications d) = Some (k, c) ->
  exists d',
    run (view_auth_confirm token) d = (Return (Ok200 confirmed_msg), d') /\
    (forall uid u, auth_user_id c = Some uid -> users d !! uid = Some u ->
       users d' !! uid = Some (with_user_status u 1)) /\
    (forall j a, authentications d !! j = Some a -> collate_eq (auth_token a) token = true ->
       authentications d' !! j = Some (with_auth_status a 2)).
Proof.
  intros Hok Hsel. apply db_ok_wf in Hok as Hwf.
  destruct (select_first_Some _ _ _ _ Hsel) as (Hc & _ & _).
  destruct (update_where_total (fun k (_ : user) => bool_decide (Some k = auth_user_id c))
              (fun u => Some (with_user_status u 1)) (users d)) as [us Hus]; [eauto|].
  destruct (update_where_total (fun _ a => collate_eq (auth_token a) token)
              (fun a => Some (with_auth_status a 2)) (authentications d)) as [m Hm]; [eauto|].
  unfold run, view_auth_confirm, update_users, expire_token. hstep. rewrite Hsel. hstep.
  rewrite Hus. cbn [mbind option_bind]. hstep.
  change (authentications (set_users _ d)) with (authentications d).
  rewrite Hm. cbn [mbind option_bind]. hstep.
  rewrite bind_commit_ok; [|apply db_ok_wf; eapply (db_wf_confirm_writes d _ token); eauto;
    unfold activity_ok; simpl; pose proof (wf_auths _ Hwf _ _ Hc) as Ho; unfold auth_ok in Ho;
    by destruct_andb Ho].
  hstep. eexists. split; [reflexivity|]. split.
  - intros uid u Huid Hu. simpl. rewrite (update_where_lookup _ _ _ _ uid Hus), Hu. simpl.
    by rewrite bool_decide_true by congruence.
  - intros j a Ha Ht. simpl. rewrite (update_where_lookup _ _ _ _ j Hm), Ha. simpl. by rewrite Ht.
Qed.

(** C37: a password reset that answers 200 leaves the users table as it
    was: the UPDATE of the user filters on [User == password_reset.user],
    which Python evaluates to [False], so the new password is never
    stored. *)
Theorem reset_keeps_password salt token form d d' msg :
  run (view_auth_email_reset salt token form) d = (Return (Ok200 msg), d') ->
  users d' = users d.
Proof.
  unfold run, view_auth_email_reset, update_users, expire_token. hstep.
  destruct (select_first _ _) as [[k r]|]; hstep; [|congruence].
  destruct (String.eqb _ _); cbn [negb]; hstep; [|congruence].
  destruct (List.length _ =? 0)%nat; cbn [negb]; hstep; [|congruence].
  rewrite update_where_no_match by done. cbn [mbind option_bind]. hstep.
  change (authentications (set_users _ d)) with (authentications d).
  destruct (update_where_total (fun _ a => collate_eq (auth_token a) token)
              (fun a => Some (with_auth_status a 2)) (authentications d)) as [m Hm]; [eauto|].
  rewrite Hm. cbn [mbind option_bind]. hstep.
  match goal with |- context [bind commit _ {| pending := ?p |}] => destruct (db_ok p) eqn:Hok end.
  - rewrite bind_commit_ok by exact Hok. hstep. by intros [= _ <-].
  - rewrite bind_commit_fail by exact Hok. congruence.
Qed.

(** C18: the forgot-password request of a known e-mail answers 200 with
    the reset token in its body, and commits an authentication row of
    type [reset-password] with that token, status 0, for the user the
    e-mail names: whoever knows an address obtains a token that resets
    its password, without access to the mailbox.  The users are not
    changed. *)
Theorem forgot_returns_reset_token token form d uid u :
  db_ok d = true -> user_by_email (forgot_email form) d = Some (uid, u) ->
  exists d',
    run (view_auth_email_forgot token form) d =
      (Return (Ok200 (mk_token_payload (forgot_msg (user_email u)) token)), d') /\
    authentications d' =
      <[next_auth_id d := mk_auth (Some uid) "reset-password" (forgot_email form) token 0]> (authentications d) /\
    users d' = users d.
Proof.
  intros Hok Hu. apply db_ok_wf in Hok.
  pose proof (select_first_Some _ _ _ _ Hu) as (Hl & _ & _).
  unfold run, view_auth_email_forgot. hstep. rewrite Hu. hstep.
  rewrite bind_commit_ok.
  - hstep. eexists. split_and!; reflexivity.
  - apply db_ok_wf, db_wf_insert_activity; [apply db_wf_insert_auth; [done|]|].
    + unfold auth_ok. simpl. by rewrite (fk_of_lookup _ _ _ Hl).
    + unfold activity_ok. simpl. by rewrite (fk_of_lookup _ _ _ Hl).
Qed.

End Properties.

(** ** Witnesses *)

#[local] Existing Instance demo_hasher.


(** Carol confirms her token. *)
Lemma confirm_consumes_token_witness :
  exists d',
    run (view_auth_confirm "tok-1") (run (view_auth_register "s" "tok-1" carol_form) demo_db).2 =
      (Return (Ok200 confirmed_msg), d') /\
    (forall uid u, auth_user_id (mk_auth (Some 3) "email-confirm" "carol@example.com" "tok-1" 0) = Some uid ->
       users (run (view_auth_register "s" "tok-1" carol_form) demo_db).2 !! uid = Some u ->
       users d' !! uid = Some (with_user_status u 1)) /\
    (forall j a, authentications (run (view_auth_register "s" "tok-1" carol_form) demo_db).2 !! j = Some a ->
       collate_eq (auth_token a) "tok-1" = true ->
       authentications d' !! j = Some (with_auth_status a 2)).
Proof.
  apply (confirm_consumes_token "tok-1" _ 2
           (mk_auth (Some 3) "email-confirm" "carol@example.com" "tok-1" 0));
    vm_compute; reflexivity.
Defined.

(** Bob asks for a reset token and resets his password with it. *)
Lemma reset_keeps_password_witness :
  users (run (view_auth_email_reset "s" "tok-2" (mk_reset_form "bob@example.com" "Newpass#1" "Newpass#1"))
           (run (view_auth_email_forgot "tok-2" (mk_forgot_form "bob@example.com")) demo_db).2).2 =
  users (run (view_auth_email_forgot "tok-2" (mk_forgot_form "bob@example.com")) demo_db).2.
Proof.
  apply (reset_keeps_password "s" "tok-2" (mk_reset_form "bob@example.com" "Newpass#1" "Newpass#1")
           _ _ reset_done_msg).
  vm_compute. reflexivity.
Defined.

(** Bob asks for a reset token: it comes back in the response. *)
Lemma forgot_returns_reset_token_witness :
  db_ok demo_db = true /\
  user_by_email (forgot_email (mk_forgot_form "bob@example.com")) demo_db = Some (2, bob) /\
  exists d',
    run (view_auth_email_forgot "tok-2" (mk_forgot_form "bob@example.com")) demo_db =
      (Return (Ok200 (mk_token_payload (forgot_msg (user_email bob)) "tok-2")), d') /\
    authentications d' =
      <[next_auth_id demo_db := mk_auth (Some 2) "reset-password" (forgot_email (mk_forgot_form "bob@example.com")) "tok-2" 0]>
        (authentications demo_db) /\
    users d' = users demo_db.
Proof.
  assert (H1 : db_ok demo_db = true) by (vm_compute; reflexivity).
  assert (H2 : user_by_email (forgot_email (mk_forgot_form "bob@example.com")) demo_db = Some (2, bob))
    by (vm_compute; reflexivity).
  split; [exact H1|]. split; [exact H2|].
  exact (forgot_returns_reset_token "tok-2" (mk_forgot_form "bob@example.com") demo_db 2 bob H1 H2).
Defined.

End Auth.
