(* ===== verification/Profile.v ===== *)
(** * Profile: the caller's activity log, profile and password

    [view_profile.py]: [view_profile_me] (35-39, the decoded session
    answered as it is), [view_profile_activity] (42-70,
    [GET /api/profile/activity]), [view_profile_update] (73-119,
    [POST /api/profile/update]) and [view_profile_password] (164-200,
    [POST /api/profile/password]), with the bodies [UserProfileSchema] and
    [UserPasswordSchema] of [schema.py] (33-47).  The caller's id comes
    from the bearer token ([auth_user], outside the sources) and is an
    argument here.

    The activity log filters on [User.id == user_id] without joining
    [users] to [activities]: SQLAlchemy selects from both tables, so every
    activity of every user is listed as long as the caller exists.  The
    profile update checks the UNIQUE e-mail and phone with two counts
    before it writes, and commits twice (the user, then the activity); the
    password change checks the current password but not the policy that
    sign-up enforces ([Validation.password_change_skips_policy]).  The
    upload is in [Upload]. *)

From stdpp Require Import gmap strings sorting.
From Stdlib Require Import ZArith Lia Ascii String.
From S2P Require Import Prelude Decimal Schema Session Fixtures Listing Auth.

Open Scope Z_scope.
Open Scope store_scope.

Module Profile.
Import Listing Auth.

(** ** Request bodies *)

(** [UserProfileSchema] (schema.py 33-42) *)
Record profile_form := mk_profile_form {
  pf_email : string; pf_phone : string; pf_first_name : string; pf_last_name : string;
  pf_gender : string; pf_address : option string; pf_country : option string;
  pf_city : option string; pf_zip_code : option string }.

(** [UserPasswordSchema] (schema.py 44-47) *)
Record password_form := mk_password_form {
  current_password : string; new_password : string; new_password_confirm : string }.

(** ** [GET /api/profile/detail] *)

(** [view_profile_me]: the session [auth_user(access_token)] decodes
    ([auth.py], not among the sources), answered as it is. *)
Definition view_profile_me {S} (session : S) : M (response S) := ret (Ok200 session).

(** ** [GET /api/profile/activity] *)

(** [db.query(Activity).filter(User.id == user_id)]: [FROM activities,
    users WHERE users.id = user_id], one row per activity when the caller
    exists, none otherwise. *)
Definition caller_activities (uid : Z) (d : db) : list (Z * activity) :=
  match users d !! uid with
  | Some _ => map_to_list (activities d)
  | None => []
  end.

(** [or_(Activity.event.ilike(f'%{search}%'),
    Activity.description.ilike(f'%{search}%'))] *)
Definition activity_search (search : option string) (rows : list (Z * activity))
    : list (Z * activity) :=
  match search with
  | None => rows
  | Some s => filter (fun kr : Z * activity =>
                        (ilike_contains s (activity_event kr.2)
                         || ilike_contains s (activity_description kr.2)) = true) rows
  end.

Record activity_payload := mk_activity_payload {
  activity_total : nat;
  activity_rows : list (Z * activity)
}.

(** [order_by(text(f"{order_dir} {order_desc}"))] is interpreted by MySQL,
    a parameter as in [Listing.view_order_list]. *)
Definition view_profile_activity
    (order_by : string -> string -> list (Z * activity) -> option (list (Z * activity)))
    (uid page limit : Z) (order_dir order_desc : string) (search : option string)
    : M (response activity_payload) :=
  let offset := (page - 1) * limit in
  total <- query (fun d => List.length (caller_activities uid d));;
  rows <- query (fun d => activity_search search (caller_activities uid d));;
  match order_by order_dir order_desc rows with
  | None => raise DatabaseError
  | Some sorted =>
      if (offset <? 0) || (limit <? 0) then raise DatabaseError
      else ret (Ok200 (mk_activity_payload total
                         (List.firstn (Z.to_nat limit) (List.skipn (Z.to_nat offset) sorted))))
  end.

(** The default clause [activities.id desc] and its ascending twin. *)
Definition order_by_activity_id (col dir : string) (rows : list (Z * activity))
    : option (list (Z * activity)) :=
  if String.eqb col "activities.id" then
    let asc := merge_sort key_le rows in
    if String.eqb (lower dir) "desc" then Some (reverse asc)
    else if String.eqb (lower dir) "asc" then Some asc else None
  else None.

(** ** [POST /api/profile/update] *)

(** [db.query(User).filter(and_(P, User.id != user_id)).count()] *)
Definition other_users_where (uid : Z) (P : user -> bool) (d : db) : nat :=
  List.length (filter (fun ku : Z * user => ku.1 <> uid /\ P ku.2 = true) (map_to_list (users d))).

Definition taken_email_msg : string := "The e-mail address has already been taken.!".
Definition taken_phone_msg : string := "The phone number has already been taken.!".

(** [update_user] of lines 90-101 applied to a row. *)
Definition profile_values (form : profile_form) (u : user) : user :=
  mk_user (pf_email form) (Some (pf_phone form)) (user_password u) (Some (pf_first_name form))
    (Some (pf_last_name form)) (Some (pf_gender form)) (pf_city form) (pf_zip_code form)
    (pf_country form) (pf_address form) (user_status u) (user_image u).

Definition profile_activity (u : option Z) : activity :=
  mk_activity u "Update Current User Profile" "Update Profile" "Edit user profile account".

(** [payload = signJWT(form.email)] with its message: the token is
    represented by the e-mail. *)
Record profile_payload := mk_profile_payload {
  profile_token_email : string; profile_message : string }.

Definition view_profile_update (uid : Z) (form : profile_form) : M (response profile_payload) :=
  session_user <- query (fun d => users d !! uid);;
  user_email <- query (other_users_where uid (fun u => collate_eq (user_email u) (pf_email form)));;
  if (0 <? user_email)%nat then ret (Bad400 taken_email_msg)
  else
    user_phone <- query (other_users_where uid (fun u =>
                    match user_phone u with Some p => collate_eq p (pf_phone form) | None => false end));;
    if (0 <? user_phone)%nat then ret (Bad400 taken_phone_msg)
    else
      update_users (fun k _ => bool_decide (k = uid)) (fun u => Some (profile_values form u));;
      commit;;
      modify (insert_activity (profile_activity (option_map (fun _ => uid) session_user)));;
      commit;;
      ret (Ok200 (mk_profile_payload (pf_email form) "Your profile has been changed")).

(** ** [POST /api/profile/password] *)

Definition wrong_current_msg : string :=
  "Your password was not updated, since the provided current password does not match.!!".
Definition password_changed_msg : string := "Your password has been changed!!".

Definition with_user_password (u : user) (h : string) : user :=
  mk_user (user_email u) (user_phone u) h (user_first_name u) (user_last_name u)
    (user_gender u) (user_city u) (user_zip_code u) (user_country u) (user_address u)
    (user_status u) (user_image u).

Definition password_activity (u : option Z) : activity :=
  mk_activity u "Update Current User Password" "Change Password" "Change new password account".

Section Handlers.
Context `{!PasswordHasher}.

(** [salt] is bcrypt's random salt. *)
Definition view_profile_password (salt : string) (uid : Z) (form : password_form)
    : M (response string) :=
  session_user <- query (fun d => users d !! uid);;
  u <- get_some session_user;;       (** [session_user.password] on [None] *)
  let verify := pwd_verify (current_password form) (user_password u) in
  let hash_password := pwd_hash salt (new_password form) in
  if negb (String.eqb (new_password form) (new_password_confirm form)) then
    ret (Bad400 mismatch_msg)
  else if negb verify then ret (Bad400 wrong_current_msg)
  else
    update_users (fun k _ => bool_decide (k = uid))
      (fun u => Some (with_user_password u hash_password));;
    commit;;
    modify (insert_activity (password_activity (Some uid)));;
    commit;;
    ret (Ok200 password_changed_msg).

End Handlers.

(** ** Fixtures *)

Definition alice_profile : profile_form :=
  mk_profile_form "alice.doe@example.com" "0812222222" "Alice" "Doe" "F"
    (Some "Jl. Merdeka 2") (Some "Indonesia") (Some "Bandung") (Some "40112").

(** Alice's password stored as the demo hasher stores [Qwerty123!], the
    seeder's password. *)
Definition alice_hashed : user := with_user_password alice "$2b$Qwerty123!".

Definition hashed_db : db := set_users (<[1 := alice_hashed]>) demo_db.

(** ** Lemmas *)


(** ** Properties *)

(** C15: the activity log is not the caller's: for any existing caller,
    the first page of a large enough limit lists every activity of every
    user, and its total counts them all, because [User.id == user_id]
    filters a cross product of [activities] and [users]. *)
Theorem activity_list_shows_every_user order_by uid limit col dir d u sorted :
  users d !! uid = Some u ->
  order_by col dir (map_to_list (activities d)) = Some sorted ->
  sorted ≡ₚ map_to_list (activities d) ->
  Z.of_nat (size (activities d)) <= limit ->
  exists p,
    run (view_profile_activity order_by uid 1 limit col dir None) d = (Return (Ok200 p), d) /\
    activity_total p = size (activities d) /\
    (forall k a, activities d !! k = Some a -> (k, a) ∈ activity_rows p).
Proof.
  intros Hu Hord Hperm Hlim. unfold run, view_profile_activity, caller_activities. hstep.
  rewrite Hu. cbn [activity_search]. rewrite Hord.
  replace ((1 - 1) * limit) with 0 by lia.
  rewrite (proj2 (Z.ltb_ge limit 0)) by lia. cbn [Z.ltb Z.compare orb]. hstep.
  eexists. split; [reflexivity|]. split; [apply length_map_to_list|].
  intros k a Hk. cbn [activity_rows]. change (Z.to_nat 0) with 0%nat. cbn [List.skipn]. rewrite firstn_all2.
  - rewrite drop_0, Hperm. by apply elem_of_map_to_list.
  - rewrite drop_0, (Permutation_length Hperm), length_map_to_list. lia.
Qed.


Section Password.
Context `{!PasswordHasher}.

(** A password change with the right current password on an acceptable
    store answers 200 and stores the new hash in the caller's row only;
    the sign-up rows are untouched. *)
Lemma password_change_commits salt uid form d u :
  db_wf d -> users d !! uid = Some u ->
  new_password form = new_password_confirm form ->
  pwd_verify (current_password form) (user_password u) = true ->
  exists d',
    run (view_profile_password salt uid form) d = (Return (Ok200 password_changed_msg), d') /\
    users d' = <[uid := with_user_password u (pwd_hash salt (new_password form))]> (users d) /\
    authentications d' = authentications d /\ db_wf d'.
Proof.
  intros Hok Hu Hpw Hver.
  set (u' := with_user_password u (pwd_hash salt (new_password form))).
  assert (Hwf1 : db_wf (set_users (fun _ => <[uid := u']> (users d)) d)).
  { apply db_wf_set_user; [done|eauto|]. intros j v Hj Hne.
    destruct (users_clash u' v) eqn:Hcl; [|done].
    exfalso. apply Hne, (wf_users_unique _ Hok _ _ _ _ Hj Hu). by rewrite users_clash_sym. }
  assert (Hwf2 : db_wf (insert_activity (password_activity (Some uid)) (set_users (fun _ => <[uid := u']> (users d)) d))).
  { apply db_wf_insert_activity; [exact Hwf1|]. unfold activity_ok. simpl. by rewrite fk_insert_self. }
  unfold run, view_profile_password, update_users. hstep. rewrite Hu. hstep.
  rewrite (proj2 (String.eqb_eq _ _) Hpw), Hver. cbn [negb]. hstep.
  rewrite (update_where_key _ _ _ _ u' Hu) by reflexivity. cbn [mbind option_bind]. hstep.
  rewrite bind_commit_ok by (apply db_ok_wf; exact Hwf1). hstep.
  rewrite bind_commit_ok by (apply db_ok_wf; exact Hwf2). hstep.
  eexists. split; [reflexivity|]. split; [reflexivity|]. split; [reflexivity|exact Hwf2].
Qed.

(** C26: a confirmed user who changes their password with the right
    current password can then sign in with the new one: the password
    change answers 200, stores the hash of the new password in the
    caller's row only, and [view_auth_login] accepts the new password. *)
Theorem password_change_then_login salt uid form d u :
  db_ok d = true -> users d !! uid = Some u -> (0 < confirmed_count uid d)%nat ->
  new_password form = new_password_confirm form ->
  pwd_verify (current_password form) (user_password u) = true ->
  exists d',
    run (view_profile_password salt uid form) d = (Return (Ok200 password_changed_msg), d') /\
    users d' = <[uid := with_user_password u (pwd_hash salt (new_password form))]> (users d) /\
    exists d'',
      run (view_auth_login (mk_login_form (user_email u) (new_password form))) d' =
        (Return (Ok200 (user_email u)), d'').
Proof.
  intros Hok%db_ok_wf Hu Hconf Hpw Hver.
  destruct (password_change_commits salt uid form d u Hok Hu Hpw Hver) as (d' & Hrun & Hus & Ha & Hwf').
  exists d'. split; [exact Hrun|]. split; [exact Hus|].
  change (user_email u) with (user_email (with_user_password u (pwd_hash salt (new_password form)))).
  apply (login_succeeds uid); [exact Hwf'|rewrite Hus; apply lookup_insert_eq|apply pwd_verify_hash|].
  unfold confirmed_count in *. rewrite Ha. exact Hconf.
Qed.

End Password.

(** ** Witnesses *)

#[local] Existing Instance demo_hasher.

(** Bob reads the activity log after Alice updated her profile. *)
Lemma activity_list_shows_every_user_witness :
  exists p,
    run (view_profile_activity order_by_activity_id 2 1 10 "activities.id" "desc" None)
      (run (view_profile_update 1 alice_profile) demo_db).2 = (Return (Ok200 p), (run (view_profile_update 1 alice_profile) demo_db).2) /\
    activity_total p = size (activities (run (view_profile_update 1 alice_profile) demo_db).2) /\
    (forall k a, activities (run (view_profile_update 1 alice_profile) demo_db).2 !! k = Some a ->
       (k, a) ∈ activity_rows p).
Proof.
  apply (activity_list_shows_every_user order_by_activity_id 2 10 "activities.id" "desc" _ bob
           [(1, profile_activity (Some 1))]); vm_compute; [reflexivity..|discriminate].
Defined.


(** Alice changes [Qwerty123!] into [Secret#456] and signs in with it. *)
Lemma password_change_then_login_witness :
  exists d',
    run (view_profile_password "s" 1 (mk_password_form "Qwerty123!" "Secret#456" "Secret#456")) hashed_db =
      (Return (Ok200 password_changed_msg), d') /\
    users d' = <[1 := with_user_password alice_hashed (pwd_hash "s" "Secret#456")]> (users hashed_db) /\
    exists d'',
      run (view_auth_login (mk_login_form (user_email alice_hashed) "Secret#456")) d' =
        (Return (Ok200 (user_email alice_hashed)), d'').
Proof.
  apply (password_change_then_login "s" 1 (mk_password_form "Qwerty123!" "Secret#456" "Secret#456")
           hashed_db alice_hashed); vm_compute; [reflexivity|reflexivity|lia|reflexivity|reflexivity].
Defined.

End Profile.
