(* ===== verification/Upload.v ===== *)
(** * Upload: [POST /api/profile/upload] ([view_profile_upload])

    The handler of [src/backend/src/view_profile.py] (lines 121-162)
    writes the uploaded bytes to [uploads/<uuid4>.<ext>] with [ext] the
    last dot-separated part of the client's file name, unlinks the file
    the session's [image] names, then sets the user's [image] column,
    commits, adds an activity and commits again.  The files are a
    [gmap] from path to contents beside the store; their writes are not
    part of the database session, so nothing rolls them back.

    [auth_user(access_token)] ([auth.py], not among the sources) gives the
    caller's id and [image]; both are arguments, as is the random
    [uuid4]. *)

From stdpp Require Import gmap strings.
From Stdlib Require Import ZArith Lia Ascii String.
From S2P Require Import Prelude Decimal Schema Session Fixtures Catalog Auth Profile.

Open Scope Z_scope.
Open Scope store_scope.

Module Upload.
Import Catalog Auth Profile.

(** ** Paths *)

(** The server's files, by path from the working directory. *)
Abbreviation files := (gmap string string).

Fixpoint has_char (c : ascii) (s : string) : bool :=
  match s with
  | String c' rest => Ascii.eqb c c' || has_char c rest
  | EmptyString => false
  end.

(** [pathlib.Path(f"./{image}")]: the path's parts, split at [/], with
    the empty and [.] parts dropped, joined again by [/]: [./a//b/] and
    [/a/b] both name [a/b] in the working directory.  A [..] part is kept
    as pathlib keeps it. *)
Definition path_parts (p : string) : list string :=
  filter (fun c : string => c <> EmptyString /\ c <> "."%string) (split_on "/" p).

Definition norm_path (img : string) : string := String.concat "/" (path_parts ("./" ++ img)).

(** The directories the handler can meet: the working directory, [uploads]
    ([Path("uploads").mkdir(...)] in [main.py]) and the parents above the
    working directory. *)
Definition is_dir (p : string) : bool :=
  bool_decide (p = EmptyString \/ p = "uploads"%string \/ Forall (fun c => c = ".."%string) (split_on "/" p)).

(** [ext = file_image.filename.split(".")[-1]] *)
Definition file_ext (filename : string) : string :=
  match reverse (split_on "." filename) with e :: _ => e | [] => "" end.

(** [f"{file_name}.{ext}"] with [file_name = str(uuid.uuid4())] *)
Definition upload_name (uuid filename : string) : string := uuid ++ "." ++ file_ext filename.

(** [path = f"uploads/{file_name}.{ext}"] *)
Definition upload_path (uuid filename : string) : string := "uploads/" ++ upload_name uuid filename.

(** [open(path, 'w+b')] in [uploads]: an embedded NUL is a [ValueError];
    a [/] in the name points into a directory [uploads/<uuid>.<...>],
    which does not exist since the [uuid4] is fresh, and [.] and [..] are
    directories: [OSError]. *)
Definition open_error (name : string) : option exn :=
  if has_char "000" name then Some ValueError
  else if has_char "/" name || bool_decide (name = "." \/ name = "..")%string then Some OSError
  else None.

(** ** The handler *)

Record upload_payload := mk_upload_payload {
  upload_image : string;
  upload_message : string
}.

Definition with_user_image (u : user) (img : option string) : user :=
  mk_user (user_email u) (user_phone u) (user_password u) (user_first_name u) (user_last_name u)
    (user_gender u) (user_city u) (user_zip_code u) (user_country u) (user_address u)
    (user_status u) img.

Definition upload_activity (u : option Z) : activity :=
  mk_activity u "Upload Current User Image" "Upload Profile Image" "Upload new user profile image".

Definition upload_message_text : string := "Your profile image has been changed".

(** The database part: [session_user] (line 129), the update of lines
    142-144, the activity and its commit. *)
Definition upload_db (uid : Z) (path : string) : M (response upload_payload) :=
  session_user <- query (fun d => users d !! uid);;
  update_users (fun k _ => bool_decide (k = uid)) (fun u => Some (with_user_image u (Some path)));;
  commit;;
  modify (insert_activity (upload_activity (option_map (fun _ => uid) session_user)));;
  commit;;
  ret (Ok200 (mk_upload_payload path upload_message_text)).

(** [view_profile_upload]: the file is written, the session's old image
    unlinked ([missing_ok=True]; a directory raises), then the database
    part runs.  The file writes stay whatever the database does. *)
Definition view_profile_upload (uid : Z) (image : option string) (uuid : string)
    (upload : string * string) (fs : files) (d : db)
    : files * (outcome (response upload_payload) * db) :=
  let '(filename, content) := upload in
  let name := upload_name uuid filename in
  let path := upload_path uuid filename in
  match open_error name with
  | Some e => (fs, (Raise e, d))
  | None =>
      let fs1 := <[path := content]> fs in
      match image with
      | Some img =>
          if is_dir (norm_path img) then (fs1, (Raise OSError, d))
          else (delete (norm_path img) fs1, run (upload_db uid path) d)
      | None => (fs1, run (upload_db uid path) d)
      end
  end.

(** ** What an upload writes *)

(** The last part of [s.split(sep)] holds no [sep], and is [s] itself
    when it is the only part, or follows the last [sep] of [s]. *)
Lemma split_on_last sep s :
  exists ps e, split_on sep s = ps ++ [e] /\ has_char sep e = false /\
    ((ps = [] /\ e = s) \/ (ps <> [] /\ exists pre, s = (pre ++ String sep e)%string)).
Proof.
  induction s as [|c rest IH]; [by exists [], EmptyString; auto|].
  destruct IH as (ps & e & Hs & He & Hcase). simpl. rewrite Hs.
  destruct (Ascii.eqb c sep) eqn:Hc.
  - apply Ascii.eqb_eq in Hc as ->. exists (EmptyString :: ps), e. split_and!; [done|done|].
    right. split; [done|]. destruct Hcase as [[-> ->]|[_ [pre ->]]].
    + by exists EmptyString.
    + by exists (String sep pre).
  - destruct Hcase as [[-> ->]|[Hps [pre ->]]].
    + exists [], (String c rest). split_and!; [done| |by left].
      simpl. rewrite He, Ascii.eqb_sym, Hc. done.
    + destruct ps as [|p ps]; [done|]. exists (String c p :: ps), e.
      split_and!; [done|done|]. right. split; [done|]. by exists (String c pre).
Qed.

(** The extension the handler uses holds no dot and ends the client's
    file name, after its last dot when it has one. *)
Lemma file_ext_spec filename :
  has_char "." (file_ext filename) = false /\
  (file_ext filename = filename \/ exists pre, filename = (pre ++ "." ++ file_ext filename)%string).
Proof.
  destruct (split_on_last "." filename) as (ps & e & Hs & He & Hcase).
  unfold file_ext. rewrite Hs, reverse_snoc. split; [done|].
  destruct Hcase as [[_ ->]|[_ Hpre]]; [by left|by right].
Qed.

(** C30: whatever the arguments, the upload changes at most two files.
    It creates or overwrites [uploads/<uuid>.<ext>], a file directly inside
    [uploads] (a name with no [/] that is neither [.] nor [..]) whose
    [<ext>] holds no dot and is the end of the client's file name after
    its last dot (the whole name when it has none); and it deletes the
    file the session's [image] names. *)
Theorem upload_stays_in_uploads uid image uuid upload fs d k :
  (view_profile_upload uid image uuid upload fs d).1 !! k <> fs !! k ->
  (exists ext, k = ("uploads/" ++ uuid ++ "." ++ ext)%string /\
     has_char "." ext = false /\ (ext = upload.1 \/ exists pre, upload.1 = (pre ++ "." ++ ext)%string) /\
     has_char "/" (uuid ++ "." ++ ext) = false /\
     (uuid ++ "." ++ ext)%string <> "."%string /\ (uuid ++ "." ++ ext)%string <> ".."%string) \/
  (exists img, image = Some img /\ k = norm_path img /\
     (view_profile_upload uid image uuid upload fs d).1 !! k = None).
Proof.
  destruct upload as [filename content]. unfold view_profile_upload. cbn [fst].
  destruct (open_error (upload_name uuid filename)) eqn:Ho; [done|].
  unfold open_error in Ho.
  destruct (has_char "000" _); [discriminate|].
  destruct (has_char "/" _) eqn:Hs; [discriminate|].
  case_bool_decide as Hd; [discriminate|]. cbn [orb] in *.
  assert (Hplain : forall k', <[upload_path uuid filename := content]> fs !! k' <> fs !! k' ->
            exists ext, k' = ("uploads/" ++ uuid ++ "." ++ ext)%string /\
              has_char "." ext = false /\ (ext = filename \/ exists pre, filename = (pre ++ "." ++ ext)%string) /\
              has_char "/" (uuid ++ "." ++ ext) = false /\
              (uuid ++ "." ++ ext)%string <> "."%string /\ (uuid ++ "." ++ ext)%string <> ".."%string).
  { intros k' Hk'. destruct (decide (k' = upload_path uuid filename)) as [->|Hne].
    - exists (file_ext filename). destruct (file_ext_spec filename). unfold upload_name in *. tauto.
    - by rewrite lookup_insert_ne in Hk' by congruence. }
  destruct image as [img|].
  - destruct (is_dir (norm_path img)); cbn [fst].
    + intros Hk. left. by apply Hplain.
    + intros Hk. destruct (decide (k = norm_path img)) as [->|Hne].
      * right. exists img. split; [done|]. split; [done|]. apply lookup_delete_eq.
      * rewrite lookup_delete_ne in Hk by congruence. left. by apply Hplain.
  - cbn [fst]. intros Hk. left. by apply Hplain.
Qed.

(** ** The database part *)

Lemma users_clash_with_image u img v : users_clash (with_user_image u img) v = users_clash u v.
Proof. reflexivity. Qed.


Lemma keeps_ok_upload_db uid path : keeps_ok (upload_db uid path).
Proof. unfold upload_db. keeps_ok_tac. Qed.


(** Alice, whose session names [./uploads/old.png], uploads [me.png]:
    the old file is deleted. *)
Lemma upload_stays_in_uploads_witness :
  let fs : files := {[ "uploads/old.png" := "old" ]} in
  let r := view_profile_upload 1 (Some "./uploads/old.png") "1b4e28ba" ("me.png", "new") fs demo_db in
  r.1 !! "uploads/old.png" <> fs !! "uploads/old.png" /\
  ((exists ext, "uploads/old.png"%string = ("uploads/" ++ "1b4e28ba" ++ "." ++ ext)%string /\
      has_char "." ext = false /\ (ext = "me.png"%string \/ exists pre, "me.png"%string = (pre ++ "." ++ ext)%string) /\
      has_char "/" ("1b4e28ba" ++ "." ++ ext) = false /\
      ("1b4e28ba" ++ "." ++ ext)%string <> "."%string /\ ("1b4e28ba" ++ "." ++ ext)%string <> ".."%string) \/
   (exists img, Some "./uploads/old.png"%string = Some img /\ "uploads/old.png"%string = norm_path img /\
      r.1 !! "uploads/old.png" = None)).
Proof.
  intros fs r. assert (H : r.1 !! "uploads/old.png" <> fs !! "uploads/old.png") by (vm_compute; discriminate).
  split; [exact H|]. exact (upload_stays_in_uploads 1 (Some "./uploads/old.png") "1b4e28ba" ("me.png", "new") fs demo_db _ H).
Defined.


End Upload.
