(* ===== verification/Validation.v ===== *)
(** * Validation: the request bodies of [src/backend/src/schema.py]

    FastAPI parses a JSON body into its pydantic model before the handler
    runs; a field that fails its constraint ([Field(..., min_length=n)],
    [EmailStr]) makes the endpoint answer 422 with the list of failing
    fields, and the handler does not run.  [endpoint] is that step:
    [checks] lists each constrained field with the result of its check,
    in the model's field order.  [EmailStr] is checked by the
    [email-validator] package, which is not part of the sources: it is a
    parameter [email_ok].

    The theorems put the checks next to the handlers: a checkout body
    that passes [CheckoutSchema], whose address, country, city, zip code
    and notes are optional, still fails at commit on the NOT NULL billing
    column (C11), and a password change accepts any password of eight
    characters, including those the sign-up policy refuses (C32). *)

From stdpp Require Import gmap strings.
From Stdlib Require Import ZArith Lia Ascii String.
From S2P Require Import Prelude Decimal Schema Session Fixtures Cart Checkout Catalog Reviews Auth Profile.

Open Scope Z_scope.
Open Scope store_scope.

Module Validation.
Import Cart Checkout Catalog Reviews Auth Profile.

(** ** Field constraints *)

(** [Field(..., min_length=n)] on a string. *)
Definition min_length (n : nat) (s : string) : bool := (n <=? String.length s)%nat.

(** The answer of an endpoint: the handler's response, or 422 with the
    failing fields. *)
Inductive reply (A : Type) := Handled (r : response A) | Unprocessable (fields : list string).
Arguments Handled {A} r.
Arguments Unprocessable {A} fields.

(** The names of the fields whose check fails. *)
Definition field_errors (checks : list (string * bool)) : list string :=
  (fun c : string * bool => c.1) <$> filter (fun c : string * bool => c.2 = false) checks.

(** Parse the body, then run the handler. *)
Definition endpoint {A} (checks : list (string * bool)) (h : M (response A)) : M (reply A) :=
  match field_errors checks with
  | [] => r <- h;; ret (Handled r)
  | es => ret (Unprocessable es)
  end.

Section Schemas.
Variable email_ok : string -> bool.

(** [UserLoginSchema] *)
Definition login_checks (f : login_form) : list (string * bool) :=
  [("email", email_ok (login_email f))].

(** [UserForgotSchema] *)
Definition forgot_checks (f : forgot_form) : list (string * bool) :=
  [("email", email_ok (forgot_email f))].

(** [UserResetSchema] *)
Definition reset_checks (f : reset_form) : list (string * bool) :=
  [("email", email_ok (reset_email f)); ("password", min_length 8 (reset_password f));
   ("password_confirm", min_length 8 (reset_password_confirm f))].

(** [UserRegisterSchema] *)
Definition register_checks (f : register_form) : list (string * bool) :=
  [("name", min_length 8 (reg_name f)); ("email", email_ok (reg_email f));
   ("password", min_length 8 (reg_password f));
   ("password_confirm", min_length 8 (reg_password_confirm f))].

(** [UserProfileSchema] *)
Definition profile_checks (f : profile_form) : list (string * bool) :=
  [("email", email_ok (pf_email f)); ("phone", min_length 7 (pf_phone f));
   ("first_name", min_length 3 (pf_first_name f)); ("last_name", min_length 3 (pf_last_name f));
   ("gender", min_length 1 (pf_gender f))].

(** [UserPasswordSchema] *)
Definition password_checks (f : password_form) : list (string * bool) :=
  [("current_password", min_length 8 (current_password f));
   ("password", min_length 8 (new_password f));
   ("password_confirm", min_length 8 (new_password_confirm f))].

(** [NewsLetterSchema] *)
Definition newsletter_checks (email : string) : list (string * bool) :=
  [("email", email_ok email)].

(** [CreateReviewSchema] *)
Definition review_checks (f : review_form) : list (string * bool) :=
  [("review", min_length 2 (form_review f))].

(** [CreateCartSchema]: three integers, no constraint. *)
Definition cart_checks (f : cart_form) : list (string * bool) := [].

(** [CheckoutSchema]: the address, country, city, zip code and notes are
    [str | None = None]. *)
Definition checkout_checks (f : checkout_form) : list (string * bool) :=
  [("email", email_ok (form_email f)); ("phone", min_length 7 (form_phone f));
   ("first_name", min_length 3 (form_first_name f)); ("last_name", min_length 3 (form_last_name f));
   ("gender", min_length 1 (form_gender f))].

(** ** The endpoints with a body *)

Definition api_checkout (uid : Z) (f : checkout_form) : M (reply order) :=
  endpoint (checkout_checks f) (view_order_checkout_submit uid f).

Definition api_cart (uid ticks pid : Z) (f : cart_form) :=
  endpoint (cart_checks f) (view_order_create_cart uid ticks pid f).

Definition api_review (uid pid : Z) (f : review_form) :=
  endpoint (review_checks f) (view_order_create_review uid pid f).

Definition api_newsletter (client : option string) (email : string) :=
  endpoint (newsletter_checks email) (view_newsletter client email).

Definition api_profile (uid : Z) (f : profile_form) :=
  endpoint (profile_checks f) (view_profile_update uid f).

Section Hashed.
Context `{!PasswordHasher}.

Definition api_login (f : login_form) := endpoint (login_checks f) (view_auth_login f).

Definition api_register (salt token : string) (f : register_form) :=
  endpoint (register_checks f) (view_auth_register salt token f).

Definition api_forgot (token : string) (f : forgot_form) :=
  endpoint (forgot_checks f) (view_auth_email_forgot token f).

Definition api_reset (salt token : string) (f : reset_form) :=
  endpoint (reset_checks f) (view_auth_email_reset salt token f).

Definition api_password (salt : string) (uid : Z) (f : password_form) :=
  endpoint (password_checks f) (view_profile_password salt uid f).

End Hashed.
End Schemas.

(** ** Running an endpoint *)

Lemma run_endpoint_ok {A} checks (h : M (response A)) d :
  field_errors checks = [] ->
  run (endpoint checks h) d =
    match run h d with (Return r, d') => (Return (Handled r), d') | (Raise e, d') => (Raise e, d') end.
Proof.
  intros He. unfold run, endpoint. rewrite He. unfold bind.
  by destruct (h (mk_session d d)) as [[r|e] s].
Qed.

(** A body that fails a check is answered 422 and nothing is written. *)
Lemma run_endpoint_rejected {A} checks (h : M (response A)) d :
  field_errors checks <> [] -> run (endpoint checks h) d = (Return (Unprocessable (field_errors checks)), d).
Proof. intros He. unfold run, endpoint. by destruct (field_errors checks). Qed.

Section Claims.
Variable email_ok : string -> bool.

(** C11: [CheckoutSchema] declares the address, country, city, zip code
    and notes optional, but each is written into the NOT NULL
    [description] of a billing row: a body that passes validation with
    any of them left out reaches the handler, which fails at commit and
    writes nothing. *)
Theorem checkout_valid_body_null_billing_fails uid form d :
  field_errors (checkout_checks email_ok form) = [] ->
  form_address form = None \/ form_country form = None \/ form_city form = None \/
  form_zip_code form = None \/ form_notes form = None ->
  exists e, run (api_checkout email_ok uid form) d = (Raise e, d).
Proof.
  intros Hv Hn. destruct (checkout_null_billing_rolls_back uid form d Hn) as [e He].
  exists e. unfold api_checkout. by rewrite run_endpoint_ok, He by exact Hv.
Qed.

Context `{!PasswordHasher}.

(** C32: the password change checks only the length of the new
    password, not the policy sign-up and reset apply (an uppercase
    letter, a digit, a special character): with the right current
    password, any new password of eight characters is stored and the
    request answers 200. *)
Theorem password_change_skips_policy salt uid form d u :
  db_ok d = true -> users d !! uid = Some u ->
  pwd_verify (current_password form) (user_password u) = true ->
  new_password form = new_password_confirm form ->
  (8 <= String.length (current_password form))%nat -> (8 <= String.length (new_password form))%nat ->
  exists d',
    run (api_password salt uid form) d = (Return (Handled (Ok200 password_changed_msg)), d') /\
    users d' !! uid = Some (with_user_password u (pwd_hash salt (new_password form))).
Proof.
  intros Hok%db_ok_wf Hu Hver Hpw Hc Hn.
  destruct (password_change_commits salt uid form d u Hok Hu Hpw Hver) as (d' & Hrun & Hus & _).
  exists d'. unfold api_password. rewrite run_endpoint_ok, Hrun.
  - split; [reflexivity|]. by rewrite Hus, lookup_insert_eq.
  - unfold field_errors, password_checks, min_length. rewrite <-Hpw.
    rewrite (proj2 (Nat.leb_le _ _) Hc), (proj2 (Nat.leb_le _ _) Hn). reflexivity.
Qed.

End Claims.

(** ** Witnesses *)

(** An e-mail check for the examples: an [@] not at either end. *)
Definition demo_email_ok (s : string) : bool :=
  match index 0 "@" s with
  | Some (S _) => negb (String.eqb (substring (String.length s - 1) 1 s) "@")
  | _ => false
  end.

Definition demo_checkout_form : checkout_form :=
  mk_checkout_form 1 "alice@example.com" "0811111111" "Alice" "Doe" "F" None None None None None.

Lemma checkout_valid_body_null_billing_fails_witness :
  field_errors (checkout_checks demo_email_ok demo_checkout_form) = [] /\
  exists e, run (api_checkout demo_email_ok 1 demo_checkout_form) demo_db = (Raise e, demo_db).
Proof.
  assert (Hv : field_errors (checkout_checks demo_email_ok demo_checkout_form) = []) by (vm_compute; reflexivity).
  split; [exact Hv|]. apply (checkout_valid_body_null_billing_fails demo_email_ok 1 demo_checkout_form demo_db Hv).
  left. reflexivity.
Defined.

#[local] Existing Instance demo_hasher.

(** Alice changes [Qwerty123!] to [aaaaaaaa], which the sign-up policy
    refuses. *)
Definition weak_password_form : password_form := mk_password_form "Qwerty123!" "aaaaaaaa" "aaaaaaaa".

Lemma password_change_skips_policy_witness :
  policy_test from_names_policy "aaaaaaaa" <> [] /\
  exists d',
    run (api_password "s" 1 weak_password_form) hashed_db =
      (Return (Handled (Ok200 password_changed_msg)), d') /\
    users d' !! 1 = Some (with_user_password alice_hashed (pwd_hash "s" "aaaaaaaa")).
Proof.
  split; [vm_compute; discriminate|].
  apply (password_change_skips_policy "s" 1 weak_password_form hashed_db alice_hashed);
    [vm_compute; reflexivity|reflexivity|vm_compute; reflexivity|reflexivity|simpl; lia|simpl; lia].
Defined.

End Validation.
