(* ===== verification/Seed.v ===== *)
(** * Seed: the development fixtures of [src/backend/src/seed.py]

    [main.py] runs [Seed().run()] at start-up.  When [APP_ENV] is
    ["development"] it calls eight methods in order; each opens its own
    session ([next(get_db())]), checks that its table is empty, adds the
    rows and commits once.  An exception (a commit the database refuses)
    propagates out of [run] and stops the start-up.

    Everything the seeder draws at random -- Faker's names, e-mails,
    phones, addresses, paragraphs and tokens, bcrypt's salts,
    [random.randint] and [random.choice], and the row orders of
    [order_by(func.rand())] -- is an argument: [user_draw] for one user,
    [product_draw] for one product.  The texts the model does not store
    (descriptions, image URLs of categories) are left out.

    The loops are proved with the triples of [Session]: [seeded_users]
    describes the store after [i] users, [seed_frame] and [seed_row_inv]
    what one product iteration keeps, [seed_keeps] what the fixed-row
    seeders leave alone.  The theorems show that [Seed.run] commits
    everything and lets every seeded user sign in (C12), that a Faker
    collision aborts the start-up (C13), and that a second start-up is a
    no-op (C22). *)

From stdpp Require Import gmap strings pretty sorting.
From Stdlib Require Import ZArith Lia String.
From S2P Require Import Prelude Decimal Schema Session Catalog Auth.

Open Scope Z_scope.
Open Scope store_scope.

Module Seed.
Import Catalog Auth.

(** ** Random draws *)

(** The values one iteration of [seed_user] draws. *)
Record user_draw := mk_user_draw {
  draw_gender : Z;             (** [random.randint(1,2)] *)
  draw_first_name : string;    (** [fake.first_name_male()] or [first_name_female()] *)
  draw_last_name : string;
  draw_email : string;         (** [fake.ascii_safe_email()] *)
  draw_phone : string;         (** [fake.phone_number()] *)
  draw_country : string;
  draw_city : string;
  draw_zip_code : string;
  draw_address : string;
  draw_salt : string;          (** the salt bcrypt draws in [hash_pass] *)
  draw_token : string          (** [fake.uuid4()] *)
}.

(** The values one iteration of [seed_product] draws. *)
Record product_draw := mk_product_draw {
  pd_brands : list (Z * brand) -> list (Z * brand);           (** [order_by(func.rand())] *)
  pd_categories : list (Z * category) -> list (Z * category);
  pd_reviewers : list (Z * user) -> list (Z * user);
  pd_image : string;           (** [random.choice(images)] *)
  pd_price : Z;                (** [random.randint(100, 999)] *)
  pd_total_order : Z;          (** [random.randint(100, 1000)] *)
  pd_total_rating : Z;         (** [random.randint(100, 1000)] *)
  pd_details : string;         (** [fake.paragraph()] *)
  pd_description : string;
  pd_gallery : nat -> string;  (** [random.choice(images)] of image [i] *)
  pd_rating : nat -> Z;        (** [random.randint(0, 100)] of the [j]-th reviewer *)
  pd_review : nat -> string;   (** [fake.paragraph()] of the [j]-th reviewer *)
  pd_stock : nat -> nat -> Z   (** [random.randint(1, 100)] per colour and size *)
}.

(** ** The seeding methods *)

(** [enumerate(xs)] *)
Definition enumerate {A} (xs : list A) : list (nat * A) := zip (seq 0 (List.length xs)) xs.

(** [db.add(row)] of a row whose key is not used. *)
Definition add_new (f : db -> Z * db) : M unit := _ <- add_row f;; ret tt.

(** [if total == 0: ... db.commit()] *)
Definition when_empty (total : db -> nat) (body : M unit) : M unit :=
  n <- query total;;
  if (n =? 0)%nat then body;; commit else ret tt.

Definition seed_password : string := "Qwerty123!".

Section Seeder.
Context `{!PasswordHasher}.

(** [hash_pass]: [CryptContext(schemes=["bcrypt"]).hash(password)] with
    bcrypt's random salt. *)
Definition hash_pass (salt password : string) : string := pwd_hash salt password.

(** The [User(...)] of one iteration of [seed_user]; [status] takes the
    column default 1. *)
Definition seed_user_of (u : user_draw) : user :=
  let gender_char := if draw_gender u =? 1 then "M"%string else "F"%string in
  mk_user (draw_email u) (Some (draw_phone u)) (hash_pass (draw_salt u) seed_password)
    (Some (draw_first_name u)) (Some (draw_last_name u)) (Some gender_char) (Some (draw_city u))
    (Some (draw_zip_code u)) (Some (draw_country u)) (Some (draw_address u)) 1 None.

(** Its [Authentication(...)]: an [email-confirm] row whose [status]
    takes the column default 1. *)
Definition seed_auth_of (uid : Z) (u : user_draw) : authentication :=
  mk_auth (Some uid) "email-confirm" (draw_email u) (draw_token u) 1.

Definition seed_user_row (u : user_draw) : M unit :=
  uid <- add_row (insert_user (seed_user_of u));;
  add_new (insert_auth (seed_auth_of uid u)).

(** [seed_user]: ten users when [users] is empty. *)
Definition seed_user (draw : nat -> user_draw) : M unit :=
  when_empty (fun d => size (users d))
    (for_each (seq 0 10) (fun i => seed_user_row (draw i))).

End Seeder.

(** [seed_setting]: the settings, in the dictionary's order; the values
    [1], [5], [10], [50] are stored as text.  The guard counts the rows
    of [categories], not of [settings]. *)
Definition seed_settings (discount_start discount_end : string) : list (string * string) :=
  [("about_section", "Lorem ipsum dolor sit amet, consectetur adipisicing elit, sed do eiusmod tempor incididunt ut.");
   ("com_location", "West Java, Indonesia");
   ("com_phone", "+62-898-921-8470");
   ("com_email", "sandy.andryanto.blade@gmail.com");
   ("com_currency", "USD");
   ("installed", "1");
   ("discount_active", "1");
   ("discount_value", "5");
   ("discount_start", discount_start);
   ("discount_end", discount_end);
   ("taxes_value", "10");
   ("total_shipment", "50")]%string.

Definition seed_setting (discount_start discount_end : string) : M unit :=
  when_empty (fun d => size (categories d))
    (for_each (seed_settings discount_start discount_end)
       (fun kv => add_new (insert_setting (mk_setting kv.1 kv.2)))).

(** [seed_category]: the first three categories are displayed. *)
Definition seed_category_names : list string :=
  ["Laptop"; "Smartphone"; "Camera"; "Accessories"; "Others"]%string.

Definition seed_category : M unit :=
  when_empty (fun d => size (categories d))
    (for_each (enumerate seed_category_names)
       (fun '(index, name) =>
          add_new (insert_category (mk_category name (if (index <? 3)%nat then 1 else 0) 1)))).

Definition seed_brand_names : list string := ["Samsung"; "LG"; "Sony"; "Apple"; "Microsoft"]%string.

Definition seed_brand : M unit :=
  when_empty (fun d => size (brands d))
    (for_each seed_brand_names (fun item => add_new (insert_brand (mk_brand item 1)))).

Definition seed_colour_items : list (string * string) :=
  [("#FF0000", "Red"); ("#0000FF", "Blue"); ("#FFFF00", "Yellow"); ("#000000", "Black");
   ("#FFFFFF", "White"); ("#666", "Dark Gray"); ("#AAA", "Light Gray")]%string.

Definition seed_colour : M unit :=
  when_empty (fun d => size (colours d))
    (for_each seed_colour_items (fun kv => add_new (insert_colour (mk_colour kv.1 kv.2 1)))).

Definition seed_size_names : list string :=
  ["11 to 12 Inches"; "13 to 14 Inches"; "15 to 16 Inches"; "17 to 18 Inches"]%string.

Definition seed_size : M unit :=
  when_empty (fun d => size (sizes d))
    (for_each seed_size_names (fun item => add_new (insert_size (mk_size item 1)))).

Definition seed_payment_names : list string :=
  ["Direct Bank Transfer"; "Cheque Payment"; "Paypal System"]%string.

Definition seed_payment : M unit :=
  when_empty (fun d => size (payments d))
    (for_each seed_payment_names (fun item => add_new (insert_payment (mk_payment item 1)))).

(** One iteration of [seed_product] ([number = index + 1]): the product
    of a random brand with up to three random categories, three images,
    a review by each of up to five random users, and an inventory per
    colour and size. *)
Definition seed_product_row (now : Z) (colours_ : list (Z * colour)) (sizes_ : list (Z * product_size))
    (index : nat) (p : product_draw) : M unit :=
  let number := pretty (N.of_nat (S index)) in
  brand <- query (fun d => head (pd_brands p (by_key (brands d))));;
  cats <- query (fun d => List.firstn 3 (pd_categories p (by_key (categories d))));;
  reviewers <- query (fun d => List.firstn 5 (pd_reviewers p (by_key (users d))));;
  pid <- add_row (insert_product
           (mk_product (fst <$> brand) (Some (pd_image p)) ("P00" ++ number) ("Product " ++ number)
              (pd_price p * 10000) (pd_total_order p) (pd_total_rating p) (Some now)
              (pd_details p) (pd_description p) 1));;
  modify (set_products_categories (fun pc => pc ∪ list_to_set ((fun kc : Z * category => (pid, kc.1)) <$> cats)));;
  for_each (seq 1 3) (fun i =>
    add_new (insert_image (mk_image (Some pid) (pd_gallery p i) (Z.of_nat i) 1)));;
  for_each (enumerate reviewers) (fun '(j, ku) =>
    add_new (insert_review (mk_review pid ku.1 (pd_rating p j) (pd_review p j))));;
  for_each (enumerate colours_) (fun '(ci, kc) =>
    for_each (enumerate sizes_) (fun '(si, ks) =>
      add_new (insert_inventory (mk_inventory pid ks.1 kc.1 (pd_stock p ci si) 1)))).

(** [seed_product]: nine products when [products] is empty. *)
Definition seed_product (now : Z) (draw : nat -> product_draw) : M unit :=
  when_empty (fun d => size (products d))
    (colours_ <- query (fun d => by_key (colours d));;
     sizes_ <- query (fun d => by_key (sizes d));;
     for_each (seq 0 9) (fun index => seed_product_row now colours_ sizes_ index (draw index))).

(** All the draws of one start-up. *)
Record seed_draws := mk_seed_draws {
  sd_users : nat -> user_draw;
  sd_discount_start : string;   (** [current.strftime(...)] *)
  sd_discount_end : string;     (** [(current + timedelta(days=7)).strftime(...)] *)
  sd_now : Z;                   (** [datetime.datetime.utcnow()] *)
  sd_products : nat -> product_draw
}.

(** The methods of [Seed.run] one after the other, each in its own
    session; the first exception stops the sequence. *)
Fixpoint run_all (hs : list (M unit)) (d : db) : outcome unit * db :=
  match hs with
  | [] => (Return tt, d)
  | h :: hs' =>
      match run h d with
      | (Return _, d') => run_all hs' d'
      | (Raise e, d') => (Raise e, d')
      end
  end.

Definition seed_methods `{!PasswordHasher} (dr : seed_draws) : list (M unit) :=
  [seed_user (sd_users dr); seed_setting (sd_discount_start dr) (sd_discount_end dr);
   seed_category; seed_brand; seed_size; seed_colour; seed_payment;
   seed_product (sd_now dr) (sd_products dr)].

(** [Seed.run]: [APP_ENV = os.getenv("APP_ENV")] is [None] when unset. *)
Definition seed_run `{!PasswordHasher} (app_env : option string) (dr : seed_draws) (d : db)
    : outcome unit * db :=
  if decide (app_env = Some "development"%string) then run_all (seed_methods dr) d
  else (Return tt, d).

(** [Base.metadata.create_all(bind=engine)] on a new database: every
    table empty, every [AUTO_INCREMENT] counter at 1. *)
Definition empty_db : db :=
  mk_db ∅ ∅ ∅ ∅ ∅ ∅ ∅ ∅ ∅ ∅ ∅ 1 1 1 1 ∅ 1 ∅ 1 1 ∅ ∅ ∅ ∅ 1 ∅ ∅ ∅ 1 1 1 1 1 1 1 1 1.

(** The start-up of [main.py]: the tables are created, then [Seed().run()]. *)
Definition startup `{!PasswordHasher} (app_env : option string) (dr : seed_draws) : outcome unit * db :=
  seed_run app_env dr empty_db.

(** ** What the draws satisfy *)

(** The ranges of [random.randint] in [seed_product], and the three
    [order_by(func.rand())] queries as reorderings of their rows. *)
Definition product_draw_ok (p : product_draw) : Prop :=
  (forall l, pd_brands p l ≡ₚ l) /\ (forall l, pd_categories p l ≡ₚ l) /\
  (forall l, pd_reviewers p l ≡ₚ l) /\
  100 <= pd_price p <= 999 /\ 100 <= pd_total_order p <= 1000 /\ 100 <= pd_total_rating p <= 1000 /\
  (forall j, 0 <= pd_rating p j <= 100) /\ (forall ci si, 1 <= pd_stock p ci si <= 100).

(** Faker's ten e-mails and ten phone numbers differ under the column
    collation. *)
Definition user_draws_distinct (draw : nat -> user_draw) : Prop :=
  forall i j, (i < j < 10)%nat ->
    collate_eq (draw_email (draw i)) (draw_email (draw j)) = false /\
    collate_eq (draw_phone (draw i)) (draw_phone (draw j)) = false.

(** ** Invariants of the seeding loops *)

(** The tables [seed_product] reads or leaves alone are those of [d0],
    and the store is acceptable. *)
Definition seed_frame (d0 d : db) : Prop :=
  db_wf d /\ users d = users d0 /\ authentications d = authentications d0 /\ brands d = brands d0 /\
  categories d = categories d0 /\ colours d = colours d0 /\ sizes d = sizes d0 /\ payments d = payments d0.

(** Within one product: product [pid] is stored and the drawn categories
    and reviewers are rows of their tables. *)
Definition seed_row_inv (d0 : db) (pid : Z) (cats : list (Z * category)) (reviewers : list (Z * user))
    (d : db) : Prop :=
  seed_frame d0 d /\ is_Some (products d !! pid) /\
  (forall kc, kc ∈ cats -> categories d !! kc.1 = Some kc.2) /\
  (forall ku, ku ∈ reviewers -> users d !! ku.1 = Some ku.2).

(** What the other seeders leave alone: users, sign-up rows and products
    unchanged, and a fixture table that has rows keeps some. *)
Definition seed_keeps (d0 d : db) : Prop :=
  users d = users d0 /\ authentications d = authentications d0 /\ products d = products d0 /\
  (categories d0 ≠ ∅ -> categories d ≠ ∅) /\ (brands d0 ≠ ∅ -> brands d ≠ ∅) /\
  (sizes d0 ≠ ∅ -> sizes d ≠ ∅) /\ (colours d0 ≠ ∅ -> colours d ≠ ∅) /\
  (payments d0 ≠ ∅ -> payments d ≠ ∅).

(** Every table a seeder guards has rows: a new start-up adds nothing. *)
Definition seeded_tables (d : db) : Prop :=
  users d ≠ ∅ /\ categories d ≠ ∅ /\ brands d ≠ ∅ /\ sizes d ≠ ∅ /\ colours d ≠ ∅ /\
  payments d ≠ ∅ /\ products d ≠ ∅.

Section SeededUsers.
Context `{!PasswordHasher}.

(** After [i] iterations of [seed_user]: the users are the first [i]
    drawn ones under keys [n0], [n0+1], ..., each with its
    [email-confirm] row under [a0], [a0+1], .... *)
Definition seeded_users (draw : nat -> user_draw) (n0 a0 : Z) (i : nat) (d : db) : Prop :=
  next_user_id d = n0 + Z.of_nat i /\ next_auth_id d = a0 + Z.of_nat i /\
  (forall k v, users d !! k = Some v <->
     exists j, (j < i)%nat /\ k = n0 + Z.of_nat j /\ v = seed_user_of (draw j)) /\
  (forall j, (j < i)%nat ->
     authentications d !! (a0 + Z.of_nat j) = Some (seed_auth_of (n0 + Z.of_nat j) (draw j))).

End SeededUsers.

(** ** Draws for the examples *)

Definition demo_user_draw (i : nat) : user_draw :=
  let n := pretty (N.of_nat i) in
  mk_user_draw 1 "Budi" "Santoso" ("user" ++ n ++ "@example.com") ("+62-811-000-" ++ n)
    "Indonesia" "Bandung" "40111" "Jl. Merdeka" "salt" ("token-" ++ n).

Definition demo_product_draw (i : nat) : product_draw :=
  mk_product_draw id id id "product01.png" 500 200 300 "details" "description"
    (fun _ => "product02.png") (fun _ => 50) (fun _ => "review") (fun _ _ => 10).

Definition demo_draws : seed_draws :=
  mk_seed_draws demo_user_draw "2025-01-01" "2025-01-08" 0 demo_product_draw.

(** Faker draws the same e-mail twice. *)
Definition demo_clash_draws : seed_draws :=
  mk_seed_draws (fun i => demo_user_draw 0) "2025-01-01" "2025-01-08" 0 demo_product_draw.

(** ** The guard and the commit *)

Lemma run_when_empty total body d :
  total d = 0%nat -> run (when_empty total body) d = run (body;; commit) d.
Proof. intros H. unfold run, when_empty. rewrite bind_query. cbn [pending]. by rewrite H. Qed.

Lemma run_when_nonempty total body d :
  total d <> 0%nat -> run (when_empty total body) d = (Return tt, d).
Proof.
  intros H. unfold run, when_empty. rewrite bind_query. cbn [pending].
  by destruct (Nat.eqb_neq (total d) 0) as [_ ->].
Qed.

(** A seeder whose loop ends in an acceptable store related to the one
    it started from commits, or skips when its table is not empty. *)
Lemma run_when_empty_ok (R : db -> db -> Prop) total body d :
  db_wf d -> R d d ->
  triple (fun e => e = d) body (fun _ e => db_wf e /\ R d e) ->
  exists d', run (when_empty total body) d = (Return tt, d') /\ db_wf d' /\ R d d'.
Proof.
  intros Hw HR Hb. destruct (decide (total d = 0%nat)) as [Hz|Hz].
  - rewrite run_when_empty by exact Hz.
    destruct (run_triple_commit _ _ _ d Hb eq_refl) as (d' & Hrun & HQ);
      [intros e [He _]; by apply db_ok_wf|eauto].
  - rewrite run_when_nonempty by exact Hz. eauto.
Qed.

Lemma triple_add_new (P Q : db -> Prop) f :
  (forall d, P d -> Q (f d).2) -> triple P (add_new f) (fun _ => Q).
Proof.
  intros Hf. unfold add_new. eapply triple_bind.
  - eapply triple_conseq; [apply (triple_add_row (fun _ => Q))|exact Hf|done].
  - intros. apply (triple_ret (fun _ => Q) tt).
Qed.

Lemma elem_of_enumerate {A} (x : nat * A) xs : x ∈ enumerate xs -> x.2 ∈ xs.
Proof. destruct x as [i y]. apply elem_of_zip_r. Qed.

Lemma Forall_enumerate {A} (xs : list A) : Forall (fun x => x.2 ∈ xs) (enumerate xs).
Proof. apply Forall_forall. intros x Hx. by apply elem_of_enumerate. Qed.

(** ** The seeders of fixed rows *)

Lemma seed_keeps_refl d : seed_keeps d d.
Proof. by repeat split. Qed.

Lemma seed_keeps_trans d1 d2 d3 : seed_keeps d1 d2 -> seed_keeps d2 d3 -> seed_keeps d1 d3.
Proof. intros (? & ? & ? & ? & ? & ? & ? & ?) (? & ? & ? & ? & ? & ? & ? & ?). repeat split; auto; congruence. Qed.

Lemma seed_fixed_ok {A} total (xs : list A) (g : A -> M unit) d :
  db_wf d ->
  (forall x, triple (fun e => db_wf e /\ seed_keeps d e) (g x) (fun _ e => db_wf e /\ seed_keeps d e)) ->
  exists d', run (when_empty total (for_each xs g)) d = (Return tt, d') /\ db_wf d' /\ seed_keeps d d'.
Proof.
  intros Hw Hg. apply run_when_empty_ok; [exact Hw|apply seed_keeps_refl|].
  eapply triple_conseq; [apply (triple_for_each_in _ (fun _ => True)); [by apply Forall_true|intros x _; apply Hg]| |done].
  intros e ->. split; [exact Hw|apply seed_keeps_refl].
Qed.

(** A seeder that fills table [t]: afterwards [t] has rows, whether the
    loop ran or the guard skipped it. *)
Lemma seed_fills_ok {A V} (t : db -> gmap Z V) (xs : list A) (g : A -> M unit) d :
  db_wf d -> xs <> [] ->
  (forall x, triple (fun e => db_wf e /\ seed_keeps d e) (g x)
               (fun _ e => db_wf e /\ seed_keeps d e /\ t e ≠ ∅)) ->
  exists d', run (when_empty (fun e => size (t e)) (for_each xs g)) d = (Return tt, d') /\
    db_wf d' /\ seed_keeps d d' /\ t d' ≠ ∅.
Proof.
  intros Hw Hxs Hg. destruct (decide (size (t d) = 0%nat)) as [Hz|Hz].
  - rewrite run_when_empty by exact Hz.
    assert (Hloop : triple (fun e => e = d) (for_each xs g) (fun _ e => db_wf e /\ seed_keeps d e /\ t e ≠ ∅)).
    { eapply triple_conseq.
      - apply (triple_for_each (fun ys e => db_wf e /\ seed_keeps d e /\ (ys = [] -> t e ≠ ∅))).
        intros x ys. eapply triple_conseq; [apply Hg|intros e (? & ? & _); by split|].
        intros _ e (? & ? & ?). auto.
      - intros e ->. split; [exact Hw|split; [apply seed_keeps_refl|done]].
      - intros _ e (? & ? & Ht). auto. }
    destruct (run_triple_commit _ _ _ d Hloop eq_refl) as (d' & Hrun & HQ);
      [intros e [He _]; by apply db_ok_wf|eauto].
  - rewrite run_when_nonempty by exact Hz. exists d. split; [done|].
    split; [exact Hw|split; [apply seed_keeps_refl|by apply map_size_non_empty_iff]].
Qed.

Ltac seed_step ins :=
  let x := fresh "x" in intros x;
  lazymatch type of x with (_ * _)%type => destruct x | _ => idtac end;
  apply triple_add_new; intros ? [? Hk];
  (split; [apply ins; [assumption|..]; simpl; repeat case_match; reflexivity|]);
  destruct Hk as (? & ? & ? & ? & ? & ? & ? & ?);
  repeat split; simpl; first [assumption | intros; apply insert_non_empty].

Lemma seed_setting_ok s e d :
  db_wf d -> exists d', run (seed_setting s e) d = (Return tt, d') /\ db_wf d' /\ seed_keeps d d'.
Proof. intros. apply seed_fixed_ok; [assumption|]. seed_step db_wf_insert_setting. Qed.

Lemma seed_category_ok d :
  db_wf d -> exists d', run seed_category d = (Return tt, d') /\ db_wf d' /\ seed_keeps d d' /\ categories d' ≠ ∅.
Proof. intros. apply seed_fills_ok; [assumption|done|]. seed_step db_wf_insert_category. Qed.

Lemma seed_brand_ok d :
  db_wf d -> exists d', run seed_brand d = (Return tt, d') /\ db_wf d' /\ seed_keeps d d' /\ brands d' ≠ ∅.
Proof. intros. apply seed_fills_ok; [assumption|done|]. seed_step db_wf_insert_brand. Qed.

Lemma seed_size_ok d :
  db_wf d -> exists d', run seed_size d = (Return tt, d') /\ db_wf d' /\ seed_keeps d d' /\ sizes d' ≠ ∅.
Proof. intros. apply seed_fills_ok; [assumption|done|]. seed_step db_wf_insert_size. Qed.

Lemma seed_colour_ok d :
  db_wf d -> exists d', run seed_colour d = (Return tt, d') /\ db_wf d' /\ seed_keeps d d' /\ colours d' ≠ ∅.
Proof. intros. apply seed_fills_ok; [assumption|done|]. seed_step db_wf_insert_colour. Qed.

Lemma seed_payment_ok d :
  db_wf d -> exists d', run seed_payment d = (Return tt, d') /\ db_wf d' /\ seed_keeps d d' /\ payments d' ≠ ∅.
Proof. intros. apply seed_fills_ok; [assumption|done|]. seed_step db_wf_insert_payment. Qed.

(** ** [seed_user] *)

Section SeedUser.
Context `{!PasswordHasher}.

Lemma seed_user_row_step draw n0 a0 i :
  triple (seeded_users draw n0 a0 i) (seed_user_row (draw i)) (fun _ => seeded_users draw n0 a0 (S i)).
Proof.
  intros [c p] (Hn & Ha & Hu & Hau). cbn [pending] in *. unfold seed_user_row, add_new. hstep.
  eexists _, _. split; [reflexivity|]. cbn [pending].
  split; [simpl; lia|]. split; [simpl; lia|]. split.
  - intros k v. simpl. rewrite lookup_insert_Some, Hu. split.
    + intros [[<- <-]|[_ (j & Hj & -> & ->)]]; [exists i; split; [lia|]; rewrite Hn; done|exists j; split; [lia|done]].
    + intros (j & Hj & -> & ->). destruct (decide (j = i)) as [->|Hne].
      * left. rewrite Hn. done.
      * right. split; [rewrite Hn; lia|]. exists j. split; [lia|done].
  - intros j Hj. simpl. rewrite Ha, Hn. destruct (decide (j = i)) as [->|Hne].
    + by rewrite lookup_insert_eq.
    + rewrite lookup_insert_ne by lia. apply Hau. lia.
Qed.

(** The [i]-th row keeps the store acceptable when its user clashes with
    none of the users before it. *)
Lemma seed_user_row_wf draw n0 a0 i (ps : gmap Z product) :
  (forall j, (j < i)%nat -> users_clash (seed_user_of (draw i)) (seed_user_of (draw j)) = false) ->
  triple (fun d => seeded_users draw n0 a0 i d /\ db_wf d /\ products d = ps) (seed_user_row (draw i))
    (fun _ d => seeded_users draw n0 a0 (S i) d /\ db_wf d /\ products d = ps).
Proof.
  intros Hnc. apply triple_and.
  - eapply triple_conseq; [apply seed_user_row_step|intros d [Hs _]; exact Hs|done].
  - intros [c p] [(Hn & Ha & Hu & Hau) [Hwf Hps]]. cbn [pending] in *. unfold seed_user_row, add_new. hstep.
    eexists _, _. split; [reflexivity|]. split; [|exact Hps]. apply db_wf_insert_auth.
    + apply db_wf_insert_user; [exact Hwf| |].
      * destruct (users p !! next_user_id p) as [v|] eqn:E; [|done].
        apply Hu in E as (j & Hj & Hk & _). lia.
      * intros k v (j & Hj & -> & ->)%Hu. by apply Hnc.
    + unfold auth_ok. simpl. by rewrite fk_insert_self.
Qed.

Lemma seeded_users_start draw d :
  users d = ∅ -> seeded_users draw (next_user_id d) (next_auth_id d) 0 d.
Proof.
  intros Hu. split; [lia|]. split; [lia|]. split; [|intros; lia].
  intros k v. rewrite Hu, lookup_empty. split; [done|]. intros (j & Hj & _). lia.
Qed.

Lemma seeded_users_lookup draw n0 a0 d i :
  seeded_users draw n0 a0 10 d -> (i < 10)%nat ->
  users d !! (n0 + Z.of_nat i) = Some (seed_user_of (draw i)).
Proof. intros (_ & _ & Hu & _) Hi. apply Hu. eauto. Qed.

Lemma seed_user_loop draw d :
  users d = ∅ ->
  triple (fun d' => d' = d) (for_each (seq 0 10) (fun i => seed_user_row (draw i)))
    (fun _ => seeded_users draw (next_user_id d) (next_auth_id d) 10).
Proof.
  intros Hu. eapply triple_conseq.
  - apply (triple_for_seq (seeded_users draw (next_user_id d) (next_auth_id d))).
    intros i _. apply seed_user_row_step.
  - intros d' ->. by apply seeded_users_start.
  - done.
Qed.

(** Two drawn users that collide on their e-mail or phone: the commit is
    refused and the store is left as it was. *)
Lemma seed_user_clash_fails draw d i j :
  users d = ∅ -> (i < j < 10)%nat ->
  collate_eq (draw_email (draw i)) (draw_email (draw j)) = true \/
  collate_eq (draw_phone (draw i)) (draw_phone (draw j)) = true ->
  run (seed_user draw) d = (Raise IntegrityError, d).
Proof.
  intros Hu Hij Hcl. unfold seed_user. rewrite run_when_empty by (rewrite Hu; reflexivity).
  eapply run_triple_commit_fail; [apply (seed_user_loop draw d Hu)|reflexivity|].
  intros d' Hs. apply not_true_is_false. intros Hok%db_ok_wf.
  pose proof (seeded_users_lookup _ _ _ _ i Hs ltac:(lia)) as Hi.
  pose proof (seeded_users_lookup _ _ _ _ j Hs ltac:(lia)) as Hj.
  enough (next_user_id d + Z.of_nat i = next_user_id d + Z.of_nat j) by lia.
  apply (wf_users_unique _ Hok _ _ _ _ Hi Hj). unfold users_clash. simpl.
  destruct Hcl as [-> | ->]; [reflexivity|apply orb_true_r].
Qed.

(** Distinct draws: the ten users are committed, the products untouched. *)
Lemma seed_user_commits draw d :
  db_wf d -> users d = ∅ -> user_draws_distinct draw ->
  exists d', run (seed_user draw) d = (Return tt, d') /\ db_wf d' /\
    seeded_users draw (next_user_id d) (next_auth_id d) 10 d' /\ products d' = products d.
Proof.
  intros Hw Hu Hnc. set (n0 := next_user_id d). set (a0 := next_auth_id d).
  assert (Hloop : triple (fun d' => d' = d) (for_each (seq 0 10) (fun i => seed_user_row (draw i)))
                    (fun _ d' => db_wf d' /\ seeded_users draw n0 a0 10 d' /\ products d' = products d)).
  { eapply triple_conseq.
    - apply (triple_for_seq (fun i d' => seeded_users draw n0 a0 i d' /\ db_wf d' /\ products d' = products d)).
      intros i Hi. apply seed_user_row_wf. intros j Hj.
      destruct (Hnc j i ltac:(lia)) as [He Hp]. unfold users_clash. simpl.
      by rewrite collate_eq_sym, He, collate_eq_sym, Hp.
    - intros d' ->. split; [by apply seeded_users_start|done].
    - intros _ d' (? & ? & ?). done. }
  unfold seed_user. rewrite run_when_empty by (rewrite Hu; reflexivity).
  destruct (run_triple_commit _ _ _ d Hloop eq_refl) as (d' & Hrun & Hs);
    [intros d' [Hw' _]; by apply db_ok_wf|eauto].
Qed.

(** A seeded user signs in with [Qwerty123!] on any acceptable store that
    has the same users and sign-up rows. *)
Lemma seeded_users_login draw n0 a0 e d i :
  seeded_users draw n0 a0 10 e -> db_wf d -> users d = users e ->
  authentications d = authentications e -> (i < 10)%nat ->
  exists d', run (view_auth_login (mk_login_form (draw_email (draw i)) seed_password)) d =
               (Return (Ok200 (draw_email (draw i))), d').
Proof.
  intros Hs Hw Hu Ha Hi.
  change (draw_email (draw i)) with (user_email (seed_user_of (draw i))).
  apply (login_succeeds (n0 + Z.of_nat i)); [exact Hw|rewrite Hu; by apply (seeded_users_lookup draw n0 a0)|apply pwd_verify_hash|].
  destruct Hs as (_ & _ & _ & Hau).
  destruct (confirmed_count (n0 + Z.of_nat i) d) eqn:Hz; [|lia].
  unfold confirmed_count in Hz. rewrite Ha in Hz.
  apply count_where_zero in Hz. specialize (Hz _ _ (Hau i Hi)).
  unfold confirmed_row, seed_auth_of in Hz. cbn [auth_user_id auth_status auth_type] in Hz.
  rewrite bool_decide_true, collate_eq_refl in Hz by done. discriminate.
Qed.

End SeedUser.

(** ** [seed_product] *)

(** The column ranges of a row built from in-range draws. *)
Ltac range_ok :=
  unfold numeric_18_4_ok, uint32_ok, uint8_ok;
  repeat (apply andb_true_iff; split); try reflexivity;
  rewrite ?Z.leb_le, ?Z.ltb_lt; lia.

Section SeedProducts.
Variable d0 : db.

Ltac frame_eq := repeat split; simpl; congruence.

Lemma seed_row_inv_insert {pid cats reviewers} (f : db -> Z * db) :
  (forall d, seed_row_inv d0 pid cats reviewers d -> db_wf (f d).2) ->
  (forall d, users (f d).2 = users d /\ authentications (f d).2 = authentications d /\
             brands (f d).2 = brands d /\ categories (f d).2 = categories d /\
             colours (f d).2 = colours d /\ sizes (f d).2 = sizes d /\ payments (f d).2 = payments d /\
             products (f d).2 = products d) ->
  triple (seed_row_inv d0 pid cats reviewers) (add_new f) (fun _ => seed_row_inv d0 pid cats reviewers).
Proof.
  intros Hwf Hfr. apply triple_add_new.
  intros d Hd. pose proof (Hwf d Hd) as Hw'.
  destruct Hd as ((Hw & Hu & Ha & Hb & Hc & Hco & Hs & Hpa) & Hp & Hcats & Hrev).
  destruct (Hfr d) as (Eu & Ea & Eb & Ec & Eco & Es & Epa & Ep).
  split; [split; [exact Hw'|]; rewrite Eu, Ea, Eb, Ec, Eco, Es, Epa; tauto|].
  rewrite Ep, Ec, Eu. auto.
Qed.

Lemma seed_product_row_ok now index p :
  product_draw_ok p ->
  triple (seed_frame d0) (seed_product_row now (by_key (colours d0)) (by_key (sizes d0)) index p)
    (fun _ d => seed_frame d0 d /\ products d ≠ ∅).
Proof.
  intros (Hpb & Hpc & Hpr & Hprice & Hto & Htr & Hrat & Hst). unfold seed_product_row.
  eapply triple_bind; [apply triple_query_keep|]. intros brand.
  eapply triple_bind; [apply triple_query_keep|]. intros cats.
  eapply triple_bind; [apply triple_query_keep|]. intros reviewers.
  eapply triple_bind.
  { eapply triple_conseq; [apply (triple_add_row (fun pid => seed_row_inv d0 pid cats reviewers))| |done].
    intros d (((Hfr & ->) & ->) & ->). destruct Hfr as (Hw & Hu & Ha & Hb & Hc & Hco & Hs & Hpa).
    split; [split; [|frame_eq]|split; [simpl; rewrite lookup_insert_eq; eauto|split]].
    - apply db_wf_insert_product; [exact Hw|unfold product_ok; simpl; range_ok|].
      unfold product_brand_ok. destruct (head _) as [[k b]|] eqn:Hh; [|reflexivity].
      apply head_Some_elem_of in Hh. rewrite (Hpb _), elem_of_by_key in Hh. simpl.
      exact (fk_of_lookup _ _ _ Hh).
    - intros kc Hkc%subseteq_take. rewrite (Hpc _) in Hkc. destruct kc. by apply elem_of_by_key in Hkc.
    - intros ku Hku%subseteq_take. rewrite (Hpr _) in Hku. destruct ku. by apply elem_of_by_key in Hku. }
  intros pid. eapply triple_bind.
  { eapply triple_conseq; [apply (triple_modify (fun _ => seed_row_inv d0 pid cats reviewers))| |done].
    intros d ((Hw & Hu & Ha & Hb & Hc & Hco & Hs & Hpa) & Hp & Hcats & Hrev).
    split; [split; [|frame_eq]|auto].
    apply db_wf_add_products_categories; [exact Hw|].
    intros pc (kc & -> & Hkc)%elem_of_list_to_set%list_elem_of_fmap. simpl. split; [exact Hp|].
    rewrite (Hcats _ Hkc). eauto. }
  intros [].
  eapply triple_bind.
  { apply (triple_for_each_in _ (fun i => (1 <= i < 4)%nat)); [apply Forall_seq; lia|].
    intros i Hi. apply seed_row_inv_insert; [|intros; frame_eq].
    intros d ((Hw & _) & [x Hp] & _). apply db_wf_insert_image; [exact Hw|]. unfold image_ok. simpl.
    rewrite (fk_of_lookup _ _ _ Hp). range_ok. }
  intros [].
  eapply triple_bind.
  { apply (triple_for_each_in _ (fun x => x.2 ∈ reviewers)).
    - apply Forall_forall. intros x Hx. by apply elem_of_enumerate.
    - intros [j ku] Hku. simpl in Hku. apply seed_row_inv_insert; [|intros; frame_eq].
      intros d ((Hw & _) & [x Hp] & _ & Hrev). apply db_wf_insert_review; [exact Hw|]. unfold review_ok. simpl.
      rewrite (fk_of_lookup _ _ _ Hp), (fk_of_lookup _ _ _ (Hrev _ Hku)). specialize (Hrat j). range_ok. }
  intros [].
  eapply triple_conseq with (Q := fun _ => seed_row_inv d0 pid cats reviewers); 
    [|done|intros a d (Hd & [x Hx] & _); split; [exact Hd|intros He; by rewrite He, lookup_empty in Hx]].
  apply (triple_for_each_in _ (fun x => x.2 ∈ by_key (colours d0))).
  { apply Forall_forall. intros x Hx. by apply elem_of_enumerate. }
  intros [ci kc] Hkc. simpl in Hkc.
  apply (triple_for_each_in _ (fun x => x.2 ∈ by_key (sizes d0))).
  { apply Forall_forall. intros x Hx. by apply elem_of_enumerate. }
  intros [si ks] Hks. simpl in Hks. apply seed_row_inv_insert; [|intros; frame_eq].
  intros d ((Hw & _ & _ & _ & _ & Hco & Hs & _) & [x Hp] & _). apply db_wf_insert_inventory; [exact Hw|].
  unfold inventory_ok. simpl. destruct kc as [kc c], ks as [ks sz]. simpl.
  apply elem_of_by_key in Hkc, Hks. rewrite Hco, Hs.
  rewrite (fk_of_lookup _ _ _ Hp), (fk_of_lookup _ _ _ Hkc), (fk_of_lookup _ _ _ Hks). specialize (Hst ci si). range_ok.
Qed.
End SeedProducts.

(** With draws in their ranges, the nine products commit and the tables
    they read are left as they were. *)
Lemma seed_product_commits now draw d :
  db_wf d -> products d = ∅ -> (forall i, product_draw_ok (draw i)) ->
  exists d', run (seed_product now draw) d = (Return tt, d') /\ seed_frame d d' /\ products d' ≠ ∅.
Proof.
  intros Hw Hp Hdr. unfold seed_product. rewrite run_when_empty by (rewrite Hp; reflexivity).
  set (I := fun (ys : list nat) e => seed_frame d e /\ (ys = [] -> products e ≠ ∅)).
  assert (Hloop : triple (fun e => e = d)
            (colours_ <- query (fun d => by_key (colours d));;
             sizes_ <- query (fun d => by_key (sizes d));;
             for_each (seq 0 9) (fun index => seed_product_row now colours_ sizes_ index (draw index)))
            (fun _ => I [])).
  { eapply triple_conseq with (P := I (seq 0 9)) (Q := fun _ => I []); [|intros e ->; split; [split; [exact Hw|by repeat split]|done]|done].
    eapply triple_bind; [apply triple_query_keep|]. intros cs.
    eapply triple_bind; [apply triple_query_keep|]. intros ss.
    intros s [[Hs ->] ->]. pose proof (proj1 Hs) as (_ & _ & _ & _ & _ & Hco & Hsz & _). rewrite Hco, Hsz. clear Hco Hsz.
    revert s Hs. change (triple (I (seq 0 9)) (for_each (seq 0 9) (fun index =>
      seed_product_row now (by_key (colours d)) (by_key (sizes d)) index (draw index))) (fun _ => I [])).
    apply triple_for_each. intros i ys.
    eapply triple_conseq; [apply seed_product_row_ok, Hdr|intros e [He _]; exact He|].
    intros _ e [He Hne]. by split. }
  destruct (run_triple_commit _ _ _ d Hloop eq_refl) as (d' & Hrun & [HQ Hne]);
    [intros e [[He _] _]; by apply db_ok_wf|].
  exists d'. auto.
Qed.

(** ** [Seed.run] *)

Lemma run_all_cons h hs d d' : run h d = (Return tt, d') -> run_all (h :: hs) d = run_all hs d'.
Proof. intros H. simpl. by rewrite H. Qed.

Lemma run_all_raise h hs d e d' : run h d = (Raise e, d') -> run_all (h :: hs) d = (Raise e, d').
Proof. intros H. simpl. by rewrite H. Qed.

Section SeedRun.
Context `{!PasswordHasher}.

(** A store whose guarded tables all have rows: [Seed.run] adds nothing. *)
Lemma seeded_tables_noop app dr d : seeded_tables d -> seed_run app dr d = (Return tt, d).
Proof.
  intros (Hu & Hc & Hb & Hs & Hco & Hpa & Hp). unfold seed_run. case_decide; [|done].
  unfold seed_methods.
  repeat (rewrite (run_all_cons _ _ d d) by (apply run_when_nonempty; cbv beta; by apply map_size_non_empty_iff)).
  reflexivity.
Qed.

(** The eight methods from a store with no users and no products, with
    distinct users and in-range product draws. *)
Lemma seed_run_result dr d :
  db_wf d -> users d = ∅ -> products d = ∅ -> user_draws_distinct (sd_users dr) ->
  (forall i, product_draw_ok (sd_products dr i)) ->
  exists e d', seed_run (Some "development") dr d = (Return tt, d') /\ db_wf d' /\ seeded_tables d' /\
    seeded_users (sd_users dr) (next_user_id d) (next_auth_id d) 10 e /\
    users d' = users e /\ authentications d' = authentications e.
Proof.
  intros Hw Hu Hp Hdu Hdp.
  destruct (seed_user_commits (sd_users dr) d Hw Hu Hdu) as (d1 & R1 & W1 & S1 & P1).
  destruct (seed_setting_ok (sd_discount_start dr) (sd_discount_end dr) d1 W1) as (d2 & R2 & W2 & K2).
  destruct (seed_category_ok d2 W2) as (d3 & R3 & W3 & K3 & N3).
  destruct (seed_brand_ok d3 W3) as (d4 & R4 & W4 & K4 & N4).
  destruct (seed_size_ok d4 W4) as (d5 & R5 & W5 & K5 & N5).
  destruct (seed_colour_ok d5 W5) as (d6 & R6 & W6 & K6 & N6).
  destruct (seed_payment_ok d6 W6) as (d7 & R7 & W7 & K7 & N7).
  pose proof (seed_keeps_trans _ _ _ K6 K7) as K57.
  pose proof (seed_keeps_trans _ _ _ K5 K57) as K47.
  pose proof (seed_keeps_trans _ _ _ K4 K47) as K37.
  pose proof (seed_keeps_trans _ _ _ K2 (seed_keeps_trans _ _ _ K3 K37)) as (Ku & Ka & Kp & _).
  destruct (seed_product_commits (sd_now dr) (sd_products dr) d7 W7 ltac:(congruence) Hdp)
    as (d8 & R8 & (W8 & Fu & Fa & Fb & Fc & Fco & Fs & Fpa) & N8).
  exists d1, d8. split.
  { unfold seed_run. rewrite decide_True by reflexivity. unfold seed_methods.
    rewrite (run_all_cons _ _ _ _ R1), (run_all_cons _ _ _ _ R2), (run_all_cons _ _ _ _ R3),
      (run_all_cons _ _ _ _ R4), (run_all_cons _ _ _ _ R5), (run_all_cons _ _ _ _ R6),
      (run_all_cons _ _ _ _ R7), (run_all_cons _ _ _ _ R8).
    reflexivity. }
  split; [exact W8|]. split; [|split; [exact S1|split; congruence]].
  destruct K37 as (_ & _ & _ & Hc & _), K47 as (_ & _ & _ & _ & Hb & _),
    K57 as (_ & _ & _ & _ & _ & Hs & _), K7 as (_ & _ & _ & _ & _ & _ & Hco & _).
  unfold seeded_tables. rewrite Fu, Fc, Fb, Fs, Fco, Fpa. repeat split; auto.
  rewrite Ku. intros He. pose proof (seeded_users_lookup _ _ _ _ 0 S1 ltac:(lia)) as Hl.
  by rewrite He, lookup_empty in Hl.
Qed.

End SeedRun.

Section SeedClaims.
Context `{!PasswordHasher}.

(** C12: started in development on a store with no users and no products,
    with distinct Faker e-mails and phones and random draws in the ranges
    of the code, [Seed.run] commits all eight methods, the store satisfies
    every column type and foreign key, and each of the ten seeded users
    signs in with the password [Qwerty123!]. *)
Theorem seed_run_sign_in dr d :
  db_ok d = true -> users d = ∅ -> products d = ∅ -> user_draws_distinct (sd_users dr) ->
  (forall i, product_draw_ok (sd_products dr i)) ->
  exists d', seed_run (Some "development") dr d = (Return tt, d') /\ db_ok d' = true /\
    forall i, (i < 10)%nat ->
      exists d'', run (view_auth_login (mk_login_form (draw_email (sd_users dr i)) seed_password)) d' =
                    (Return (Ok200 (draw_email (sd_users dr i))), d'').
Proof.
  intros Hok%db_ok_wf Hu Hp Hdu Hdp.
  destruct (seed_run_result dr d Hok Hu Hp Hdu Hdp) as (e & d' & Hrun & Hw & _ & Hs & Hue & Hae).
  exists d'. split; [exact Hrun|]. split; [by apply db_ok_wf|].
  intros i Hi. exact (seeded_users_login _ _ _ e d' i Hs Hw Hue Hae Hi).
Qed.

(** C13: two of the ten Faker users whose e-mails or phones collide under
    the collation make the first commit of [Seed.run] fail: the start-up
    stops with an integrity error and the store is left as it was. *)
Theorem seed_run_clash_fails dr d i j :
  users d = ∅ -> (i < j < 10)%nat ->
  collate_eq (draw_email (sd_users dr i)) (draw_email (sd_users dr j)) = true \/
  collate_eq (draw_phone (sd_users dr i)) (draw_phone (sd_users dr j)) = true ->
  seed_run (Some "development") dr d = (Raise IntegrityError, d).
Proof.
  intros Hu Hij Hcl. unfold seed_run. rewrite decide_True by reflexivity. unfold seed_methods.
  by rewrite (run_all_raise _ _ _ _ _ (seed_user_clash_fails _ _ i j Hu Hij Hcl)).
Qed.

(** C22: after a successful first start-up every table a seeding method
    guards has rows, so a second start-up, whatever it draws and whatever
    [APP_ENV] says, changes nothing. *)
Theorem seed_run_restart_noop dr dr' app d :
  db_ok d = true -> users d = ∅ -> products d = ∅ -> user_draws_distinct (sd_users dr) ->
  (forall i, product_draw_ok (sd_products dr i)) ->
  exists d', seed_run (Some "development") dr d = (Return tt, d') /\ seed_run app dr' d' = (Return tt, d').
Proof.
  intros Hok%db_ok_wf Hu Hp Hdu Hdp.
  destruct (seed_run_result dr d Hok Hu Hp Hdu Hdp) as (e & d' & Hrun & _ & Ht & _).
  exists d'. split; [exact Hrun|]. by apply seeded_tables_noop.
Qed.

End SeedClaims.

Lemma demo_users_distinct : user_draws_distinct demo_user_draw.
Proof.
  intros i j Hij.
  destruct i as [|[|[|[|[|[|[|[|[|[|i]]]]]]]]]]; [..|lia];
    destruct j as [|[|[|[|[|[|[|[|[|[|j]]]]]]]]]]; try lia; split; vm_compute; reflexivity.
Qed.

Lemma demo_product_draw_ok i : product_draw_ok (demo_product_draw i).
Proof. repeat split; intros; try reflexivity; simpl; lia. Qed.

#[local] Existing Instance demo_hasher.

Lemma seed_run_sign_in_witness :
  exists d', seed_run (Some "development") demo_draws empty_db = (Return tt, d') /\ db_ok d' = true /\
    forall i, (i < 10)%nat ->
      exists d'', run (view_auth_login (mk_login_form (draw_email (demo_user_draw i)) seed_password)) d' =
                    (Return (Ok200 (draw_email (demo_user_draw i))), d'').
Proof.
  apply (seed_run_sign_in demo_draws empty_db);
    [vm_compute; reflexivity|reflexivity|reflexivity|apply demo_users_distinct|intros; apply demo_product_draw_ok].
Defined.

Lemma seed_run_clash_fails_witness :
  seed_run (Some "development") demo_clash_draws empty_db = (Raise IntegrityError, empty_db).
Proof. apply (seed_run_clash_fails demo_clash_draws empty_db 0 1); [reflexivity|lia|left; vm_compute; reflexivity]. Defined.

Lemma seed_run_restart_noop_witness :
  exists d', seed_run (Some "development") demo_draws empty_db = (Return tt, d') /\
    seed_run (Some "development") demo_draws d' = (Return tt, d').
Proof.
  apply (seed_run_restart_noop demo_draws demo_draws (Some "development") empty_db);
    [vm_compute; reflexivity|reflexivity|reflexivity|apply demo_users_distinct|intros; apply demo_product_draw_ok].
Defined.

End Seed.
