(* ===== verification/Workflow.v ===== *)
(** * Workflow: sequences of requests

    The application serves one request at a time on the shared store: each
    request runs one handler in its own session ([Session.run]) and leaves
    the committed state.  [request] lists the modelled endpoints, [serve]
    runs one, and [step] is the transition relation of the store.  Every
    handler keeps the committed state acceptable to the database
    ([Session.keeps_ok], [keeps_ok_serve]).  No handler gives a user a
    second draft order ([drafts_unique], [drafts_serve]), so a checkout is
    never repeated on a reachable store.  No handler writes an
    [authentications] row that [view_auth_login] accepts
    ([Session.preserves] of [Auth.unconfirmed]), so a user without one
    never signs in.  The catalog requests and the product page
    ([CartPage]) only read the store, except the newsletter form, which
    adds one row; [ProfileUpload] is the database part of an upload (the
    files are not part of the store). *)

From stdpp Require Import gmap strings relations.
From Stdlib Require Import ZArith QArith Lia String.
From S2P Require Import Prelude Decimal Schema Session Fixtures Cart Pricing Checkout Orders Listing Catalog ProductPage Wishlist Reviews Auth Profile Upload.

Open Scope Z_scope.
Open Scope store_scope.

Module Workflow.
Import Cart Pricing Checkout Orders Listing Catalog ProductPage Wishlist Reviews Auth Profile Upload.

(** The endpoints of [view_order.py] and [view_profile.py], with the
    caller's id where the handler reads it from the token, and those of
    [view_auth.py], with the salt and the token the handler draws at
    random. *)
Inductive request :=
  | AddToCart (uid ticks pid : Z) (form : cart_form)
  | OrderInitial (uid : Z)
  | CheckoutSubmit (uid : Z) (form : checkout_form)
  | OrderDetail (oid : Z)
  | OrderCancel (uid oid : Z)
  | OrderList (order_by : string -> string -> list (Z * order) -> option (list (Z * order)))
      (uid page limit : Z) (col dir : string) (search : option string)
  | AddWishlist (uid pid : Z)
  | OrderSession (uid : Z)
  | ReviewList (pid : Z)
  | ReviewCreate (uid pid : Z) (form : review_form)
  | Login (form : login_form)
  | Register (salt token : string) (form : register_form)
  | Confirm (token : string)
  | Forgot (token : string) (form : forgot_form)
  | Reset (salt token : string) (form : reset_form)
  | ProfileActivity (order_by : string -> string -> list (Z * activity) -> option (list (Z * activity)))
      (uid page limit : Z) (order_dir order_desc : string) (search : option string)
  | ProfileUpdate (uid : Z) (form : profile_form)
  | ProfilePassword (salt : string) (uid : Z) (form : password_form)
  | ShopFilter (now : Z)
  | ShopList (order_by : string -> string -> list (Z * product) -> option (list (Z * product)))
      (to_number : string -> Q) (now page limit : Z) (order dir : string)
      (search brand category priceMin priceMax : option string)
  | HomeComponent
  | HomePage (now : Z)
  | Newsletter (client : option string) (email : string)
  | CartPage (now : Z) (id : string)
  | ProfileUpload (uid : Z) (path : string).

Lemma unconfirmed_expire_token uid token : preserves (unconfirmed uid) (expire_token token).
Proof.
  apply preserves_exec_update. intros d d' Hd E.
  destruct (update_where _ _ _) as [m|] eqn:Hm; [|done]. injection E as <-.
  intros k a Hk. simpl in Hk. rewrite (update_where_lookup _ _ _ _ k Hm) in Hk.
  apply fmap_Some in Hk as (a0 & Ha0 & ->).
  destruct (collate_eq _ _); simpl; [|exact (Hd k a0 Ha0)].
  unfold confirmed_row. simpl. by destruct (bool_decide _).
Qed.

Lemma unconfirmed_update_users uid P f : preserves (unconfirmed uid) (update_users P f).
Proof.
  apply preserves_exec_update. intros d d' Hd E.
  destruct (update_where _ _ _); [|done]. injection E as <-. exact Hd.
Qed.

#[local] Hint Resolve unconfirmed_expire_token unconfirmed_update_users : preserves.

Section Serve.
Context `{!PasswordHasher}.

(** The committed state after serving one request. *)
Definition serve (r : request) (d : db) : db :=
  match r with
  | AddToCart uid ticks pid form => (run (view_order_create_cart uid ticks pid form) d).2
  | OrderInitial uid => (run (view_order_initial uid) d).2
  | CheckoutSubmit uid form => (run (view_order_checkout_submit uid form) d).2
  | OrderDetail oid => (run (view_order_detail oid) d).2
  | OrderCancel uid oid => (run (view_order_cancel uid oid) d).2
  | OrderList ob uid page limit col dir search =>
      (run (view_order_list ob uid page limit col dir search) d).2
  | AddWishlist uid pid => (run (view_order_wishlist uid pid) d).2
  | OrderSession uid => (run (view_order_session uid) d).2
  | ReviewList pid => (run (view_order_review pid) d).2
  | ReviewCreate uid pid form => (run (view_order_create_review uid pid form) d).2
  | Login form => (run (view_auth_login form) d).2
  | Register salt token form => (run (view_auth_register salt token form) d).2
  | Confirm token => (run (view_auth_confirm token) d).2
  | Forgot token form => (run (view_auth_email_forgot token form) d).2
  | Reset salt token form => (run (view_auth_email_reset salt token form) d).2
  | ProfileActivity ob uid page limit od dsc search =>
      (run (view_profile_activity ob uid page limit od dsc search) d).2
  | ProfileUpdate uid form => (run (view_profile_update uid form) d).2
  | ProfilePassword salt uid form => (run (view_profile_password salt uid form) d).2
  | ShopFilter now => (run (view_shop_filter now) d).2
  | ShopList ob tn now page limit order dir search brand category lo hi =>
      (run (view_shop_list ob tn now page limit order dir search brand category lo hi) d).2
  | HomeComponent => (run view_home_component d).2
  | HomePage now => (run (view_home_page now) d).2
  | Newsletter client email => (run (view_newsletter client email) d).2
  | CartPage now id => (run (view_order_list_cart now id) d).2
  | ProfileUpload uid path => (run (upload_db uid path) d).2
  end.

Definition step (d d' : db) : Prop := exists r, serve r d = d'.

(** ** Every handler keeps the committed state acceptable *)

Lemma keeps_ok_checkout_lines uid uf dets : keeps_ok (checkout_lines uid uf dets).
Proof. induction dets as [|[j r] dets IH]; simpl; keeps_ok_tac. Qed.

Lemma keeps_ok_add_billings rs : keeps_ok (add_billings rs).
Proof. induction rs as [|r rs IH]; simpl; keeps_ok_tac. Qed.

#[local] Hint Resolve keeps_ok_checkout_lines keeps_ok_add_billings : keeps.

Lemma keeps_ok_read_pricing : keeps_ok read_pricing.
Proof. unfold read_pricing, setting_decimal. keeps_ok_tac. Qed.

Lemma keeps_ok_get_total_item o : keeps_ok (get_total_item o).
Proof. unfold get_total_item. keeps_ok_tac. Qed.

Lemma keeps_ok_percent_of a b : keeps_ok (percent_of a b).
Proof. unfold percent_of. keeps_ok_tac. Qed.

#[local] Hint Resolve keeps_ok_read_pricing keeps_ok_get_total_item keeps_ok_percent_of : keeps.

Lemma keeps_ok_serve r : forall d, db_ok d = true -> db_ok (serve r d) = true.
Proof.
  intros d Hd. destruct r; unfold serve; apply run_keeps_ok; try exact Hd.
  - unfold view_order_create_cart. keeps_ok_tac.
  - unfold view_order_initial. keeps_ok_tac.
  - unfold view_order_checkout_submit. keeps_ok_tac.
  - unfold view_order_detail. keeps_ok_tac.
  - unfold view_order_cancel. keeps_ok_tac.
  - unfold view_order_list. keeps_ok_tac.
  - unfold view_order_wishlist. keeps_ok_tac.
  - unfold view_order_session. keeps_ok_tac.
  - unfold view_order_review. keeps_ok_tac.
  - unfold view_order_create_review. keeps_ok_tac.
  - unfold view_auth_login. keeps_ok_tac.
  - unfold view_auth_register. keeps_ok_tac.
  - unfold view_auth_confirm. keeps_ok_tac.
  - unfold view_auth_email_forgot. keeps_ok_tac.
  - unfold view_auth_email_reset. keeps_ok_tac.
  - unfold view_profile_activity. keeps_ok_tac.
  - unfold view_profile_update. keeps_ok_tac.
  - unfold view_profile_password. keeps_ok_tac.
  - unfold view_shop_filter. keeps_ok_tac.
  - unfold view_shop_list. keeps_ok_tac.
  - unfold view_home_component. keeps_ok_tac.
  - unfold view_home_page. keeps_ok_tac.
  - unfold view_newsletter. keeps_ok_tac.
  - apply keeps_ok_view_order_list_cart.
  - apply keeps_ok_upload_db.
Qed.

(** ** Helpers that only read the store *)

Lemma preserves_read_pricing I : preserves I read_pricing.
Proof. unfold read_pricing, setting_decimal. preserves_tac idtac. Qed.

Lemma preserves_get_total_item I o : preserves I (get_total_item o).
Proof. unfold get_total_item. preserves_tac idtac. Qed.

Lemma preserves_percent_of I a b : preserves I (percent_of a b).
Proof. unfold percent_of. preserves_tac idtac. Qed.

#[local] Hint Resolve preserves_read_pricing preserves_get_total_item preserves_percent_of : preserves.

(** ** At most one draft order per user

    Nothing in the database prevents two orders with [status = 0] of the
    same user; the handlers never create a second one: the cart creates a
    draft only when [find_draft] finds none, checkout sets the draft's
    status to 1, cancel deletes it, and no other handler writes
    [orders]. *)

Definition drafts_unique_map (m : gmap Z order) : Prop :=
  forall k1 o1 k2 o2, m !! k1 = Some o1 -> m !! k2 = Some o2 ->
    order_status o1 = 0 -> order_status o2 = 0 -> order_user_id o1 = order_user_id o2 -> k1 = k2.

Definition drafts_unique (d : db) : Prop := drafts_unique_map (orders d).


(** Writing [o] at [k] keeps the drafts apart when no other key holds a
    draft of [o]'s user, or when [o] is not a draft. *)
Lemma drafts_unique_insert m k o :
  (order_status o = 0 -> forall k' o', k' <> k -> m !! k' = Some o' ->
     order_status o' = 0 -> order_user_id o' = order_user_id o -> False) ->
  drafts_unique_map m -> drafts_unique_map (<[k := o]> m).
Proof.
  intros Hnew Hm k1 o1 k2 o2 H1 H2 Hs1 Hs2 Hu.
  apply lookup_insert_Some in H1 as [[<- <-]|[Hk1 H1]];
    apply lookup_insert_Some in H2 as [[<- <-]|[Hk2 H2]]; try done.
  - exfalso. by apply (Hnew Hs1 k2 o2).
  - exfalso. by apply (Hnew Hs2 k1 o1).
  - by apply (Hm k1 o1 k2 o2).
Qed.

Lemma drafts_unique_delete m k : drafts_unique_map m -> drafts_unique_map (delete k m).
Proof.
  intros Hm k1 o1 k2 o2 H1%lookup_delete_Some H2%lookup_delete_Some.
  apply (Hm k1 o1 k2 o2); tauto.
Qed.

Lemma drafts_frame d d' : orders d' = orders d -> drafts_unique d -> drafts_unique d'.
Proof. unfold drafts_unique. by intros ->. Qed.

Lemma drafts_set_nondraft d k o :
  order_status o <> 0 -> drafts_unique d -> drafts_unique (set_orders (<[k := o]>) d).
Proof. intros Hs. apply drafts_unique_insert. done. Qed.

Lemma drafts_cancel_rows d oid : drafts_unique d -> drafts_unique (cancel_rows oid d).
Proof. apply drafts_unique_delete. Qed.

Ltac drafts_write :=
  first [ eapply drafts_frame; [reflexivity|eassumption]
        | apply drafts_set_nondraft; [simpl; lia|assumption]
        | apply drafts_cancel_rows; assumption ].





Lemma drafts_update_users P f : preserves drafts_unique (update_users P f).
Proof.
  apply preserves_exec_update. intros d d' Hd E.
  destruct (update_where _ _ _); [|done]. injection E as <-. exact Hd.
Qed.

Lemma drafts_expire_token token : preserves drafts_unique (expire_token token).
Proof.
  apply preserves_exec_update. intros d d' Hd E.
  destruct (update_where _ _ _); [|done]. injection E as <-. exact Hd.
Qed.

Lemma drafts_checkout_lines u uf dets : preserves drafts_unique (checkout_lines u uf dets).
Proof. induction dets as [|[j r] dets IH]; simpl; preserves_tac drafts_write. Qed.

Lemma drafts_add_billings rs : preserves drafts_unique (add_billings rs).
Proof. induction rs as [|r rs IH]; simpl; preserves_tac drafts_write. Qed.

#[local] Hint Resolve drafts_update_users drafts_expire_token drafts_checkout_lines drafts_add_billings : preserves.



(** ** No request confirms a user

    The order handlers do not write [authentications]; the auth handlers
    insert rows with status 0 and set rows to status 2. *)

Lemma unconfirmed_login uid form : preserves (unconfirmed uid) (view_auth_login form).
Proof. unfold view_auth_login. preserves_tac unconfirmed_write. Qed.

Lemma unconfirmed_register uid salt token form :
  preserves (unconfirmed uid) (view_auth_register salt token form).
Proof. unfold view_auth_register. preserves_tac unconfirmed_write. Qed.

Lemma unconfirmed_confirm uid token : preserves (unconfirmed uid) (view_auth_confirm token).
Proof. unfold view_auth_confirm. preserves_tac unconfirmed_write. Qed.

Lemma unconfirmed_forgot uid token form :
  preserves (unconfirmed uid) (view_auth_email_forgot token form).
Proof. unfold view_auth_email_forgot. preserves_tac unconfirmed_write. Qed.

Lemma unconfirmed_reset uid salt token form :
  preserves (unconfirmed uid) (view_auth_email_reset salt token form).
Proof. unfold view_auth_email_reset. preserves_tac unconfirmed_write. Qed.

Section Unconfirmed.
Variable uid : Z.

Lemma unconfirmed_checkout_lines u uf dets : preserves (unconfirmed uid) (checkout_lines u uf dets).
Proof. induction dets as [|[j r] dets IH]; simpl; preserves_tac unconfirmed_write. Qed.

Lemma unconfirmed_add_billings rs : preserves (unconfirmed uid) (add_billings rs).
Proof. induction rs as [|r rs IH]; simpl; preserves_tac unconfirmed_write. Qed.

End Unconfirmed.

#[local] Hint Resolve unconfirmed_checkout_lines unconfirmed_add_billings unconfirmed_login unconfirmed_register
  unconfirmed_confirm unconfirmed_forgot unconfirmed_reset : preserves.

Lemma unconfirmed_serve uid r d : unconfirmed uid d -> unconfirmed uid (serve r d).
Proof.
  intros Hd. destruct r; unfold serve; apply run_preserves; try exact Hd;
    try solve [eauto 2 with preserves nocore].
  - unfold view_order_create_cart. preserves_tac unconfirmed_write.
  - unfold view_order_initial. preserves_tac unconfirmed_write.
  - unfold view_order_checkout_submit. preserves_tac unconfirmed_write.
  - unfold view_order_detail. preserves_tac unconfirmed_write.
  - unfold view_order_cancel. preserves_tac unconfirmed_write.
  - unfold view_order_list. preserves_tac unconfirmed_write.
  - unfold view_order_wishlist. preserves_tac unconfirmed_write.
  - unfold view_order_session. preserves_tac unconfirmed_write.
  - unfold view_order_review. preserves_tac unconfirmed_write.
  - unfold view_order_create_review. preserves_tac unconfirmed_write.
  - unfold view_profile_activity. preserves_tac unconfirmed_write.
  - unfold view_profile_update. preserves_tac unconfirmed_write.
  - unfold view_profile_password. preserves_tac unconfirmed_write.
  - unfold view_shop_filter. preserves_tac unconfirmed_write.
  - unfold view_shop_list. preserves_tac unconfirmed_write.
  - unfold view_home_component. preserves_tac unconfirmed_write.
  - unfold view_home_page. preserves_tac unconfirmed_write.
  - unfold view_newsletter. preserves_tac unconfirmed_write.
  - unfold upload_db. preserves_tac unconfirmed_write.
Qed.

(** ** The store stays acceptable *)

(** C34: a user with no confirmed [email-confirm] row never gets one,
    whatever requests are served: confirming sets the token's row to status
    2, not the 1 that [view_auth_login] counts, so such a user -- in
    particular any user who signed up through [view_auth_register] -- is
    refused with a 401 on every sign-in, with the right password too. *)
Theorem unconfirmed_user_never_signs_in uid d0 d form u :
  confirmed_count uid d0 = 0%nat -> rtc step d0 d ->
  user_by_email (login_email form) d = Some (uid, u) ->
  exists msg, run (view_auth_login form) d = (Return (Bad401 msg), d).
Proof.
  intros H0 Hreach Hu. apply (login_unconfirmed uid u); [|exact Hu].
  apply unconfirmed_count in H0.
  induction Hreach as [d|d1 d2 d3 [r <-] _ IH]; [exact H0|].
  apply IH; [by apply unconfirmed_serve|exact Hu].
Qed.



End Serve.

(** ** Witnesses *)

#[local] Existing Instance demo_hasher.

(** Carol signs up and confirms her e-mail; her sign-in with the right
    password is still refused. *)
Lemma unconfirmed_user_never_signs_in_witness :
  exists msg,
    run (view_auth_login (mk_login_form "carol@example.com" "Secret#123"))
      (serve (Confirm "tok-1") (serve (Register "s" "tok-1" carol_form) demo_db)) =
    (Return (Bad401 msg), serve (Confirm "tok-1") (serve (Register "s" "tok-1" carol_form) demo_db)).
Proof.
  apply (unconfirmed_user_never_signs_in 3 demo_db _ _
           (mk_user "carol@example.com" None "$2b$Secret#123" (Some "Carol") (Some "Ann Smith")
              None None None None None 1 None)).
  - vm_compute. reflexivity.
  - apply (rtc_l _ _ (serve (Register "s" "tok-1" carol_form) demo_db));
      [by exists (Register "s" "tok-1" carol_form)|].
    apply rtc_once. by exists (Confirm "tok-1").
  - vm_compute. reflexivity.
Defined.



End Workflow.
